(** * Marketing campaign pipeline: a shallow embedding of the coordinator

    The development follows the Python sources:
    - [agents/ab_testing_agent.py]  : group assignment, event counters,
      rate computation and winner selection ([Module ABTesting]);
    - [utils/sendgrid_sender.py], [utils/email_sender.py] : batch sending
      ([Module SendGrid], [Module Smtp]);
    - [orchestrator.py] : the pipeline stages, [run_campaign],
      [send_variant] and [process_results] ([Module Orchestrator]).

    Python dictionaries keep insertion order, and two of the functions below
    iterate over them, so a dictionary is an association list with unique
    keys ([Module PyDict]).  Python integers are [Z]; Python floats are the
    binary64 numbers of [PrimFloat].  External collaborators (the language
    model, the mail provider, the clock, the random source, the file system)
    are oracles over an abstract world. *)

From Stdlib Require Import ZArith List String Bool Lia Permutation.
From Stdlib Require Import QArith Qround Qabs Qpower Lqa.
From Stdlib Require Import Floats.
Import ListNotations.

Set Implicit Arguments.
Open Scope string_scope.
Open Scope Z_scope.

(* ===================================================================== *)
(** ** Python exceptions and results *)
(* ===================================================================== *)

Inductive exn : Type :=
| ZeroDivisionError
| OverflowError
| TypeError
| ExternalError (msg : string).

(** [str(e)] as used in the f-strings of the orchestrator. *)
Definition exn_str (e : exn) : string :=
  match e with
  | ZeroDivisionError => "integer division or modulo by zero"
  | OverflowError => "integer division result too large for a float"
  | TypeError => "unsupported operand type(s)"
  | ExternalError msg => msg
  end.

Inductive result (A : Type) : Type :=
| Ok (a : A)
| Raise (e : exn).

Arguments Ok {A} a.
Arguments Raise {A} e.

Definition is_ok {A} (r : result A) : bool :=
  match r with Ok _ => true | Raise _ => false end.

(* ===================================================================== *)
(** ** Insertion-ordered dictionaries with string keys *)
(* ===================================================================== *)

Module PyDict.

Definition t (V : Type) : Type := list (string * V).

Definition empty {V} : t V := [].

Fixpoint get {V} (d : t V) (k : string) : option V :=
  match d with
  | [] => None
  | (k', v) :: d' => if String.eqb k k' then Some v else get d' k
  end.

Definition mem {V} (d : t V) (k : string) : bool :=
  match get d k with Some _ => true | None => false end.

(** [d[k] = v]: an existing key keeps its position, a new key goes last. *)
Fixpoint set {V} (d : t V) (k : string) (v : V) : t V :=
  match d with
  | [] => [(k, v)]
  | (k', v') :: d' =>
      if String.eqb k k' then (k', v) :: d' else (k', v') :: set d' k v
  end.

Definition keys {V} (d : t V) : list string := map fst d.
Definition values {V} (d : t V) : list V := map snd d.

(** [d.get(k, default)] *)
Definition get_default {V} (d : t V) (k : string) (dflt : V) : V :=
  match get d k with Some v => v | None => dflt end.

End PyDict.

(* ===================================================================== *)
(** ** Python sequence slicing *)
(* ===================================================================== *)

(** Index normalisation of [seq[i:j]]: a negative index counts from the
    end, and everything is clipped to [0, len]. *)
Definition norm_index (len i : Z) : Z :=
  if i <? 0 then Z.max 0 (i + len) else Z.min i len.

(** [l[start:stop]]; [stop = None] is the open slice [l[start:]]. *)
Definition py_slice {A} (l : list A) (start : Z) (stop : option Z) : list A :=
  let len := Z.of_nat (List.length l) in
  let s := norm_index len start in
  let e := match stop with
           | None => len
           | Some j => norm_index len j
           end in
  firstn (Z.to_nat (e - s)) (skipn (Z.to_nat s) l).

(* ===================================================================== *)
(** ** Python numbers: unbounded integers and binary64 floats *)
(* ===================================================================== *)

Inductive pynum : Type :=
| PInt (z : Z)
| PFloat (f : float).

(** Nearest integer to [p / q], ties to even ([0 <= p], [0 < q]). *)
Definition div_half_even (p q : Z) : Z :=
  let d := p / q in
  let r := p mod q in
  match 2 * r ?= q with
  | Lt => d
  | Gt => d + 1
  | Eq => if Z.even d then d else d + 1
  end.

(** The binary64 number nearest to [p / q] for [0 < p], [0 < q], ties to
    even; [None] when the rounded value does not fit (it would be
    [2^1024] or more).  The quotient lies in [[2^e, 2^(e+1))]; its unit in
    the last place is [2^sh], never below the subnormal spacing. *)
Definition nearest_double (p q : Z) : option float :=
  let e0 := Z.log2 p - Z.log2 q in
  let e := if p * 2 ^ Z.max 0 (- e0) <? q * 2 ^ Z.max 0 e0
           then e0 - 1 else e0 in
  let sh := Z.max (e - 52) (-1074) in
  let m := div_half_even (p * 2 ^ Z.max 0 (- sh)) (q * 2 ^ Z.max 0 sh) in
  if 2 ^ 1024 <=? m * 2 ^ Z.max 0 sh
  then None
  else Some (Z.ldexp (PrimFloat.of_uint63 (Uint63.of_Z m)) sh).

(** [a / b] on two Python integers: the correctly rounded quotient. *)
Definition int_true_div (a b : Z) : result float :=
  if b =? 0 then Raise ZeroDivisionError
  else if a =? 0 then Ok (if b <? 0 then PrimFloat.neg_zero else PrimFloat.zero)
  else match nearest_double (Z.abs a) (Z.abs b) with
       | None => Raise OverflowError
       | Some f => Ok (if Bool.eqb (a <? 0) (b <? 0) then f else PrimFloat.opp f)
       end.

(** [round(x, 2)] on a float: the exact binary value is rounded half-even
    to two decimals, and the decimal is converted back to the nearest
    float.  Zeros, infinities and NaN round to themselves, and so does a
    float whose exponent is not negative: it is an integer, its two-decimal
    rounding is itself. *)
Definition float_round2 (x : float) : result float :=
  match Prim2SF x with
  | S754_finite s m e =>
      if 0 <=? e then Ok x
      else
        let n := div_half_even (Z.pos m * 100) (2 ^ (- e)) in
        if n =? 0 then Ok (if s then PrimFloat.neg_zero else PrimFloat.zero)
        else match nearest_double n 100 with
             | None => Raise OverflowError
             | Some f => Ok (if s then PrimFloat.opp f else f)
             end
  | _ => Ok x
  end.

(** [round(v, 2)]: an [int] rounds to itself. *)
Definition py_round2 (v : pynum) : result pynum :=
  match v with
  | PInt z => Ok (PInt z)
  | PFloat f =>
      match float_round2 f with
      | Ok f' => Ok (PFloat f')
      | Raise e => Raise e
      end
  end.

(** [(num / den * 100) if den > 0 else 0] followed by [round(_, 2)]. *)
Definition percent_rate (num den : Z) : result pynum :=
  if 0 <? den
  then match int_true_div num den with
       | Ok q => py_round2 (PFloat (PrimFloat.mul q 100%float))
       | Raise e => Raise e
       end
  else py_round2 (PInt 0).

(** *** Exact comparison of Python numbers

    Python compares an [int] with a [float], and two floats, by their exact
    values; NaN is unordered.  The value of a number is an extended
    rational. *)

Inductive xreal : Type :=
| XNaN
| XNegInf
| XFin (q : Q)
| XPosInf.

Definition float_value (f : float) : xreal :=
  match Prim2SF f with
  | S754_zero _ => XFin (0 # 1)
  | S754_infinity s => if s then XNegInf else XPosInf
  | S754_nan => XNaN
  | S754_finite s m e =>
      let n := if s then Z.neg m else Z.pos m in
      XFin (if 0 <=? e then (n * 2 ^ e) # 1 else n # Z.to_pos (2 ^ (- e)))
  end.

Definition pynum_value (v : pynum) : xreal :=
  match v with
  | PInt z => XFin (z # 1)
  | PFloat f => float_value f
  end.

Definition qlt (p q : Q) : bool :=
  Qnum p * QDen q <? Qnum q * QDen p.

Definition xlt (a b : xreal) : bool :=
  match a, b with
  | XNaN, _ | _, XNaN => false
  | _, XNegInf => false
  | XNegInf, _ => true
  | XPosInf, _ => false
  | XFin _, XPosInf => true
  | XFin p, XFin q => qlt p q
  end.

(** [a > b] *)
Definition py_gt (a b : pynum) : bool := xlt (pynum_value b) (pynum_value a).

(* ===================================================================== *)
(** ** agents/ab_testing_agent.py *)
(* ===================================================================== *)

Module ABTesting.

(** One entry of [test_results[campaign_id]["variants"]]. *)
Record VariantData : Type := {
  metrics : PyDict.t pynum;
  sent : Z;
  opened : Z;
  clicked : Z;
  converted : Z
}.

Record CampaignResults : Type := {
  variants : PyDict.t VariantData;
  start_time : string
}.

(** [self.test_results] *)
Definition test_results : Type := PyDict.t CampaignResults.

(** *** [create_test_groups] *)

Definition variant_labels_all : list string := ["A"; "B"; "C"].

(** The [for i, variant in enumerate(variant_labels)] loop. *)
Fixpoint assign_groups {R} (recipients : list R) (group_size n_labels i : Z)
    (labels : list string) (groups : PyDict.t (list R)) : PyDict.t (list R) :=
  match labels with
  | [] => groups
  | variant :: rest =>
      let start_idx := i * group_size in
      let g := if i =? n_labels - 1
               then py_slice recipients start_idx None
               else py_slice recipients start_idx (Some (start_idx + group_size)) in
      assign_groups recipients group_size n_labels (i + 1) rest
        (PyDict.set groups variant g)
  end.

(** [random.shuffle] permutes the caller's list in place, so the list as
    it stands afterwards is returned next to the result, also when the
    division raises.  [shuffle] is the permutation the random source picks. *)
Definition create_test_groups {R} (shuffle : list R -> list R)
    (recipients : list R) (num_variants : Z)
  : list R * result (PyDict.t (list R)) :=
  let num_variants := Z.min num_variants 3 in
  let recipients := shuffle recipients in
  if num_variants =? 0 then (recipients, Raise ZeroDivisionError)
  else
    let group_size := Z.of_nat (List.length recipients) / num_variants in
    let variant_labels := py_slice variant_labels_all 0 (Some num_variants) in
    (recipients,
     Ok (assign_groups recipients group_size
           (Z.of_nat (List.length variant_labels)) 0 variant_labels PyDict.empty)).

(** *** [record_event] *)

Definition new_campaign (now : string) : CampaignResults :=
  {| variants := PyDict.empty; start_time := now |}.

Definition new_variant : VariantData :=
  {| metrics := PyDict.empty; sent := 0; opened := 0; clicked := 0; converted := 0 |}.

Definition ensure_campaign (tr : test_results) (now campaign_id : string)
  : test_results :=
  if PyDict.mem tr campaign_id then tr
  else PyDict.set tr campaign_id (new_campaign now).

Definition ensure_variant (tr : test_results) (campaign_id variant : string)
  : test_results :=
  match PyDict.get tr campaign_id with
  | None => tr
  | Some c =>
      if PyDict.mem (variants c) variant then tr
      else PyDict.set tr campaign_id
             {| variants := PyDict.set (variants c) variant new_variant;
                start_time := start_time c |}
  end.

(** [if event in data: data[event] += count].  The keys of [data] are
    "metrics", "sent", "opened", "clicked" and "converted"; adding an
    integer to the "metrics" dictionary is a [TypeError]. *)
Definition add_event (d : VariantData) (event : string) (count : Z)
  : result VariantData :=
  if String.eqb event "metrics" then Raise TypeError
  else if String.eqb event "sent" then
    Ok {| metrics := metrics d; sent := sent d + count; opened := opened d;
          clicked := clicked d; converted := converted d |}
  else if String.eqb event "opened" then
    Ok {| metrics := metrics d; sent := sent d; opened := opened d + count;
          clicked := clicked d; converted := converted d |}
  else if String.eqb event "clicked" then
    Ok {| metrics := metrics d; sent := sent d; opened := opened d;
          clicked := clicked d + count; converted := converted d |}
  else if String.eqb event "converted" then
    Ok {| metrics := metrics d; sent := sent d; opened := opened d;
          clicked := clicked d; converted := converted d + count |}
  else Ok d.

(** The dictionary as it stands after the call, and whether it raised. *)
Definition record_event (tr : test_results) (now campaign_id variant event : string)
    (count : Z) : test_results * result unit :=
  let tr := ensure_campaign tr now campaign_id in
  let tr := ensure_variant tr campaign_id variant in
  match PyDict.get tr campaign_id with
  | None => (tr, Ok tt)
  | Some c =>
      match PyDict.get (variants c) variant with
      | None => (tr, Ok tt)
      | Some d =>
          match add_event d event count with
          | Raise e => (tr, Raise e)
          | Ok d' =>
              (PyDict.set tr campaign_id
                 {| variants := PyDict.set (variants c) variant d';
                    start_time := start_time c |},
               Ok tt)
          end
      end
  end.

(** *** [track_metric] *)

(** After the same two [if ... not in ...] blocks as in [record_event]:
    [variants[variant]["metrics"][metric] = value]. *)
Definition track_metric (tr : test_results) (now campaign_id variant metric : string)
    (value : pynum) : test_results :=
  let tr := ensure_campaign tr now campaign_id in
  let tr := ensure_variant tr campaign_id variant in
  match PyDict.get tr campaign_id with
  | None => tr
  | Some c =>
      match PyDict.get (variants c) variant with
      | None => tr
      | Some d =>
          PyDict.set tr campaign_id
            {| variants :=
                 PyDict.set (variants c) variant
                   {| metrics := PyDict.set (metrics d) metric value;
                      sent := sent d; opened := opened d;
                      clicked := clicked d; converted := converted d |};
               start_time := start_time c |}
      end
  end.

(** The counter [event] of [variant], [0] when nothing is recorded. *)
Definition counter (tr : test_results) (campaign_id variant event : string) : Z :=
  match PyDict.get tr campaign_id with
  | None => 0
  | Some c =>
      match PyDict.get (variants c) variant with
      | None => 0
      | Some d =>
          if String.eqb event "sent" then sent d
          else if String.eqb event "opened" then opened d
          else if String.eqb event "clicked" then clicked d
          else if String.eqb event "converted" then converted d
          else 0
      end
  end.

(** *** [calculate_metrics] *)

Record Row : Type := {
  row_sent : Z;
  row_opened : Z;
  row_clicked : Z;
  row_converted : Z;
  open_rate : pynum;
  click_rate : pynum;
  conversion_rate : pynum;
  click_through_rate : pynum
}.

Definition variant_row (data : VariantData) : result Row :=
  match percent_rate (opened data) (sent data) with
  | Raise e => Raise e
  | Ok o =>
  match percent_rate (clicked data) (sent data) with
  | Raise e => Raise e
  | Ok c =>
  match percent_rate (converted data) (sent data) with
  | Raise e => Raise e
  | Ok v =>
  match percent_rate (clicked data) (opened data) with
  | Raise e => Raise e
  | Ok ctr =>
      Ok {| row_sent := sent data; row_opened := opened data;
            row_clicked := clicked data; row_converted := converted data;
            open_rate := o; click_rate := c; conversion_rate := v;
            click_through_rate := ctr |}
  end end end end.

(** The [for variant, data in variants.items()] loop. *)
Fixpoint variant_rows (vs : PyDict.t VariantData) (results : PyDict.t Row)
  : result (PyDict.t Row) :=
  match vs with
  | [] => Ok results
  | (variant, data) :: rest =>
      match variant_row data with
      | Raise e => Raise e
      | Ok row => variant_rows rest (PyDict.set results variant row)
      end
  end.

(** The returned dictionary: either [{"error": "Campaign not found"}] or
    one row per variant. *)
Inductive Metrics : Type :=
| CampaignNotFound
| Rows (rows : PyDict.t Row).

Definition calculate_metrics (tr : test_results) (campaign_id : string)
  : result Metrics :=
  match PyDict.get tr campaign_id with
  | None => Ok CampaignNotFound
  | Some c =>
      match variant_rows (variants c) PyDict.empty with
      | Raise e => Raise e
      | Ok rows => Ok (Rows rows)
      end
  end.

(** *** [get_winner] *)

(** [data.get(primary_metric, 0)] *)
Definition row_get (data : Row) (primary_metric : string) : pynum :=
  if String.eqb primary_metric "sent" then PInt (row_sent data)
  else if String.eqb primary_metric "opened" then PInt (row_opened data)
  else if String.eqb primary_metric "clicked" then PInt (row_clicked data)
  else if String.eqb primary_metric "converted" then PInt (row_converted data)
  else if String.eqb primary_metric "open_rate" then open_rate data
  else if String.eqb primary_metric "click_rate" then click_rate data
  else if String.eqb primary_metric "conversion_rate" then conversion_rate data
  else if String.eqb primary_metric "click_through_rate" then click_through_rate data
  else PInt 0.

(** One iteration of the loop on [(winner, best_score)]. *)
Definition winner_step (primary_metric : string)
    (acc : option string * pynum) (item : string * Row) : option string * pynum :=
  let score := row_get (snd item) primary_metric in
  if py_gt score (snd acc) then (Some (fst item), score) else acc.

Definition winner_loop (primary_metric : string) (rows : PyDict.t Row)
    (acc : option string * pynum) : option string * pynum :=
  fold_left (winner_step primary_metric) rows acc.

Definition get_winner (tr : test_results) (campaign_id primary_metric : string)
  : result (option string) :=
  match calculate_metrics tr campaign_id with
  | Raise e => Raise e
  | Ok CampaignNotFound => Ok None
  | Ok (Rows rows) =>
      if PyDict.mem rows "error" then Ok None
      else Ok (fst (winner_loop primary_metric rows (None, PInt (-1))))
  end.

End ABTesting.

(* ===================================================================== *)
(** ** Recipients, message content and Python string helpers *)
(* ===================================================================== *)

(** A recipient and a message are dictionaries of strings
    ([Dict[str, str]]). *)
Definition Recipient : Type := PyDict.t string.
Definition Content : Type := PyDict.t string.

(** Truth value of a string and of an optional value. *)
Definition str_truthy (s : string) : bool := negb (String.eqb s "").

Definition opt_truthy (o : option string) : bool :=
  match o with Some s => str_truthy s | None => false end.

(** [a or b] where [a] is the result of a [dict.get] on strings. *)
Definition str_or (a : option string) (b : string) : string :=
  match a with
  | Some s => if str_truthy s then s else b
  | None => b
  end.

(** [a or b] where [b] may be [None] again. *)
Definition opt_or (a b : option string) : option string :=
  if opt_truthy a then a else b.

(** ASCII white space as [str.isspace] has it. *)
Definition is_space (c : Ascii.ascii) : bool :=
  let n := Z.of_nat (Ascii.nat_of_ascii c) in
  ((9 <=? n) && (n <=? 13)) || ((28 <=? n) && (n <=? 32)).

Fixpoint lstrip (s : string) : string :=
  match s with
  | String c s' => if is_space c then lstrip s' else s
  | EmptyString => EmptyString
  end.

Fixpoint rstrip (s : string) : string :=
  match s with
  | String c s' =>
      match rstrip s' with
      | EmptyString => if is_space c then EmptyString else String c EmptyString
      | t => String c t
      end
  | EmptyString => EmptyString
  end.

(** [s.strip()] on ASCII text; a white-space character outside ASCII, which
    Python strips as well, is kept. *)
Definition strip (s : string) : string := rstrip (lstrip s).

(* ===================================================================== *)
(** ** utils/sendgrid_sender.py *)
(* ===================================================================== *)

Module SendGrid.

(** The arguments of one [send_email] call. *)
Record SendCall : Type := {
  to_email : string;
  to_name : string;
  subject : string;
  body : string;
  variant : string;
  campaign_id : string
}.

(** The dictionary [send_email] returns: "success" is always present,
    the other keys may be missing. *)
Record SendResult : Type := {
  success : bool;
  message_id : option string;
  status_code : option Z;
  error : option string
}.

(** One entry of [results["per_recipient"]]. *)
Record Outcome : Type := {
  o_email : string;
  o_success : bool;
  o_message_id : option string;
  o_status_code : option Z;
  o_error : option string
}.

(** One entry of [results["errors"]]; the "email" key is absent in the
    entry for missing content. *)
Record ErrorEntry : Type := {
  err_email : option string;
  err_error : string
}.

(** The dictionary [send_batch] returns. *)
Record BatchResult : Type := {
  total : Z;
  sent : Z;
  failed : Z;
  message_ids : list (string * string);
  errors : list ErrorEntry;
  per_recipient : list Outcome;
  sandbox : bool
}.

Definition default_subject : string := "Update from our team".

Definition default_body : string :=
  String.append "Hello," (String.append (String (Ascii.ascii_of_nat 10) (String (Ascii.ascii_of_nat 10) "We wanted to share an update with you."))
    (String.append (String (Ascii.ascii_of_nat 10) (String (Ascii.ascii_of_nat 10) "Best regards,"))
       (String (Ascii.ascii_of_nat 10) "Team"))).

(** [(email_content.get("subject") or "").strip() or "Update from our team"] *)
Definition batch_subject (email_content : Content) : string :=
  str_or (Some (strip (str_or (PyDict.get email_content "subject") ""))) default_subject.

Definition batch_body (email_content : Content) : string :=
  let b := strip (str_or (opt_or (PyDict.get email_content "full_content")
                            (opt_or (PyDict.get email_content "body")
                               (PyDict.get email_content "content"))) "") in
  if str_truthy b then b else default_body.

Section Sender.

(** The state the mail provider's client lives in, and [send_email] as the
    capability the batch loop calls. *)
Variable S : Type.
Variable send_email : S -> SendCall -> S * SendResult.
Variable sandbox_mode : bool.

Definition initial_result (recipients : list Recipient) : BatchResult :=
  {| total := Z.of_nat (List.length recipients); sent := 0; failed := 0;
     message_ids := []; errors := []; per_recipient := [];
     sandbox := sandbox_mode |}.

(** One iteration of [for i, recipient in enumerate(recipients)]. *)
Definition send_one (subject body variant campaign_id : string)
    (st : S * BatchResult) (recipient : Recipient) : S * BatchResult :=
  let (s, results) := st in
  let email := PyDict.get_default recipient "email" "" in
  let name := PyDict.get_default recipient "name" "Customer" in
  if negb (str_truthy email) then
    (s, {| total := total results; sent := sent results;
           failed := failed results + 1;
           message_ids := message_ids results;
           errors := errors results ++
                     [{| err_email := Some "N/A"; err_error := "No email address" |}];
           per_recipient := per_recipient results;
           sandbox := sandbox results |})
  else
    let (s', result) :=
      send_email s {| to_email := email; to_name := name; subject := subject;
                      body := body; variant := variant;
                      campaign_id := campaign_id |} in
    let outcome := {| o_email := email; o_success := success result;
                      o_message_id := message_id result;
                      o_status_code := status_code result;
                      o_error := error result |} in
    if success result then
      (s', {| total := total results; sent := sent results + 1;
              failed := failed results;
              message_ids :=
                (if opt_truthy (message_id result)
                 then message_ids results ++
                      [(email, match message_id result with
                               | Some m => m | None => "" end)]
                 else message_ids results);
              errors := errors results;
              per_recipient := per_recipient results ++ [outcome];
              sandbox := sandbox results |})
    else
      (s', {| total := total results; sent := sent results;
              failed := failed results + 1;
              message_ids := message_ids results;
              errors := errors results ++
                        [{| err_email := Some email;
                            err_error := match error result with
                                         | Some m => m
                                         | None => "Unknown error"
                                         end |}];
              per_recipient := per_recipient results ++ [outcome];
              sandbox := sandbox results |}).

Definition send_batch (s : S) (recipients : list Recipient)
    (email_content : Content) (variant campaign_id : string) : S * BatchResult :=
  let results := initial_result recipients in
  match recipients with
  | [] => (s, results)
  | _ =>
      let subject := batch_subject email_content in
      let body := batch_body email_content in
      if negb (str_truthy subject) || negb (str_truthy body) then
        (s, {| total := total results; sent := sent results;
               failed := failed results; message_ids := message_ids results;
               errors := errors results ++
                         [{| err_email := None;
                             err_error := "Missing email subject or body" |}];
               per_recipient := per_recipient results;
               sandbox := sandbox results |})
      else
        fold_left (send_one subject body variant campaign_id) recipients (s, results)
  end.

End Sender.

(** A sender that also keeps the list of the calls made to it. *)
Definition logged {S} (send_email : S -> SendCall -> S * SendResult)
    (st : S * list SendCall) (c : SendCall) : (S * list SendCall) * SendResult :=
  let (s', r) := send_email (fst st) c in
  ((s', (snd st ++ [c])%list), r).

(** Whether [send_batch] attempts a recipient. *)
Definition has_email (recipient : Recipient) : bool :=
  str_truthy (PyDict.get_default recipient "email" "").

End SendGrid.

(* ===================================================================== *)
(** ** utils/email_sender.py *)
(* ===================================================================== *)

Module Smtp.

Record SendCall : Type := {
  to_email : string;
  to_name : string;
  subject : string;
  body : string
}.

Record BatchResult : Type := {
  total : Z;
  sent : Z;
  failed : Z;
  errors : list string
}.

Section Sender.

Variable S : Type.
(** [send_email] returns [True] or [False]; it catches its own exceptions. *)
Variable send_email : S -> SendCall -> S * bool.

Definition send_one (subject body : string) (st : S * BatchResult)
    (recipient : Recipient) : S * BatchResult :=
  let (s, results) := st in
  let email := PyDict.get_default recipient "email" "" in
  let name := PyDict.get_default recipient "name" "Customer" in
  let (s', ok) := send_email s {| to_email := email; to_name := name;
                                  subject := subject; body := body |} in
  if ok then
    (s', {| total := total results; sent := sent results + 1;
            failed := failed results; errors := errors results |})
  else
    (s', {| total := total results; sent := sent results;
            failed := failed results + 1;
            errors := (errors results ++ [String.append "Failed to send to " email])%list |}).

Definition send_batch (s : S) (recipients : list Recipient)
    (email_content : Content) : S * BatchResult :=
  let results := {| total := Z.of_nat (List.length recipients); sent := 0;
                    failed := 0; errors := [] |} in
  let subject := PyDict.get_default email_content "subject" "No Subject" in
  let body := match PyDict.get email_content "full_content" with
              | Some b => b
              | None => PyDict.get_default email_content "body" ""
              end in
  fold_left (send_one subject body) recipients (s, results).

End Sender.

(** A sender that also keeps the list of the calls made to it. *)
Definition logged {S} (send_email : S -> SendCall -> S * bool)
    (st : S * list SendCall) (c : SendCall) : (S * list SendCall) * bool :=
  let (s', r) := send_email (fst st) c in
  ((s', (snd st ++ [c])%list), r).

End Smtp.

(* ===================================================================== *)
(** ** orchestrator.py: data *)
(* ===================================================================== *)

(** Payloads the coordinator only stores and passes on ([Dict[str, Any]]). *)
#[local] Unset Elimination Schemes.
Inductive pyobj : Type :=
| PNone
| PBool (b : bool)
| PNum (n : pynum)
| PStr (s : string)
| PList (l : list pyobj)
| PDict (d : list (string * pyobj)).
#[local] Set Elimination Schemes.

Module Orchestrator.

(** The dictionary the segmentation agent returns. *)
Record Segments : Type := {
  selected_segment : option (list Recipient);
  segment_info : pyobj
}.

(** [state["selected_recipients"]] is either a list of its own or the very
    list object stored under [segments["selected_segment"]]; the in-place
    shuffle of [create_test_groups] then changes both. *)
Inductive RecipientsRef : Type :=
| OwnList (l : list Recipient)
| SegmentList.

(** What [get_campaign_metrics] returns: the counters the coordinator
    reads, and the rest of the dictionary. *)
Record ProviderMetrics : Type := {
  pm_opened : Z;
  pm_clicked : Z;
  pm_bounced : Z;
  pm_other : pyobj
}.

(** [send_results[variant]]: the result of either sender. *)
Inductive BatchOutcome : Type :=
| SendGridBatch (r : SendGrid.BatchResult)
| SmtpBatch (r : Smtp.BatchResult).

(** [CampaignState], with the keys [send_variant] adds on the fly;
    [variant_sent] lists the labels [v] whose key [variant_<v>_sent] is
    set. *)
Record CampaignState : Type := {
  campaign_id : string;
  brief : string;
  csv_path : string;
  strategy : pyobj;
  segments : Segments;
  selected_recipients : RecipientsRef;
  email_variants : PyDict.t Content;
  ab_test_groups : PyDict.t (list Recipient);
  deliverability_check : PyDict.t pyobj;
  ab_results : ABTesting.Metrics;
  campaign_report : pyobj;
  status : string;
  error : string;
  sendgrid_message_ids : option (PyDict.t (list string));
  send_results : option (PyDict.t BatchOutcome);
  sendgrid_metrics : option (PyDict.t ProviderMetrics);
  variant_sent : list string
}.

Definition set_strategy (v : pyobj) (s : CampaignState) : CampaignState :=
  {| campaign_id := campaign_id s; brief := brief s; csv_path := csv_path s;
     strategy := v; segments := segments s;
     selected_recipients := selected_recipients s;
     email_variants := email_variants s; ab_test_groups := ab_test_groups s;
     deliverability_check := deliverability_check s; ab_results := ab_results s;
     campaign_report := campaign_report s; status := status s; error := error s;
     sendgrid_message_ids := sendgrid_message_ids s;
     send_results := send_results s; sendgrid_metrics := sendgrid_metrics s;
     variant_sent := variant_sent s |}.

Definition set_segments (v : Segments) (s : CampaignState) : CampaignState :=
  {| campaign_id := campaign_id s; brief := brief s; csv_path := csv_path s;
     strategy := strategy s; segments := v;
     selected_recipients := selected_recipients s;
     email_variants := email_variants s; ab_test_groups := ab_test_groups s;
     deliverability_check := deliverability_check s; ab_results := ab_results s;
     campaign_report := campaign_report s; status := status s; error := error s;
     sendgrid_message_ids := sendgrid_message_ids s;
     send_results := send_results s; sendgrid_metrics := sendgrid_metrics s;
     variant_sent := variant_sent s |}.

Definition set_selected_recipients (v : RecipientsRef) (s : CampaignState)
  : CampaignState :=
  {| campaign_id := campaign_id s; brief := brief s; csv_path := csv_path s;
     strategy := strategy s; segments := segments s;
     selected_recipients := v;
     email_variants := email_variants s; ab_test_groups := ab_test_groups s;
     deliverability_check := deliverability_check s; ab_results := ab_results s;
     campaign_report := campaign_report s; status := status s; error := error s;
     sendgrid_message_ids := sendgrid_message_ids s;
     send_results := send_results s; sendgrid_metrics := sendgrid_metrics s;
     variant_sent := variant_sent s |}.

Definition set_email_variants (v : PyDict.t Content) (s : CampaignState)
  : CampaignState :=
  {| campaign_id := campaign_id s; brief := brief s; csv_path := csv_path s;
     strategy := strategy s; segments := segments s;
     selected_recipients := selected_recipients s;
     email_variants := v; ab_test_groups := ab_test_groups s;
     deliverability_check := deliverability_check s; ab_results := ab_results s;
     campaign_report := campaign_report s; status := status s; error := error s;
     sendgrid_message_ids := sendgrid_message_ids s;
     send_results := send_results s; sendgrid_metrics := sendgrid_metrics s;
     variant_sent := variant_sent s |}.

Definition set_ab_test_groups (v : PyDict.t (list Recipient)) (s : CampaignState)
  : CampaignState :=
  {| campaign_id := campaign_id s; brief := brief s; csv_path := csv_path s;
     strategy := strategy s; segments := segments s;
     selected_recipients := selected_recipients s;
     email_variants := email_variants s; ab_test_groups := v;
     deliverability_check := deliverability_check s; ab_results := ab_results s;
     campaign_report := campaign_report s; status := status s; error := error s;
     sendgrid_message_ids := sendgrid_message_ids s;
     send_results := send_results s; sendgrid_metrics := sendgrid_metrics s;
     variant_sent := variant_sent s |}.

Definition set_deliverability_check (v : PyDict.t pyobj) (s : CampaignState)
  : CampaignState :=
  {| campaign_id := campaign_id s; brief := brief s; csv_path := csv_path s;
     strategy := strategy s; segments := segments s;
     selected_recipients := selected_recipients s;
     email_variants := email_variants s; ab_test_groups := ab_test_groups s;
     deliverability_check := v; ab_results := ab_results s;
     campaign_report := campaign_report s; status := status s; error := error s;
     sendgrid_message_ids := sendgrid_message_ids s;
     send_results := send_results s; sendgrid_metrics := sendgrid_metrics s;
     variant_sent := variant_sent s |}.

Definition set_ab_results (v : ABTesting.Metrics) (s : CampaignState)
  : CampaignState :=
  {| campaign_id := campaign_id s; brief := brief s; csv_path := csv_path s;
     strategy := strategy s; segments := segments s;
     selected_recipients := selected_recipients s;
     email_variants := email_variants s; ab_test_groups := ab_test_groups s;
     deliverability_check := deliverability_check s; ab_results := v;
     campaign_report := campaign_report s; status := status s; error := error s;
     sendgrid_message_ids := sendgrid_message_ids s;
     send_results := send_results s; sendgrid_metrics := sendgrid_metrics s;
     variant_sent := variant_sent s |}.

Definition set_campaign_report (v : pyobj) (s : CampaignState) : CampaignState :=
  {| campaign_id := campaign_id s; brief := brief s; csv_path := csv_path s;
     strategy := strategy s; segments := segments s;
     selected_recipients := selected_recipients s;
     email_variants := email_variants s; ab_test_groups := ab_test_groups s;
     deliverability_check := deliverability_check s; ab_results := ab_results s;
     campaign_report := v; status := status s; error := error s;
     sendgrid_message_ids := sendgrid_message_ids s;
     send_results := send_results s; sendgrid_metrics := sendgrid_metrics s;
     variant_sent := variant_sent s |}.

Definition set_status (v : string) (s : CampaignState) : CampaignState :=
  {| campaign_id := campaign_id s; brief := brief s; csv_path := csv_path s;
     strategy := strategy s; segments := segments s;
     selected_recipients := selected_recipients s;
     email_variants := email_variants s; ab_test_groups := ab_test_groups s;
     deliverability_check := deliverability_check s; ab_results := ab_results s;
     campaign_report := campaign_report s; status := v; error := error s;
     sendgrid_message_ids := sendgrid_message_ids s;
     send_results := send_results s; sendgrid_metrics := sendgrid_metrics s;
     variant_sent := variant_sent s |}.

Definition set_error (v : string) (s : CampaignState) : CampaignState :=
  {| campaign_id := campaign_id s; brief := brief s; csv_path := csv_path s;
     strategy := strategy s; segments := segments s;
     selected_recipients := selected_recipients s;
     email_variants := email_variants s; ab_test_groups := ab_test_groups s;
     deliverability_check := deliverability_check s; ab_results := ab_results s;
     campaign_report := campaign_report s; status := status s; error := v;
     sendgrid_message_ids := sendgrid_message_ids s;
     send_results := send_results s; sendgrid_metrics := sendgrid_metrics s;
     variant_sent := variant_sent s |}.

Definition set_sendgrid_message_ids (v : option (PyDict.t (list string)))
    (s : CampaignState) : CampaignState :=
  {| campaign_id := campaign_id s; brief := brief s; csv_path := csv_path s;
     strategy := strategy s; segments := segments s;
     selected_recipients := selected_recipients s;
     email_variants := email_variants s; ab_test_groups := ab_test_groups s;
     deliverability_check := deliverability_check s; ab_results := ab_results s;
     campaign_report := campaign_report s; status := status s; error := error s;
     sendgrid_message_ids := v;
     send_results := send_results s; sendgrid_metrics := sendgrid_metrics s;
     variant_sent := variant_sent s |}.

Definition set_send_results (v : option (PyDict.t BatchOutcome))
    (s : CampaignState) : CampaignState :=
  {| campaign_id := campaign_id s; brief := brief s; csv_path := csv_path s;
     strategy := strategy s; segments := segments s;
     selected_recipients := selected_recipients s;
     email_variants := email_variants s; ab_test_groups := ab_test_groups s;
     deliverability_check := deliverability_check s; ab_results := ab_results s;
     campaign_report := campaign_report s; status := status s; error := error s;
     sendgrid_message_ids := sendgrid_message_ids s;
     send_results := v; sendgrid_metrics := sendgrid_metrics s;
     variant_sent := variant_sent s |}.

Definition set_sendgrid_metrics (v : option (PyDict.t ProviderMetrics))
    (s : CampaignState) : CampaignState :=
  {| campaign_id := campaign_id s; brief := brief s; csv_path := csv_path s;
     strategy := strategy s; segments := segments s;
     selected_recipients := selected_recipients s;
     email_variants := email_variants s; ab_test_groups := ab_test_groups s;
     deliverability_check := deliverability_check s; ab_results := ab_results s;
     campaign_report := campaign_report s; status := status s; error := error s;
     sendgrid_message_ids := sendgrid_message_ids s;
     send_results := send_results s; sendgrid_metrics := v;
     variant_sent := variant_sent s |}.

Definition set_variant_sent (v : list string) (s : CampaignState) : CampaignState :=
  {| campaign_id := campaign_id s; brief := brief s; csv_path := csv_path s;
     strategy := strategy s; segments := segments s;
     selected_recipients := selected_recipients s;
     email_variants := email_variants s; ab_test_groups := ab_test_groups s;
     deliverability_check := deliverability_check s; ab_results := ab_results s;
     campaign_report := campaign_report s; status := status s; error := error s;
     sendgrid_message_ids := sendgrid_message_ids s;
     send_results := send_results s; sendgrid_metrics := sendgrid_metrics s;
     variant_sent := v |}.

(** [state["selected_recipients"]] as a value. *)
Definition recipients_of (s : CampaignState) : list Recipient :=
  match selected_recipients s with
  | OwnList l => l
  | SegmentList =>
      match selected_segment (segments s) with
      | Some l => l
      | None => []
      end
  end.

(** The list behind [state["selected_recipients"]] is replaced in place. *)
Definition store_recipients (l : list Recipient) (s : CampaignState)
  : CampaignState :=
  match selected_recipients s with
  | OwnList _ => set_selected_recipients (OwnList l) s
  | SegmentList =>
      set_segments {| selected_segment := Some l;
                      segment_info := segment_info (segments s) |} s
  end.

(** [campaign_state.get(f"variant_{v}_sent")] *)
Definition is_sent (s : CampaignState) (v : string) : bool :=
  existsb (String.eqb v) (variant_sent s).

Definition mark_sent (v : string) (s : CampaignState) : CampaignState :=
  if is_sent s v then s else set_variant_sent (variant_sent s ++ [v]) s.

(* ===================================================================== *)
(** ** orchestrator.py: collaborators and the machine *)
(* ===================================================================== *)

(** The external collaborators, as oracles over a world [W] (the language
    model, the CSV file, the mail provider, the statistics API, the clock,
    the random source, the file system).  An oracle may raise. *)
Record Collaborators (W : Type) : Type := {
  (** [str(uuid.uuid4())[:8]] *)
  uuid8 : W -> W * string;
  (** [datetime.now().isoformat()] *)
  now_iso : W -> W * string;
  (** [strategy_agent.create_strategy(brief).get("strategy", {})] before
      the default is applied *)
  create_strategy : W -> string -> W * result (option pyobj);
  (** [SegmentationAgent(csv_path).segment_audience(strategy_input)] *)
  segment_audience : W -> string -> pyobj -> W * result Segments;
  (** the permutation [random.shuffle] applies *)
  shuffle : W -> list Recipient -> W * list Recipient;
  (** [personalization_agent.generate_email_content] *)
  generate_email_content :
    W -> pyobj -> Recipient -> string -> string -> W * result Content;
  (** [deliverability_agent.full_check] *)
  full_check : W -> Content -> list Recipient -> W * result pyobj;
  (** [SendGridSender.send_email] and [EmailSender.send_email] *)
  sendgrid_send_email : W -> SendGrid.SendCall -> W * SendGrid.SendResult;
  smtp_send_email : W -> Smtp.SendCall -> W * bool;
  (** [sendgrid_tracker.get_campaign_metrics(campaign_id, ids, wait)] *)
  get_campaign_metrics :
    W -> string -> list string -> Z -> W * result ProviderMetrics;
  (** [activity_tracker.log_opens_and_clicks_from_metrics] *)
  log_opens_and_clicks_from_metrics :
    W -> string -> string -> list Recipient -> ProviderMetrics -> W * result unit;
  (** [int(n * random.uniform(lo, hi))], bounds in hundredths *)
  scaled_random : W -> Z -> Z -> Z -> W * result Z;
  (** [ab_testing_agent.save_results]: writes [test_results.get(id, {})] *)
  save_results :
    W -> string -> option ABTesting.CampaignResults -> W * result unit;
  (** [reporting_agent.generate_campaign_report] *)
  generate_campaign_report :
    W -> string -> pyobj -> ABTesting.Metrics -> PyDict.t pyobj
    -> W * result pyobj;
  (** the text an f-string gives for a list of error entries *)
  repr_errors : list SendGrid.ErrorEntry -> string
}.

(** One call of a sender's [send_email]. *)
Inductive SendAttempt : Type :=
| ViaSendGrid (c : SendGrid.SendCall)
| ViaSmtp (c : Smtp.SendCall).

(** Everything a method of the orchestrator can change: the world, the
    list of send attempts made so far, the counters of the A/B testing
    agent, and the campaign state dictionary it was handed. *)
Record Machine (W : Type) : Type := {
  world : W;
  send_log : list SendAttempt;
  test_results : ABTesting.test_results;
  state : CampaignState
}.

Arguments world {W} _.
Arguments send_log {W} _.
Arguments test_results {W} _.
Arguments state {W} _.

Section Monad.

Variable W : Type.

(** State and exceptions: the machine as it stands is kept when a
    computation raises. *)
Definition M (A : Type) : Type := Machine W -> Machine W * result A.

Definition ret {A} (a : A) : M A := fun m => (m, Ok a).

Definition raise {A} (e : exn) : M A := fun m => (m, Raise e).

Definition bind {A B} (c : M A) (k : A -> M B) : M B :=
  fun m =>
    match c m with
    | (m', Ok a) => k a m'
    | (m', Raise e) => (m', Raise e)
    end.

(** [try: body except Exception as e: handler(e)] *)
Definition try_except {A} (body : M A) (handler : exn -> M A) : M A :=
  fun m =>
    match body m with
    | (m', Ok a) => (m', Ok a)
    | (m', Raise e) => handler e m'
    end.

(** A call to an oracle. *)
Definition call {A} (f : W -> W * result A) : M A :=
  fun m =>
    let (w', r) := f (world m) in
    ({| world := w'; send_log := send_log m;
        test_results := test_results m; state := state m |}, r).

(** A call to an oracle that cannot raise. *)
Definition ask {A} (f : W -> W * A) : M A :=
  call (fun w => let (w', a) := f w in (w', Ok a)).

Definition read {A} (f : CampaignState -> A) : M A :=
  fun m => (m, Ok (f (state m))).

Definition modify (f : CampaignState -> CampaignState) : M unit :=
  fun m =>
    ({| world := world m; send_log := send_log m;
        test_results := test_results m; state := f (state m) |}, Ok tt).

Definition read_results {A} (f : ABTesting.test_results -> A) : M A :=
  fun m => (m, Ok (f (test_results m))).

Definition put_results (tr : ABTesting.test_results) : M unit :=
  fun m =>
    ({| world := world m; send_log := send_log m;
        test_results := tr; state := state m |}, Ok tt).

Definition lift {A} (r : result A) : M A :=
  match r with Ok a => ret a | Raise e => raise e end.

Definition when (b : bool) (c : M unit) : M unit :=
  if b then c else ret tt.

(** [for x in l: body(x)] *)
Fixpoint for_each {A} (l : list A) (body : A -> M unit) : M unit :=
  match l with
  | [] => ret tt
  | x :: l' => bind (body x) (fun _ => for_each l' body)
  end.

End Monad.

Arguments ret {W A} a.
Arguments raise {W A} e.

Declare Scope monad_scope.
Delimit Scope monad_scope with monad.
Notation "x <- c ;; k" := (bind c (fun x => k))
  (at level 61, c at next level, right associativity) : monad_scope.
Notation "c ;; k" := (bind c (fun _ => k))
  (at level 61, right associativity) : monad_scope.
Open Scope monad_scope.

(* ===================================================================== *)
(** ** orchestrator.py: the methods of [CampaignOrchestrator] *)
(* ===================================================================== *)

Section Methods.

Variable W : Type.
Variable C : Collaborators W.
(** [self.use_sendgrid]; [self.sendgrid_tracker] is set exactly when it is. *)
Variable use_sendgrid : bool.
(** [config.SENDGRID_SANDBOX] *)
Variable sandbox : bool.

(** The [except Exception as e] branch of a pipeline stage. *)
Definition stage_failed (what : string) (e : exn) : M W unit :=
  modify (set_error (what ++ exn_str e)%string) ;;
  modify (set_status "error").

Definition _create_strategy : M W unit :=
  try_except
    (b <- read brief ;;
     strategy_result <- call (fun w => create_strategy C w b) ;;
     modify (set_strategy (match strategy_result with
                           | Some s => s
                           | None => PDict []
                           end)) ;;
     modify (set_status "strategy_created"))
    (stage_failed "Strategy creation failed: ").

(** [strategy_input]: the strategy dictionary with the brief added. *)
Definition strategy_input (s : CampaignState) : pyobj :=
  PDict (PyDict.set (match strategy s with PDict d => d | _ => [] end)
           "brief" (PStr (brief s))).

Definition _segment_audience : M W unit :=
  try_except
    (path <- read csv_path ;;
     input <- read strategy_input ;;
     segs <- call (fun w => segment_audience C w path input) ;;
     modify (set_segments segs) ;;
     modify (set_selected_recipients
               (match selected_segment segs with
                | Some _ => SegmentList
                | None => OwnList []
                end)) ;;
     modify (set_status "audience_segmented"))
    (stage_failed "Segmentation failed: ").

(** [self.ab_testing_agent.create_test_groups(recipients, num_variants)] on
    the list behind [state["selected_recipients"]], which it shuffles in
    place. *)
Definition create_test_groups (num_variants : Z)
  : M W (PyDict.t (list Recipient)) :=
  fun m =>
    let w := world m in
    let recipients := recipients_of (state m) in
    let (shuffled, r) :=
      ABTesting.create_test_groups (fun l => snd (shuffle C w l))
        recipients num_variants in
    ({| world := fst (shuffle C w recipients); send_log := send_log m;
        test_results := test_results m;
        state := store_recipients shuffled (state m) |}, r).

Definition default_recipient : Recipient :=
  [("name", "Customer"); ("email", "test@example.com")].

(** The [for variant, group in ab_groups.items()] loop of
    [_generate_content]. *)
Fixpoint generate_variants (strat : pyobj) (sample_recipient : Recipient)
    (cid : string) (items : list (string * list Recipient))
    (email_variants : PyDict.t Content) : M W (PyDict.t Content) :=
  match items with
  | [] => ret email_variants
  | (variant, _) :: rest =>
      content <- call (fun w =>
        generate_email_content C w strat sample_recipient variant cid) ;;
      generate_variants strat sample_recipient cid rest
        (PyDict.set email_variants variant content)
  end.

Definition _generate_content : M W unit :=
  try_except
    (ab_groups <- create_test_groups 2 ;;
     modify (set_ab_test_groups ab_groups) ;;
     recipients <- read recipients_of ;;
     let sample_recipient := match recipients with
                             | r :: _ => r
                             | [] => default_recipient
                             end in
     strat <- read strategy ;;
     cid <- read campaign_id ;;
     email_variants <- generate_variants strat sample_recipient cid ab_groups
                         PyDict.empty ;;
     modify (set_email_variants email_variants) ;;
     modify (set_status "content_generated"))
    (stage_failed "Content generation failed: ").

(** The loop of [_check_deliverability]. *)
Fixpoint check_variants (groups : PyDict.t (list Recipient))
    (items : list (string * Content)) (all_checks : PyDict.t pyobj)
  : M W (PyDict.t pyobj) :=
  match items with
  | [] => ret all_checks
  | (variant, content) :: rest =>
      check <- call (fun w =>
        full_check C w content (PyDict.get_default groups variant [])) ;;
      check_variants groups rest (PyDict.set all_checks variant check)
  end.

Definition _check_deliverability : M W unit :=
  try_except
    (variants <- read email_variants ;;
     groups <- read ab_test_groups ;;
     all_checks <- check_variants groups variants PyDict.empty ;;
     modify (set_deliverability_check all_checks) ;;
     modify (set_status "deliverability_checked"))
    (stage_failed "Deliverability check failed: ").

(** [_should_proceed]: defined by the source, used by no edge of the graph. *)
Definition check_passed (check : pyobj) : bool :=
  match check with
  | PDict d =>
      match PyDict.get d "passed" with
      | Some (PBool b) => b
      | _ => false
      end
  | _ => false
  end.

Definition _should_proceed (s : CampaignState) : string :=
  if existsb check_passed (PyDict.values (deliverability_check s))
  then "proceed" else "fix".

Definition initial_state (cid brief_text path : string) : CampaignState :=
  {| campaign_id := cid; brief := brief_text; csv_path := path;
     strategy := PDict [];
     segments := {| selected_segment := None; segment_info := PDict [] |};
     selected_recipients := OwnList [];
     email_variants := PyDict.empty; ab_test_groups := PyDict.empty;
     deliverability_check := PyDict.empty;
     ab_results := ABTesting.Rows PyDict.empty;
     campaign_report := PDict [];
     status := "initialized"; error := "";
     sendgrid_message_ids := None; send_results := None;
     sendgrid_metrics := None; variant_sent := [] |}.

(** The compiled graph of [_build_workflow]: the entry point and the three
    unconditional edges up to [END]. *)
Definition workflow_invoke : M W unit :=
  _create_strategy ;;
  _segment_audience ;;
  _generate_content ;;
  _check_deliverability.

Definition run_campaign (brief_text path : string) : M W unit :=
  cid <- ask (uuid8 C) ;;
  let initial := initial_state cid brief_text path in
  modify (fun _ => initial) ;;
  try_except
    (workflow_invoke ;;
     modify (set_status "ready_to_send"))
    (fun e => modify (fun _ => set_error (exn_str e) (set_status "error" initial))).

(** *** Sending *)

Definition sendgrid_send (m : Machine W) (c : SendGrid.SendCall)
  : Machine W * SendGrid.SendResult :=
  let (w', r) := sendgrid_send_email C (world m) c in
  ({| world := w'; send_log := send_log m ++ [ViaSendGrid c];
      test_results := test_results m; state := state m |}, r).

Definition smtp_send (m : Machine W) (c : Smtp.SendCall) : Machine W * bool :=
  let (w', r) := smtp_send_email C (world m) c in
  ({| world := w'; send_log := send_log m ++ [ViaSmtp c];
      test_results := test_results m; state := state m |}, r).

Definition sendgrid_send_batch (recipients : list Recipient) (content : Content)
    (variant cid : string) : M W SendGrid.BatchResult :=
  fun m =>
    let (m', r) := SendGrid.send_batch sendgrid_send sandbox m recipients
                     content variant cid in
    (m', Ok r).

Definition smtp_send_batch (recipients : list Recipient) (content : Content)
  : M W Smtp.BatchResult :=
  fun m =>
    let (m', r) := Smtp.send_batch smtp_send m recipients content in
    (m', Ok r).

(** [self.ab_testing_agent.record_event]; the clock is read only when the
    campaign gets its entry. *)
Definition record_event (cid variant event : string) (count : Z) : M W unit :=
  tr <- read_results (fun tr => tr) ;;
  now <- (if PyDict.mem tr cid then ret "" else ask (now_iso C)) ;;
  let (tr', r) := ABTesting.record_event tr now cid variant event count in
  put_results tr' ;;
  lift r.

Definition or_empty {V} (d : option (PyDict.t V)) : PyDict.t V :=
  match d with Some x => x | None => PyDict.empty end.

(** Fetch the provider's counters for a variant and record them. *)
Definition fetch_and_record (cid variant : string) (message_ids : list string)
    (group : list Recipient) : M W unit :=
  metrics <- call (fun w => get_campaign_metrics C w cid message_ids 5) ;;
  record_event cid variant "opened" (pm_opened metrics) ;;
  record_event cid variant "clicked" (pm_clicked metrics) ;;
  record_event cid variant "bounced" (pm_bounced metrics) ;;
  call (fun w => log_opens_and_clicks_from_metrics C w cid variant group metrics) ;;
  modify (fun s => set_sendgrid_metrics
                     (Some (PyDict.set (or_empty (sendgrid_metrics s)) variant metrics)) s).

(** The body of the loop of [process_results] for one variant. *)
Definition process_variant (cid : string) (ab_groups : PyDict.t (list Recipient))
    (ids : PyDict.t (list string)) (variant : string) : M W unit :=
  sent <- read (fun s => is_sent s variant) ;;
  when sent
    (if use_sendgrid then
       let message_ids := PyDict.get_default ids variant [] in
       match message_ids with
       | [] => ret tt
       | _ => fetch_and_record cid variant message_ids
                (PyDict.get_default ab_groups variant [])
       end
     else
       n <- read_results (fun tr => ABTesting.counter tr cid variant "sent") ;;
       n_opened <- call (fun w => scaled_random C w n 15 35) ;;
       n_clicked <- call (fun w => scaled_random C w n_opened 10 25) ;;
       n_converted <- call (fun w => scaled_random C w n_clicked 5 15) ;;
       record_event cid variant "opened" n_opened ;;
       record_event cid variant "clicked" n_clicked ;;
       record_event cid variant "converted" n_converted).

Definition winner_status (winner : option string) : string :=
  match winner with
  | Some v => if str_truthy v then ("completed_winner_" ++ v)%string else "completed"
  | None => "completed"
  end.

Definition process_results : M W unit :=
  try_except
    (cid <- read campaign_id ;;
     ab_groups <- read ab_test_groups ;;
     ids <- read (fun s => or_empty (sendgrid_message_ids s)) ;;
     for_each (PyDict.keys ab_groups) (process_variant cid ab_groups ids) ;;
     tr <- read_results (fun tr => tr) ;;
     results <- lift (ABTesting.calculate_metrics tr cid) ;;
     modify (set_ab_results results) ;;
     call (fun w => save_results C w cid (PyDict.get tr cid)) ;;
     strat <- read strategy ;;
     checks <- read deliverability_check ;;
     report <- call (fun w => generate_campaign_report C w cid strat results checks) ;;
     modify (set_campaign_report report) ;;
     winner <- lift (ABTesting.get_winner tr cid "open_rate") ;;
     modify (set_status (winner_status winner)))
    (fun e => modify (set_error ("Failed to process results: " ++ exn_str e)%string)).

Definition variant_status (variant : string) : string :=
  ("variant_" ++ variant ++ "_sent")%string.

(** The SendGrid branch of [send_variant]. *)
Definition send_via_sendgrid (cid variant : string) (recipients : list Recipient)
    (content : Content) : M W unit :=
  r <- sendgrid_send_batch recipients content variant cid ;;
  modify (fun s => set_send_results
                     (Some (PyDict.set (or_empty (send_results s)) variant
                              (SendGridBatch r))) s) ;;
  let message_ids := map snd (SendGrid.message_ids r) in
  modify (fun s => set_sendgrid_message_ids
                     (Some (PyDict.set (or_empty (sendgrid_message_ids s)) variant
                              message_ids)) s) ;;
  when (0 <? SendGrid.sent r)
    (record_event cid variant "sent" (SendGrid.sent r)) ;;
  when ((SendGrid.sent r =? 0) && (0 <? SendGrid.total r))
    (modify (set_error
               ("Failed to send emails. Check logs for details. Errors: "
                ++ repr_errors C (firstn 2 (SendGrid.errors r)))%string)) ;;
  match message_ids with
  | [] => ret tt
  | _ => try_except (fetch_and_record cid variant message_ids recipients)
           (fun _ => ret tt)
  end ;;
  modify (set_status (variant_status variant)) ;;
  modify (mark_sent variant).

(** The SMTP branch of [send_variant]. *)
Definition send_via_smtp (cid variant : string) (recipients : list Recipient)
    (content : Content) : M W unit :=
  r <- smtp_send_batch recipients content ;;
  record_event cid variant "sent" (Smtp.sent r) ;;
  modify (fun s => set_send_results
                     (Some (PyDict.set (or_empty (send_results s)) variant
                              (SmtpBatch r))) s) ;;
  modify (set_status (variant_status variant)) ;;
  modify (mark_sent variant).

(** The closing block of [send_variant]: once every variant is marked
    sent, the results are processed. *)
Definition finish_if_all_sent (ab_groups : PyDict.t (list Recipient)) : M W unit :=
  try_except
    (let all_variants := PyDict.keys ab_groups in
     all_sent <- read (fun s => forallb (is_sent s) all_variants) ;;
     when (match all_variants with [] => false | _ => true end && all_sent)
       process_results)
    (fun _ => ret tt).

Definition send_variant (variant : string) : M W unit :=
  try_except
    (cid <- read campaign_id ;;
     ab_groups <- read ab_test_groups ;;
     variants <- read email_variants ;;
     match PyDict.get ab_groups variant, PyDict.get variants variant with
     | Some recipients, Some content =>
         match recipients, content with
         | [], _ =>
             modify (set_error ("No recipients found for Variant " ++ variant)%string)
         | _, [] =>
             modify (set_error ("No email content found for Variant " ++ variant)%string)
         | _, _ =>
             modify (fun s => match sendgrid_message_ids s with
                              | None => set_sendgrid_message_ids (Some PyDict.empty) s
                              | Some _ => s
                              end) ;;
             modify (fun s => match send_results s with
                              | None => set_send_results (Some PyDict.empty) s
                              | Some _ => s
                              end) ;;
             (if use_sendgrid
              then send_via_sendgrid cid variant recipients content
              else send_via_smtp cid variant recipients content) ;;
             finish_if_all_sent ab_groups
         end
     | _, _ =>
         modify (set_error ("Variant " ++ variant ++ " not found")%string)
     end)
    (fun e => modify (set_error ("Failed to send variant " ++ variant ++ ": "
                                 ++ exn_str e)%string)).

(** *** app.py: the caller's guard

    Both the "Send Both Versions" loop and the per-variant button call
    [send_variant] only for a variant whose sent flag is not set. *)
Definition app_send_if_unsent (variant : string) : M W unit :=
  sent <- read (fun s => is_sent s variant) ;;
  if sent then ret tt else send_variant variant.

End Methods.

End Orchestrator.

(** ** Specification vocabulary for the event counters *)

(** The counter an event name selects in one variant's entry. *)
Definition counter_of (d : ABTesting.VariantData) (event : string) : Z :=
  if String.eqb event "sent" then ABTesting.sent d
  else if String.eqb event "opened" then ABTesting.opened d
  else if String.eqb event "clicked" then ABTesting.clicked d
  else if String.eqb event "converted" then ABTesting.converted d
  else 0.

Definition is_counter (event : string) : Prop :=
  In event ["sent"; "opened"; "clicked"; "converted"].

(** The entry of a variant, and the value tracked under a metric name. *)
Definition variant_data (tr : ABTesting.test_results) (cid variant : string)
  : option ABTesting.VariantData :=
  match PyDict.get tr cid with
  | None => None
  | Some c => PyDict.get (ABTesting.variants c) variant
  end.

Definition tracked (tr : ABTesting.test_results) (cid variant metric : string)
  : option pynum :=
  match variant_data tr cid variant with
  | None => None
  | Some d => PyDict.get (ABTesting.metrics d) metric
  end.

(** Successive reconciliations of one counter: each reported count is
    recorded in turn. *)
Definition record_all (tr : ABTesting.test_results) (now cid variant event : string)
    (counts : list Z) : ABTesting.test_results :=
  fold_left (fun t count => fst (ABTesting.record_event t now cid variant event count))
    counts tr.

(** ** Specification vocabulary for scores *)

(** A score that compares with nothing. *)
Definition score_is_nan (v : pynum) : bool :=
  match pynum_value v with XNaN => true | _ => false end.

(** The score [get_winner] reads from an item of the metrics dictionary. *)
Definition score (primary_metric : string) (item : string * ABTesting.Row) : pynum :=
  ABTesting.row_get (snd item) primary_metric.

(** ** Specification vocabulary for the metrics dictionary *)

(** A row holds the counters of a variant and the four guarded rates
    computed from them. *)
Definition row_of (data : ABTesting.VariantData) (row : ABTesting.Row) : Prop :=
  ABTesting.row_sent row = ABTesting.sent data
  /\ ABTesting.row_opened row = ABTesting.opened data
  /\ ABTesting.row_clicked row = ABTesting.clicked data
  /\ ABTesting.row_converted row = ABTesting.converted data
  /\ percent_rate (ABTesting.opened data) (ABTesting.sent data)
     = Ok (ABTesting.open_rate row)
  /\ percent_rate (ABTesting.clicked data) (ABTesting.sent data)
     = Ok (ABTesting.click_rate row)
  /\ percent_rate (ABTesting.converted data) (ABTesting.sent data)
     = Ok (ABTesting.conversion_rate row)
  /\ percent_rate (ABTesting.clicked data) (ABTesting.opened data)
     = Ok (ABTesting.click_through_rate row).

(** Counters small enough for the float division to return. *)
Definition counters_bounded (data : ABTesting.VariantData) : Prop :=
  Z.abs (ABTesting.opened data) < 2 ^ 1023
  /\ Z.abs (ABTesting.clicked data) < 2 ^ 1023
  /\ Z.abs (ABTesting.converted data) < 2 ^ 1023.

(** Two dictionaries with the same keys in the same order, entry by entry
    a variant and its row. *)
Definition rows_of (vs : PyDict.t ABTesting.VariantData)
    (rows : PyDict.t ABTesting.Row) : Prop :=
  Forall2 (fun kv kr => fst kv = fst kr /\ row_of (snd kv) (snd kr)) vs rows.


(** [f] is a binary64 number nearest to the rational [r]: it is finite, and
    no finite binary64 number is closer to [r]. *)
Definition nearest_float (r : Q) (f : float) : Prop :=
  exists x,
    float_value f = XFin x
    /\ forall g y, float_value g = XFin y -> (Qabs (x - r) <= Qabs (y - r))%Q.

(** [f] is [x] rounded to two decimals: with [n] the integer nearest to a
    hundred times the exact value of [x], the even one of the two when [x]
    lies half way, [f] is a binary64 number nearest to [n / 100].  An
    infinity or a NaN is left as it is. *)
Definition rounded_to_2_decimals (x f : float) : Prop :=
  match float_value x with
  | XFin vx =>
      exists n : Z,
        (Qabs (inject_Z n - 100 * vx) <= 1 # 2)%Q
        /\ ((Qabs (inject_Z n - 100 * vx) == 1 # 2)%Q -> Z.even n = true)
        /\ nearest_float (n # 100) f
  | _ => f = x
  end.

(** [v] is the rate of [num] over [den] as the code computes it: the
    integer [0] when [den] is not positive; otherwise the binary64 quotient
    nearest to [num / den], times 100 in binary64 arithmetic, rounded to
    two decimals. *)
Definition rate_rounded (num den : Z) (v : pynum) : Prop :=
  (den <= 0 -> v = PInt 0)
  /\ (0 < den ->
      exists q f,
        v = PFloat f
        /\ nearest_float (inject_Z num / inject_Z den) q
        /\ rounded_to_2_decimals (PrimFloat.mul q 100%float) f).

(** Counters as they stand after 100 sends and 23 opens of variant A. *)
Definition demo_results : ABTesting.test_results :=
  fst (ABTesting.record_event
         (fst (ABTesting.record_event PyDict.empty "2024-01-01T00:00:00"
                 "c1" "A" "sent" 100))
         "2024-01-01T00:00:00" "c1" "A" "opened" 23).

(** Counters after 160 sends and 23 opens of variant A, and after one send
    and [2^1024] opens. *)
Definition opens_23_of_160 : ABTesting.test_results :=
  fst (ABTesting.record_event
         (fst (ABTesting.record_event PyDict.empty "2024-01-01T00:00:00"
                 "c1" "A" "sent" 160))
         "2024-01-01T00:00:00" "c1" "A" "opened" 23).

Definition opens_beyond_floats : ABTesting.test_results :=
  fst (ABTesting.record_event
         (fst (ABTesting.record_event PyDict.empty "2024-01-01T00:00:00"
                 "c1" "A" "sent" 1))
         "2024-01-01T00:00:00" "c1" "A" "opened" (2 ^ 1024)).

(** Two variants at 2 opens out of 10 sends each: B recorded first, and A
    recorded first. *)
Definition record_sends_and_opens (tr : ABTesting.test_results) (variant : string)
  : ABTesting.test_results :=
  fst (ABTesting.record_event
         (fst (ABTesting.record_event tr "2024-01-01T00:00:00"
                 "c1" variant "sent" 10))
         "2024-01-01T00:00:00" "c1" variant "opened" 2).

Definition tied_B_first : ABTesting.test_results :=
  record_sends_and_opens (record_sends_and_opens PyDict.empty "B") "A".

Definition tied_A_first : ABTesting.test_results :=
  record_sends_and_opens (record_sends_and_opens PyDict.empty "A") "B".

(** ** Specification vocabulary for batch sending *)

Module BatchSpec.

(** The call [send_batch] makes for a recipient that has an address. *)
Definition call_of (subject body variant campaign_id : string)
    (recipient : Recipient) : SendGrid.SendCall :=
  {| SendGrid.to_email := PyDict.get_default recipient "email" "";
     SendGrid.to_name := PyDict.get_default recipient "name" "Customer";
     SendGrid.subject := subject; SendGrid.body := body;
     SendGrid.variant := variant; SendGrid.campaign_id := campaign_id |}.

(** The calls a batch is expected to make: one per recipient with an
    address, in the order of the group. *)
Definition attempts (email_content : Content) (variant campaign_id : string)
    (recipients : list Recipient) : list SendGrid.SendCall :=
  map (call_of (SendGrid.batch_subject email_content)
         (SendGrid.batch_body email_content) variant campaign_id)
    (filter SendGrid.has_email recipients).

(** The sender's answers to a list of calls made one after the other. *)
Fixpoint answers {S} (send_email : S -> SendGrid.SendCall -> S * SendGrid.SendResult)
    (s : S) (calls : list SendGrid.SendCall) : S * list SendGrid.SendResult :=
  match calls with
  | [] => (s, [])
  | c :: rest =>
      let (s', r) := send_email s c in
      let (s'', rs) := answers send_email s' rest in
      (s'', r :: rs)
  end.

(** The entry recorded for a call and its answer. *)
Definition outcome_of (c : SendGrid.SendCall) (r : SendGrid.SendResult)
  : SendGrid.Outcome :=
  {| SendGrid.o_email := SendGrid.to_email c;
     SendGrid.o_success := SendGrid.success r;
     SendGrid.o_message_id := SendGrid.message_id r;
     SendGrid.o_status_code := SendGrid.status_code r;
     SendGrid.o_error := SendGrid.error r |}.

Fixpoint outcomes (calls : list SendGrid.SendCall) (rs : list SendGrid.SendResult)
  : list SendGrid.Outcome :=
  match calls, rs with
  | c :: calls', r :: rs' => outcome_of c r :: outcomes calls' rs'
  | _, _ => []
  end.

Definition successes (rs : list SendGrid.SendResult) : Z :=
  Z.of_nat (List.length (filter SendGrid.success rs)).

Definition failures (rs : list SendGrid.SendResult) : Z :=
  Z.of_nat (List.length (filter (fun r => negb (SendGrid.success r)) rs)).

(** Recipients [send_batch] skips. *)
Definition without_email (recipients : list Recipient) : Z :=
  Z.of_nat (List.length (filter (fun r => negb (SendGrid.has_email r)) recipients)).

(** A sender that accepts every address but one. *)
Definition rejects (bad : string) (n : nat) (c : SendGrid.SendCall)
  : nat * SendGrid.SendResult :=
  (S n,
   if String.eqb (SendGrid.to_email c) bad
   then {| SendGrid.success := false; SendGrid.message_id := None;
           SendGrid.status_code := Some 400;
           SendGrid.error := Some "SendGrid returned status 400" |}
   else {| SendGrid.success := true; SendGrid.message_id := Some "msg";
           SendGrid.status_code := Some 202; SendGrid.error := None |}).

Definition recipient_with (email : string) : Recipient :=
  [("name", "Customer"); ("email", email)].

Definition ten_recipients : list Recipient :=
  map recipient_with
    ["r1@example.com"; "r2@example.com"; "r3@example.com"; "r4@example.com";
     "r5@example.com"; "r6@example.com"; "r7@example.com"; "r8@example.com";
     "r9@example.com"; "r10@example.com"].

Definition demo_content : Content :=
  [("subject", "Hello"); ("body", "An update for you.")].

End BatchSpec.

(** ** Specification vocabulary for the orchestrator *)

Module OrchSpec.

Import Orchestrator.

(** The machine with another campaign state, and with another status. *)
Definition with_state {W} (s : CampaignState) (m : Machine W) : Machine W :=
  {| world := world m; send_log := send_log m;
     test_results := test_results m; state := s |}.

Definition with_world {W} (w : W) (m : Machine W) : Machine W :=
  {| world := w; send_log := send_log m;
     test_results := test_results m; state := state m |}.

(** What a failing stage leaves behind: the message and status "error". *)
Definition failed_with (what : string) (e : exn) (s : CampaignState)
  : CampaignState :=
  set_status "error" (set_error (what ++ exn_str e)%string s).

(** A computation leaves a view of the machine as it was. *)
Definition preserves {W P A} (view : Machine W -> P) (c : M W A) : Prop :=
  forall m, view (fst (c m)) = view m.

(** The view does not look at the world. *)
Definition ignores_world {W P} (view : Machine W -> P) : Prop :=
  forall m w, view (with_world w m) = view m.

(** A computation adds exactly these attempts to the send log. *)
Definition appends {W A} (attempts : list SendAttempt) (c : M W A) : Prop :=
  forall m, send_log (fst (c m)) = (send_log m ++ attempts)%list.

(** Collaborators for the examples: the world counts the calls made; the
    strategy call fails when [strategy_fails] is set, and the mail provider
    accepts everything. *)
Definition demo_recipients : list Recipient :=
  [[("name", "Ann"); ("email", "ann@example.com")];
   [("name", "Bob"); ("email", "bob@example.com")]].

Definition demo (strategy_fails : bool) : Collaborators nat :=
  {| uuid8 := fun w => (S w, "c0ffee00");
     now_iso := fun w => (S w, "2024-01-01T00:00:00");
     create_strategy := fun w brief_text =>
       (S w, if strategy_fails then Raise (ExternalError "model unavailable")
             else Ok (Some (PDict [("objectives", PStr brief_text)])));
     segment_audience := fun w _ _ =>
       (S w, Ok {| selected_segment := Some demo_recipients;
                   segment_info := PDict [] |});
     shuffle := fun w l => (S w, rev l);
     generate_email_content := fun w _ _ variant _ =>
       (S w, Ok [("subject", ("Offer " ++ variant)%string); ("body", "Hello")]);
     full_check := fun w _ _ => (S w, Ok (PDict [("passed", PBool false)]));
     sendgrid_send_email := fun w c =>
       (S w, {| SendGrid.success := true; SendGrid.message_id := Some "msg";
                SendGrid.status_code := Some 202; SendGrid.error := None |});
     smtp_send_email := fun w _ => (S w, true);
     get_campaign_metrics := fun w _ ids _ =>
       (S w, Ok {| pm_opened := 1; pm_clicked := 0; pm_bounced := 0;
                   pm_other := PDict [] |});
     log_opens_and_clicks_from_metrics := fun w _ _ _ _ => (S w, Ok tt);
     scaled_random := fun w n lo _ => (S w, Ok (n * lo / 100));
     save_results := fun w _ _ => (S w, Ok tt);
     generate_campaign_report := fun w _ _ _ checks =>
       (S w, Ok (PDict [("deliverability", PDict checks)]));
     repr_errors := fun _ => "[...]" |}.

Definition start : Machine nat :=
  {| world := 0%nat; send_log := []; test_results := PyDict.empty;
     state := initial_state "" "" "" |}.

End OrchSpec.

(** ** Specification vocabulary for dispatch *)

Module DispatchSpec.

Import Orchestrator OrchSpec.

(** A sender's run on the world alone, put back into the machine it
    started from. *)
Definition embed_sendgrid {W} (m : Machine W) (st : W * list SendGrid.SendCall)
  : Machine W :=
  {| world := fst st;
     send_log := (send_log m ++ map ViaSendGrid (snd st))%list;
     test_results := test_results m; state := state m |}.

Definition embed_smtp {W} (m : Machine W) (st : W * list Smtp.SendCall)
  : Machine W :=
  {| world := fst st;
     send_log := (send_log m ++ map ViaSmtp (snd st))%list;
     test_results := test_results m; state := state m |}.

(** The call the SMTP batch makes for a recipient. *)
Definition smtp_call_of (email_content : Content) (recipient : Recipient)
  : Smtp.SendCall :=
  {| Smtp.to_email := PyDict.get_default recipient "email" "";
     Smtp.to_name := PyDict.get_default recipient "name" "Customer";
     Smtp.subject := PyDict.get_default email_content "subject" "No Subject";
     Smtp.body := match PyDict.get email_content "full_content" with
                  | Some b => b
                  | None => PyDict.get_default email_content "body" ""
                  end |}.

(** The send attempts one call of [send_variant] is expected to make:
    none when the variant is unknown or its group or content is empty;
    otherwise one per recipient (SMTP) or per recipient with an address
    (SendGrid).  The sent flag plays no part. *)
Definition dispatch_attempts (use_sendgrid : bool) (s : CampaignState)
    (variant : string) : list SendAttempt :=
  match PyDict.get (ab_test_groups s) variant,
        PyDict.get (email_variants s) variant with
  | Some recipients, Some content =>
      match recipients, content with
      | [], _ => []
      | _, [] => []
      | _, _ =>
          if use_sendgrid
          then map ViaSendGrid
                 (BatchSpec.attempts content variant (campaign_id s) recipients)
          else map ViaSmtp (map (smtp_call_of content) recipients)
      end
  | _, _ => []
  end.

(** A campaign state ready to dispatch variant A to two recipients, and
    the same with A already marked sent. *)
Definition ready_state : CampaignState :=
  set_email_variants [("A", [("subject", "Offer A"); ("body", "Hello")])]
    (set_ab_test_groups [("A", demo_recipients)]
       (initial_state "c0ffee00" "Spring sale" "audience.csv")).

Definition ready : Machine nat := with_state ready_state start.

Definition already_sent : Machine nat :=
  with_state (mark_sent "A" ready_state) start.

End DispatchSpec.

(** ** Specification vocabulary for the advisory check *)

Module AdvisorySpec.

Import Orchestrator OrchSpec.

(** The machine with another deliverability check result. *)
Definition with_check {W} (d : PyDict.t pyobj) (m : Machine W) : Machine W :=
  with_state (set_deliverability_check d (state m)) m.

(** The campaign state without the check result and without what the
    report step writes from it. *)
Definition blank_state (s : CampaignState) : CampaignState :=
  set_deliverability_check PyDict.empty
    (set_campaign_report PNone (set_status "" (set_error "" s))).

(** What a dispatch leaves of the sends: the attempts made, the counters
    of the A/B testing agent, and every field of the campaign state but the
    check result, the report, the status and the error text. *)
Definition send_view {W} (m : Machine W)
  : list SendAttempt * ABTesting.test_results * CampaignState :=
  (send_log m, test_results m, blank_state (state m)).

(** A computation that does the same whatever the check result is. *)
Definition commutes {W A} (c : M W A) : Prop :=
  forall d m, c (with_check d m) = (with_check d (fst (c m)), snd (c m)).

(** A computation whose sends do not depend on the check result. *)
Definition independent {W A} (c : M W A) : Prop :=
  forall d m, send_view (fst (c (with_check d m))) = send_view (fst (c m)).

(** A check result in which every variant failed. *)
Definition all_failed : PyDict.t pyobj :=
  [("A", PDict [("passed", PBool false)]); ("B", PDict [("passed", PBool false)])].

End AdvisorySpec.

(** ** Specification vocabulary for the error entries of a batch *)

Module BatchErrors.

(** The entry recorded for a recipient without an address, and the entry
    recorded for a refused call. *)
Definition no_address : SendGrid.ErrorEntry :=
  {| SendGrid.err_email := Some "N/A"; SendGrid.err_error := "No email address" |}.

Definition refused (c : SendGrid.SendCall) (r : SendGrid.SendResult)
  : SendGrid.ErrorEntry :=
  {| SendGrid.err_email := Some (SendGrid.to_email c);
     SendGrid.err_error := match SendGrid.error r with
                           | Some m => m
                           | None => "Unknown error"
                           end |}.

(** The error entries expected of a batch, in the order of the group;
    [rs] are the sender's answers to the calls made. *)
Fixpoint expected (call : Recipient -> SendGrid.SendCall)
    (recipients : list Recipient) (rs : list SendGrid.SendResult)
  : list SendGrid.ErrorEntry :=
  match recipients with
  | [] => []
  | x :: rest =>
      if SendGrid.has_email x then
        match rs with
        | r :: rs' =>
            if SendGrid.success r then expected call rest rs'
            else refused (call x) r :: expected call rest rs'
        | [] => []
        end
      else no_address :: expected call rest rs
  end.

(** The message ids expected: one per accepted call answered with an id. *)
Fixpoint accepted_ids (calls : list SendGrid.SendCall)
    (rs : list SendGrid.SendResult) : list (string * string) :=
  match calls, rs with
  | c :: calls', r :: rs' =>
      match SendGrid.message_id r with
      | Some m =>
          if SendGrid.success r && str_truthy m
          then (SendGrid.to_email c, m) :: accepted_ids calls' rs'
          else accepted_ids calls' rs'
      | None => accepted_ids calls' rs'
      end
  | _, _ => []
  end.

End BatchErrors.

(** ** Specification vocabulary for the SMTP batch *)

Module SmtpSpec.

(** The sender's answers to a list of calls made one after the other. *)
Fixpoint answers {S} (send_email : S -> Smtp.SendCall -> S * bool)
    (s : S) (calls : list Smtp.SendCall) : S * list bool :=
  match calls with
  | [] => (s, [])
  | c :: rest =>
      let (s', ok) := send_email s c in
      let (s'', oks) := answers send_email s' rest in
      (s'', ok :: oks)
  end.

(** The lines of [results["errors"]]: one per refused call. *)
Fixpoint error_lines (calls : list Smtp.SendCall) (oks : list bool) : list string :=
  match calls, oks with
  | c :: calls', ok :: oks' =>
      if ok then error_lines calls' oks'
      else String.append "Failed to send to " (Smtp.to_email c)
           :: error_lines calls' oks'
  | _, _ => []
  end.

Definition accepted (oks : list bool) : Z :=
  Z.of_nat (List.length (filter (fun ok => ok) oks)).

(** A sender that refuses the empty address and accepts the others. *)
Definition needs_address (n : nat) (c : Smtp.SendCall) : nat * bool :=
  (S n, str_truthy (Smtp.to_email c)).

End SmtpSpec.

(** ** Specification vocabulary for the manual send *)

Module SendSpec.

Import Orchestrator OrchSpec.

(** Why [send_variant] does not send, when it does not: the message it
    leaves in [error]. *)
Definition refusal (s : CampaignState) (variant : string) : option string :=
  match PyDict.get (ab_test_groups s) variant,
        PyDict.get (email_variants s) variant with
  | Some recipients, Some content =>
      match recipients, content with
      | [], _ => Some ("No recipients found for Variant " ++ variant)%string
      | _, [] => Some ("No email content found for Variant " ++ variant)%string
      | _, _ => None
      end
  | _, _ => Some ("Variant " ++ variant ++ " not found")%string
  end.

(** The number of emails the provider accepts when the group of [variant]
    is sent from machine [m]. *)
Definition accepted {W} (C : Collaborators W) (use_sendgrid : bool)
    (m : Machine W) (variant : string) : Z :=
  match PyDict.get (ab_test_groups (state m)) variant,
        PyDict.get (email_variants (state m)) variant with
  | Some recipients, Some content =>
      if use_sendgrid
      then BatchSpec.successes
             (snd (BatchSpec.answers (sendgrid_send_email C) (world m)
                     (BatchSpec.attempts content variant (campaign_id (state m))
                        recipients)))
      else SmtpSpec.accepted
             (snd (SmtpSpec.answers (smtp_send_email C) (world m)
                     (map (DispatchSpec.smtp_call_of content) recipients)))
  | _, _ => 0
  end.

(** The "sent" counter of a variant as the A/B testing agent holds it. *)
Definition sent_count {W} (m : Machine W) (cid variant : string) : Z :=
  ABTesting.counter (test_results m) cid variant "sent".

(** Collaborators whose mail provider refuses every call. *)
Definition refusing : Collaborators nat :=
  {| uuid8 := uuid8 (demo false);
     now_iso := now_iso (demo false);
     create_strategy := create_strategy (demo false);
     segment_audience := segment_audience (demo false);
     shuffle := shuffle (demo false);
     generate_email_content := generate_email_content (demo false);
     full_check := full_check (demo false);
     sendgrid_send_email := fun w c =>
       (S w, {| SendGrid.success := false; SendGrid.message_id := None;
                SendGrid.status_code := Some 401;
                SendGrid.error := Some "SendGrid returned status 401" |});
     smtp_send_email := fun w _ => (S w, false);
     get_campaign_metrics := get_campaign_metrics (demo false);
     log_opens_and_clicks_from_metrics :=
       log_opens_and_clicks_from_metrics (demo false);
     scaled_random := scaled_random (demo false);
     save_results := save_results (demo false);
     generate_campaign_report := generate_campaign_report (demo false);
     repr_errors := repr_errors (demo false) |}.

End SendSpec.

(** ** Specification vocabulary for the processing of results *)

Module ResultsSpec.

Import Orchestrator OrchSpec.

(** The count the provider reports for a counter of the A/B testing
    agent. *)
Definition reported (pm : ProviderMetrics) (event : string) : Z :=
  if String.eqb event "opened" then pm_opened pm
  else if String.eqb event "clicked" then pm_clicked pm
  else 0.

(** A variant whose results [process_results] fetches: it is marked sent
    and message ids are stored for it. *)
Definition fetched (s : CampaignState) (variant : string) : bool :=
  is_sent s variant
  && match PyDict.get_default (or_empty (sendgrid_message_ids s)) variant [] with
     | [] => false
     | _ => true
     end.

(** What [process_results] reads of the campaign state to decide what to
    fetch. *)
Definition inputs (s : CampaignState) :=
  (ab_test_groups s, sendgrid_message_ids s, variant_sent s, campaign_id s).

(** One more run of [process_results] over SendGrid. *)
Definition again {W} (C : Collaborators W) (m : Machine W) : Machine W :=
  fst (process_results C true m).

(** Variant A of the demo campaign, sent. *)
Definition sent_A : Machine nat :=
  fst (send_variant (demo false) true false "A" DispatchSpec.ready).

End ResultsSpec.

(* ===================================================================== *)
(** ** Python string methods on ASCII text *)
(* ===================================================================== *)

(** The functions below follow [str.lower], [str.isupper], [in],
    [str.count], [str.startswith] and [len] on text whose characters are all
    ASCII; a character outside ASCII is left alone by [lower] and is not
    upper case.  The properties that depend on letter case say so with
    [is_ascii]. *)

Definition code (c : Ascii.ascii) : Z := Z.of_nat (Ascii.nat_of_ascii c).

Definition is_ascii_char (c : Ascii.ascii) : bool := code c <? 128.

Fixpoint is_ascii (s : string) : bool :=
  match s with
  | EmptyString => true
  | String c s' => is_ascii_char c && is_ascii s'
  end.

(** [c.isupper()] *)
Definition isupper (c : Ascii.ascii) : bool := (65 <=? code c) && (code c <=? 90).

Definition lower_char (c : Ascii.ascii) : Ascii.ascii :=
  if isupper c then Ascii.ascii_of_nat (Ascii.nat_of_ascii c + 32) else c.

(** [s.lower()] *)
Fixpoint lower (s : string) : string :=
  match s with
  | EmptyString => EmptyString
  | String c s' => String (lower_char c) (lower s')
  end.

(** [len(s)] *)
Definition len (s : string) : Z := Z.of_nat (String.length s).

(** [sum(1 for c in s if c.isupper())] *)
Fixpoint count_upper (s : string) : Z :=
  match s with
  | EmptyString => 0
  | String c s' => (if isupper c then 1 else 0) + count_upper s'
  end.

(** [sub in s] *)
Fixpoint contains (sub s : string) : bool :=
  String.prefix sub s
  || match s with
     | EmptyString => false
     | String _ s' => contains sub s'
     end.

(** [s.count(sub)]: the occurrences of [sub] found from left to right, each
    search starting after the end of the occurrence before it; [skip] is
    what is left of the occurrence just counted. *)
Fixpoint count_from (sub s : string) (skip : nat) : Z :=
  match s with
  | EmptyString => 0
  | String _ s' =>
      match skip with
      | S k => count_from sub s' k
      | O => if String.prefix sub s
             then 1 + count_from sub s' (String.length sub - 1)
             else count_from sub s' 0
      end
  end.

Definition py_count (s sub : string) : Z :=
  if String.eqb sub "" then len s + 1 else count_from sub s 0.

(** [a < b] on Python numbers. *)
Definition py_lt (a b : pynum) : bool := xlt (pynum_value a) (pynum_value b).

(* ===================================================================== *)
(** ** Regular expressions, as far as the address pattern needs them *)
(* ===================================================================== *)

Module Regex.

Import Ascii.

Inductive t : Type :=
| Nothing
| Epsilon
| Sym (p : Ascii.ascii -> bool)
| Cat (a b : t)
| Alt (a b : t)
| Star (a : t).

(** [a+] and [a{2,}] *)
Definition plus (a : t) : t := Cat a (Star a).
Definition two_or_more (a : t) : t := Cat a (Cat a (Star a)).

Fixpoint nullable (r : t) : bool :=
  match r with
  | Nothing => false
  | Epsilon => true
  | Sym _ => false
  | Cat a b => nullable a && nullable b
  | Alt a b => nullable a || nullable b
  | Star _ => true
  end.

(** What is left of [r] after the character [c]. *)
Fixpoint deriv (c : Ascii.ascii) (r : t) : t :=
  match r with
  | Nothing => Nothing
  | Epsilon => Nothing
  | Sym p => if p c then Epsilon else Nothing
  | Cat a b =>
      if nullable a then Alt (Cat (deriv c a) b) (deriv c b)
      else Cat (deriv c a) b
  | Alt a b => Alt (deriv c a) (deriv c b)
  | Star a => Cat (deriv c a) (Star a)
  end.

(** [r] covers the whole of [s]. *)
Fixpoint full (r : t) (s : string) : bool :=
  match s with
  | EmptyString => nullable r
  | String c s' => full (deriv c r) s'
  end.

(** [s] without the newline that ends it, when one does. *)
Fixpoint before_final_newline (s : string) : option string :=
  match s with
  | EmptyString => None
  | String c s' =>
      match s' with
      | EmptyString => if Ascii.eqb c "010" then Some EmptyString else None
      | _ => option_map (String c) (before_final_newline s')
      end
  end.

(** [re.match("^r$", s)]: [$] stands at the end of the string and also just
    before a newline that ends it. *)
Definition py_match (r : t) (s : string) : bool :=
  full r s
  || match before_final_newline s with
     | Some s' => full r s'
     | None => false
     end.

Definition in_range (lo hi : Ascii.ascii) (c : Ascii.ascii) : bool :=
  (code lo <=? code c) && (code c <=? code hi).

Definition one_of (chars : string) (c : Ascii.ascii) : bool :=
  existsb (Ascii.eqb c) (list_ascii_of_string chars).

End Regex.

(* ===================================================================== *)
(** ** agents/deliverability_agent.py *)
(* ===================================================================== *)

Module Deliverability.

Import Ascii.

Definition spam_keywords : list string :=
  ["free"; "urgent"; "act now"; "limited time"; "click here";
   "buy now"; "guarantee"; "winner"; "congratulations"; "prize"].

(** The result dictionaries, one record each. *)
Module AddressCheck.
Record t : Type := {
  email : string;
  valid : bool;
  errors : list string;
  normalized : option string    (* the key is set only for a valid address *)
}.
End AddressCheck.

Module SpamCheck.
Record t : Type := {
  spam_score : Z;
  risk_level : string;
  warnings : list string;
  issues : list string;
  passed : bool
}.
End SpamCheck.

Module ComplianceCheck.
Record t : Type := {
  compliant : bool;
  issues : list string;
  unsubscribe_present : bool;
  sender_info_present : bool;
  subject_clear : bool
}.
End ComplianceCheck.

Module InvalidEmail.
Record t : Type := {
  email : string;
  errors : list string
}.
End InvalidEmail.

Module ListCheck.
Record t : Type := {
  total : Z;
  valid : Z;
  invalid : Z;
  valid_emails : list Recipient;
  invalid_emails : list InvalidEmail.t;
  validation_rate : pynum
}.
End ListCheck.

Module FullCheck.
Record t : Type := {
  passed : bool;
  spam_check : SpamCheck.t;
  compliance_check : ComplianceCheck.t;
  validation_check : ListCheck.t;
  recommendations : list string
}.
End FullCheck.

(** *** [validate_email_address] *)

(** [[a-zA-Z0-9._%+-]] and [[a-zA-Z0-9.-]] *)
Definition letter (c : Ascii.ascii) : bool :=
  Regex.in_range "a" "z" c || Regex.in_range "A" "Z" c.

Definition local_char (c : Ascii.ascii) : bool :=
  letter c || Regex.in_range "0" "9" c || Regex.one_of "._%+-" c.

Definition domain_char (c : Ascii.ascii) : bool :=
  letter c || Regex.in_range "0" "9" c || Regex.one_of ".-" c.

(** [^[a-zA-Z0-9._%+-]+@[a-zA-Z0-9.-]+\.[a-zA-Z]{2,}$] *)
Definition email_pattern : Regex.t :=
  Regex.Cat (Regex.plus (Regex.Sym local_char))
    (Regex.Cat (Regex.Sym (Ascii.eqb "@"))
       (Regex.Cat (Regex.plus (Regex.Sym domain_char))
          (Regex.Cat (Regex.Sym (Ascii.eqb "."))
             (Regex.two_or_more (Regex.Sym letter))))).

Section Agent.

(** [validate_email(email, check_deliverability=False)] of the
    email-validator library: the normalized address, or the text of the
    [EmailNotValidError] it raises. *)
Variable validate_email : string -> string + string.

Definition validate_email_address (email : string) : AddressCheck.t :=
  if negb (Regex.py_match email_pattern email)
  then {| AddressCheck.email := email; AddressCheck.valid := false;
          AddressCheck.errors := ["Invalid email format"];
          AddressCheck.normalized := None |}
  else
    match validate_email email with
    | inl n =>
        {| AddressCheck.email := email; AddressCheck.valid := true;
           AddressCheck.errors := []; AddressCheck.normalized := Some n |}
    | inr msg =>
        {| AddressCheck.email := email; AddressCheck.valid := false;
           AddressCheck.errors := [msg]; AddressCheck.normalized := None |}
    end.

(** *** [check_spam_score] *)

(** [sum(1 for c in subject if c.isupper()) / len(subject) if subject else 0] *)
Definition caps_ratio (subject : string) : result pynum :=
  if str_truthy subject
  then match int_true_div (count_upper subject) (len subject) with
       | Ok q => Ok (PFloat q)
       | Raise e => Raise e
       end
  else Ok (PInt 0).

Definition risk_of (spam_score : Z) : string :=
  if spam_score <? 10 then "Low"
  else if spam_score <? 20 then "Medium"
  else "High".

Definition check_spam_score (email_content : Content) : result SpamCheck.t :=
  let spam_score := 0 in
  let warnings : list string := [] in
  let issues : list string := [] in
  let subject := lower (PyDict.get_default email_content "subject" "") in
  let body := lower (PyDict.get_default email_content "body" "") in
  let full_text := subject ++ " " ++ body in
  let found_keywords := filter (fun kw => contains kw full_text) spam_keywords in
  let '(spam_score, warnings) :=
    match found_keywords with
    | [] => (spam_score, warnings)
    | _ => (spam_score + Z.of_nat (List.length found_keywords) * 5,
            (warnings ++ [("Spam keywords detected: "
                             ++ String.concat ", " found_keywords)%string])%list)
    end in
  match caps_ratio subject with
  | Raise e => Raise e
  | Ok ratio =>
      let '(spam_score, issues) :=
        if py_gt ratio (PFloat 0.5)
        then (spam_score + 10,
              (issues ++ ["Excessive capitalization in subject"])%list)
        else (spam_score, issues) in
      let exclamation_count := py_count subject "!" + py_count body "!" in
      let '(spam_score, issues) :=
        if 3 <? exclamation_count
        then (spam_score + 5, (issues ++ ["Too many exclamation marks"])%list)
        else (spam_score, issues) in
      let '(spam_score, warnings) :=
        if 50 <? len (PyDict.get_default email_content "subject" "")
        then (spam_score + 3,
              (warnings
                 ++ ["Subject line is too long (recommended: <50 characters)"])%list)
        else (spam_score, warnings) in
      let link_count := py_count body "http://" + py_count body "https://" in
      let '(spam_score, warnings) :=
        if 3 <? link_count
        then (spam_score + 5, (warnings ++ ["Too many links in email body"])%list)
        else (spam_score, warnings) in
      Ok {| SpamCheck.spam_score := spam_score;
            SpamCheck.risk_level := risk_of spam_score;
            SpamCheck.warnings := warnings;
            SpamCheck.issues := issues;
            SpamCheck.passed := spam_score <? 20 |}
  end.

(** *** [check_compliance] *)

(** [self.compliance_checks["unsubscribe_required"]] *)
Definition unsubscribe_required : bool := true.

Definition unsubscribe_keywords : list string :=
  ["unsubscribe"; "opt-out"; "opt out"; "remove"].

Definition starts_re_or_fwd (subject : string) : bool :=
  String.prefix "Re:" subject || String.prefix "Fwd:" subject.

Definition check_compliance (email_content : Content) : ComplianceCheck.t :=
  let compliance_issues : list string := [] in
  let passed := true in
  let body := lower (PyDict.get_default email_content "body" "") in
  let footer := lower (PyDict.get_default email_content "footer" "") in
  let full_text := body ++ " " ++ footer in
  let has_unsubscribe :=
    existsb (fun kw => contains kw full_text) unsubscribe_keywords in
  let '(compliance_issues, passed) :=
    if negb has_unsubscribe && unsubscribe_required
    then ((compliance_issues ++ ["Missing unsubscribe link/option"])%list, false)
    else (compliance_issues, passed) in
  let '(compliance_issues, passed) :=
    if negb (str_truthy (PyDict.get_default email_content "footer" ""))
    then ((compliance_issues ++ ["Missing sender information in footer"])%list,
          false)
    else (compliance_issues, passed) in
  let subject := PyDict.get_default email_content "subject" "" in
  let compliance_issues :=
    if starts_re_or_fwd subject
    then (compliance_issues
            ++ ["Subject line may be misleading (starts with Re: or Fwd:)"])%list
    else compliance_issues in
  {| ComplianceCheck.compliant := passed;
     ComplianceCheck.issues := compliance_issues;
     ComplianceCheck.unsubscribe_present := has_unsubscribe;
     ComplianceCheck.sender_info_present :=
       opt_truthy (PyDict.get email_content "footer");
     ComplianceCheck.subject_clear := negb (starts_re_or_fwd subject) |}.

(** *** [validate_recipient_list] *)

Definition validate_one (st : list Recipient * list InvalidEmail.t)
    (recipient : Recipient) : list Recipient * list InvalidEmail.t :=
  let '(valid_emails, invalid_emails) := st in
  let email := PyDict.get_default recipient "email" "" in
  let validation := validate_email_address email in
  if AddressCheck.valid validation
  then ((valid_emails ++ [recipient])%list, invalid_emails)
  else (valid_emails,
        (invalid_emails
           ++ [{| InvalidEmail.email := email;
                  InvalidEmail.errors := AddressCheck.errors validation |}])%list).

(** [(len(valid_emails) / len(recipients) * 100) if recipients else 0] *)
Definition rate_of (n_valid n_recipients : Z) : result pynum :=
  if n_recipients =? 0 then Ok (PInt 0)
  else match int_true_div n_valid n_recipients with
       | Ok q => Ok (PFloat (PrimFloat.mul q 100%float))
       | Raise e => Raise e
       end.

Definition validate_recipient_list (recipients : list Recipient)
  : result ListCheck.t :=
  let '(valid_emails, invalid_emails) := fold_left validate_one recipients ([], []) in
  match rate_of (Z.of_nat (List.length valid_emails))
                (Z.of_nat (List.length recipients)) with
  | Raise e => Raise e
  | Ok rate =>
      Ok {| ListCheck.total := Z.of_nat (List.length recipients);
            ListCheck.valid := Z.of_nat (List.length valid_emails);
            ListCheck.invalid := Z.of_nat (List.length invalid_emails);
            ListCheck.valid_emails := valid_emails;
            ListCheck.invalid_emails := invalid_emails;
            ListCheck.validation_rate := rate |}
  end.

(** *** [_generate_recommendations] and [full_check] *)

Definition _generate_recommendations (spam_check : SpamCheck.t)
    (compliance_check : ComplianceCheck.t) (validation_check : ListCheck.t)
  : list string :=
  let recommendations : list string := [] in
  let recommendations :=
    if negb (SpamCheck.passed spam_check)
    then (recommendations
            ++ ["Reduce spam keywords and improve content quality"])%list
    else recommendations in
  let recommendations :=
    if 10 <? SpamCheck.spam_score spam_check
    then (recommendations
            ++ ["Consider simplifying subject line and reducing promotional language"])%list
    else recommendations in
  let recommendations :=
    if negb (ComplianceCheck.compliant compliance_check)
    then (recommendations
            ++ ["Add unsubscribe link and ensure sender information is present"])%list
    else recommendations in
  let recommendations :=
    if py_lt (ListCheck.validation_rate validation_check) (PInt 95)
    then (recommendations ++ ["Review and clean invalid email addresses"])%list
    else recommendations in
  match recommendations with
  | [] => ["Email is ready to send!"]
  | _ => recommendations
  end.

Definition full_check (email_content : Content) (recipients : list Recipient)
  : result FullCheck.t :=
  match check_spam_score email_content with
  | Raise e => Raise e
  | Ok spam_check =>
      let compliance_check := check_compliance email_content in
      match validate_recipient_list recipients with
      | Raise e => Raise e
      | Ok validation_check =>
          let all_passed :=
            SpamCheck.passed spam_check
            && ComplianceCheck.compliant compliance_check
            && py_gt (ListCheck.validation_rate validation_check) (PInt 90) in
          Ok {| FullCheck.passed := all_passed;
                FullCheck.spam_check := spam_check;
                FullCheck.compliance_check := compliance_check;
                FullCheck.validation_check := validation_check;
                FullCheck.recommendations :=
                  _generate_recommendations spam_check compliance_check
                    validation_check |}
      end
  end.

End Agent.

End Deliverability.

(** ** Specification vocabulary for the deliverability agent *)

Module DeliverabilitySpec.

Import Deliverability.

(** The spam keywords found in a message, as [check_spam_score] looks for
    them. *)
Definition found_keywords (email_content : Content) : list string :=
  let subject := lower (PyDict.get_default email_content "subject" "") in
  let body := lower (PyDict.get_default email_content "body" "") in
  filter (fun kw => contains kw (subject ++ " " ++ body)) spam_keywords.

(** The three checks of [check_spam_score] that do not look for keywords. *)
Definition many_exclamations (email_content : Content) : bool :=
  3 <? py_count (lower (PyDict.get_default email_content "subject" "")) "!"
       + py_count (lower (PyDict.get_default email_content "body" "")) "!".

Definition long_subject (email_content : Content) : bool :=
  50 <? len (PyDict.get_default email_content "subject" "").

Definition many_links (email_content : Content) : bool :=
  let body := lower (PyDict.get_default email_content "body" "") in
  3 <? py_count body "http://" + py_count body "https://".

Definition points (b : bool) (n : Z) : Z := if b then n else 0.

(** The score as the keywords and these three checks make it up. *)
Definition score_of (c : Content) : Z :=
  5 * Z.of_nat (List.length (found_keywords c))
  + points (many_exclamations c) 5
  + points (long_subject c) 3
  + points (many_links c) 5.

(** Whether the address of a recipient validates, and the entry the list
    check keeps for one that does not. *)
Definition address_ok (validate_email : string -> string + string)
    (recipient : Recipient) : bool :=
  AddressCheck.valid
    (validate_email_address validate_email
       (PyDict.get_default recipient "email" "")).

Definition invalid_entry (validate_email : string -> string + string)
    (recipient : Recipient) : InvalidEmail.t :=
  {| InvalidEmail.email := PyDict.get_default recipient "email" "";
     InvalidEmail.errors :=
       AddressCheck.errors
         (validate_email_address validate_email
            (PyDict.get_default recipient "email" "")) |}.

(** A library that accepts every address it is asked about. *)
Definition accept_all (email : string) : string + string := inl email.

(** A library that accepts no address. *)
Definition reject_all (email : string) : string + string :=
  inr "The email address is not valid.".

(** Three spam keywords, the unsubscribe word and a footer. *)
Definition promotional : Content :=
  [("subject", "Free guide for every winner");
   ("body", "Your prize is waiting.");
   ("footer", "Acme Ltd. Unsubscribe here.")].

Definition shouting : Content :=
  [("subject", "LAST CHANCE TODAY"); ("body", "See the catalogue.");
   ("footer", "Acme Ltd. Unsubscribe here.")].

End DeliverabilitySpec.

(* ===================================================================== *)
(** ** Python arithmetic on numbers *)
(* ===================================================================== *)

(** [float(z)]: the nearest double, as the division by one gives it. *)
Definition float_of_int (z : Z) : result float := int_true_div z 1.

(** [a + b] and [a - b]: on two integers the integer result, otherwise the
    float operation, an integer operand being converted first. *)
Definition py_arith (on_int : Z -> Z -> Z) (on_float : float -> float -> float)
    (a b : pynum) : result pynum :=
  match a, b with
  | PInt x, PInt y => Ok (PInt (on_int x y))
  | PFloat x, PFloat y => Ok (PFloat (on_float x y))
  | PInt x, PFloat y =>
      match float_of_int x with
      | Ok x' => Ok (PFloat (on_float x' y))
      | Raise e => Raise e
      end
  | PFloat x, PInt y =>
      match float_of_int y with
      | Ok y' => Ok (PFloat (on_float x y'))
      | Raise e => Raise e
      end
  end.

Definition py_add : pynum -> pynum -> result pynum := py_arith Z.add PrimFloat.add.
Definition py_sub : pynum -> pynum -> result pynum := py_arith Z.sub PrimFloat.sub.

Definition qle (p q : Q) : bool :=
  Qnum p * QDen q <=? Qnum q * QDen p.

Definition xle (a b : xreal) : bool :=
  match a, b with
  | XNaN, _ | _, XNaN => false
  | XNegInf, _ => true
  | _, XPosInf => true
  | XFin p, XFin q => qle p q
  | _, _ => false
  end.

(** [a >= b] *)
Definition py_ge (a b : pynum) : bool := xle (pynum_value b) (pynum_value a).

(** The number an object stands for in a comparison with an integer: an
    [int], a [float] or a [bool]; the comparison raises [TypeError] on
    anything else. *)
Definition as_number (o : pyobj) : option pynum :=
  match o with
  | PNum n => Some n
  | PBool b => Some (PInt (if b then 1 else 0))
  | _ => None
  end.

(* ===================================================================== *)
(** ** agents/reporting_agent.py *)
(* ===================================================================== *)

Module Reporting.

(** A result, [AttributeError] or one of the other exceptions. *)
Inductive outcome (A : Type) : Type :=
| Returned (a : A)
| AttributeError (msg : string)
| Raised (e : exn).
Arguments Returned {A} a.
Arguments AttributeError {A} msg.
Arguments Raised {A} e.

Module Report.
Record t : Type := {
  campaign_id : string;
  generated_at : string;
  objectives : pyobj;           (* strategy_summary *)
  target_audience : pyobj;
  key_messages : pyobj;
  performance : ABTesting.Metrics;
  deliverability : PyDict.t (PyDict.t pyobj);
  insights : list string;
  recommendations : list string;
  next_steps : list string
}.
End Report.

Module Summary.
Record t : Type := {
  campaign_id : string;
  total_variants : Z;
  best_variant : option string;
  best_open_rate : pynum;
  total_sent : Z;
  total_opened : Z;
  total_clicked : Z;
  overall_open_rate : option pynum;   (* the key is set when total_sent > 0 *)
  overall_click_rate : option pynum
}.
End Summary.


(** ["error" in ab_results] *)
Definition has_error (ab_results : ABTesting.Metrics) : bool :=
  match ab_results with
  | ABTesting.CampaignNotFound => true
  | ABTesting.Rows rows => PyDict.mem rows "error"
  end.

(** The rows of a metrics dictionary without an "error" key. *)
Definition items (ab_results : ABTesting.Metrics) : PyDict.t ABTesting.Row :=
  match ab_results with
  | ABTesting.CampaignNotFound => []
  | ABTesting.Rows rows => rows
  end.

(** [if d:] on a dictionary *)
Definition dict_truthy {V} (d : PyDict.t V) : bool :=
  match d with [] => false | _ => true end.

Section Agent.

(** How Python writes a number in an f-string: [f"{x}"] and [f"{x:.1f}"]. *)
Variable str_num : pynum -> string.
Variable format_1f : pynum -> string.

(** *** [_generate_insights] *)

Definition best_step (acc : option string * pynum) (item : string * ABTesting.Row)
  : option string * pynum :=
  let '(variant, metrics) := item in
  let open_rate := ABTesting.open_rate metrics in
  if py_gt open_rate (snd acc) then (Some variant, open_rate) else acc.

(** [ab_results.get(variant, {}).get("open_rate", 0)] *)
Definition open_rate_of (rows : PyDict.t ABTesting.Row) (variant : string) : pynum :=
  match PyDict.get rows variant with
  | Some metrics => ABTesting.open_rate metrics
  | None => PInt 0
  end.

Definition performance_insights (rows : PyDict.t ABTesting.Row)
    (insights : list string) : result (list string) :=
  let '(best_variant, best_open_rate) := fold_left best_step rows (None, PInt 0) in
  let insights :=
    if opt_truthy best_variant
    then (insights
            ++ [("Variant " ++ str_or best_variant "" ++ " performed best with "
                 ++ str_num best_open_rate ++ "% open rate")%string])%list
    else insights in
  match PyDict.keys rows with
  | v0 :: v1 :: _ =>
      if py_gt (open_rate_of rows v0) (open_rate_of rows v1)
      then match py_sub (open_rate_of rows v0) (open_rate_of rows v1) with
           | Raise e => Raise e
           | Ok diff =>
               Ok (insights
                     ++ [(v0 ++ " outperformed " ++ v1 ++ " by " ++ format_1f diff
                          ++ "% in open rate")%string])%list
           end
      else Ok insights
  | _ => Ok insights
  end.

Definition _generate_insights (ab_results : ABTesting.Metrics)
    (deliverability : PyDict.t (PyDict.t pyobj)) : result (list string) :=
  let insights : list string := [] in
  match (if negb (has_error ab_results)
         then performance_insights (items ab_results) insights
         else Ok insights) with
  | Raise e => Raise e
  | Ok insights =>
      if dict_truthy deliverability
      then
        let spam_score :=
          PyDict.get_default (PyDict.get_default deliverability "spam_check" [])
            "spam_score" (PNum (PInt 0)) in
        match as_number spam_score with
        | None => Raise TypeError
        | Some n =>
            if py_lt n (PInt 10)
            then Ok (insights
                       ++ ["Email content passed spam filters with low risk score"])%list
            else if py_ge n (PInt 20)
            then Ok (insights
                       ++ ["Email content has high spam risk - consider revising"])%list
            else Ok insights
        end
      else Ok insights
  end.

(** *** [_generate_recommendations] *)

Definition row_recommendations (recommendations : list string)
    (item : string * ABTesting.Row) : list string :=
  let '(variant, metrics) := item in
  let recommendations :=
    if py_lt (ABTesting.open_rate metrics) (PInt 20)
    then (recommendations
            ++ [("Variant " ++ variant
                 ++ ": Low open rate - consider improving subject line")%string])%list
    else recommendations in
  if py_lt (ABTesting.click_rate metrics) (PInt 2)
  then (recommendations
          ++ [("Variant " ++ variant
               ++ ": Low click rate - strengthen call-to-action")%string])%list
  else recommendations.

Definition _generate_recommendations (ab_results : ABTesting.Metrics)
    (deliverability : PyDict.t (PyDict.t pyobj)) : list string :=
  let recommendations : list string := [] in
  let recommendations :=
    if negb (has_error ab_results)
    then fold_left row_recommendations (items ab_results) recommendations
    else recommendations in
  let recommendations :=
    if dict_truthy deliverability
    then
      (* [extend] with a dictionary appends its keys *)
      let recs := match PyDict.get deliverability "recommendations" with
                  | Some check => PyDict.keys check
                  | None => []
                  end in
      (recommendations ++ recs)%list
    else recommendations in
  match recommendations with
  | [] => ["Campaign is performing well. Continue monitoring and optimize based on results."]
  | _ => recommendations
  end.

(** *** [_suggest_next_steps] *)

Fixpoint score_loop (rows : PyDict.t ABTesting.Row) (acc : option string * pynum)
  : result (option string * pynum) :=
  match rows with
  | [] => Ok acc
  | (variant, metrics) :: rest =>
      match py_add (ABTesting.open_rate metrics) (ABTesting.click_rate metrics) with
      | Raise e => Raise e
      | Ok score =>
          score_loop rest (if py_gt score (snd acc) then (Some variant, score) else acc)
      end
  end.

Definition _suggest_next_steps (ab_results : ABTesting.Metrics)
  : result (list string) :=
  let next_steps : list string := [] in
  match (if negb (has_error ab_results)
            && (0 <? Z.of_nat (List.length (items ab_results)))
         then match score_loop (items ab_results) (None, PInt 0) with
              | Raise e => Raise e
              | Ok (best_variant, _) =>
                  if opt_truthy best_variant
                  then Ok (next_steps
                             ++ [("Scale winning variant " ++ str_or best_variant ""
                                  ++ " to full audience")%string;
                                 "Run follow-up campaign with optimized content";
                                 "A/B test new subject lines based on learnings"])%list
                  else Ok next_steps
              end
         else Ok next_steps) with
  | Raise e => Raise e
  | Ok next_steps =>
      Ok (next_steps
            ++ ["Monitor deliverability and engagement metrics";
                "Gather feedback and iterate on messaging"])%list
  end.

(** *** [generate_campaign_report], [save_report] and [load_report]

    The results directory holds one file per campaign id; it is a
    dictionary from campaign ids to reports.  [now] is the time the clock
    gives. *)

Definition save_report (reports : PyDict.t Report.t) (campaign_id : string)
    (report : Report.t) : PyDict.t Report.t :=
  PyDict.set reports campaign_id report.


Definition generate_campaign_report (now : string) (reports : PyDict.t Report.t)
    (campaign_id : string) (strategy : PyDict.t pyobj)
    (ab_results : ABTesting.Metrics) (deliverability : PyDict.t (PyDict.t pyobj))
  : PyDict.t Report.t * result Report.t :=
  match _generate_insights ab_results deliverability with
  | Raise e => (reports, Raise e)
  | Ok insights =>
      match _suggest_next_steps ab_results with
      | Raise e => (reports, Raise e)
      | Ok next_steps =>
          let report :=
            {| Report.campaign_id := campaign_id;
               Report.generated_at := now;
               Report.objectives :=
                 PyDict.get_default strategy "objectives" (PStr "N/A");
               Report.target_audience :=
                 PyDict.get_default strategy "target_audience" (PStr "N/A");
               Report.key_messages :=
                 PyDict.get_default strategy "key_messages" (PStr "N/A");
               Report.performance := ab_results;
               Report.deliverability := deliverability;
               Report.insights := insights;
               Report.recommendations :=
                 _generate_recommendations ab_results deliverability;
               Report.next_steps := next_steps |} in
          (save_report reports campaign_id report, Ok report)
      end
  end.

(** *** [get_campaign_summary] *)





End Agent.

End Reporting.

(** ** Specification vocabulary for the reporting agent *)

Module ReportingSpec.

(** A number whose value is zero: the integer or the float. *)
Definition is_zero (v : pynum) : Prop := v = PInt 0 \/ v = PFloat PrimFloat.zero.

(** A variant nobody opened, clicked or converted on. *)
Definition no_engagement (d : ABTesting.VariantData) : Prop :=
  ABTesting.opened d = 0 /\ ABTesting.clicked d = 0 /\ ABTesting.converted d = 0.

(** A row whose open rate and click rate are zero. *)
Definition zero_row (item : string * ABTesting.Row) : Prop :=
  is_zero (ABTesting.open_rate (snd item))
  /\ is_zero (ABTesting.click_rate (snd item)).

(** Checks keyed by variant, as [_check_deliverability] stores them: a
    failed one for A, with a high spam score and a recommendation. *)
Definition failed_checks : PyDict.t (PyDict.t pyobj) :=
  [("A", [("passed", PBool false);
          ("spam_check", PDict [("spam_score", PNum (PInt 45));
                                ("risk_level", PStr "High");
                                ("passed", PBool false)]);
          ("recommendations",
           PList [PStr "Reduce spam keywords and improve content quality"])])].

(** Ten emails of A and ten of B sent, nothing opened. *)
Definition nothing_opened : ABTesting.test_results :=
  fst (ABTesting.record_event
         (fst (ABTesting.record_event PyDict.empty "2024-01-01T00:00:00"
                 "c1" "A" "sent" 10))
         "2024-01-01T00:00:00" "c1" "B" "sent" 10).


End ReportingSpec.

(* ===================================================================== *)
(** ** utils/sendgrid_tracker.py *)
(* ===================================================================== *)

Module Tracker.

(** An entry of the list [get_stats] answers, as [get_email_stats] builds
    it: the counts of one day for the whole account.  Only the keys
    [get_campaign_metrics] reads are kept. *)
Module StatPeriod.
Record t : Type := {
  delivered : Z;
  opens : Z;
  clicks : Z;
  bounces : Z;
  spam_reports : Z;
  unsubscribes : Z
}.
End StatPeriod.

Module Metrics.
Record t : Type := {
  campaign_id : string;
  total_sent : Z;
  delivered : Z;
  opened : Z;
  clicked : Z;
  bounced : Z;
  spam_reports : Z;
  unsubscribes : Z;
  open_rate : float;
  click_rate : float;
  bounce_rate : float
  (* [message_activities] stays empty when the statistics are read *)
}.
End Metrics.

Definition initial (campaign_id : string) (message_ids : list string) : Metrics.t :=
  {| Metrics.campaign_id := campaign_id;
     Metrics.total_sent := Z.of_nat (List.length message_ids);
     Metrics.delivered := 0;
     Metrics.opened := 0;
     Metrics.clicked := 0;
     Metrics.bounced := 0;
     Metrics.spam_reports := 0;
     Metrics.unsubscribes := 0;
     Metrics.open_rate := 0%float;
     Metrics.click_rate := 0%float;
     Metrics.bounce_rate := 0%float |}.

(** The body of [for stat_period in stats]. *)
Definition add_period (metrics : Metrics.t) (stat_period : StatPeriod.t) : Metrics.t :=
  {| Metrics.campaign_id := Metrics.campaign_id metrics;
     Metrics.total_sent := Metrics.total_sent metrics;
     Metrics.delivered := Metrics.delivered metrics + StatPeriod.delivered stat_period;
     Metrics.opened := Metrics.opened metrics + StatPeriod.opens stat_period;
     Metrics.clicked := Metrics.clicked metrics + StatPeriod.clicks stat_period;
     Metrics.bounced := Metrics.bounced metrics + StatPeriod.bounces stat_period;
     Metrics.spam_reports :=
       Metrics.spam_reports metrics + StatPeriod.spam_reports stat_period;
     Metrics.unsubscribes :=
       Metrics.unsubscribes metrics + StatPeriod.unsubscribes stat_period;
     Metrics.open_rate := Metrics.open_rate metrics;
     Metrics.click_rate := Metrics.click_rate metrics;
     Metrics.bounce_rate := Metrics.bounce_rate metrics |}.

(** "Ensure we have at least delivered = sent". *)
Definition ensure_delivered (metrics : Metrics.t) : Metrics.t :=
  if (Metrics.delivered metrics =? 0) && (0 <? Metrics.total_sent metrics)
  then {| Metrics.campaign_id := Metrics.campaign_id metrics;
          Metrics.total_sent := Metrics.total_sent metrics;
          Metrics.delivered := Metrics.total_sent metrics - Metrics.bounced metrics;
          Metrics.opened := Metrics.opened metrics;
          Metrics.clicked := Metrics.clicked metrics;
          Metrics.bounced := Metrics.bounced metrics;
          Metrics.spam_reports := Metrics.spam_reports metrics;
          Metrics.unsubscribes := Metrics.unsubscribes metrics;
          Metrics.open_rate := Metrics.open_rate metrics;
          Metrics.click_rate := Metrics.click_rate metrics;
          Metrics.bounce_rate := Metrics.bounce_rate metrics |}
  else metrics.

(** [(count / total_sent) * 100] *)
Definition rate (count total_sent : Z) : result float :=
  match int_true_div count total_sent with
  | Ok q => Ok (PrimFloat.mul q 100%float)
  | Raise e => Raise e
  end.

Definition with_rates (metrics : Metrics.t) : result Metrics.t :=
  if 0 <? Metrics.total_sent metrics
  then
    match rate (Metrics.opened metrics) (Metrics.total_sent metrics) with
    | Raise e => Raise e
    | Ok o =>
    match rate (Metrics.clicked metrics) (Metrics.total_sent metrics) with
    | Raise e => Raise e
    | Ok c =>
    match rate (Metrics.bounced metrics) (Metrics.total_sent metrics) with
    | Raise e => Raise e
    | Ok b =>
        Ok {| Metrics.campaign_id := Metrics.campaign_id metrics;
              Metrics.total_sent := Metrics.total_sent metrics;
              Metrics.delivered := Metrics.delivered metrics;
              Metrics.opened := Metrics.opened metrics;
              Metrics.clicked := Metrics.clicked metrics;
              Metrics.bounced := Metrics.bounced metrics;
              Metrics.spam_reports := Metrics.spam_reports metrics;
              Metrics.unsubscribes := Metrics.unsubscribes metrics;
              Metrics.open_rate := o;
              Metrics.click_rate := c;
              Metrics.bounce_rate := b |}
    end end end
  else Ok metrics.

(** [get_campaign_metrics], given the list [stats] that [get_stats] answers
    for the last day.  [get_stats] catches what its request raises and the
    counts are integers, so the loop does not raise and the branch that
    simulates activity is not taken; the wait before the request changes
    nothing here. *)
Definition get_campaign_metrics (campaign_id : string) (message_ids : list string)
    (stats : list StatPeriod.t) : result Metrics.t :=
  let metrics := initial campaign_id message_ids in
  let metrics := fold_left add_period stats metrics in
  let metrics := ensure_delivered metrics in
  with_rates metrics.

End Tracker.

(** ** Specification vocabulary for the tracker *)

Module TrackerSpec.

Definition total (f : Tracker.StatPeriod.t -> Z) (stats : list Tracker.StatPeriod.t) : Z :=
  fold_right (fun p acc => f p + acc) 0 stats.

(** The account saw 40 opens, 9 clicks and 3 bounces during the day. *)
Definition busy_day : list Tracker.StatPeriod.t :=
  [{| Tracker.StatPeriod.delivered := 0; Tracker.StatPeriod.opens := 40;
      Tracker.StatPeriod.clicks := 9; Tracker.StatPeriod.bounces := 3;
      Tracker.StatPeriod.spam_reports := 0; Tracker.StatPeriod.unsubscribes := 1 |}].

End TrackerSpec.

(* ===================================================================== *)
(** ** utils/user_activity_tracker.py *)
(* ===================================================================== *)

Module ActivityTracker.

(** A row of the activity file, without its time stamp. *)
Module Activity.
Record t : Type := {
  campaign_id : string;
  variant : string;
  email : string;
  action : string;
  details : string
}.
End Activity.

(** What [log_opens_and_clicks_from_metrics] does. *)
Inductive outcome : Type :=
| NothingLogged                          (* returned before the log is touched *)
| Logged (activities : list Activity.t)  (* the argument of [log_batch_activities] *)
| ValueError (msg : string).

(** [d1 == d2] on two dictionaries of strings: the same keys with the same
    values, in any order. *)
Definition dict_eqb (d1 d2 : Recipient) : bool :=
  Nat.eqb (List.length d1) (List.length d2)
  && forallb (fun kv => match PyDict.get d2 (fst kv) with
                        | Some v => String.eqb v (snd kv)
                        | None => false
                        end) d1.

(** [x in l] *)
Definition py_in (x : Recipient) (l : list Recipient) : bool :=
  existsb (dict_eqb x) l.

Section Log.

(** [random.sample(population, k)] for [0 <= k <= len(population)], over
    the state of the random source. *)
Variable G : Type.
Variable sample : G -> list Recipient -> Z -> G * list Recipient.

(** [random.sample] with its check of [k]. *)
Definition random_sample (g : G) (population : list Recipient) (k : Z)
  : G * option (list Recipient) :=
  if (k <? 0) || (Z.of_nat (List.length population) <? k)
  then (g, None)
  else let (g', l) := sample g population k in (g', Some l).

Definition activity (campaign_id variant email action : string) : Activity.t :=
  {| Activity.campaign_id := campaign_id;
     Activity.variant := variant;
     Activity.email := email;
     Activity.action := action;
     Activity.details := "tracked via SendGrid" |}.

(** The body of [for recipient in recipients]. *)
Definition log_recipient (campaign_id variant : string)
    (opened_recipients clicked_recipients : list Recipient)
    (activities : list Activity.t) (recipient : Recipient) : list Activity.t :=
  let email := PyDict.get_default recipient "email" "" in
  let activities :=
    if py_in recipient opened_recipients
    then (activities ++ [activity campaign_id variant email "open"])%list
    else activities in
  if py_in recipient clicked_recipients
  then (activities ++ [activity campaign_id variant email "click"])%list
  else activities.

Definition log_opens_and_clicks_from_metrics (g : G) (campaign_id variant : string)
    (recipients : list Recipient) (opened_count clicked_count : Z) : G * outcome :=
  let total_recipients := Z.of_nat (List.length recipients) in
  if total_recipients =? 0 then (g, NothingLogged)
  else
    match random_sample g recipients (Z.min opened_count total_recipients) with
    | (g, None) => (g, ValueError "Sample larger than population or is negative")
    | (g, Some opened_recipients) =>
        match random_sample g opened_recipients
                (Z.min clicked_count (Z.of_nat (List.length opened_recipients))) with
        | (g, None) => (g, ValueError "Sample larger than population or is negative")
        | (g, Some clicked_recipients) =>
            (g, Logged (fold_left
                          (log_recipient campaign_id variant opened_recipients
                             clicked_recipients)
                          recipients []))
        end
    end.

End Log.

End ActivityTracker.

(** ** Specification vocabulary for the activity log *)

Module ActivitySpec.

Import ActivityTracker.

(** What one recipient adds to the log: nothing, an open, or an open and a
    click. *)
Inductive entries_of (campaign_id variant : string) (recipient : Recipient)
  : list Activity.t -> Prop :=
| no_entry : entries_of campaign_id variant recipient []
| open_entry :
    entries_of campaign_id variant recipient
      [activity campaign_id variant (PyDict.get_default recipient "email" "") "open"]
| open_click_entry :
    entries_of campaign_id variant recipient
      [activity campaign_id variant (PyDict.get_default recipient "email" "") "open";
       activity campaign_id variant (PyDict.get_default recipient "email" "") "click"].

(** The log is made of the entries of the recipients, in the order of the
    list. *)
Inductive log_of (campaign_id variant : string)
  : list Recipient -> list Activity.t -> Prop :=
| log_nil : log_of campaign_id variant [] []
| log_cons recipient rest entries log :
    entries_of campaign_id variant recipient entries ->
    log_of campaign_id variant rest log ->
    log_of campaign_id variant (recipient :: rest) (entries ++ log)%list.

(** A sample that takes the first [k] of the population. *)
Definition first_k (g : nat) (population : list Recipient) (k : Z)
  : nat * list Recipient :=
  (S g, firstn (Z.to_nat k) population).

Definition three_recipients : list Recipient :=
  [[("email", "ann@example.com")]; [("email", "bob@example.com")];
   [("email", "cy@example.com")]].

End ActivitySpec.

(* ===================================================================== *)
(** ** Python string methods: [str.replace] *)
(* ===================================================================== *)

(** [s.replace(old, new)] for a non-empty [old]: the occurrences of [old]
    found from left to right are replaced, each search starting after the
    end of the occurrence before it. *)
Fixpoint replace_from (old new s : string) (skip : nat) : string :=
  match s with
  | EmptyString => EmptyString
  | String c s' =>
      match skip with
      | S k => replace_from old new s' k
      | O => if String.prefix old s
             then new ++ replace_from old new s' (String.length old - 1)
             else String c (replace_from old new s' 0)
      end
  end.

(** With an empty [old], [new] goes before every character and at the
    end. *)
Fixpoint replace_empty (new s : string) : string :=
  match s with
  | EmptyString => new
  | String c s' => new ++ String c (replace_empty new s')
  end.

Definition py_replace (s old new : string) : string :=
  if String.eqb old "" then replace_empty new s else replace_from old new s 0.

(** Each character replaced by a string; all characters satisfy a test. *)
Fixpoint map_chars (f : Ascii.ascii -> string) (s : string) : string :=
  match s with
  | EmptyString => EmptyString
  | String c s' => f c ++ map_chars f s'
  end.

Fixpoint all_chars (p : Ascii.ascii -> bool) (s : string) : bool :=
  match s with
  | EmptyString => true
  | String c s' => p c && all_chars p s'
  end.

(* ===================================================================== *)
(** ** utils/report_builder.py: text for the PDF *)
(* ===================================================================== *)

Module ReportBuilder.

Import Ascii.

Definition escape_map : list (string * string) :=
  [("&", "&amp;"); ("<", "&lt;"); (">", "&gt;")].

Definition _escape_html (text : option string) : string :=
  fold_left (fun out kv => py_replace out (fst kv) (snd kv)) escape_map
    (str_or text "").

Definition newline : string := String "010" EmptyString.

Definition _to_paragraph_text (text : option string) : string :=
  py_replace (_escape_html (Some (str_or text ""))) newline "<br/>".

End ReportBuilder.

Module ReportBuilderSpec.

Import Ascii.

(** What a character of the text becomes. *)
Definition escape_char (c : ascii) : string :=
  if Ascii.eqb c "&" then "&amp;"
  else if Ascii.eqb c "<" then "&lt;"
  else if Ascii.eqb c ">" then "&gt;"
  else String c EmptyString.

Definition paragraph_char (c : ascii) : string :=
  if Ascii.eqb c "010" then "<br/>" else escape_char c.

End ReportBuilderSpec.

(* ===================================================================== *)
(** ** agents/segmentation_agent.py: the primary segment *)
(* ===================================================================== *)

Module Segmentation.

(** The segments are grouped: [segments[group][label]] is a list of
    records, as [_rule_based_segmentation] and [_segment_with_llm] build
    them. *)
Definition SegmentGroups : Type := PyDict.t (PyDict.t (list Recipient)).

(** [isinstance(segment, list) and segment] *)
Definition is_non_empty (segment : list Recipient) : bool :=
  match segment with [] => false | _ => true end.

(** The two nested loops over the groups and their segments. *)
Fixpoint first_non_empty (groups : list (PyDict.t (list Recipient)))
  : option (list Recipient) :=
  match groups with
  | [] => None
  | segment_group :: rest =>
      match find is_non_empty (PyDict.values segment_group) with
      | Some segment => Some segment
      | None => first_non_empty rest
      end
  end.

(** [frame] holds the records of the data frame over those of the columns
    email and name that it has, [None] when it has neither. *)
Definition _select_primary_segment (frame : option (list Recipient))
    (segments : SegmentGroups) (strategy : pyobj) : list Recipient :=
  let high :=
    match PyDict.get segments "by_engagement" with
    | Some by_engagement => PyDict.get by_engagement "high"
    | None => None
    end in
  match high with
  | Some (x :: l) => py_slice (x :: l) 0 (Some 50)
  | _ =>
      match first_non_empty (PyDict.values segments) with
      | Some segment => py_slice segment 0 (Some 50)
      | None =>
          match frame with
          | None => []
          | Some records => firstn 50 records
          end
      end
  end.

End Segmentation.

(** ** Specification vocabulary for the address pattern *)

Module RegexSpec.

Import Ascii.

(** The strings a pattern covers. *)
Inductive matches : Regex.t -> string -> Prop :=
| m_epsilon : matches Regex.Epsilon EmptyString
| m_sym p c : p c = true -> matches (Regex.Sym p) (String c EmptyString)
| m_cat a b s1 s2 :
    matches a s1 -> matches b s2 -> matches (Regex.Cat a b) (s1 ++ s2)
| m_alt_l a b s : matches a s -> matches (Regex.Alt a b) s
| m_alt_r a b s : matches b s -> matches (Regex.Alt a b) s
| m_star_nil a : matches (Regex.Star a) EmptyString
| m_star_cons a s1 s2 :
    matches a s1 -> matches (Regex.Star a) s2 -> matches (Regex.Star a) (s1 ++ s2).

(** [local@domain.tld]: a local part and a domain that are not empty, made
    of the characters of their classes, and a last label of two letters or
    more. *)
Definition address_shape (s : string) : Prop :=
  exists l d t,
    s = l ++ "@" ++ d ++ "." ++ t
    /\ l <> EmptyString /\ all_chars Deliverability.local_char l = true
    /\ d <> EmptyString /\ all_chars Deliverability.domain_char d = true
    /\ (2 <= String.length t)%nat /\ all_chars Deliverability.letter t = true.

Definition final_newline : string := String "010" EmptyString.

End RegexSpec.

Unset Implicit Arguments.

(* ===================================================================== *)
(** * Properties *)
(* ===================================================================== *)

(** ** Slices *)

Lemma py_slice_from {A} (l : list A) (a : Z) :
  0 <= a <= Z.of_nat (List.length l) ->
  py_slice l a None = skipn (Z.to_nat a) l.
Proof.
  intros Ha. unfold py_slice, norm_index.
  destruct (a <? 0) eqn:E; [apply Z.ltb_lt in E; lia|].
  rewrite Z.min_l by lia.
  apply firstn_all2. rewrite length_skipn. lia.
Qed.

Lemma py_slice_range {A} (l : list A) (a b : Z) :
  0 <= a <= b -> b <= Z.of_nat (List.length l) ->
  py_slice l a (Some b) = firstn (Z.to_nat (b - a)) (skipn (Z.to_nat a) l).
Proof.
  intros Ha Hb. unfold py_slice, norm_index.
  destruct (a <? 0) eqn:E; [apply Z.ltb_lt in E; lia|].
  destruct (b <? 0) eqn:E'; [apply Z.ltb_lt in E'; lia|].
  now rewrite !Z.min_l by lia.
Qed.

(** ** Group assignment *)

Section Groups.

Context {R : Type}.
Variable shuffle : list R -> list R.

Ltac unroll_groups labels :=
  unfold ABTesting.create_test_groups;
  match goal with
  | |- context [py_slice ABTesting.variant_labels_all 0 ?s] =>
      change (py_slice ABTesting.variant_labels_all 0 s) with labels
  end;
  cbn [ABTesting.assign_groups PyDict.set PyDict.empty List.length
       String.eqb Ascii.eqb Bool.eqb Z.min Z.compare Pos.compare Pos.compare_cont
       Z.eqb Pos.eqb Z.of_nat Pos.of_succ_nat Pos.succ Z.sub Z.add Z.opp Z.pos_sub
       Pos.add Pos.pred_double Z.succ_double Z.pred_double Z.double];
  rewrite ?Z.mul_0_l, ?Z.mul_1_l, ?Z.add_0_l.

Lemma create_test_groups_1 (l : list R) :
  ABTesting.create_test_groups shuffle l 1 = (shuffle l, Ok [("A", shuffle l)]).
Proof.
  unroll_groups ["A"].
  rewrite py_slice_from by lia. reflexivity.
Qed.

Lemma create_test_groups_2 (l : list R) :
  let l' := shuffle l in
  let g := Z.to_nat (Z.of_nat (List.length l') / 2) in
  ABTesting.create_test_groups shuffle l 2
  = (l', Ok [("A", firstn g l'); ("B", skipn g l')]).
Proof.
  intros l' g. unroll_groups ["A"; "B"]. fold l'.
  set (k := Z.of_nat (List.length l')) in *.
  assert (Hg : 0 <= k / 2 <= k)
    by (split; [apply Z.div_pos | apply Z.div_le_upper_bound]; lia).
  rewrite py_slice_range, py_slice_from by (fold k; lia).
  rewrite Z.sub_0_r. reflexivity.
Qed.

Lemma create_test_groups_3 (l : list R) :
  let l' := shuffle l in
  let g := Z.to_nat (Z.of_nat (List.length l') / 3) in
  ABTesting.create_test_groups shuffle l 3
  = (l', Ok [("A", firstn g l'); ("B", firstn g (skipn g l'));
             ("C", skipn g (skipn g l'))]).
Proof.
  intros l' g. unroll_groups ["A"; "B"; "C"]. fold l'.
  set (k := Z.of_nat (List.length l')) in *.
  assert (Hg : 0 <= k / 3 /\ 3 * (k / 3) <= k)
    by (split; [apply Z.div_pos | apply Z.mul_div_le]; lia).
  rewrite !py_slice_range, py_slice_from by (fold k; lia).
  rewrite Z.sub_0_r, Z.add_simpl_l.
  replace (Z.to_nat (2 * (k / 3))) with (g + g)%nat by (unfold g; lia).
  rewrite <- skipn_skipn. reflexivity.
Qed.

(** Values above three are cut down to three. *)
Lemma create_test_groups_min (l : list R) (n : Z) :
  ABTesting.create_test_groups shuffle l n
  = ABTesting.create_test_groups shuffle l (Z.min n 3).
Proof.
  unfold ABTesting.create_test_groups.
  now rewrite <- Z.min_assoc, Z.min_id.
Qed.

End Groups.

(** Lists cut into consecutive pieces. *)
Lemma concat_pieces_disjoint {A} (gs : list (list A)) :
  NoDup (List.concat gs) ->
  forall i j gi gj x,
    i <> j -> nth_error gs i = Some gi -> nth_error gs j = Some gj ->
    In x gi -> In x gj -> False.
Proof.
  induction gs as [|g gs IH]; intros Hnd i j gi gj x Hij Hi Hj Hxi Hxj.
  - destruct i; discriminate.
  - cbn [List.concat] in Hnd.
    assert (Hsplit : forall y, In y g -> In y (List.concat gs) -> False).
    { intros y Hy Hc. revert Hnd Hy Hc. clear. induction g as [|a g IHg]; cbn; intros Hnd Hy Hc.
      - assumption.
      - inversion Hnd as [|? ? Hnotin Hnd']; subst.
        destruct Hy as [->|Hy].
        + apply Hnotin, in_or_app; now right.
        + now apply IHg. }
    assert (Htail : NoDup (List.concat gs)).
    { revert Hnd. clear. induction g as [|a g IHg]; cbn; intros Hnd; [assumption|].
      inversion Hnd; subst. auto. }
    assert (Hin : forall n gn y, nth_error gs n = Some gn -> In y gn -> In y (List.concat gs)).
    { intros n gn y Hn Hy. apply in_concat. exists gn. split; [|assumption].
      eapply nth_error_In; eassumption. }
    destruct i as [|i], j as [|j]; cbn [nth_error] in Hi, Hj.
    + congruence.
    + inversion Hi; subst. eapply Hsplit; eauto.
    + inversion Hj; subst. eapply Hsplit; eauto.
    + eapply (IH Htail i j); eauto.
Qed.

(** C4. For every recipient list of size [k] and every variant count
    [n] in {1, 2, 3}, [create_test_groups] returns normally with the labels
    A, B, (C) in that order; the groups, laid end to end, are the shuffled
    list, hence a rearrangement of the input: their sizes sum to [k], every
    input element is in some group and conversely, and groups of a
    duplicate-free input are pairwise disjoint; every group but the last has
    [k / n] elements (floor division) and the last has the rest. *)
Theorem create_test_groups_partition {R} (shuffle : list R -> list R)
    (recipients : list R) (n : Z) :
  Permutation recipients (shuffle recipients) ->
  1 <= n <= 3 ->
  let k := Z.of_nat (List.length recipients) in
  exists groups,
    ABTesting.create_test_groups shuffle recipients n
      = (shuffle recipients, Ok groups)
    /\ PyDict.keys groups = firstn (Z.to_nat n) ["A"; "B"; "C"]
    /\ List.concat (PyDict.values groups) = shuffle recipients
    /\ Permutation (List.concat (PyDict.values groups)) recipients
    /\ Z.of_nat (list_sum (map (@List.length R) (PyDict.values groups))) = k
    /\ (forall i g, nth_error (PyDict.values groups) i = Some g ->
          Z.of_nat (List.length g)
          = if Z.of_nat i + 1 <? n then k / n else k - (n - 1) * (k / n))
    /\ (forall x, In x recipients <->
          exists label g, PyDict.get groups label = Some g /\ In x g)
    /\ (NoDup recipients ->
        forall i j gi gj x,
          i <> j ->
          nth_error (PyDict.values groups) i = Some gi ->
          nth_error (PyDict.values groups) j = Some gj ->
          In x gi -> In x gj -> False).
Proof.
  intros Hperm Hn k.
  assert (Hlen : Z.of_nat (List.length (shuffle recipients)) = k)
    by (unfold k; now rewrite <- (Permutation_length Hperm)).
  assert (Hcases : n = 1 \/ n = 2 \/ n = 3) by lia.
  assert (Hmain : exists groups,
    ABTesting.create_test_groups shuffle recipients n
      = (shuffle recipients, Ok groups)
    /\ PyDict.keys groups = firstn (Z.to_nat n) ["A"; "B"; "C"]
    /\ List.concat (PyDict.values groups) = shuffle recipients
    /\ (forall i g, nth_error (PyDict.values groups) i = Some g ->
          Z.of_nat (List.length g)
          = if Z.of_nat i + 1 <? n then k / n else k - (n - 1) * (k / n))
    /\ (forall x, In x (List.concat (PyDict.values groups)) <->
          exists label g, PyDict.get groups label = Some g /\ In x g)).
  { destruct Hcases as [-> | [-> | ->]].
    - eexists. split; [apply create_test_groups_1|].
      cbn [PyDict.keys PyDict.values map fst snd List.concat].
      rewrite app_nil_r. repeat split; try reflexivity.
      + intros [|[|i]] g Hg; cbn in Hg; inversion Hg; subst;
          change (Z.of_nat 0 + 1 <? 1) with false; cbv iota; lia.
      + intros Hx. exists "A", (shuffle recipients). now split.
      + intros (label & g & Hget & Hx). cbn in Hget.
        destruct (String.eqb label "A"); inversion Hget; now subst.
    - eexists. split; [apply create_test_groups_2|].
      set (l' := shuffle recipients) in *. rewrite Hlen.
      set (g := Z.to_nat (k / 2)).
      assert (Hg : 0 <= k / 2 <= k)
        by (split; [apply Z.div_pos | apply Z.div_le_upper_bound]; lia).
      cbn [PyDict.keys PyDict.values map fst snd List.concat].
      rewrite app_nil_r, firstn_skipn. repeat split; try reflexivity.
      + intros [|[|[|i]]] x Hx; cbn in Hx; inversion Hx; subst; cbn [Z.of_nat Z.add Z.ltb Z.compare Pos.compare Pos.compare_cont Pos.of_succ_nat Pos.succ Pos.add].
        * rewrite length_firstn. unfold g. lia.
        * rewrite length_skipn. unfold g. lia.
      + intros Hx. rewrite <- (firstn_skipn g l') in Hx.
        apply in_app_or in Hx. destruct Hx as [Hx|Hx].
        * exists "A", (firstn g l'). now split.
        * exists "B", (skipn g l'). now split.
      + intros (label & x0 & Hget & Hx). cbn in Hget.
        rewrite <- (firstn_skipn g l'). apply in_or_app.
        destruct (String.eqb label "A"); [inversion Hget; subst; now left|].
        destruct (String.eqb label "B"); inversion Hget; subst; now right.
    - eexists. split; [apply create_test_groups_3|].
      set (l' := shuffle recipients) in *. rewrite Hlen.
      set (g := Z.to_nat (k / 3)).
      assert (Hg : 0 <= k / 3 /\ 3 * (k / 3) <= k)
        by (split; [apply Z.div_pos | apply Z.mul_div_le]; lia).
      cbn [PyDict.keys PyDict.values map fst snd List.concat].
      rewrite app_nil_r, !firstn_skipn. repeat split; try reflexivity.
      + intros [|[|[|[|i]]]] x Hx; cbn in Hx; inversion Hx; subst; cbn [Z.of_nat Z.add Z.ltb Z.compare Pos.compare Pos.compare_cont Pos.of_succ_nat Pos.succ Pos.add].
        * rewrite length_firstn. unfold g. lia.
        * rewrite length_firstn, length_skipn. unfold g. lia.
        * rewrite !length_skipn. unfold g. lia.
      + intros Hx. rewrite <- (firstn_skipn g l') in Hx.
        apply in_app_or in Hx. destruct Hx as [Hx|Hx].
        * exists "A", (firstn g l'). now split.
        * rewrite <- (firstn_skipn g (skipn g l')) in Hx.
          apply in_app_or in Hx. destruct Hx as [Hx|Hx].
          -- exists "B", (firstn g (skipn g l')). now split.
          -- exists "C", (skipn g (skipn g l')). now split.
      + intros (label & x0 & Hget & Hx). cbn in Hget.
        rewrite <- (firstn_skipn g l'). apply in_or_app.
        destruct (String.eqb label "A"); [inversion Hget; subst; now left|].
        right. rewrite <- (firstn_skipn g (skipn g l')). apply in_or_app.
        destruct (String.eqb label "B"); [inversion Hget; subst; now left|].
        destruct (String.eqb label "C"); inversion Hget; subst; now right. }
  destruct Hmain as (groups & Hrun & Hkeys & Hcat & Hsizes & Hunion).
  exists groups.
  assert (Hp : Permutation (List.concat (PyDict.values groups)) recipients)
    by (rewrite Hcat; now apply Permutation_sym).
  repeat split; try assumption.
  - rewrite <- Hlen, <- Hcat, length_concat. reflexivity.
  - intros Hx. apply Hunion. eapply Permutation_in; [apply Permutation_sym|]; eassumption.
  - intros Hx. eapply Permutation_in; [eassumption|]. now apply Hunion.
  - intros Hnd. apply concat_pieces_disjoint.
    eapply Permutation_NoDup; [apply Permutation_sym|]; eassumption.
Qed.

Lemma create_test_groups_partition_witness :
  exists groups,
    ABTesting.create_test_groups (@rev Z) [1; 2; 3; 4; 5] 2 = ([5; 4; 3; 2; 1], Ok groups)
    /\ PyDict.keys groups = ["A"; "B"]
    /\ List.concat (PyDict.values groups) = [5; 4; 3; 2; 1].
Proof.
  destruct (@create_test_groups_partition Z (@rev Z) [1; 2; 3; 4; 5] 2
              (Permutation_rev _) ltac:(lia))
    as (groups & H1 & H2 & H3 & _).
  exists groups. repeat split; assumption.
Defined.

Lemma py_slice_nil {A} (a : Z) (b : option Z) : py_slice (@nil A) a b = [].
Proof. unfold py_slice. now rewrite skipn_nil, firstn_nil. Qed.

Lemma values_set_Forall {V} (P : V -> Prop) (d : PyDict.t V) (k : string) (v : V) :
  Forall P (PyDict.values d) -> P v -> Forall P (PyDict.values (PyDict.set d k v)).
Proof.
  unfold PyDict.values. induction d as [|[k' v'] d IH]; cbn; intros Hd Hv.
  - now constructor.
  - inversion Hd; subst. destruct (String.eqb k k'); cbn; constructor; auto.
Qed.

Lemma assign_groups_nil {R} (gs nl i : Z) (labels : list string)
    (acc : PyDict.t (list R)) :
  Forall (fun g => g = []) (PyDict.values acc) ->
  Forall (fun g => g = [])
    (PyDict.values (ABTesting.assign_groups [] gs nl i labels acc)).
Proof.
  revert i acc. induction labels as [|v labels IH]; intros i acc Hacc; cbn.
  - assumption.
  - apply IH, values_set_Forall; [assumption|].
    destruct (i =? nl - 1); apply py_slice_nil.
Qed.

(** C5 (as the code has it). [create_test_groups] raises for no variant
    count other than zero; a count of one or more is cut down to at most
    three, the labels being the first [min n 3] of A, B, C; and an empty
    recipient list gives groups that are all empty. *)
Theorem create_test_groups_returns {R} (shuffle : list R -> list R)
    (recipients : list R) (n : Z) :
  Permutation recipients (shuffle recipients) ->
  n <> 0 ->
  exists groups,
    ABTesting.create_test_groups shuffle recipients n
      = (shuffle recipients, Ok groups)
    /\ ABTesting.create_test_groups shuffle recipients (Z.min n 3)
      = (shuffle recipients, Ok groups)
    /\ (1 <= n ->
        PyDict.keys groups = firstn (Z.to_nat (Z.min n 3)) ["A"; "B"; "C"])
    /\ (recipients = [] -> Forall (fun g => g = []) (PyDict.values groups)).
Proof.
  intros Hperm Hn.
  assert (Hmin : (Z.min n 3 =? 0) = false) by (apply Z.eqb_neq; lia).
  pose proof (create_test_groups_min shuffle recipients n) as Hclamp.
  unfold ABTesting.create_test_groups in *. rewrite Hmin in *.
  eexists. split; [reflexivity|]. split; [now rewrite <- Hclamp|]. split.
  - intros Hpos.
    assert (Hcases : Z.min n 3 = 1 \/ Z.min n 3 = 2 \/ Z.min n 3 = 3) by lia.
    destruct Hcases as [-> | [-> | ->]]; reflexivity.
  - intros ->. apply Permutation_nil in Hperm. rewrite Hperm.
    apply assign_groups_nil. constructor.
Qed.

Lemma create_test_groups_returns_witness :
  exists groups,
    ABTesting.create_test_groups (@rev Z) [] 7 = ([], Ok groups)
    /\ PyDict.keys groups = ["A"; "B"; "C"]
    /\ Forall (fun g => g = []) (PyDict.values groups).
Proof.
  destruct (@create_test_groups_returns Z (@rev Z) [] 7
              (Permutation_rev _) ltac:(lia))
    as (groups & H1 & _ & H3 & H4).
  exists groups. repeat split; [exact H1 | apply H3; lia | now apply H4].
Defined.

(** C5, refuted as stated: a variant count of zero is not clamped to one;
    the floor division by it raises. *)
Lemma create_test_groups_zero_raises :
  ABTesting.create_test_groups (fun l : list Z => l) [] 0
  = ([], Raise ZeroDivisionError).
Proof. reflexivity. Qed.


(** ** Dictionaries *)

Lemma get_set_same {V} (d : PyDict.t V) (k : string) (v : V) :
  PyDict.get (PyDict.set d k v) k = Some v.
Proof.
  induction d as [|[k' v'] d IH]; cbn.
  - now rewrite String.eqb_refl.
  - destruct (String.eqb k k') eqn:E; cbn; rewrite E; [reflexivity | exact IH].
Qed.

Lemma get_set_other {V} (d : PyDict.t V) (k k' : string) (v : V) :
  k <> k' -> PyDict.get (PyDict.set d k v) k' = PyDict.get d k'.
Proof.
  intros Hne. induction d as [|[k0 v0] d IH]; cbn.
  - destruct (String.eqb k' k) eqn:E; [apply String.eqb_eq in E; congruence | reflexivity].
  - destruct (String.eqb k k0) eqn:E; cbn.
    + apply String.eqb_eq in E. subst k0.
      destruct (String.eqb k' k) eqn:E'; [apply String.eqb_eq in E'; congruence | reflexivity].
    + now rewrite IH.
Qed.

Lemma mem_get {V} (d : PyDict.t V) (k : string) :
  PyDict.mem d k = true -> exists v, PyDict.get d k = Some v.
Proof. unfold PyDict.mem. destruct (PyDict.get d k); [eauto | discriminate]. Qed.

Lemma mem_false_get {V} (d : PyDict.t V) (k : string) :
  PyDict.mem d k = false -> PyDict.get d k = None.
Proof. unfold PyDict.mem. destruct (PyDict.get d k); [discriminate | reflexivity]. Qed.

(** ** Event counters *)

Lemma add_event_counter (d : ABTesting.VariantData) (event : string) (count : Z) :
  is_counter event ->
  exists d', ABTesting.add_event d event count = Ok d'
             /\ counter_of d' event = counter_of d event + count.
Proof.
  intros [<- | [<- | [<- | [<- | []]]]]; eexists; split; reflexivity.
Qed.

(** After the two [if ... not in ...] blocks the entry of the variant
    exists, with the counters it had before (zero when it is new). *)
Lemma ensure_lookup (tr : ABTesting.test_results) (now cid variant : string) :
  exists c d,
    PyDict.get (ABTesting.ensure_variant (ABTesting.ensure_campaign tr now cid)
                  cid variant) cid = Some c
    /\ PyDict.get (ABTesting.variants c) variant = Some d
    /\ forall event, counter_of d event = ABTesting.counter tr cid variant event.
Proof.
  unfold ABTesting.ensure_campaign, ABTesting.ensure_variant, ABTesting.counter.
  destruct (PyDict.mem tr cid) eqn:Hc.
  - destruct (mem_get _ _ Hc) as [c Hgc]. rewrite Hgc.
    destruct (PyDict.mem (ABTesting.variants c) variant) eqn:Hv.
    + destruct (mem_get _ _ Hv) as [d Hgd].
      exists c, d. rewrite Hgc, Hgd. now repeat split.
    + do 2 eexists. split; [apply get_set_same|]. cbn [ABTesting.variants].
      split; [apply get_set_same|].
      intros event. rewrite (mem_false_get _ _ Hv). unfold counter_of. cbn.
      now repeat destruct (String.eqb event _).
  - cbn [PyDict.get]. rewrite get_set_same. cbn [ABTesting.variants ABTesting.new_campaign PyDict.mem PyDict.get PyDict.empty].
    do 2 eexists. split; [apply get_set_same|]. cbn [ABTesting.variants].
    split; [apply get_set_same|].
    intros event. rewrite (mem_false_get _ _ Hc). unfold counter_of. cbn.
    now repeat destruct (String.eqb event _).
Qed.

Lemma record_event_counter (tr : ABTesting.test_results)
    (now cid variant event : string) (count : Z) :
  is_counter event ->
  snd (ABTesting.record_event tr now cid variant event count) = Ok tt
  /\ ABTesting.counter (fst (ABTesting.record_event tr now cid variant event count))
       cid variant event
     = ABTesting.counter tr cid variant event + count.
Proof.
  intros Hev. unfold ABTesting.record_event.
  destruct (ensure_lookup tr now cid variant) as (c & d & Hc & Hd & Hcnt).
  rewrite Hc, Hd.
  destruct (add_event_counter d event count Hev) as (d' & Hadd & Hd').
  rewrite Hadd. cbn [fst snd]. split; [reflexivity|].
  unfold ABTesting.counter. rewrite get_set_same. cbn [ABTesting.variants].
  rewrite get_set_same. fold (counter_of d' event). rewrite Hd', Hcnt.
  reflexivity.
Qed.

Lemma record_all_counter (now cid variant event : string) (counts : list Z) :
  is_counter event ->
  forall tr,
    ABTesting.counter (record_all tr now cid variant event counts) cid variant event
    = ABTesting.counter tr cid variant event + fold_right Z.add 0 counts.
Proof.
  intros Hev. induction counts as [|c counts IH]; intros tr; cbn.
  - lia.
  - unfold record_all in IH. rewrite IH.
    destruct (record_event_counter tr now cid variant event c Hev) as [_ ->]. lia.
Qed.

(** C2 (as the code has it). [record_event] merges by addition: a call
    for one of the four counters returns normally and adds the reported
    count to the stored value, whatever the two compare like; a sequence of
    reports leaves the stored value increased by their sum; and a report
    that is not negative never lowers the stored value. *)
Theorem record_event_additive (tr : ABTesting.test_results)
    (now cid variant event : string) (count : Z) (counts : list Z) :
  is_counter event ->
  let tr' := fst (ABTesting.record_event tr now cid variant event count) in
  snd (ABTesting.record_event tr now cid variant event count) = Ok tt
  /\ ABTesting.counter tr' cid variant event
     = ABTesting.counter tr cid variant event + count
  /\ ABTesting.counter (record_all tr now cid variant event counts) cid variant event
     = ABTesting.counter tr cid variant event + fold_right Z.add 0 counts
  /\ (0 <= count ->
      ABTesting.counter tr cid variant event
      <= ABTesting.counter tr' cid variant event).
Proof.
  intros Hev tr'.
  destruct (record_event_counter tr now cid variant event count Hev) as [Hok Hadd].
  repeat split.
  - exact Hok.
  - exact Hadd.
  - now apply record_all_counter.
  - intros Hpos. subst tr'. rewrite Hadd. lia.
Qed.

Lemma record_event_additive_witness :
  ABTesting.counter
    (record_all PyDict.empty "2024-01-01T00:00:00" "c1" "A" "opened" [5; 3; 8])
    "c1" "A" "opened" = 0 + (5 + (3 + (8 + 0))).
Proof.
  exact (proj1 (proj2 (proj2
    (record_event_additive PyDict.empty "2024-01-01T00:00:00" "c1" "A" "opened"
       5 [5; 3; 8] (or_intror (or_introl eq_refl)))))).
Defined.

(** C2, refuted as stated: reports of 5, then 3, then 8 leave 16 in the
    counter, not 8, and the report of 3 raises a stored 5 to 8. *)
Lemma record_event_stale_report_is_added :
  ABTesting.counter
    (record_all PyDict.empty "2024-01-01T00:00:00" "c1" "A" "opened" [5; 3; 8])
    "c1" "A" "opened" <> 8
  /\ ABTesting.counter
       (record_all PyDict.empty "2024-01-01T00:00:00" "c1" "A" "opened" [5; 3; 8])
       "c1" "A" "opened" = 16
  /\ ABTesting.counter
       (record_all PyDict.empty "2024-01-01T00:00:00" "c1" "A" "opened" [5; 3])
       "c1" "A" "opened" = 8.
Proof.
  split; [intros H; vm_compute in H; discriminate H|].
  split; reflexivity.
Qed.


(** ** The order on scores *)

Lemma qlt_iff (p q : Q) : qlt p q = true <-> (p < q)%Q.
Proof. unfold qlt, Qlt. apply Z.ltb_lt. Qed.

Lemma xlt_irrefl (a : xreal) : xlt a a = false.
Proof.
  destruct a as [| |q|]; cbn; try reflexivity.
  destruct (qlt q q) eqn:E; [|reflexivity].
  apply qlt_iff in E. now apply Qlt_irrefl in E.
Qed.

Lemma xlt_trans (a b c : xreal) :
  xlt a b = true -> xlt b c = true -> xlt a c = true.
Proof.
  destruct a as [| |p|], b as [| |q|], c as [| |r|]; cbn; try congruence.
  rewrite !qlt_iff. apply Qlt_trans.
Qed.

(** [b < c] and not [b < a], with [a] and [b] ordered: then [a < c]. *)
Lemma xlt_le_trans (a b c : xreal) :
  a <> XNaN -> xlt b a = false -> xlt b c = true -> xlt a c = true.
Proof.
  destruct a as [| |p|], b as [| |q|], c as [| |r|]; cbn; try congruence.
  intros _ Hqp Hqr. apply qlt_iff in Hqr. apply qlt_iff.
  apply Qle_lt_trans with q; [|assumption].
  apply Qnot_lt_le. intros H. apply qlt_iff in H. congruence.
Qed.

Lemma py_gt_irrefl (a : pynum) : py_gt a a = false.
Proof. apply xlt_irrefl. Qed.

Lemma py_gt_trans (a b c : pynum) :
  py_gt a b = true -> py_gt b c = true -> py_gt a c = true.
Proof. unfold py_gt. intros H1 H2. eapply xlt_trans; eassumption. Qed.

Lemma py_gt_le_trans (a b c : pynum) :
  score_is_nan a = false -> py_gt a b = false -> py_gt c b = true -> py_gt c a = true.
Proof.
  unfold py_gt, score_is_nan. intros Hn H1 H2.
  apply xlt_le_trans with (pynum_value b); try assumption.
  intros E. now rewrite E in Hn.
Qed.

(** ** Winner selection *)

(** The loop either never replaces the leader it starts from, or stops at
    the first item of greatest score above the starting score. *)
Lemma winner_loop_spec (metric : string) (rows : PyDict.t ABTesting.Row) :
  forall (win : option string) (best : pynum),
    let r := ABTesting.winner_loop metric rows (win, best) in
    (r = (win, best)
     /\ forall x, In x rows -> py_gt (score metric x) best = false)
    \/ exists pre w row post,
         rows = (pre ++ (w, row) :: post)%list
         /\ r = (Some w, score metric (w, row))
         /\ py_gt (score metric (w, row)) best = true
         /\ (forall x, In x pre ->
               py_gt (score metric (w, row)) (score metric x) = true
               \/ score_is_nan (score metric x) = true)
         /\ (forall x, In x post ->
               py_gt (score metric x) (score metric (w, row)) = false).
Proof.
  induction rows as [|[k d] rest IH]; intros win best; cbn zeta.
  - left. split; [reflexivity | intros x []].
  - unfold ABTesting.winner_loop in *. cbn [fold_left].
    replace (ABTesting.winner_step metric (win, best) (k, d))
      with (if py_gt (score metric (k, d)) best
            then (Some k, score metric (k, d)) else (win, best))
      by reflexivity.
    destruct (py_gt (score metric (k, d)) best) eqn:Hgt.
    + right. destruct (IH (Some k) (score metric (k, d))) as [[Hr Hall] | Hex].
      * exists [], k, d, rest.
        split; [reflexivity|]. split; [exact Hr|]. split; [exact Hgt|].
        split; [intros x []|exact Hall].
      * destruct Hex as (pre & w & row & post & Hrows & Hr & Hbeat & Hpre & Hpost).
        exists ((k, d) :: pre), w, row, post.
        split; [now rewrite Hrows|]. split; [exact Hr|].
        split; [eapply py_gt_trans; eassumption|].
        split; [|exact Hpost].
        intros x [<- | Hx]; [now left | now apply Hpre].
    + destruct (IH win best) as [[Hr Hall] | Hex].
      * left. split; [exact Hr|].
        intros x [<- | Hx]; [exact Hgt | now apply Hall].
      * right. destruct Hex as (pre & w & row & post & Hrows & Hr & Hbeat & Hpre & Hpost).
        exists ((k, d) :: pre), w, row, post.
        split; [now rewrite Hrows|]. split; [exact Hr|]. split; [exact Hbeat|].
        split; [|exact Hpost].
        intros x [<- | Hx]; [|now apply Hpre].
        destruct (score_is_nan (score metric (k, d))) eqn:Hn; [now right | left].
        eapply py_gt_le_trans; eassumption.
Qed.


(** ** Floats: when rounding returns *)

Lemma div_half_even_bounds (p q : Z) :
  0 <= p -> 0 < q -> 0 <= div_half_even p q <= p / q + 1.
Proof.
  intros Hp Hq. unfold div_half_even.
  assert (0 <= p / q) by (apply Z.div_pos; lia).
  destruct (2 * (p mod q) ?= q); [destruct (Z.even (p / q))| |]; lia.
Qed.

(** A quotient below [2^1023] always has a nearest double. *)
Lemma nearest_double_some (p q : Z) :
  0 < p < 2 ^ 1023 -> 0 < q -> nearest_double p q <> None.
Proof.
  intros [Hp Hp'] Hq. unfold nearest_double.
  set (L := Z.log2 p). set (K := Z.log2 q).
  destruct (Z.log2_spec p Hp) as [HL1 HL2]. fold L in HL1, HL2.
  destruct (Z.log2_spec q Hq) as [HK1 HK2]. fold K in HK1, HK2.
  assert (HL0 : 0 <= L) by apply Z.log2_nonneg.
  assert (HK0 : 0 <= K) by apply Z.log2_nonneg.
  set (e := if p * 2 ^ Z.max 0 (- (L - K)) <? q * 2 ^ Z.max 0 (L - K)
            then L - K - 1 else L - K).
  assert (He : L - K - 1 <= e <= L - K)
    by (unfold e; destruct (_ <? _); lia).
  clearbody e.
  set (sh := Z.max (e - 52) (-1074)).
  assert (Hsh : e - 52 <= sh) by (unfold sh; lia).
  set (a := p * 2 ^ Z.max 0 (- sh)). set (b := q * 2 ^ Z.max 0 sh).
  assert (Hm : div_half_even a b < 2 ^ 1024 /\
               (0 <= sh -> div_half_even a b * 2 ^ sh < 2 ^ 1024)).
  { destruct (Z.le_gt_cases 0 sh) as [Hpos | Hneg].
    - (* the unit in the last place is at least one *)
      assert (Hsh' : sh = e - 52) by (unfold sh in *; lia).
      unfold a, b. rewrite (Z.max_l 0 (- sh)), (Z.max_r 0 sh) by lia.
      rewrite Z.pow_0_r, Z.mul_1_r.
      set (B := 2 ^ sh).
      assert (HB : 0 < B) by (apply Z.pow_pos_nonneg; lia).
      assert (HBp : B <= p).
      { apply Z.le_trans with (2 ^ L); [|assumption].
        apply Z.pow_le_mono_r; lia. }
      assert (Hd := div_half_even_bounds p (q * B) ltac:(lia) ltac:(nia)).
      assert (Hq0 : 0 <= p / (q * B)) by (apply Z.div_pos; nia).
      assert (Hmd : (q * B) * (p / (q * B)) <= p) by (apply Z.mul_div_le; nia).
      assert (HdB : p / (q * B) * B <= p).
      { assert (HX : 0 <= p / (q * B) * B) by (apply Z.mul_nonneg_nonneg; lia).
        revert Hmd HX. generalize (p / (q * B)). intros d Hmd HX.
        replace (q * B * d) with (q * (d * B)) in Hmd by ring.
        assert (d * B <= q * (d * B)).
        { rewrite <- (Z.mul_1_l (d * B)) at 1.
          apply Z.mul_le_mono_nonneg_r; lia. }
        lia. }
      assert (Hbound : div_half_even p (q * B) * B <= 2 * p).
      { apply Z.le_trans with ((p / (q * B) + 1) * B).
        - apply Z.mul_le_mono_nonneg_r; lia.
        - lia. }
      assert (H1024 : 2 * p < 2 ^ 1024)
        by (change (2 ^ 1024) with (2 * 2 ^ 1023); lia).
      split; [|intros _; lia].
      apply Z.le_lt_trans with (div_half_even p (q * B) * B); [nia | lia].
    - (* the quotient is scaled up *)
      unfold a, b. rewrite (Z.max_r 0 (- sh)), (Z.max_l 0 sh) by lia.
      rewrite Z.pow_0_r, Z.mul_1_r.
      assert (Hexp : - sh <= 53 - L + K) by lia.
      assert (Hpow : 2 ^ (- sh) <= 2 ^ (53 - L + K))
        by (apply Z.pow_le_mono_r; lia).
      assert (Hpos2 : 0 < 2 ^ (- sh)) by (apply Z.pow_pos_nonneg; lia).
      assert (Hprod : p * 2 ^ (- sh) < 2 ^ 54 * q).
      { apply Z.lt_le_trans with (2 ^ Z.succ L * 2 ^ (53 - L + K)).
        - apply Z.le_lt_trans with (p * 2 ^ (53 - L + K)); [nia|].
          apply Z.mul_lt_mono_pos_r; [apply Z.pow_pos_nonneg; lia | assumption].
        - rewrite <- Z.pow_add_r by lia.
          replace (Z.succ L + (53 - L + K)) with (54 + K) by lia.
          rewrite Z.pow_add_r by lia.
          apply Z.mul_le_mono_nonneg_l; [apply Z.pow_nonneg; lia | assumption]. }
      assert (Hd := div_half_even_bounds (p * 2 ^ (- sh)) q ltac:(nia) Hq).
      assert (Hquot : p * 2 ^ (- sh) / q < 2 ^ 54)
        by (apply Z.div_lt_upper_bound; [assumption | lia]).
      split; [|intros; lia].
      apply Z.le_lt_trans with (2 ^ 54); [lia|].
      apply Z.pow_lt_mono_r; lia. }
  destruct Hm as [Hm1 Hm2].
  fold a b.
  destruct (2 ^ 1024 <=? div_half_even a b * 2 ^ Z.max 0 sh) eqn:E; [|discriminate].
  apply Z.leb_le in E. exfalso.
  destruct (Z.le_gt_cases 0 sh) as [Hpos | Hneg].
  - rewrite Z.max_r in E by lia. specialize (Hm2 Hpos). lia.
  - rewrite Z.max_l in E by lia. rewrite Z.pow_0_r, Z.mul_1_r in E. lia.
Qed.

Lemma digits2_pos_bound (m : positive) :
  Z.pos m < 2 ^ Z.pos (SpecFloat.digits2_pos m).
Proof.
  induction m as [m IH | m IH |]; cbn [SpecFloat.digits2_pos].
  - rewrite Pos2Z.inj_succ, Z.pow_succ_r by lia. lia.
  - rewrite Pos2Z.inj_succ, Z.pow_succ_r by lia. lia.
  - reflexivity.
Qed.

(** The mantissa of a binary64 number has at most 53 bits. *)
Lemma mantissa_bound (x : float) (s : bool) (m : positive) (e : Z) :
  Prim2SF x = S754_finite s m e -> Z.pos m < 2 ^ 53.
Proof.
  intros Hx. pose proof (Prim2SF_valid x) as Hv. rewrite Hx in Hv.
  cbn [SpecFloat.valid_binary] in Hv. unfold SpecFloat.bounded in Hv.
  apply andb_prop in Hv. destruct Hv as [Hc _].
  unfold SpecFloat.canonical_mantissa, SpecFloat.fexp in Hc.
  apply Z.eqb_eq in Hc.
  assert (Hd : Z.pos (SpecFloat.digits2_pos m) <= 53) by (unfold prec in Hc; lia).
  apply Z.lt_le_trans with (2 ^ Z.pos (SpecFloat.digits2_pos m)).
  - apply digits2_pos_bound.
  - apply Z.pow_le_mono_r; lia.
Qed.

(** [round(x, 2)] returns for every float. *)
Lemma float_round2_returns (x : float) : exists f, float_round2 x = Ok f.
Proof.
  unfold float_round2.
  destruct (Prim2SF x) as [sg | sg | | sg m e] eqn:Hx; try (eexists; reflexivity).
  destruct (0 <=? e) eqn:He; [eexists; reflexivity|].
  apply Z.leb_gt in He.
  set (n := div_half_even (Z.pos m * 100) (2 ^ (- e))).
  destruct (n =? 0) eqn:Hn; [eexists; reflexivity|].
  apply Z.eqb_neq in Hn.
  assert (Hpow : 1 <= 2 ^ (- e)).
  { change 1 with (2 ^ 0). apply Z.pow_le_mono_r; lia. }
  assert (Hpow0 : 0 < 2 ^ (- e)) by (apply Z.pow_pos_nonneg; lia).
  assert (Hb := div_half_even_bounds (Z.pos m * 100) (2 ^ (- e))
                  (Pos2Z.is_nonneg _) Hpow0).
  fold n in Hb.
  assert (Hm := mantissa_bound x sg m e Hx).
  assert (Hq : Z.pos m * 100 / 2 ^ (- e) <= Z.pos m * 100)
    by (apply Z.div_le_upper_bound; nia).
  assert (Hn' : 0 < n < 2 ^ 1023).
  { split; [lia|].
    apply Z.le_lt_trans with (2 ^ 53 * 100 + 1); [lia|].
    apply Z.lt_le_trans with (2 ^ 61); [reflexivity|].
    apply Z.pow_le_mono_r; lia. }
  destruct (nearest_double n 100) as [f|] eqn:Hnd.
  - eexists; reflexivity.
  - exfalso. now apply (nearest_double_some n 100 Hn' ltac:(lia)).
Qed.

(** The guarded rate never divides by zero, and returns whenever the
    numerator is below [2^1023] in magnitude. *)
Lemma percent_rate_guard (num den : Z) :
  den <= 0 -> percent_rate num den = Ok (PInt 0).
Proof.
  intros Hd. unfold percent_rate.
  destruct (0 <? den) eqn:E; [apply Z.ltb_lt in E; lia | reflexivity].
Qed.

Lemma percent_rate_formula (num den : Z) (v : pynum) :
  0 < den -> percent_rate num den = Ok v ->
  exists q f,
    int_true_div num den = Ok q
    /\ float_round2 (PrimFloat.mul q 100%float) = Ok f
    /\ v = PFloat f.
Proof.
  intros Hd. unfold percent_rate.
  apply Z.ltb_lt in Hd. rewrite Hd.
  destruct (int_true_div num den) as [q|]; [|discriminate].
  cbn [py_round2]. destruct (float_round2 _) as [f|] eqn:Hf; [|discriminate].
  intros H. inversion H. exists q, f. repeat split. exact Hf.
Qed.

Lemma percent_rate_no_zero_division (num den : Z) :
  percent_rate num den <> Raise ZeroDivisionError.
Proof.
  unfold percent_rate. destruct (0 <? den) eqn:E; [|discriminate].
  apply Z.ltb_lt in E. unfold int_true_div.
  destruct (den =? 0) eqn:E0; [apply Z.eqb_eq in E0; lia|].
  cbn [py_round2].
  destruct (num =? 0).
  - destruct (float_round2_returns
                (PrimFloat.mul (if den <? 0 then neg_zero else zero) 100%float))
      as [f ->]. discriminate.
  - destruct (nearest_double (Z.abs num) (Z.abs den)) as [q|]; [|discriminate].
    match goal with
    | |- context [float_round2 ?y] => destruct (float_round2_returns y) as [f ->]
    end. discriminate.
Qed.

Lemma percent_rate_returns (num den : Z) :
  Z.abs num < 2 ^ 1023 -> exists v, percent_rate num den = Ok v.
Proof.
  intros Hnum. unfold percent_rate.
  destruct (0 <? den) eqn:E; [|eexists; reflexivity].
  apply Z.ltb_lt in E. unfold int_true_div.
  destruct (den =? 0) eqn:E0; [apply Z.eqb_eq in E0; lia|].
  cbn [py_round2].
  destruct (num =? 0) eqn:En.
  - destruct (float_round2_returns
                (PrimFloat.mul (if den <? 0 then neg_zero else zero) 100%float))
      as [f ->]. eexists; reflexivity.
  - apply Z.eqb_neq in En.
    destruct (nearest_double (Z.abs num) (Z.abs den)) as [q|] eqn:Hnd.
    + match goal with
      | |- context [float_round2 ?y] => destruct (float_round2_returns y) as [f ->]
      end. eexists; reflexivity.
    + exfalso. apply (nearest_double_some (Z.abs num) (Z.abs den)); [lia | lia | assumption].
Qed.


(** ** The metrics dictionary *)

Lemma set_fresh {V} (d : PyDict.t V) (k : string) (v : V) :
  PyDict.get d k = None -> PyDict.set d k v = (d ++ [(k, v)])%list.
Proof.
  induction d as [|[k' v'] d IH]; cbn; intros Hget.
  - reflexivity.
  - destruct (String.eqb k k'); [discriminate|]. now rewrite IH.
Qed.

Lemma get_app {V} (d1 d2 : PyDict.t V) (k : string) :
  PyDict.get (d1 ++ d2)%list k
  = match PyDict.get d1 k with Some v => Some v | None => PyDict.get d2 k end.
Proof.
  induction d1 as [|[k' v'] d1 IH]; cbn; [reflexivity|].
  destruct (String.eqb k k'); [reflexivity | exact IH].
Qed.

Lemma get_none_not_key {V} (d : PyDict.t V) (k : string) :
  ~ In k (PyDict.keys d) -> PyDict.get d k = None.
Proof.
  induction d as [|[k' v'] d IH]; cbn; intros Hnot; [reflexivity|].
  destruct (String.eqb k k') eqn:E.
  - apply String.eqb_eq in E. subst. exfalso. apply Hnot. now left.
  - apply IH. intros H. apply Hnot. now right.
Qed.

Lemma variant_row_spec (data : ABTesting.VariantData) (row : ABTesting.Row) :
  ABTesting.variant_row data = Ok row -> row_of data row.
Proof.
  unfold ABTesting.variant_row, row_of.
  destruct (percent_rate (ABTesting.opened data) (ABTesting.sent data)) as [o|]; [|discriminate].
  destruct (percent_rate (ABTesting.clicked data) (ABTesting.sent data)) as [c|]; [|discriminate].
  destruct (percent_rate (ABTesting.converted data) (ABTesting.sent data)) as [v|]; [|discriminate].
  destruct (percent_rate (ABTesting.clicked data) (ABTesting.opened data)) as [t|]; [|discriminate].
  intros H. inversion H. cbn. repeat split.
Qed.

Lemma variant_row_no_zero_division (data : ABTesting.VariantData) :
  ABTesting.variant_row data <> Raise ZeroDivisionError.
Proof.
  unfold ABTesting.variant_row.
  repeat match goal with
         | |- context [percent_rate ?a ?b] =>
             let E := fresh "E" in
             destruct (percent_rate a b) eqn:E;
             [| intros H; inversion H; subst;
                now apply percent_rate_no_zero_division in E]
         end.
  discriminate.
Qed.

Lemma variant_row_returns (data : ABTesting.VariantData) :
  counters_bounded data -> exists row, ABTesting.variant_row data = Ok row.
Proof.
  intros (Ho & Hc & Hv). unfold ABTesting.variant_row.
  destruct (percent_rate_returns (ABTesting.opened data) (ABTesting.sent data) Ho) as [o ->].
  destruct (percent_rate_returns (ABTesting.clicked data) (ABTesting.sent data) Hc) as [c ->].
  destruct (percent_rate_returns (ABTesting.converted data) (ABTesting.sent data) Hv) as [v ->].
  destruct (percent_rate_returns (ABTesting.clicked data) (ABTesting.opened data) Hc) as [t ->].
  eexists; reflexivity.
Qed.

(** The loop over the variants appends one row per variant, in order. *)
Lemma variant_rows_spec (vs : PyDict.t ABTesting.VariantData) :
  forall acc rows,
    NoDup (PyDict.keys vs) ->
    (forall k, In k (PyDict.keys vs) -> PyDict.get acc k = None) ->
    ABTesting.variant_rows vs acc = Ok rows ->
    exists tail, rows = (acc ++ tail)%list /\ rows_of vs tail.
Proof.
  induction vs as [|[k d] vs IH]; intros acc rows Hnd Hfresh Hrun; cbn in Hrun.
  - inversion Hrun. exists []. split; [now rewrite app_nil_r | constructor].
  - destruct (ABTesting.variant_row d) as [row|] eqn:Hrow; [|discriminate].
    cbn in Hnd. inversion Hnd as [|? ? Hk Hnd']; subst.
    rewrite set_fresh in Hrun by (apply Hfresh; now left).
    assert (Hfresh' : forall k', In k' (PyDict.keys vs) ->
                                 PyDict.get (acc ++ [(k, row)])%list k' = None).
    { intros k' Hk'. rewrite get_app, Hfresh by (now right). cbn.
      destruct (String.eqb k' k) eqn:E; [|reflexivity].
      apply String.eqb_eq in E. now subst. }
    destruct (IH _ _ Hnd' Hfresh' Hrun) as (tail & Hrows & Htail).
    exists ((k, row) :: tail). split.
    + now rewrite Hrows, <- app_assoc.
    + constructor; [|assumption]. cbn. split; [reflexivity|].
      now apply variant_row_spec.
Qed.

Lemma variant_rows_no_zero_division (vs : PyDict.t ABTesting.VariantData) :
  forall acc, ABTesting.variant_rows vs acc <> Raise ZeroDivisionError.
Proof.
  induction vs as [|[k d] vs IH]; intros acc; cbn; [discriminate|].
  destruct (ABTesting.variant_row d) eqn:Hrow; [apply IH|].
  intros H. inversion H. subst. now apply (variant_row_no_zero_division d).
Qed.

Lemma variant_rows_returns (vs : PyDict.t ABTesting.VariantData) :
  Forall (fun kv => counters_bounded (snd kv)) vs ->
  forall acc, exists rows, ABTesting.variant_rows vs acc = Ok rows.
Proof.
  induction 1 as [|[k d] vs Hd _ IH]; intros acc; cbn.
  - eexists; reflexivity.
  - destruct (variant_row_returns d Hd) as [row ->]. apply IH.
Qed.

Lemma rows_of_keys vs rows : rows_of vs rows -> PyDict.keys rows = PyDict.keys vs.
Proof.
  unfold PyDict.keys.
  induction 1 as [|[k d] [k' r] vs rows [Hk _] _ IH]; cbn; [reflexivity|].
  cbn in Hk. now rewrite IH, Hk.
Qed.

Lemma rows_of_get vs rows variant data :
  rows_of vs rows -> PyDict.get vs variant = Some data ->
  exists row, PyDict.get rows variant = Some row /\ row_of data row.
Proof.
  induction 1 as [|[k d] [k' r] vs rows [Hk Hr] _ IH]; cbn; [discriminate|].
  cbn in Hk, Hr. subst k'.
  destruct (String.eqb variant k); [|exact IH].
  intros H. inversion H. subst. now exists r.
Qed.



(** The rows of the metrics dictionary follow the variants, key by key. *)
Lemma calculate_metrics_rows (tr : ABTesting.test_results) (cid : string)
    (c : ABTesting.CampaignResults) (rows : PyDict.t ABTesting.Row) :
  PyDict.get tr cid = Some c ->
  NoDup (PyDict.keys (ABTesting.variants c)) ->
  ABTesting.calculate_metrics tr cid = Ok (ABTesting.Rows rows) ->
  rows_of (ABTesting.variants c) rows.
Proof.
  intros Hc Hnd. unfold ABTesting.calculate_metrics. rewrite Hc.
  destruct (ABTesting.variant_rows (ABTesting.variants c) PyDict.empty)
    as [rows'|] eqn:E; [|discriminate].
  intros Hrun. inversion Hrun. subst rows'.
  destruct (variant_rows_spec _ PyDict.empty _ Hnd (fun _ _ => eq_refl) E)
    as (tail & -> & Htail).
  exact Htail.
Qed.

(** ** Floats: numbers that need no rounding *)

Section ExactRounding.

Lemma iter_pos_iter {A} (f : A -> A) (n : positive) :
  forall x, SpecFloat.iter_pos f n x = Pos.iter f x n.
Proof.
  induction n as [n IH|n IH|]; intros x; cbn [SpecFloat.iter_pos Pos.iter].
  - now rewrite !IH, !Pos.iter_swap.
  - now rewrite !IH.
  - reflexivity.
Qed.

Lemma pos_shift (k t : positive) :
  Z.pos (Pos.iter xO k t) = Z.pos k * 2 ^ Z.pos t.
Proof.
  change (Pos.iter xO k t) with (shift_pos t k).
  rewrite shift_pos_correct. change (2 ^ Z.pos t) with (Z.pow_pos 2 t). lia.
Qed.

Lemma digits_shift (k t : positive) :
  Z.pos (digits2_pos (Pos.iter xO k t)) = Z.pos (digits2_pos k) + Z.pos t.
Proof.
  induction t as [|t IH] using Pos.peano_ind.
  - cbn [Pos.iter digits2_pos]. lia.
  - rewrite Pos.iter_succ. cbn [digits2_pos]. lia.
Qed.

(** Shifting out the zeros that were shifted in loses nothing. *)
Lemma shr_exact (t k : positive) :
  SpecFloat.iter_pos shr_1 t
    {| shr_m := Z.pos (Pos.iter xO k t); shr_r := false; shr_s := false |}
  = {| shr_m := Z.pos k; shr_r := false; shr_s := false |}.
Proof.
  rewrite iter_pos_iter.
  induction t as [|t IH] using Pos.peano_ind.
  - reflexivity.
  - rewrite Pos.iter_succ_r, Pos.iter_succ. cbn [shr_1 orb]. exact IH.
Qed.

(** A mantissa that is already in its place is left alone. *)
Lemma binary_round_aux_canonical (sx : bool) (m : positive) (e : Z) :
  bounded prec emax m e = true ->
  binary_round_aux prec emax sx (Z.pos m) e loc_Exact = S754_finite sx m e.
Proof.
  unfold bounded, canonical_mantissa. intros H.
  apply andb_prop in H as [Hc He]. apply Z.eqb_eq in Hc.
  unfold binary_round_aux, shr_fexp. cbn [Zdigits2 shr_record_of_loc].
  rewrite Hc, Z.sub_diag. cbn [shr shr_m loc_of_shr_record round_nearest_even Zdigits2
                                 shr_record_of_loc].
  rewrite Hc, Z.sub_diag. cbn [shr shr_m]. now rewrite He.
Qed.

(** [mx * 2^ex] with the binary64 number [k * 2^j] of the same value. *)
Lemma binary_round_up (sx : bool) (mx : positive) (ex : Z) (k : positive) (j : Z) :
  bounded prec emax k j = true ->
  j <= ex -> Z.pos k = Z.pos mx * 2 ^ (ex - j) ->
  binary_round prec emax sx mx ex = S754_finite sx k j.
Proof.
  intros Hb Hj Hk.
  assert (Hc : fexp prec emax (Z.pos (digits2_pos k) + j) = j).
  { unfold bounded, canonical_mantissa in Hb.
    apply andb_prop in Hb as [Hc _]. now apply Z.eqb_eq in Hc. }
  unfold binary_round, shl_align.
  destruct (Z.eq_dec ex j) as [-> | Hne].
  - rewrite Z.sub_diag, Z.mul_1_r in Hk. injection Hk as ->.
    rewrite Hc, Z.sub_diag. now apply binary_round_aux_canonical.
  - assert (Hd : ex - j = Z.pos (Z.to_pos (ex - j))) by (rewrite Z2Pos.id; lia).
    rewrite Hd in Hk. rewrite <- pos_shift in Hk. injection Hk as Hk.
    assert (Hdig : Z.pos (digits2_pos mx) + ex = Z.pos (digits2_pos k) + j).
    { rewrite Hk, digits_shift. lia. }
    rewrite Hdig, Hc.
    replace (j - ex) with (Z.neg (Z.to_pos (ex - j))) by lia.
    rewrite <- Hk. now apply binary_round_aux_canonical.
Qed.

Lemma binary_round_down (sx : bool) (mx : positive) (ex : Z) (k : positive) (j : Z) :
  bounded prec emax k j = true ->
  ex < j -> Z.pos mx = Z.pos k * 2 ^ (j - ex) ->
  binary_round prec emax sx mx ex = S754_finite sx k j.
Proof.
  intros Hb Hj Hk.
  assert (Hb' := Hb).
  unfold bounded, canonical_mantissa in Hb'.
  apply andb_prop in Hb' as [Hc He]. apply Z.eqb_eq in Hc.
  assert (Hd : j - ex = Z.pos (Z.to_pos (j - ex))) by (rewrite Z2Pos.id; lia).
  rewrite Hd in Hk. rewrite <- pos_shift in Hk. injection Hk as Hk.
  assert (Hdig : Z.pos (digits2_pos mx) + ex = Z.pos (digits2_pos k) + j).
  { rewrite Hk, digits_shift. lia. }
  unfold binary_round, shl_align. rewrite Hdig, Hc, Hd.
  unfold binary_round_aux, shr_fexp. cbn [Zdigits2 shr_record_of_loc].
  rewrite Hdig, Hc, Hd. cbn [shr]. rewrite Hk, shr_exact.
  cbn [shr_m loc_of_shr_record round_nearest_even Zdigits2 shr_record_of_loc].
  replace (ex + Z.pos (Z.to_pos (j - ex))) with j by lia.
  rewrite Hc, Z.sub_diag. cbn [shr shr_m]. now rewrite He.
Qed.

End ExactRounding.

(** ** Floats: the value of a binary64 number *)

Section FloatValues.

Lemma digits2_pos_lower (m : positive) :
  2 ^ (Z.pos (digits2_pos m) - 1) <= Z.pos m.
Proof.
  induction m as [m IH|m IH|]; cbn [digits2_pos].
  - rewrite Pos2Z.inj_succ.
    replace (Z.succ (Z.pos (digits2_pos m)) - 1)
      with (Z.succ (Z.pos (digits2_pos m) - 1)) by lia.
    rewrite Z.pow_succ_r by lia. lia.
  - rewrite Pos2Z.inj_succ.
    replace (Z.succ (Z.pos (digits2_pos m)) - 1)
      with (Z.succ (Z.pos (digits2_pos m) - 1)) by lia.
    rewrite Z.pow_succ_r by lia. lia.
  - cbn. lia.
Qed.

Lemma digits2_pos_unique (k : positive) (n : Z) :
  2 ^ (n - 1) <= Z.pos k < 2 ^ n -> Z.pos (digits2_pos k) = n.
Proof.
  intros [Hl Hu].
  pose proof (digits2_pos_bound k) as Hb.
  pose proof (digits2_pos_lower k) as Hlow.
  set (d := Z.pos (digits2_pos k)) in *.
  destruct (Z.lt_trichotomy d n) as [H1|[H1|H1]]; [|assumption|].
  - exfalso. assert (2 ^ d <= 2 ^ (n - 1)) by (apply Z.pow_le_mono_r; lia). lia.
  - exfalso. assert (2 ^ n <= 2 ^ (d - 1)) by (apply Z.pow_le_mono_r; lia). lia.
Qed.

Lemma bounded_intro (k : positive) (j : Z) :
  j = Z.max (Z.pos (digits2_pos k) + j - 53) (-1074) -> j <= 971 ->
  bounded prec emax k j = true.
Proof.
  intros Hj He. unfold bounded, canonical_mantissa, fexp, emin.
  change prec with 53. change emax with 1024.
  apply andb_true_intro. split; [apply Z.eqb_eq | apply Z.leb_le]; lia.
Qed.

Lemma pow2_split (a b : Z) : 0 <= a -> 0 <= b -> 2 ^ (a + b) = 2 ^ a * 2 ^ b.
Proof. intros. now apply Z.pow_add_r. Qed.

(** The conversion of an integer of at most 54 bits is exact; its
    mantissa is normalised to 53 bits. *)
Lemma of_uint63_value (m : Z) :
  0 < m <= 2 ^ 53 ->
  exists k j,
    Prim2SF (of_uint63 (Uint63.of_Z m)) = S754_finite false k j
    /\ 2 ^ 52 <= Z.pos k < 2 ^ 53
    /\ -52 <= j <= 1
    /\ Z.pos k * 2 ^ (j + 52) = m * 2 ^ 52.
Proof.
  intros [Hm0 Hm].
  assert (Hw : m < Uint63.wB).
  { apply Z.le_lt_trans with (2 ^ 53); [assumption | reflexivity]. }
  rewrite of_uint63_spec, Uint63.of_Z_spec, Z.mod_small by lia.
  destruct m as [|mp|mp]; try lia.
  cbn [binary_normalize].
  destruct (Z.eq_dec (Z.pos mp) (2 ^ 53)) as [E | NE].
  - injection E as ->. exists 4503599627370496%positive, 1.
    split; [vm_compute; reflexivity|]. split; [split; [|reflexivity]; discriminate|].
    split; [lia | reflexivity].
  - pose proof (digits2_pos_bound mp) as Hup.
    pose proof (digits2_pos_lower mp) as Hlow.
    set (d := Z.pos (digits2_pos mp)) in *.
    assert (Hd0 : 1 <= d) by (unfold d; lia).
    assert (Hd : d <= 53).
    { destruct (Z.le_gt_cases d 53) as [H|H]; [assumption|exfalso].
      assert (2 ^ 53 <= 2 ^ (d - 1)) by (apply Z.pow_le_mono_r; lia). lia. }
    assert (Hs : 0 < 2 ^ (53 - d)) by (apply Z.pow_pos_nonneg; lia).
    assert (H52 : 2 ^ 52 = 2 ^ (d - 1) * 2 ^ (53 - d)).
    { rewrite <- pow2_split by lia. f_equal. lia. }
    assert (H53 : 2 ^ 53 = 2 ^ d * 2 ^ (53 - d)).
    { rewrite <- pow2_split by lia. f_equal. lia. }
    assert (Hk : Z.pos (Z.to_pos (Z.pos mp * 2 ^ (53 - d))) = Z.pos mp * 2 ^ (53 - d))
      by (apply Z2Pos.id; lia).
    exists (Z.to_pos (Z.pos mp * 2 ^ (53 - d))), (d - 53).
    assert (Hkb : 2 ^ 52 <= Z.pos (Z.to_pos (Z.pos mp * 2 ^ (53 - d))) < 2 ^ 53).
    { rewrite Hk, H52, H53. split.
      - apply Z.mul_le_mono_nonneg_r; lia.
      - apply Z.mul_lt_mono_pos_r; lia. }
    split; [|split; [exact Hkb | split; [lia|]]].
    + apply binary_round_up.
      * apply bounded_intro; [|lia].
        rewrite (digits2_pos_unique _ 53) by exact Hkb. lia.
      * lia.
      * rewrite Hk. f_equal. f_equal. lia.
    + rewrite Hk. replace (d - 53 + 52) with (d - 1) by lia.
      rewrite H52. ring.
Qed.

Lemma two_neq_0 : ~ (2 == 0)%Q.
Proof. discriminate. Qed.

Lemma pow2_pos (j : Z) : (0 < 2 ^ j)%Q.
Proof. now apply Qpower_0_lt. Qed.

Lemma pow2_add (a b : Z) : (2 ^ (a + b) == 2 ^ a * 2 ^ b)%Q.
Proof. apply Qpower_plus, two_neq_0. Qed.

Lemma pow2_inject (n : Z) : 0 <= n -> (inject_Z (2 ^ n) == 2 ^ n)%Q.
Proof. intros H. now rewrite Zpower_Qpower. Qed.

(** The value of a finite binary64 number is its mantissa times a power
    of two. *)
Lemma float_value_finite (f : float) (s : bool) (k : positive) (j : Z) :
  Prim2SF f = S754_finite s k j ->
  exists x, float_value f = XFin x
            /\ (x == inject_Z (if s then Z.neg k else Z.pos k) * 2 ^ j)%Q.
Proof.
  intros H. unfold float_value. rewrite H.
  set (n := if s then Z.neg k else Z.pos k).
  eexists. split; [reflexivity|].
  destruct (0 <=? j) eqn:E.
  - apply Z.leb_le in E.
    change ((n * 2 ^ j)%Z # 1) with (inject_Z (n * 2 ^ j)).
    now rewrite inject_Z_mult, pow2_inject.
  - apply Z.leb_gt in E.
    rewrite Qmake_Qdiv, Z2Pos.id by (apply Z.pow_pos_nonneg; lia).
    rewrite pow2_inject by lia.
    rewrite Qpower_opp. unfold Qdiv. now rewrite Qinv_involutive.
Qed.

(** [m * 2^sh], for [m] of at most 54 bits and [sh] not below the
    exponent of the subnormal numbers, is a binary64 number. *)
Lemma ldexp_of_uint63_value (m sh : Z) :
  0 <= m <= 2 ^ 53 -> -1074 <= sh -> m * 2 ^ Z.max 0 sh < 2 ^ 1024 ->
  exists x,
    float_value (Z.ldexp (of_uint63 (Uint63.of_Z m)) sh) = XFin x
    /\ (x == inject_Z m * 2 ^ sh)%Q.
Proof.
  intros [Hm0 Hm] Hsh Hfit.
  destruct (Z.eq_dec m 0) as [-> | Hne].
  - exists (0 # 1)%Q. split.
    + unfold float_value. rewrite Z_ldexp_spec. reflexivity.
    + now rewrite Qmult_0_l.
  - destruct (of_uint63_value m) as (k & j & Hf & Hk & Hj & Hv); [lia|].
    assert (Hq : (inject_Z (Z.pos k) * 2 ^ (j + 52) == inject_Z m * 2 ^ 52)%Q).
    { assert (Hq0 : inject_Z (Z.pos k * 2 ^ (j + 52)) = inject_Z (m * 2 ^ 52))
        by now rewrite Hv.
      rewrite !inject_Z_mult in Hq0.
      rewrite <- (pow2_inject (j + 52)), <- (pow2_inject 52) by lia.
      now rewrite Hq0. }
    assert (Hval : (inject_Z (Z.pos k) * 2 ^ (j + sh) == inject_Z m * 2 ^ sh)%Q).
    { replace (j + sh) with ((j + 52) + (sh - 52)) by lia.
      replace sh with (52 + (sh - 52)) at 2 by lia.
      rewrite (pow2_add (j + 52) (sh - 52)), (pow2_add 52 (sh - 52)).
      rewrite !Qmult_assoc, Hq. reflexivity. }
    destruct (Z.le_gt_cases (-1074) (j + sh)) as [Hnorm | Hsub].
    + (* the exponent is in range: the mantissa stays *)
      assert (Hmax : j + sh <= 971).
      { destruct (Z.le_gt_cases (j + sh) 971) as [H|H]; [assumption|exfalso].
        assert (Hsh0 : 0 <= sh) by lia.
        rewrite Z.max_r in Hfit by lia.
        assert (H1 : 2 ^ 52 * 2 ^ (j + 52) * 2 ^ sh <= m * 2 ^ 52 * 2 ^ sh).
        { rewrite <- Hv. apply Z.mul_le_mono_nonneg_r; [apply Z.pow_nonneg; lia|].
          apply Z.mul_le_mono_nonneg_r; [apply Z.pow_nonneg; lia | lia]. }
        rewrite <- !pow2_split in H1 by lia.
        assert (H2 : 2 ^ (1024 + 52) <= 2 ^ (52 + (j + 52) + sh))
          by (apply Z.pow_le_mono_r; lia).
        rewrite (pow2_split 1024 52) in H2 by lia.
        assert (0 < 2 ^ 52) by reflexivity. nia. }
      assert (Hr : Prim2SF (Z.ldexp (of_uint63 (Uint63.of_Z m)) sh)
                   = S754_finite false k (j + sh)).
      { rewrite Z_ldexp_spec, Hf. cbn [SFldexp].
        apply binary_round_up.
        - apply bounded_intro; [|assumption].
          rewrite (digits2_pos_unique _ 53) by exact Hk. lia.
        - lia.
        - rewrite Z.sub_diag. lia. }
      destruct (float_value_finite _ _ _ _ Hr) as (x & Hx & Hxv).
      exists x. split; [assumption|]. now rewrite Hxv.
    + (* a subnormal number: the zeros shifted in are shifted out *)
      assert (Hj0 : j < 0) by lia.
      assert (Hkm : Z.pos k = m * 2 ^ (- j)).
      { assert (H52 : 2 ^ 52 = 2 ^ (- j) * 2 ^ (j + 52)).
        { rewrite <- pow2_split by lia. f_equal. lia. }
        rewrite H52 in Hv.
        assert (0 < 2 ^ (j + 52)) by (apply Z.pow_pos_nonneg; lia).
        nia. }
      set (t := -1074 - (j + sh)).
      assert (Hsplit : 2 ^ (- j) = 2 ^ (sh + 1074) * 2 ^ t).
      { rewrite <- pow2_split by (unfold t; lia). f_equal. unfold t. lia. }
      assert (Hs : 0 < 2 ^ (sh + 1074)) by (apply Z.pow_pos_nonneg; lia).
      assert (Ht : 0 < 2 ^ t) by (apply Z.pow_pos_nonneg; unfold t; lia).
      set (k' := Z.to_pos (m * 2 ^ (sh + 1074))).
      assert (Hk' : Z.pos k' = m * 2 ^ (sh + 1074)) by (apply Z2Pos.id; nia).
      assert (Hsmall : Z.pos k' < 2 ^ (53 - t)).
      { assert (H53 : 2 ^ 53 = 2 ^ (53 - t) * 2 ^ t).
        { rewrite <- pow2_split by (unfold t; lia). f_equal. lia. }
        assert (Hkk : Z.pos k = Z.pos k' * 2 ^ t) by (rewrite Hkm, Hsplit, Hk'; ring).
        destruct Hk as [_ Hk]. rewrite Hkk, H53 in Hk.
        apply Z.mul_lt_mono_pos_r in Hk; assumption. }
      assert (Hd' : Z.pos (digits2_pos k') <= 53 - t).
      { pose proof (digits2_pos_lower k') as Hlow.
        destruct (Z.le_gt_cases (Z.pos (digits2_pos k')) (53 - t)) as [H|H];
          [assumption|exfalso].
        assert (2 ^ (53 - t) <= 2 ^ (Z.pos (digits2_pos k') - 1))
          by (apply Z.pow_le_mono_r; lia).
        lia. }
      assert (Hr : Prim2SF (Z.ldexp (of_uint63 (Uint63.of_Z m)) sh)
                   = S754_finite false k' (-1074)).
      { rewrite Z_ldexp_spec, Hf. cbn [SFldexp].
        apply binary_round_down.
        - apply bounded_intro; [unfold t in Hd'; lia | lia].
        - lia.
        - rewrite Hkm, Hsplit, Hk'. fold t. now rewrite Z.mul_assoc. }
      destruct (float_value_finite _ _ _ _ Hr) as (x & Hx & Hxv).
      exists x. split; [assumption|]. rewrite Hxv, Hk', inject_Z_mult.
      rewrite pow2_inject by lia.
      rewrite <- Qmult_assoc, <- pow2_add.
      replace (sh + 1074 + -1074) with sh by lia. reflexivity.
Qed.

End FloatValues.

(** ** Floats: correctly rounded quotients *)

Section Nearest.

Open Scope Q_scope.

Lemma nearest_float_wd (r r' : Q) (f : float) :
  r == r' -> nearest_float r f -> nearest_float r' f.
Proof.
  intros E (x & Hx & Hn). exists x. split; [assumption|].
  intros g y Hg. rewrite <- E. exact (Hn g y Hg).
Qed.

(** A number that is a binary64 number is nearest to itself. *)
Lemma nearest_float_self (r : Q) (f : float) (x : Q) :
  float_value f = XFin x -> x == r -> nearest_float r f.
Proof.
  intros Hx E. exists x. split; [assumption|].
  intros g y _. rewrite E.
  setoid_replace (r - r) with 0 by ring. apply Qabs_nonneg.
Qed.

Lemma near_half (mu rho a b : Q) :
  0 < b -> rho * b == a ->
  - b <= 2 * (mu * b - a) -> 2 * (mu * b - a) <= b ->
  Qabs (mu - rho) <= 1 # 2.
Proof.
  intros Hb E H1 H2. apply Qabs_Qle_condition. split; nra.
Qed.

(** An integer within a half of [rho] is as near to [rho] as any
    integer. *)
Lemma nearest_integer (rho : Q) (m K : Z) :
  Qabs (inject_Z m - rho) <= 1 # 2 ->
  Qabs (inject_Z m - rho) <= Qabs (inject_Z K - rho).
Proof.
  intros H.
  destruct (Z.eq_dec K m) as [-> | Hne]; [apply Qle_refl|].
  apply Qle_trans with (1 # 2); [assumption|].
  apply Qabs_Qle_condition in H. destruct H as [H1 H2].
  assert (HK : (K + 1 <= m)%Z \/ (m + 1 <= K)%Z) by lia.
  destruct HK as [HK | HK]; rewrite Zle_Qle in HK.
  - rewrite inject_Z_plus in HK. change (inject_Z 1) with 1 in HK.
    apply Qabs_case; intros; lra.
  - rewrite inject_Z_plus in HK. change (inject_Z 1) with 1 in HK.
    apply Qabs_case; intros; lra.
Qed.

Lemma div_half_even_near (A B : Z) :
  (0 <= A)%Z -> (0 < B)%Z ->
  (- B <= 2 * (div_half_even A B * B - A) <= B)%Z
  /\ (Z.abs (2 * (div_half_even A B * B - A)) = B -> Z.even (div_half_even A B) = true).
Proof.
  intros HA HB. unfold div_half_even.
  pose proof (Z.div_mod A B ltac:(lia)) as Hdm.
  pose proof (Z.mod_pos_bound A B HB) as Hr.
  destruct (Z.compare_spec (2 * (A mod B)) B) as [E | E | E].
  - destruct (Z.even (A / B)) eqn:Ev.
    + split; [nia | intros _; exact Ev].
    + split; [nia|]. intros _. rewrite Z.even_add, Ev. reflexivity.
  - split; [nia | intros H; exfalso; nia].
  - split; [nia | intros H; exfalso; nia].
Qed.

End Nearest.

Section NearestDouble.

Open Scope Q_scope.

(** Every finite binary64 number is an integer below [2^53] in magnitude
    times a power of two that is not below [2^-1074]. *)
Lemma float_value_dyadic (g : float) (y : Q) :
  float_value g = XFin y ->
  exists k j, y == inject_Z k * 2 ^ j /\ (Z.abs k < 2 ^ 53)%Z /\ (-1074 <= j)%Z.
Proof.
  intros H. destruct (Prim2SF g) as [s|s| |s m e] eqn:Hg.
  - unfold float_value in H. rewrite Hg in H. injection H as <-.
    exists 0%Z, 0%Z. split; [reflexivity|]. split; [reflexivity | lia].
  - unfold float_value in H. rewrite Hg in H. destruct s; discriminate.
  - unfold float_value in H. rewrite Hg in H. discriminate.
  - destruct (float_value_finite _ _ _ _ Hg) as (x & Hx & Hxv).
    rewrite Hx in H. injection H as <-.
    exists (if s then Z.neg m else Z.pos m), e. split; [assumption|]. split.
    + pose proof (mantissa_bound _ _ _ _ Hg). destruct s; lia.
    + pose proof (Prim2SF_valid g) as Hv. rewrite Hg in Hv.
      cbn [valid_binary] in Hv. unfold bounded, canonical_mantissa, fexp, emin in Hv.
      apply andb_prop in Hv. destruct Hv as [Hc _]. apply Z.eqb_eq in Hc.
      change prec with 53%Z in Hc. change emax with 1024%Z in Hc. lia.
Qed.

Lemma inject_scaled (p a : Z) : (0 <= a)%Z -> inject_Z (p * 2 ^ a) == inject_Z p * 2 ^ a.
Proof. intros H. now rewrite inject_Z_mult, pow2_inject. Qed.

Lemma pow2_le (a b : Z) : (a <= b)%Z -> 2 ^ a <= 2 ^ b.
Proof. intros H. apply Qpower_le_compat_l; [assumption | discriminate]. Qed.

Lemma pow2_bounds (p : Z) :
  (0 < p)%Z -> 2 ^ Z.log2 p <= inject_Z p /\ inject_Z p < 2 ^ (Z.log2 p + 1).
Proof.
  intros Hp. destruct (Z.log2_spec p Hp) as [H1 H2].
  pose proof (Z.log2_nonneg p) as H0.
  rewrite <- !pow2_inject by lia. rewrite <- Zle_Qle, <- Zlt_Qlt.
  split; [assumption|]. now rewrite Z.add_1_r.
Qed.

(** The exponent that [nearest_double] picks: the quotient lies in
    [[2^e, 2^(e+1))]. *)
Lemma quotient_exponent (p q : Z) :
  (0 < p)%Z -> (0 < q)%Z ->
  let e0 := (Z.log2 p - Z.log2 q)%Z in
  let e := if (p * 2 ^ Z.max 0 (- e0) <? q * 2 ^ Z.max 0 e0)%Z
           then (e0 - 1)%Z else e0 in
  2 ^ e * inject_Z q <= inject_Z p /\ inject_Z p < 2 ^ (e + 1) * inject_Z q.
Proof.
  intros Hp Hq e0 e.
  destruct (pow2_bounds p Hp) as [HP1 HP2]. destruct (pow2_bounds q Hq) as [HQ1 HQ2].
  fold e0 in e.
  set (L := Z.log2 p) in *. set (K := Z.log2 q) in *.
  set (P := inject_Z p) in *. set (D := inject_Z q) in *.
  assert (HD : 0 < D) by (unfold D; rewrite <- (Zlt_Qlt 0); assumption).
  pose proof (pow2_pos (Z.max 0 (- e0))) as Ha.
  assert (Hb : 2 ^ Z.max 0 e0 == 2 ^ e0 * 2 ^ Z.max 0 (- e0)).
  { rewrite <- pow2_add. replace (e0 + Z.max 0 (- e0))%Z with (Z.max 0 e0) by lia.
    reflexivity. }
  assert (HL : 2 ^ L == 2 ^ (e0 - 1) * 2 ^ (K + 1)).
  { rewrite <- pow2_add. replace (e0 - 1 + (K + 1))%Z with L by (unfold e0; lia).
    reflexivity. }
  assert (HL' : 2 ^ (L + 1) == 2 ^ (e0 + 1) * 2 ^ K).
  { rewrite <- pow2_add. replace (e0 + 1 + K)%Z with (L + 1)%Z by (unfold e0; lia).
    reflexivity. }
  pose proof (pow2_pos (e0 - 1)) as H1. pose proof (pow2_pos (e0 + 1)) as H2.
  pose proof (pow2_pos e0) as H3.
  unfold e. destruct (_ <? _)%Z eqn:T.
  - apply Z.ltb_lt in T. rewrite Zlt_Qlt in T.
    rewrite !inject_scaled in T by lia. fold P D in T. rewrite Hb in T.
    replace (e0 - 1 + 1)%Z with e0 by lia.
    split; [|nra].
    apply Qlt_le_weak. apply Qlt_le_trans with (2 ^ L); [|assumption].
    rewrite HL. apply Qmult_lt_l; assumption.
  - apply Z.ltb_ge in T. rewrite Zle_Qle in T.
    rewrite !inject_scaled in T by lia. fold P D in T. rewrite Hb in T.
    split; [nra|].
    apply Qlt_le_trans with (2 ^ (L + 1)); [assumption|].
    rewrite HL'. apply Qmult_le_l; assumption.
Qed.

(** The quotient of two positive integers as [nearest_double] returns it
    is a binary64 number nearest to the exact quotient. *)
Lemma nearest_double_nearest (p q : Z) (f : float) :
  (0 < p)%Z -> (0 < q)%Z -> nearest_double p q = Some f ->
  nearest_float (inject_Z p / inject_Z q) f.
Proof.
  intros Hp Hq. unfold nearest_double.
  destruct (quotient_exponent p q Hp Hq) as [He1 He2]. cbv zeta in He1, He2.
  set (e := if (_ <? _)%Z then _ else _) in *. clearbody e.
  set (sh := Z.max (e - 52) (-1074)).
  set (A := (p * 2 ^ Z.max 0 (- sh))%Z). set (B := (q * 2 ^ Z.max 0 sh)%Z).
  set (m := div_half_even A B).
  destruct (2 ^ 1024 <=? m * 2 ^ Z.max 0 sh)%Z eqn:Hfit; [discriminate|].
  intros Hf. injection Hf as <-. apply Z.leb_gt in Hfit.
  set (P := inject_Z p) in *. set (D := inject_Z q) in *.
  assert (HD : 0 < D) by (unfold D; rewrite <- (Zlt_Qlt 0); assumption).
  assert (HD0 : ~ D == 0) by (intros E; rewrite E in HD; discriminate).
  set (r := P / D).
  assert (Hr : r * D == P) by (unfold r; field; assumption).
  assert (HA0 : (0 <= A)%Z) by (unfold A; apply Z.mul_nonneg_nonneg; [lia | apply Z.pow_nonneg; lia]).
  assert (HB0 : (0 < B)%Z) by (unfold B; apply Z.mul_pos_pos; [lia | apply Z.pow_pos_nonneg; lia]).
  destruct (div_half_even_near A B HA0 HB0) as [[Hn1 Hn2] _]. fold m in Hn1, Hn2.
  pose proof (div_half_even_bounds A B HA0 HB0) as [Hm0 _]. fold m in Hm0.
  (* the quotient in units of the last place *)
  set (u := 2 ^ sh). set (rho := r * 2 ^ (- sh)).
  assert (Hu : 0 < u) by apply pow2_pos.
  assert (Hru : rho * u == r).
  { unfold rho, u. rewrite <- Qmult_assoc, <- pow2_add.
    replace (- sh + sh)%Z with 0%Z by lia. change (2 ^ 0) with 1. ring. }
  assert (Hnear : Qabs (inject_Z m - rho) <= 1 # 2).
  { apply near_half with (a := inject_Z A) (b := inject_Z B).
    - rewrite <- (Zlt_Qlt 0). exact HB0.
    - unfold A, B. rewrite !inject_scaled by lia. fold P D. unfold rho.
      assert (E : 2 ^ (- sh) * 2 ^ Z.max 0 sh == 2 ^ Z.max 0 (- sh)).
      { rewrite <- pow2_add. replace (- sh + Z.max 0 sh)%Z with (Z.max 0 (- sh)) by lia.
        reflexivity. }
      rewrite <- E, <- Hr. ring.
    - unfold Z.sub in Hn1. rewrite Zle_Qle in Hn1. rewrite inject_Z_opp, !inject_Z_mult, inject_Z_plus,
        inject_Z_opp, inject_Z_mult in Hn1. exact Hn1.
    - unfold Z.sub in Hn2. rewrite Zle_Qle in Hn2. rewrite !inject_Z_mult, inject_Z_plus,
        inject_Z_opp, inject_Z_mult in Hn2. exact Hn2. }
  (* the mantissa has at most 54 bits *)
  assert (Hrho : rho < 2 ^ 53).
  { apply Qlt_le_trans with (2 ^ (e + 1 - sh)); [|apply pow2_le; unfold sh; lia].
    replace (e + 1 - sh)%Z with (e + 1 + - sh)%Z by lia. rewrite pow2_add.
    unfold rho. apply Qmult_lt_r; [apply pow2_pos|]. 
    pose proof (pow2_pos (e + 1)). nra. }
  assert (Hm53 : (m <= 2 ^ 53)%Z).
  { destruct (Z.le_gt_cases m (2 ^ 53)) as [H|H]; [assumption|exfalso].
    assert (H' : (2 ^ 53 + 1 <= m)%Z) by lia.
    rewrite Zle_Qle, inject_Z_plus, pow2_inject in H' by lia.
    change (inject_Z 1) with 1 in H'.
    apply Qabs_Qle_condition in Hnear. lra. }
  destruct (ldexp_of_uint63_value m sh (conj Hm0 Hm53) ltac:(unfold sh; lia) Hfit)
    as (x & Hx & Hxv).
  exists x. split; [assumption|].
  intros g y Hg.
  destruct (float_value_dyadic g y Hg) as (k & j & Hy & Hk & Hj).
  assert (Hxr : x - r == (inject_Z m - rho) * u).
  { rewrite Hxv, <- Hru. fold u. ring. }
  assert (Hint : forall K : Z,
             Qabs (x - r) <= Qabs (inject_Z K * u - r)).
  { intros K.
    assert (E : inject_Z K * u - r == (inject_Z K - rho) * u) by (rewrite <- Hru; ring).
    rewrite Hxr, E, !Qabs_Qmult. apply Qmult_le_compat_r; [|apply Qabs_nonneg].
    now apply nearest_integer. }
  destruct (Z.le_gt_cases sh j) as [Hjs | Hjs].
  - (* [y] is a multiple of the unit in the last place *)
    assert (E : y == inject_Z (k * 2 ^ (j - sh)) * u).
    { rewrite Hy, inject_scaled by lia. unfold u.
      rewrite <- Qmult_assoc, <- pow2_add. replace (j - sh + sh)%Z with j by lia.
      reflexivity. }
    rewrite E. apply Hint.
  - (* [y] is below the binade of the quotient *)
    assert (Hsh : sh = (e - 52)%Z) by (unfold sh in *; lia).
    assert (Hlow : 2 ^ e <= r).
    { pose proof (pow2_pos e). nra. }
    assert (E : 2 ^ e == inject_Z (2 ^ 52) * u).
    { rewrite pow2_inject by lia. unfold u. rewrite <- pow2_add.
      replace (52 + sh)%Z with e by lia. reflexivity. }
    assert (Hy' : y < 2 ^ e).
    { apply Qlt_le_trans with (2 ^ (53 + j)); [|apply pow2_le; lia].
      rewrite Hy, pow2_add. apply Qmult_lt_r; [apply pow2_pos|].
      rewrite <- pow2_inject by lia. rewrite <- Zlt_Qlt. lia. }
    apply Qle_trans with (Qabs (2 ^ e - r)).
    + rewrite E. apply Hint.
    + rewrite (Qabs_neg (2 ^ e - r)) by lra. rewrite (Qabs_neg (y - r)) by lra. lra.
Qed.

End NearestDouble.

Section RoundedRates.

Open Scope Q_scope.

Lemma float_value_opp (g : float) (y : Q) :
  float_value g = XFin y ->
  exists y', float_value (PrimFloat.opp g) = XFin y' /\ y' == - y.
Proof.
  destruct (Prim2SF g) as [s|s| |s m e] eqn:Hg.
  - unfold float_value. rewrite opp_spec, Hg. cbn [SFopp].
    intros H. injection H as <-. eexists. split; reflexivity.
  - unfold float_value. rewrite Hg. destruct s; discriminate.
  - unfold float_value. rewrite Hg. discriminate.
  - intros Hy.
    destruct (float_value_finite _ _ _ _ Hg) as (x & Hx & Hxv).
    rewrite Hx in Hy. injection Hy as <-.
    assert (Hg' : Prim2SF (PrimFloat.opp g) = S754_finite (negb s) m e)
      by (rewrite opp_spec, Hg; reflexivity).
    destruct (float_value_finite _ _ _ _ Hg') as (x' & Hx' & Hxv').
    exists x'. split; [assumption|]. rewrite Hxv', Hxv.
    destruct s; cbn [negb].
    + change (Z.pos m) with (- Z.neg m)%Z. rewrite inject_Z_opp. ring.
    + change (Z.neg m) with (- Z.pos m)%Z. rewrite inject_Z_opp. ring.
Qed.

Lemma nearest_float_opp (r : Q) (f : float) :
  nearest_float r f -> nearest_float (- r) (PrimFloat.opp f).
Proof.
  intros (x & Hx & Hn).
  destruct (float_value_opp f x Hx) as (x' & Hx' & Ex).
  exists x'. split; [assumption|]. intros g y Hg.
  destruct (float_value_opp g y Hg) as (y' & Hy' & Ey).
  specialize (Hn (PrimFloat.opp g) y' Hy').
  setoid_replace (x' - - r) with (- (x - r)) by (rewrite Ex; ring).
  setoid_replace (y - - r) with (- (y' - r)) by (rewrite Ey; ring).
  now rewrite !Qabs_opp.
Qed.

(** [a / b] on two integers is correctly rounded. *)
Lemma int_true_div_nearest (a b : Z) (q : float) :
  (0 < b)%Z -> int_true_div a b = Ok q ->
  nearest_float (inject_Z a / inject_Z b) q.
Proof.
  intros Hb. unfold int_true_div.
  destruct (b =? 0)%Z eqn:E0; [apply Z.eqb_eq in E0; lia|].
  assert (Hneg : (b <? 0)%Z = false) by (apply Z.ltb_ge; lia). rewrite Hneg.
  destruct (a =? 0)%Z eqn:Ea.
  - apply Z.eqb_eq in Ea. subst a. intros H. injection H as <-.
    apply nearest_float_self with (x := 0 # 1); [reflexivity|].
    unfold Qdiv. now rewrite Qmult_0_l.
  - apply Z.eqb_neq in Ea.
    destruct (nearest_double (Z.abs a) (Z.abs b)) as [f|] eqn:Hnd; [|discriminate].
    intros H. injection H as <-.
    apply nearest_double_nearest in Hnd; [|lia|lia].
    rewrite (Z.abs_eq b) in Hnd by lia.
    destruct (a <? 0)%Z eqn:Hs; cbn [Bool.eqb].
    + apply Z.ltb_lt in Hs. rewrite (Z.abs_neq a) in Hnd by lia.
      apply nearest_float_opp in Hnd.
      apply nearest_float_wd with (2 := Hnd).
      rewrite inject_Z_opp. field.
      intros E. pose proof (proj1 (inject_Z_injective b 0) E). lia.
    + apply Z.ltb_ge in Hs. rewrite (Z.abs_eq a) in Hnd by lia. exact Hnd.
Qed.

(** A distance of exactly a half, read on the integers. *)
Lemma near_tie (m A B : Z) (rho : Q) :
  (0 < B)%Z -> rho * inject_Z B == inject_Z A ->
  Qabs (inject_Z m - rho) == 1 # 2 ->
  Z.abs (2 * (m * B - A)) = B.
Proof.
  intros HB Hrho Htie.
  assert (Hb : 0 < inject_Z B) by (rewrite <- (Zlt_Qlt 0); exact HB).
  assert (E : inject_Z (m * B - A) == (inject_Z m - rho) * inject_Z B).
  { unfold Z.sub. rewrite inject_Z_plus, inject_Z_opp, inject_Z_mult, <- Hrho. ring. }
  assert (H2 : inject_Z (2 * Z.abs (m * B - A)) == inject_Z B).
  { rewrite inject_Z_mult.
    change (inject_Z (Z.abs (m * B - A))) with (Qabs (inject_Z (m * B - A))).
    rewrite E, Qabs_Qmult, Htie, (Qabs_pos (inject_Z B)) by (apply Qlt_le_weak; exact Hb).
    change (inject_Z 2) with 2. field. }
  pose proof (proj1 (inject_Z_injective _ _) H2) as H3. lia.
Qed.

(** [round(x, 2)] returns the binary64 number nearest to a number of two
    decimals, the one nearest to the exact value of [x]. *)
Lemma float_round2_rounded (x f : float) :
  float_round2 x = Ok f -> rounded_to_2_decimals x f.
Proof.
  unfold float_round2, rounded_to_2_decimals.
  destruct (Prim2SF x) as [s|s| |s m e] eqn:Hx.
  - intros H. injection H as <-.
    assert (Hv : float_value x = XFin (0 # 1)) by (unfold float_value; now rewrite Hx).
    rewrite Hv. exists 0%Z. split; [discriminate|]. split; [reflexivity|].
    now apply nearest_float_self with (x := 0 # 1).
  - intros H. injection H as <-.
    unfold float_value. rewrite Hx. now destruct s.
  - intros H. injection H as <-.
    unfold float_value. now rewrite Hx.
  - destruct (float_value_finite _ _ _ _ Hx) as (vx & Hv & Hvx). rewrite Hv.
    set (sg := if s then Z.neg m else Z.pos m) in *.
    destruct (0 <=? e)%Z eqn:He.
    + (* an integer *)
      apply Z.leb_le in He. intros H. injection H as <-.
      assert (Hint : vx == inject_Z (sg * 2 ^ e)).
      { now rewrite Hvx, inject_Z_mult, pow2_inject. }
      assert (Hd : inject_Z (100 * (sg * 2 ^ e)) - 100 * vx == 0).
      { rewrite Hint, (inject_Z_mult 100). change (inject_Z 100) with 100. ring. }
      exists (100 * (sg * 2 ^ e))%Z. rewrite Hd. split; [discriminate|].
      split; [intros H; discriminate H|].
      apply nearest_float_self with (x := vx); [assumption|].
      rewrite Qmake_Qdiv, Hint, (inject_Z_mult 100).
      change (inject_Z 100) with 100. change (inject_Z (Z.pos 100)) with 100. field.
    + apply Z.leb_gt in He.
      set (B := (2 ^ (- e))%Z). set (A := (Z.pos m * 100)%Z).
      set (n := div_half_even A B).
      assert (HB : (0 < B)%Z) by (apply Z.pow_pos_nonneg; lia).
      assert (HA : (0 <= A)%Z) by (unfold A; lia).
      destruct (div_half_even_near A B HA HB) as [[Hn1 Hn2] Heven]. fold n in Hn1, Hn2, Heven.
      set (rho := 100 * (inject_Z (Z.pos m) * 2 ^ e)).
      assert (Hrho : rho * inject_Z B == inject_Z A).
      { unfold rho, A, B. rewrite pow2_inject by lia. rewrite inject_Z_mult.
        change (inject_Z 100) with 100.
        assert (E : 2 ^ e * 2 ^ (- e) == 1).
        { rewrite <- pow2_add. replace (e + - e)%Z with 0%Z by lia. reflexivity. }
        rewrite <- !Qmult_assoc, E. ring. }
      assert (Hnear : Qabs (inject_Z n - rho) <= 1 # 2).
      { apply near_half with (a := inject_Z A) (b := inject_Z B).
        - rewrite <- (Zlt_Qlt 0). exact HB.
        - exact Hrho.
        - unfold Z.sub in Hn1. rewrite Zle_Qle in Hn1.
          rewrite inject_Z_opp, !inject_Z_mult, inject_Z_plus,
            inject_Z_opp, inject_Z_mult in Hn1. exact Hn1.
        - unfold Z.sub in Hn2. rewrite Zle_Qle in Hn2.
          rewrite !inject_Z_mult, inject_Z_plus, inject_Z_opp, inject_Z_mult in Hn2.
          exact Hn2. }
      assert (Hsigned : Qabs (inject_Z (if s then - n else n)%Z - 100 * vx)
                        == Qabs (inject_Z n - rho)).
      { rewrite Hvx. unfold rho, sg. destruct s.
        - change (Z.neg m) with (- Z.pos m)%Z. rewrite !inject_Z_opp.
          setoid_replace (- inject_Z n - 100 * (- inject_Z (Z.pos m) * 2 ^ e))
            with (- (inject_Z n - 100 * (inject_Z (Z.pos m) * 2 ^ e))) by ring.
          apply Qabs_opp.
        - reflexivity. }
      assert (Hrest : forall f0, nearest_float (n # 100) f0 ->
                 nearest_float ((if s then - n else n)%Z # 100)
                   (if s then PrimFloat.opp f0 else f0)).
      { intros f0 H0. destruct s; [|exact H0].
        apply nearest_float_opp in H0. exact H0. }
      intros Hres.
      exists (if s then - n else n)%Z. rewrite Hsigned.
      split; [exact Hnear|]. split.
      * intros Htie. apply (near_tie n A B rho HB Hrho) in Htie.
        destruct s; [rewrite Z.even_opp|]; now apply Heven.
      * destruct (n =? 0)%Z eqn:En.
        -- apply Z.eqb_eq in En. injection Hres as <-.
           apply nearest_float_self with (x := 0 # 1).
           ++ now destruct s.
           ++ rewrite En. now destruct s.
        -- apply Z.eqb_neq in En.
           destruct (nearest_double n 100) as [f0|] eqn:Hnd; [|discriminate].
           injection Hres as <-. apply Hrest.
           pose proof (div_half_even_bounds A B HA HB) as [Hn0 _]. fold n in Hn0.
           apply nearest_double_nearest in Hnd; [|lia|lia].
           apply nearest_float_wd with (2 := Hnd).
           now rewrite Qmake_Qdiv.
Qed.

(** The rate as the code computes it. *)
Lemma percent_rate_rounded (num den : Z) (v : pynum) :
  percent_rate num den = Ok v -> rate_rounded num den v.
Proof.
  intros H. split.
  - intros Hd. rewrite percent_rate_guard in H by assumption. now inversion H.
  - intros Hd. destruct (percent_rate_formula num den v Hd H) as (q & f & Hq & Hf & ->).
    exists q, f. split; [reflexivity|]. split.
    + now apply int_true_div_nearest.
    + now apply float_round2_rounded.
Qed.

(** The only error of the rate is the overflow of the division. *)
Lemma percent_rate_raises_overflow_only (num den : Z) (e : exn) :
  percent_rate num den = Raise e -> e = OverflowError.
Proof.
  unfold percent_rate. destruct (0 <? den)%Z eqn:E; [|discriminate].
  apply Z.ltb_lt in E. unfold int_true_div.
  destruct (den =? 0)%Z eqn:E0; [apply Z.eqb_eq in E0; lia|].
  cbn [py_round2].
  destruct (num =? 0)%Z.
  - destruct (float_round2_returns
                (PrimFloat.mul (if (den <? 0)%Z then neg_zero else zero) 100%float))
      as [f ->]. discriminate.
  - destruct (nearest_double (Z.abs num) (Z.abs den)) as [q|].
    + match goal with
      | |- context [float_round2 ?y] => destruct (float_round2_returns y) as [f ->]
      end. discriminate.
    + intros H. now injection H as <-.
Qed.

End RoundedRates.

(** ** The rates *)

Lemma variant_row_raises_overflow_only (data : ABTesting.VariantData) (e : exn) :
  ABTesting.variant_row data = Raise e -> e = OverflowError.
Proof.
  unfold ABTesting.variant_row.
  repeat match goal with
         | |- context [percent_rate ?a ?b] =>
             let E := fresh "E" in
             destruct (percent_rate a b) eqn:E;
             [| intros H; inversion H; subst;
                now apply percent_rate_raises_overflow_only in E]
         end.
  discriminate.
Qed.

Lemma variant_rows_raises_overflow_only (vs : PyDict.t ABTesting.VariantData) (e : exn) :
  forall acc, ABTesting.variant_rows vs acc = Raise e -> e = OverflowError.
Proof.
  induction vs as [|[k d] vs IH]; intros acc; cbn; [discriminate|].
  destruct (ABTesting.variant_row d) eqn:Hrow; [apply IH|].
  intros H. inversion H. subst. now apply (variant_row_raises_overflow_only d).
Qed.

(** C8. [calculate_metrics] never raises a division error, and the only
    error it can raise is the overflow of an integer division whose
    quotient is too large for a float; with counters below [2^1023] in
    magnitude it returns.  Every variant of the campaign gets a row, in the
    order of the variants, that carries its counters and the four rates.
    [open_rate], [click_rate] and [conversion_rate] are the integer [0]
    when [sent] is not positive; otherwise the rate is obtained in binary64
    arithmetic: [q] is a float nearest to the exact quotient of the counter
    by [sent], and the rate is a float nearest to [n / 100], where [n] is
    the integer nearest (the even one when half way) to a hundred times the
    exact value of the float product [q * 100].  [click_through_rate] is
    the same with [clicked] over [opened]. *)
Theorem calculate_metrics_rounded_rates (tr : ABTesting.test_results) (cid : string)
    (c : ABTesting.CampaignResults) :
  PyDict.get tr cid = Some c ->
  NoDup (PyDict.keys (ABTesting.variants c)) ->
  ABTesting.calculate_metrics tr cid <> Raise ZeroDivisionError
  /\ (forall e, ABTesting.calculate_metrics tr cid = Raise e -> e = OverflowError)
  /\ (Forall (fun kv => counters_bounded (snd kv)) (ABTesting.variants c) ->
      exists rows, ABTesting.calculate_metrics tr cid = Ok (ABTesting.Rows rows))
  /\ forall rows,
       ABTesting.calculate_metrics tr cid = Ok (ABTesting.Rows rows) ->
       PyDict.keys rows = PyDict.keys (ABTesting.variants c)
       /\ forall variant data,
            PyDict.get (ABTesting.variants c) variant = Some data ->
            exists row,
              PyDict.get rows variant = Some row
              /\ ABTesting.row_sent row = ABTesting.sent data
              /\ ABTesting.row_opened row = ABTesting.opened data
              /\ ABTesting.row_clicked row = ABTesting.clicked data
              /\ ABTesting.row_converted row = ABTesting.converted data
              /\ rate_rounded (ABTesting.opened data) (ABTesting.sent data)
                   (ABTesting.open_rate row)
              /\ rate_rounded (ABTesting.clicked data) (ABTesting.sent data)
                   (ABTesting.click_rate row)
              /\ rate_rounded (ABTesting.converted data) (ABTesting.sent data)
                   (ABTesting.conversion_rate row)
              /\ rate_rounded (ABTesting.clicked data) (ABTesting.opened data)
                   (ABTesting.click_through_rate row).
Proof.
  intros Hc Hnd.
  assert (Hraise : forall e, ABTesting.calculate_metrics tr cid = Raise e ->
                             e = OverflowError).
  { intros e. unfold ABTesting.calculate_metrics. rewrite Hc.
    destruct (ABTesting.variant_rows (ABTesting.variants c) PyDict.empty) eqn:E;
      [discriminate|].
    intros H. inversion H. subst.
    now apply (variant_rows_raises_overflow_only (ABTesting.variants c) e PyDict.empty). }
  split; [|split; [exact Hraise | split]].
  - intros H. now apply Hraise in H.
  - intros Hb. unfold ABTesting.calculate_metrics. rewrite Hc.
    destruct (variant_rows_returns _ Hb PyDict.empty) as [rows ->].
    now exists rows.
  - intros rows Hrun.
    assert (Htail : rows_of (ABTesting.variants c) rows)
      by exact (calculate_metrics_rows tr cid c rows Hc Hnd Hrun).
    split; [now apply rows_of_keys|].
    intros variant data Hget.
    destruct (rows_of_get _ _ _ _ Htail Hget)
      as (row & Hrow & Hs & Ho & Hcl & Hcv & H1 & H2 & H3 & H4).
    exists row. repeat (split; [assumption|]).
    do 3 (split; [now apply percent_rate_rounded|]). now apply percent_rate_rounded.
Qed.

Lemma calculate_metrics_rounded_rates_witness :
  exists rows,
    ABTesting.calculate_metrics demo_results "c1" = Ok (ABTesting.Rows rows).
Proof.
  assert (Hnd : NoDup ["A"]) by (constructor; [intros [] | constructor]).
  refine (proj1 (proj2 (proj2 (calculate_metrics_rounded_rates demo_results "c1"
                          {| ABTesting.variants :=
                               [("A", {| ABTesting.metrics := PyDict.empty;
                                         ABTesting.sent := 100;
                                         ABTesting.opened := 23;
                                         ABTesting.clicked := 0;
                                         ABTesting.converted := 0 |})];
                             ABTesting.start_time := "2024-01-01T00:00:00" |}
                          eq_refl Hnd))) _).
  constructor; [|constructor].
  unfold counters_bounded. cbn [snd ABTesting.opened ABTesting.clicked
                                 ABTesting.converted Z.abs].
  repeat split; reflexivity.
Defined.

(** C8, refuted as stated: the rate is not the exact rate rounded to two
    decimals, and the computation is not total.  With 23 opens out of 160
    sends the exact rate is 14.375, [1438] hundredths once rounded; the
    quotient is rounded to a float first, its product with 100 falls below
    14.375, and [calculate_metrics] returns the float nearest to 14.37,
    which is not a float nearest to 14.38.  With [2^1024] opens out of one
    send the division overflows and [calculate_metrics] raises. *)
Lemma calculate_metrics_rate_is_not_exact :
  (inject_Z 23 / inject_Z 160 * 100 == 14375 # 1000)%Q
  /\ div_half_even (23 * 100 * 100) 160 = 1438
  /\ (exists rows row,
        ABTesting.calculate_metrics opens_23_of_160 "c1" = Ok (ABTesting.Rows rows)
        /\ PyDict.get rows "A" = Some row
        /\ ABTesting.open_rate row = PFloat 0x1.cbd70a3d70a3dp+3%float)
  /\ nearest_float (1437 # 100) 0x1.cbd70a3d70a3dp+3%float
  /\ ~ nearest_float (1438 # 100) 0x1.cbd70a3d70a3dp+3%float
  /\ ABTesting.calculate_metrics opens_beyond_floats "c1" = Raise OverflowError.
Proof.
  split; [reflexivity|]. split; [reflexivity|]. split.
  { do 2 eexists. split; [vm_compute; reflexivity|]. split; reflexivity. }
  split.
  { apply nearest_float_wd with (inject_Z 1437 / inject_Z 100)%Q;
      [now rewrite Qmake_Qdiv|].
    apply nearest_double_nearest; [lia | lia | vm_compute; reflexivity]. }
  split; [|vm_compute; reflexivity].
  intros (x & Hx & Hn).
  vm_compute in Hx. injection Hx as <-.
  specialize (Hn 0x1.cc28f5c28f5c3p+3%float _ eq_refl).
  vm_compute in Hn. now apply Hn.
Qed.

(** The two figures of the specification: 23 opens out of 100 sends give
    [23.0]; with nothing sent the rate is the integer [0]. *)
Example open_rate_23_of_100 :
  percent_rate 23 100 = Ok (PFloat 23%float)
  /\ percent_rate 23 0 = Ok (PInt 0)
  /\ exists rows row,
       ABTesting.calculate_metrics demo_results "c1" = Ok (ABTesting.Rows rows)
       /\ PyDict.get rows "A" = Some row
       /\ ABTesting.open_rate row = PFloat 23%float.
Proof.
  split; [vm_compute; reflexivity|]. split; [reflexivity|].
  do 2 eexists. split; [vm_compute; reflexivity|]. split; reflexivity.
Qed.

(** ** The winner *)

Lemma mem_keys {V1 V2} (d1 : PyDict.t V1) (d2 : PyDict.t V2) (k : string) :
  PyDict.keys d1 = PyDict.keys d2 -> PyDict.mem d1 k = PyDict.mem d2 k.
Proof.
  unfold PyDict.mem, PyDict.keys. revert d2.
  induction d1 as [|[k1 v1] d1 IH]; intros [|[k2 v2] d2]; cbn; try discriminate.
  - reflexivity.
  - intros H. inversion H. subst. destruct (String.eqb k k2); [reflexivity|].
    now apply IH.
Qed.

Lemma py_gt_value_differs (a b : pynum) :
  py_gt a b = true -> pynum_value b <> pynum_value a.
Proof.
  unfold py_gt. intros H E. rewrite E, xlt_irrefl in H. discriminate.
Qed.

Lemma py_gt_not_nan (a b : pynum) : py_gt a b = true -> score_is_nan a = false.
Proof.
  unfold py_gt, score_is_nan.
  destruct (pynum_value b), (pynum_value a); cbn; congruence.
Qed.

(** C7 (as the code has it). [get_winner] goes through the variants in
    the order in which they were first recorded for the campaign, the
    order of the metrics dictionary; a variant becomes the leader only when
    its score is strictly greater than the running best, which starts at
    -1.  So the winner is the first variant that reaches the greatest
    score: every variant recorded before it has a strictly smaller score
    (or one that compares with nothing) and in particular not the same
    score, and no variant recorded after it has a greater one. *)
Theorem get_winner_first_seen (tr : ABTesting.test_results)
    (cid primary_metric : string) (c : ABTesting.CampaignResults)
    (rows : PyDict.t ABTesting.Row) :
  PyDict.get tr cid = Some c ->
  NoDup (PyDict.keys (ABTesting.variants c)) ->
  PyDict.mem (ABTesting.variants c) "error" = false ->
  ABTesting.calculate_metrics tr cid = Ok (ABTesting.Rows rows) ->
  PyDict.keys rows = PyDict.keys (ABTesting.variants c)
  /\ exists winner,
       ABTesting.get_winner tr cid primary_metric = Ok winner
       /\ winner = fst (ABTesting.winner_loop primary_metric rows (None, PInt (-1)))
       /\ match winner with
          | None =>
              forall x, In x rows -> py_gt (score primary_metric x) (PInt (-1)) = false
          | Some w =>
              exists pre row post,
                rows = (pre ++ (w, row) :: post)%list
                /\ py_gt (score primary_metric (w, row)) (PInt (-1)) = true
                /\ (forall x, In x pre ->
                      (py_gt (score primary_metric (w, row))
                         (score primary_metric x) = true
                       \/ score_is_nan (score primary_metric x) = true)
                      /\ pynum_value (score primary_metric x)
                         <> pynum_value (score primary_metric (w, row)))
                /\ (forall x, In x post ->
                      py_gt (score primary_metric x)
                        (score primary_metric (w, row)) = false)
          end.
Proof.
  intros Hc Hnd Herr Hrun.
  pose proof (rows_of_keys _ _ (calculate_metrics_rows tr cid c rows Hc Hnd Hrun))
    as Hkeys.
  split; [exact Hkeys|].
  unfold ABTesting.get_winner. rewrite Hrun.
  rewrite (mem_keys rows (ABTesting.variants c) "error" Hkeys), Herr.
  eexists. split; [reflexivity|]. split; [reflexivity|].
  destruct (winner_loop_spec primary_metric rows None (PInt (-1)))
    as [[Hr Hall] | (pre & w & row & post & Hsplit & Hr & Hbeat & Hpre & Hpost)];
    rewrite Hr; cbn [fst].
  - exact Hall.
  - exists pre, row, post. repeat (split; [assumption|]).
    split; [|exact Hpost].
    intros x Hx. split; [now apply Hpre|].
    destruct (Hpre x Hx) as [Hgt | Hnan].
    + now apply py_gt_value_differs.
    + intros E. apply py_gt_not_nan in Hbeat.
      unfold score_is_nan in *. rewrite E in Hnan. congruence.
Qed.

Lemma get_winner_first_seen_witness :
  exists winner,
    ABTesting.get_winner tied_A_first "c1" "open_rate" = Ok winner
    /\ winner
       = fst (ABTesting.winner_loop "open_rate"
                [("A", {| ABTesting.row_sent := 10; ABTesting.row_opened := 2;
                          ABTesting.row_clicked := 0; ABTesting.row_converted := 0;
                          ABTesting.open_rate := PFloat 20%float;
                          ABTesting.click_rate := PFloat 0%float;
                          ABTesting.conversion_rate := PFloat 0%float;
                          ABTesting.click_through_rate := PFloat 0%float |});
                 ("B", {| ABTesting.row_sent := 10; ABTesting.row_opened := 2;
                          ABTesting.row_clicked := 0; ABTesting.row_converted := 0;
                          ABTesting.open_rate := PFloat 20%float;
                          ABTesting.click_rate := PFloat 0%float;
                          ABTesting.conversion_rate := PFloat 0%float;
                          ABTesting.click_through_rate := PFloat 0%float |})]
                (None, PInt (-1))).
Proof.
  assert (Hnd : NoDup ["A"; "B"]).
  { constructor; [intros [H | []]; discriminate H|].
    constructor; [intros [] | constructor]. }
  destruct (get_winner_first_seen tied_A_first "c1" "open_rate"
              {| ABTesting.variants :=
                   [("A", {| ABTesting.metrics := PyDict.empty;
                             ABTesting.sent := 10; ABTesting.opened := 2;
                             ABTesting.clicked := 0; ABTesting.converted := 0 |});
                    ("B", {| ABTesting.metrics := PyDict.empty;
                             ABTesting.sent := 10; ABTesting.opened := 2;
                             ABTesting.clicked := 0; ABTesting.converted := 0 |})];
                 ABTesting.start_time := "2024-01-01T00:00:00" |}
              _ eq_refl Hnd eq_refl ltac:(vm_compute; reflexivity))
    as (_ & winner & Hw & Hloop & _).
  exists winner. split; assumption.
Defined.

(** At equal scores A wins when A was recorded first. *)
Example tie_A_recorded_first :
  ABTesting.get_winner tied_A_first "c1" "open_rate" = Ok (Some "A").
Proof. vm_compute. reflexivity. Qed.

(** C7, refuted as stated: with B recorded before A (variant B dispatched
    first) and both at an open rate of 20.0, the loop meets B first and B
    wins; no fixed order A, B, C is imposed. *)
Lemma get_winner_follows_insertion_order :
  ABTesting.calculate_metrics tied_B_first "c1"
  = Ok (ABTesting.Rows
          [("B", {| ABTesting.row_sent := 10; ABTesting.row_opened := 2;
                    ABTesting.row_clicked := 0; ABTesting.row_converted := 0;
                    ABTesting.open_rate := PFloat 20%float;
                    ABTesting.click_rate := PFloat 0%float;
                    ABTesting.conversion_rate := PFloat 0%float;
                    ABTesting.click_through_rate := PFloat 0%float |});
           ("A", {| ABTesting.row_sent := 10; ABTesting.row_opened := 2;
                    ABTesting.row_clicked := 0; ABTesting.row_converted := 0;
                    ABTesting.open_rate := PFloat 20%float;
                    ABTesting.click_rate := PFloat 0%float;
                    ABTesting.conversion_rate := PFloat 0%float;
                    ABTesting.click_through_rate := PFloat 0%float |})])
  /\ ABTesting.get_winner tied_B_first "c1" "open_rate" = Ok (Some "B")
  /\ ABTesting.get_winner tied_B_first "c1" "open_rate" <> Ok (Some "A").
Proof.
  split; [vm_compute; reflexivity|].
  split; [vm_compute; reflexivity|].
  intros H. vm_compute in H. discriminate H.
Qed.


(** ** Batch sending *)

Lemma batch_subject_truthy (c : Content) : str_truthy (SendGrid.batch_subject c) = true.
Proof.
  unfold SendGrid.batch_subject, str_or.
  destruct (str_truthy (strip _)) eqn:E; [exact E | reflexivity].
Qed.

Lemma batch_body_truthy (c : Content) : str_truthy (SendGrid.batch_body c) = true.
Proof.
  unfold SendGrid.batch_body.
  destruct (str_truthy (strip _)) eqn:E; [exact E | reflexivity].
Qed.

Section BatchLoop.

Context {S : Type}.
Variable send_email : S -> SendGrid.SendCall -> S * SendGrid.SendResult.
Variables subject body variant campaign_id : string.

Let call := BatchSpec.call_of subject body variant campaign_id.
Let step := SendGrid.send_one (SendGrid.logged send_email) subject body variant
              campaign_id.

Lemma send_one_attempt (x : Recipient) (s s1 : S) (log : list SendGrid.SendCall)
    (r0 : SendGrid.BatchResult) (res : SendGrid.SendResult) :
  SendGrid.has_email x = true ->
  send_email s (call x) = (s1, res) ->
  exists r1,
    step ((s, log), r0) x = ((s1, (log ++ [call x])%list), r1)
    /\ SendGrid.total r1 = SendGrid.total r0
    /\ SendGrid.sandbox r1 = SendGrid.sandbox r0
    /\ SendGrid.per_recipient r1
       = (SendGrid.per_recipient r0 ++ [BatchSpec.outcome_of (call x) res])%list
    /\ SendGrid.sent r1
       = SendGrid.sent r0 + (if SendGrid.success res then 1 else 0)
    /\ SendGrid.failed r1
       = SendGrid.failed r0 + (if SendGrid.success res then 0 else 1).
Proof.
  intros Hx Hsend. unfold step, SendGrid.send_one.
  unfold SendGrid.has_email in Hx. rewrite Hx. cbn [negb].
  unfold SendGrid.logged. cbn [fst snd].
  change {| SendGrid.to_email := PyDict.get_default x "email" "";
            SendGrid.to_name := PyDict.get_default x "name" "Customer";
            SendGrid.subject := subject; SendGrid.body := body;
            SendGrid.variant := variant; SendGrid.campaign_id := campaign_id |}
    with (call x).
  rewrite Hsend.
  destruct (SendGrid.success res) eqn:Hres; eexists; (split; [reflexivity|]);
    cbn; unfold BatchSpec.outcome_of; rewrite ?Hres; repeat split; lia.
Qed.

Lemma send_one_skip (x : Recipient) (s : S) (log : list SendGrid.SendCall)
    (r0 : SendGrid.BatchResult) :
  SendGrid.has_email x = false ->
  exists r1,
    step ((s, log), r0) x = ((s, log), r1)
    /\ SendGrid.total r1 = SendGrid.total r0
    /\ SendGrid.sandbox r1 = SendGrid.sandbox r0
    /\ SendGrid.per_recipient r1 = SendGrid.per_recipient r0
    /\ SendGrid.sent r1 = SendGrid.sent r0
    /\ SendGrid.failed r1 = SendGrid.failed r0 + 1.
Proof.
  intros Hx. unfold step, SendGrid.send_one.
  unfold SendGrid.has_email in Hx. rewrite Hx. cbn [negb].
  eexists. split; [reflexivity|]. cbn. repeat split.
Qed.

(** The loop makes the expected calls, in order, and records one outcome
    per call; nothing stops it. *)
Lemma send_loop_spec (recipients : list Recipient) :
  forall (s : S) (log : list SendGrid.SendCall) (r0 : SendGrid.BatchResult),
    let calls := map call (filter SendGrid.has_email recipients) in
    exists r,
      fold_left step recipients ((s, log), r0)
      = ((fst (BatchSpec.answers send_email s calls), (log ++ calls)%list), r)
      /\ SendGrid.total r = SendGrid.total r0
      /\ SendGrid.sandbox r = SendGrid.sandbox r0
      /\ SendGrid.per_recipient r
         = (SendGrid.per_recipient r0
            ++ BatchSpec.outcomes calls (snd (BatchSpec.answers send_email s calls)))%list
      /\ SendGrid.sent r
         = SendGrid.sent r0
           + BatchSpec.successes (snd (BatchSpec.answers send_email s calls))
      /\ SendGrid.failed r
         = SendGrid.failed r0 + BatchSpec.without_email recipients
           + BatchSpec.failures (snd (BatchSpec.answers send_email s calls))
      /\ List.length (snd (BatchSpec.answers send_email s calls))
         = List.length calls.
Proof.
  induction recipients as [|x rest IH]; intros s log r0; cbn zeta.
  - cbn. exists r0. rewrite !app_nil_r.
    unfold BatchSpec.successes, BatchSpec.failures, BatchSpec.without_email. cbn.
    repeat split; lia.
  - cbn [fold_left filter].
    destruct (SendGrid.has_email x) eqn:Hx.
    + destruct (send_email s (call x)) as [s1 res] eqn:Hsend.
      destruct (send_one_attempt x s s1 log r0 res Hx Hsend)
        as (r1 & Hstep & Ht1 & Hsb1 & Hpr1 & Hs1 & Hf1).
      rewrite Hstep.
      destruct (IH s1 (log ++ [call x])%list r1)
        as (r & Hrun & Ht & Hsb & Hpr & Hs & Hf & Hlen).
      exists r. rewrite Hrun. cbn [map BatchSpec.answers]. rewrite Hsend.
      destruct (BatchSpec.answers send_email s1
                  (map call (filter SendGrid.has_email rest))) as [s2 rs].
      cbn [fst snd] in *. rewrite <- app_assoc. cbn [app].
      unfold BatchSpec.successes, BatchSpec.failures, BatchSpec.without_email in *.
      cbn [filter BatchSpec.outcomes List.length]. rewrite Hx. cbn [negb].
      split; [reflexivity|]. split; [congruence|]. split; [congruence|].
      split; [rewrite Hpr, Hpr1, <- app_assoc; reflexivity|].
      destruct (SendGrid.success res); cbn [negb List.length]; repeat split; lia.
    + destruct (send_one_skip x s log r0 Hx)
        as (r1 & Hstep & Ht1 & Hsb1 & Hpr1 & Hs1 & Hf1).
      rewrite Hstep.
      destruct (IH s log r1) as (r & Hrun & Ht & Hsb & Hpr & Hs & Hf & Hlen).
      exists r. rewrite Hrun.
      unfold BatchSpec.without_email in *. cbn [filter]. rewrite Hx.
      cbn [negb List.length].
      split; [reflexivity|]. split; [congruence|]. split; [congruence|].
      split; [congruence|]. repeat split; lia.
Qed.

End BatchLoop.

Lemma filter_split_length {A} (f : A -> bool) (l : list A) :
  (List.length (filter f l) + List.length (filter (fun x => negb (f x)) l))%nat
  = List.length l.
Proof.
  induction l as [|x l IH]; cbn; [reflexivity|].
  destruct (f x); cbn; lia.
Qed.

Lemma outcomes_length (calls : list SendGrid.SendCall) (rs : list SendGrid.SendResult) :
  List.length rs = List.length calls ->
  List.length (BatchSpec.outcomes calls rs) = List.length calls.
Proof.
  revert rs. induction calls as [|c calls IH]; intros [|r rs]; cbn; try discriminate.
  - reflexivity.
  - intros H. f_equal. apply IH. lia.
Qed.

Lemma outcomes_emails (calls : list SendGrid.SendCall) (rs : list SendGrid.SendResult) :
  List.length rs = List.length calls ->
  map SendGrid.o_email (BatchSpec.outcomes calls rs) = map SendGrid.to_email calls.
Proof.
  revert rs. induction calls as [|c calls IH]; intros [|r rs]; cbn; try discriminate.
  - reflexivity.
  - intros H. f_equal. apply IH. lia.
Qed.

Lemma outcomes_success (calls : list SendGrid.SendCall) (rs : list SendGrid.SendResult) :
  List.length rs = List.length calls ->
  map SendGrid.o_success (BatchSpec.outcomes calls rs) = map SendGrid.success rs.
Proof.
  revert rs. induction calls as [|c calls IH]; intros [|r rs]; cbn; try discriminate.
  - reflexivity.
  - intros H. f_equal. apply IH. lia.
Qed.

(** [send_batch] as a whole: the branch for missing content is never
    taken, so the result is that of the loop. *)
Lemma send_batch_spec {S} (send_email : S -> SendGrid.SendCall -> S * SendGrid.SendResult)
    (sandbox : bool) (s : S) (log : list SendGrid.SendCall)
    (recipients : list Recipient) (content : Content) (variant cid : string) :
  let calls := BatchSpec.attempts content variant cid recipients in
  let rs := snd (BatchSpec.answers send_email s calls) in
  exists r,
    SendGrid.send_batch (SendGrid.logged send_email) sandbox (s, log) recipients
      content variant cid
    = ((fst (BatchSpec.answers send_email s calls), (log ++ calls)%list), r)
    /\ SendGrid.total r = Z.of_nat (List.length recipients)
    /\ SendGrid.sandbox r = sandbox
    /\ SendGrid.per_recipient r = BatchSpec.outcomes calls rs
    /\ SendGrid.sent r = BatchSpec.successes rs
    /\ SendGrid.failed r
       = BatchSpec.without_email recipients + BatchSpec.failures rs
    /\ List.length rs = List.length calls.
Proof.
  intros calls rs. unfold SendGrid.send_batch.
  destruct recipients as [|x rest].
  - exists (SendGrid.initial_result sandbox []). subst calls rs. cbn.
    rewrite app_nil_r. repeat split.
  - cbv beta iota zeta.
    rewrite batch_subject_truthy, batch_body_truthy. cbn [negb orb].
    destruct (send_loop_spec send_email (SendGrid.batch_subject content)
                (SendGrid.batch_body content) variant cid (x :: rest) s log
                (SendGrid.initial_result sandbox (x :: rest)))
      as (r & Hrun & Ht & Hsb & Hpr & Hs & Hf & Hlen).
    exists r. split; [exact Hrun|].
    cbn [SendGrid.initial_result SendGrid.total SendGrid.sandbox
         SendGrid.per_recipient SendGrid.sent SendGrid.failed app] in Ht, Hsb, Hpr, Hs, Hf.
    rewrite Z.add_0_l in Hs, Hf.
    repeat split; assumption.
Qed.

(** C10. Every call of [send_batch] returns counters with
    [sent + failed = total = len(recipients)].  A recipient without an
    email address is counted as failed, is not passed to the send
    capability, and gets no entry in [per_recipient], which therefore has
    [total] minus the number of such recipients entries. *)
Theorem send_batch_accounting {S}
    (send_email : S -> SendGrid.SendCall -> S * SendGrid.SendResult)
    (sandbox : bool) (s : S) (log : list SendGrid.SendCall)
    (recipients : list Recipient) (content : Content) (variant cid : string) :
  let run := SendGrid.send_batch (SendGrid.logged send_email) sandbox (s, log)
               recipients content variant cid in
  let result := snd run in
  SendGrid.sent result + SendGrid.failed result = SendGrid.total result
  /\ SendGrid.total result = Z.of_nat (List.length recipients)
  /\ 0 <= SendGrid.sent result
  /\ BatchSpec.without_email recipients <= SendGrid.failed result
  /\ Z.of_nat (List.length (SendGrid.per_recipient result))
     = SendGrid.total result - BatchSpec.without_email recipients
  /\ snd (fst run)
     = (log ++ map (BatchSpec.call_of (SendGrid.batch_subject content)
                      (SendGrid.batch_body content) variant cid)
                 (filter SendGrid.has_email recipients))%list.
Proof.
  intros run result.
  destruct (send_batch_spec send_email sandbox s log recipients content variant cid)
    as (r & Hrun & Ht & _ & Hpr & Hs & Hf & Hlen).
  subst result run. rewrite Hrun. cbn [fst snd].
  set (calls := BatchSpec.attempts content variant cid recipients) in *.
  set (rs := snd (BatchSpec.answers send_email s calls)) in *.
  assert (Hcalls : List.length calls = List.length (filter SendGrid.has_email recipients))
    by (unfold calls, BatchSpec.attempts; apply length_map).
  pose proof (filter_split_length SendGrid.has_email recipients) as Hsplit.
  pose proof (filter_split_length SendGrid.success rs) as Hrs.
  rewrite Hpr, Ht, Hs, Hf, (outcomes_length _ _ Hlen).
  unfold BatchSpec.successes, BatchSpec.failures, BatchSpec.without_email.
  repeat split; try lia. 
Qed.

(** A batch in which the second recipient has no address: one call, one
    entry, two recipients. *)
Example send_batch_skips_missing_address :
  let run := SendGrid.send_batch (SendGrid.logged (BatchSpec.rejects "nobody")) false
               (0%nat, [])
               [BatchSpec.recipient_with "r1@example.com"; [("name", "Bo")]]
               BatchSpec.demo_content "A" "c1" in
  SendGrid.total (snd run) = 2
  /\ SendGrid.sent (snd run) = 1
  /\ SendGrid.failed (snd run) = 1
  /\ List.length (SendGrid.per_recipient (snd run)) = 1%nat
  /\ List.length (snd (fst run)) = 1%nat.
Proof. vm_compute. repeat split. Qed.

(** C6 (as the code has it). [send_batch] never stops early: it calls the
    send capability once for every recipient that has an email address, in
    the order of the group and whatever the earlier answers were, and
    [per_recipient] holds exactly one entry per such call, in the same
    order, with the address called and the success flag answered; [sent]
    counts the successful answers.  When every recipient has an address,
    that is one entry per recipient of the group. *)
Theorem send_batch_attempts_every_address {S}
    (send_email : S -> SendGrid.SendCall -> S * SendGrid.SendResult)
    (sandbox : bool) (s : S) (log : list SendGrid.SendCall)
    (recipients : list Recipient) (content : Content) (variant cid : string) :
  let run := SendGrid.send_batch (SendGrid.logged send_email) sandbox (s, log)
               recipients content variant cid in
  let result := snd run in
  let calls := BatchSpec.attempts content variant cid recipients in
  let rs := snd (BatchSpec.answers send_email s calls) in
  snd (fst run) = (log ++ calls)%list
  /\ fst (fst run) = fst (BatchSpec.answers send_email s calls)
  /\ SendGrid.per_recipient result = BatchSpec.outcomes calls rs
  /\ map SendGrid.o_email (SendGrid.per_recipient result)
     = map (fun r => PyDict.get_default r "email" "")
         (filter SendGrid.has_email recipients)
  /\ map SendGrid.o_success (SendGrid.per_recipient result)
     = map SendGrid.success rs
  /\ SendGrid.sent result = BatchSpec.successes rs
  /\ (forallb SendGrid.has_email recipients = true ->
      List.length (SendGrid.per_recipient result) = List.length recipients
      /\ List.length calls = List.length recipients).
Proof.
  intros run result calls rs.
  destruct (send_batch_spec send_email sandbox s log recipients content variant cid)
    as (r & Hrun & Ht & _ & Hpr & Hs & Hf & Hlen).
  subst result run. rewrite Hrun. cbn [fst snd]. fold calls rs in Hpr, Hs, Hlen.
  split; [reflexivity|]. split; [reflexivity|]. split; [exact Hpr|].
  split.
  { rewrite Hpr, (outcomes_emails _ _ Hlen).
    unfold calls, BatchSpec.attempts. rewrite map_map. reflexivity. }
  split; [rewrite Hpr; now apply outcomes_success|].
  split; [exact Hs|].
  intros Hall.
  assert (Hfilter : filter SendGrid.has_email recipients = recipients).
  { clear -Hall. induction recipients as [|x l IH]; cbn in *; [reflexivity|].
    apply andb_prop in Hall. destruct Hall as [Hx Hl]. rewrite Hx. f_equal. now apply IH. }
  assert (Hcalls : List.length calls = List.length recipients).
  { unfold calls, BatchSpec.attempts. rewrite Hfilter. apply length_map. }
  split; [|exact Hcalls].
  now rewrite Hpr, (outcomes_length _ _ Hlen).
Qed.

Lemma send_batch_attempts_every_address_witness :
  List.length
    (SendGrid.per_recipient
       (snd (SendGrid.send_batch
               (SendGrid.logged (BatchSpec.rejects "r5@example.com")) false
               (0%nat, []) BatchSpec.ten_recipients BatchSpec.demo_content "A" "c1")))
  = List.length BatchSpec.ten_recipients.
Proof.
  exact (proj1 (proj2 (proj2 (proj2 (proj2 (proj2 (proj2
    (send_batch_attempts_every_address (BatchSpec.rejects "r5@example.com") false
       0%nat [] BatchSpec.ten_recipients BatchSpec.demo_content "A" "c1"))))))
    eq_refl)).
Defined.

(** Ten recipients with addresses, the fifth rejected: ten calls, ten
    entries, nine of them successful. *)
Example ten_recipients_fifth_fails :
  let run := SendGrid.send_batch
               (SendGrid.logged (BatchSpec.rejects "r5@example.com")) false
               (0%nat, []) BatchSpec.ten_recipients BatchSpec.demo_content "A" "c1" in
  List.length (snd (fst run)) = 10%nat
  /\ List.length (SendGrid.per_recipient (snd run)) = 10%nat
  /\ List.length (filter SendGrid.o_success (SendGrid.per_recipient (snd run))) = 9%nat
  /\ map SendGrid.o_success (SendGrid.per_recipient (snd run))
     = [true; true; true; true; false; true; true; true; true; true]
  /\ SendGrid.sent (snd run) = 9
  /\ SendGrid.failed (snd run) = 1.
Proof. vm_compute. repeat split. Qed.

(** C6, refuted as stated: a recipient without an address is not
    attempted and gets no entry, so a group of two leaves one entry. *)
Lemma send_batch_no_entry_without_address :
  let recipients := [BatchSpec.recipient_with "r1@example.com"; [("name", "Bo")]] in
  let run := SendGrid.send_batch (SendGrid.logged (BatchSpec.rejects "nobody")) false
               (0%nat, []) recipients BatchSpec.demo_content "A" "c1" in
  List.length (SendGrid.per_recipient (snd run)) <> List.length recipients
  /\ List.length (snd (fst run)) <> List.length recipients.
Proof. vm_compute. split; discriminate. Qed.


(** ** The state and exception monad *)

Section MonadFacts.

Import Orchestrator OrchSpec.

Context {W : Type}.


Lemma bind_raise {A B} (c : M W A) (k : A -> M W B) (m m' : Machine W) (e : exn) :
  c m = (m', Raise e) -> bind c k m = (m', Raise e).
Proof. unfold bind. now intros ->. Qed.

Lemma try_ok {A} (body : M W A) (h : exn -> M W A) (m m' : Machine W) (a : A) :
  body m = (m', Ok a) -> try_except body h m = (m', Ok a).
Proof. unfold try_except. now intros ->. Qed.

Lemma try_raise {A} (body : M W A) (h : exn -> M W A) (m m' : Machine W) (e : exn) :
  body m = (m', Raise e) -> try_except body h m = h e m'.
Proof. unfold try_except. now intros ->. Qed.

(** *** Views that a computation leaves alone *)

Section Preserves.

Context {P : Type}.
Variable view : Machine W -> P.

Lemma preserves_ret {A} (a : A) : preserves view (ret a : M W A).
Proof. intros m. reflexivity. Qed.

Lemma preserves_raise {A} (e : exn) : preserves view (raise e : M W A).
Proof. intros m. reflexivity. Qed.

Lemma preserves_bind {A B} (c : M W A) (k : A -> M W B) :
  preserves view c -> (forall a, preserves view (k a)) ->
  preserves view (bind c k).
Proof.
  intros Hc Hk m. unfold bind. specialize (Hc m).
  destruct (c m) as [m' [a|e]]; cbn [fst] in *.
  - now rewrite Hk.
  - exact Hc.
Qed.

Lemma preserves_try {A} (body : M W A) (h : exn -> M W A) :
  preserves view body -> (forall e, preserves view (h e)) ->
  preserves view (try_except body h).
Proof.
  intros Hb Hh m. unfold try_except. specialize (Hb m).
  destruct (body m) as [m' [a|e]]; cbn [fst] in *.
  - exact Hb.
  - now rewrite Hh.
Qed.

Lemma preserves_read {A} (f : CampaignState -> A) : preserves view (read f : M W A).
Proof. intros m. reflexivity. Qed.

Lemma preserves_read_results {A} (f : ABTesting.test_results -> A) :
  preserves view (read_results f : M W A).
Proof. intros m. reflexivity. Qed.

Lemma preserves_lift {A} (r : result A) : preserves view (lift r : M W A).
Proof. intros m. now destruct r. Qed.

Lemma preserves_when (b : bool) (c : M W unit) :
  preserves view c -> preserves view (when b c).
Proof. intros Hc. destruct b; [exact Hc | apply preserves_ret]. Qed.

Lemma preserves_for_each {A} (l : list A) (body : A -> M W unit) :
  (forall x, preserves view (body x)) -> preserves view (for_each l body).
Proof.
  intros Hb. induction l as [|x l IH]; cbn [for_each].
  - apply preserves_ret.
  - apply preserves_bind; [apply Hb | intros _; exact IH].
Qed.

Lemma preserves_call {A} (f : W -> W * result A) :
  ignores_world view -> preserves view (call f).
Proof.
  intros Hw m. unfold call. destruct (f (world m)) as [w' r]. apply Hw.
Qed.

Lemma preserves_ask {A} (f : W -> W * A) :
  ignores_world view -> preserves view (ask f).
Proof.
  intros Hw. unfold ask. apply preserves_call, Hw.
Qed.

Lemma preserves_modify (f : CampaignState -> CampaignState) :
  (forall m, view (with_state (f (state m)) m) = view m) ->
  preserves view (modify f).
Proof. intros Hf m. apply Hf. Qed.

Lemma preserves_put_results (tr : ABTesting.test_results) :
  (forall m, view {| world := world m; send_log := send_log m;
                     test_results := tr; state := state m |} = view m) ->
  preserves view (put_results (W := W) tr).
Proof. intros Hf m. apply Hf. Qed.

End Preserves.

End MonadFacts.

(** ** The pipeline stages *)

Section Stages.

Import Orchestrator OrchSpec.

Context {W : Type}.
Variable C : Collaborators W.

Lemma stage_failed_run (what : string) (e : exn) (m : Machine W) :
  stage_failed what e m = (with_state (failed_with what e (state m)) m, Ok tt).
Proof. reflexivity. Qed.

(** [_create_strategy]: the strategy is stored, or the failure recorded;
    nothing else changes. *)
Lemma create_strategy_run (m : Machine W) :
  _create_strategy C m
  = match create_strategy C (world m) (brief (state m)) with
    | (w, Ok o) =>
        ({| world := w; send_log := send_log m; test_results := test_results m;
            state := set_status "strategy_created"
                       (set_strategy (match o with Some s => s | None => PDict [] end)
                          (state m)) |}, Ok tt)
    | (w, Raise e) =>
        ({| world := w; send_log := send_log m; test_results := test_results m;
            state := failed_with "Strategy creation failed: " e (state m) |}, Ok tt)
    end.
Proof.
  unfold _create_strategy, try_except, bind, read, call, modify, stage_failed, failed_with.
  cbn [fst snd world state send_log test_results].
  destruct (create_strategy C (world m) (brief (state m))) as [w [o|e]]; reflexivity.
Qed.

Lemma segment_audience_run (m : Machine W) :
  _segment_audience C m
  = match segment_audience C (world m) (csv_path (state m))
            (strategy_input (state m)) with
    | (w, Ok segs) =>
        ({| world := w; send_log := send_log m; test_results := test_results m;
            state := set_status "audience_segmented"
                       (set_selected_recipients
                          (match selected_segment segs with
                           | Some _ => SegmentList
                           | None => OwnList []
                           end)
                          (set_segments segs (state m))) |}, Ok tt)
    | (w, Raise e) =>
        ({| world := w; send_log := send_log m; test_results := test_results m;
            state := failed_with "Segmentation failed: " e (state m) |}, Ok tt)
    end.
Proof.
  unfold _segment_audience, try_except, bind, read, call, modify, stage_failed, failed_with.
  cbn [fst snd world state send_log test_results].
  destruct (segment_audience C (world m) (csv_path (state m)) (strategy_input (state m)))
    as [w [o|e]]; reflexivity.
Qed.

(** The two loops over the variants only talk to their collaborator. *)
Lemma generate_variants_preserves {P} (view : Machine W -> P)
    strat sample cid items :
  ignores_world view ->
  forall acc, preserves view (generate_variants C strat sample cid items acc).
Proof.
  intros Hw. induction items as [|[variant g] rest IH]; intros acc;
    cbn [generate_variants].
  - apply preserves_ret.
  - apply preserves_bind; [now apply preserves_call | intros c; apply IH].
Qed.

Lemma check_variants_preserves {P} (view : Machine W -> P) groups items :
  ignores_world view ->
  forall acc, preserves view (check_variants C groups items acc).
Proof.
  intros Hw. induction items as [|[variant content] rest IH]; intros acc;
    cbn [check_variants].
  - apply preserves_ret.
  - apply preserves_bind; [now apply preserves_call | intros c; apply IH].
Qed.

Lemma with_world_same (m : Machine W) : with_world (world m) m = m.
Proof. now destruct m. Qed.

Lemma generate_variants_frame strat sample cid items acc (m : Machine W) :
  with_world (world m) (fst (generate_variants C strat sample cid items acc m)) = m.
Proof.
  rewrite (generate_variants_preserves (with_world (world m)) strat sample cid items
             (fun _ _ => eq_refl) acc m).
  apply with_world_same.
Qed.

Lemma check_variants_frame groups items acc (m : Machine W) :
  with_world (world m) (fst (check_variants C groups items acc m)) = m.
Proof.
  rewrite (check_variants_preserves (with_world (world m)) groups items
             (fun _ _ => eq_refl) acc m).
  apply with_world_same.
Qed.

Lemma check_deliverability_run (m : Machine W) :
  let run := check_variants C (ab_test_groups (state m)) (email_variants (state m))
               PyDict.empty m in
  _check_deliverability C m
  = match snd run with
    | Ok all_checks =>
        (with_state (set_status "deliverability_checked"
                       (set_deliverability_check all_checks (state m)))
           (with_world (world (fst run)) m), Ok tt)
    | Raise e =>
        (with_state (failed_with "Deliverability check failed: " e (state m))
           (with_world (world (fst run)) m), Ok tt)
    end.
Proof.
  intros run.
  pose proof (check_variants_frame (ab_test_groups (state m)) (email_variants (state m))
                PyDict.empty m) as Hframe.
  fold run in Hframe.
  unfold _check_deliverability, try_except, bind, read, modify, stage_failed, failed_with.
  cbn [fst snd state]. fold run.
  destruct run as [m' [checks|e]]; cbn [fst snd] in *;
    rewrite <- Hframe; destruct m'; reflexivity.
Qed.

(** Two variants are always created: the division cannot fail. *)
Lemma create_test_groups_two (m : Machine W) :
  let l := snd (shuffle C (world m) (recipients_of (state m))) in
  let g := Z.to_nat (Z.of_nat (List.length l) / 2) in
  create_test_groups C 2 m
  = ({| world := fst (shuffle C (world m) (recipients_of (state m)));
        send_log := send_log m; test_results := test_results m;
        state := store_recipients l (state m) |},
     Ok [("A", firstn g l); ("B", skipn g l)]).
Proof.
  intros l g. unfold create_test_groups.
  rewrite (create_test_groups_2 (fun l => snd (shuffle C (world m) l))
             (recipients_of (state m))).
  reflexivity.
Qed.

Lemma generate_content_run (m : Machine W) :
  let l := snd (shuffle C (world m) (recipients_of (state m))) in
  let g := Z.to_nat (Z.of_nat (List.length l) / 2) in
  let groups := [("A", firstn g l); ("B", skipn g l)] in
  let m1 := {| world := fst (shuffle C (world m) (recipients_of (state m)));
               send_log := send_log m; test_results := test_results m;
               state := set_ab_test_groups groups (store_recipients l (state m)) |} in
  let sample := match recipients_of (state m1) with
                | r :: _ => r
                | [] => default_recipient
                end in
  let run := generate_variants C (strategy (state m1)) sample (campaign_id (state m1))
               groups PyDict.empty m1 in
  _generate_content C m
  = match snd run with
    | Ok variants =>
        (with_state (set_status "content_generated"
                       (set_email_variants variants (state m1)))
           (with_world (world (fst run)) m1), Ok tt)
    | Raise e =>
        (with_state (failed_with "Content generation failed: " e (state m1))
           (with_world (world (fst run)) m1), Ok tt)
    end.
Proof.
  intros l g groups m1 sample run.
  unfold _generate_content, try_except.
  unfold bind at 1. rewrite create_test_groups_two. fold l g groups.
  subst run sample m1.
  unfold bind, read, modify, stage_failed, failed_with, with_state, with_world.
  cbn [fst snd state world send_log test_results].
  match goal with
  | |- context [generate_variants C ?a ?b ?c ?d ?e ?mm] =>
      pose proof (generate_variants_frame a b c d e mm) as Hframe;
      destruct (generate_variants C a b c d e mm) as [m' [variants|err]]
  end;
    cbn [fst snd] in *;
    pose proof (f_equal send_log Hframe) as Hl;
    pose proof (f_equal test_results Hframe) as Ht;
    pose proof (f_equal state Hframe) as Hs;
    destruct m'; cbn [send_log test_results state world with_world] in *; subst;
    reflexivity.
Qed.


End Stages.

(** ** The automatic run *)

Section Run.

Import Orchestrator OrchSpec.

Context {W : Type}.
Variable C : Collaborators W.






End Run.




(** ** Batches on the machine *)

Section MachineBatches.

Import Orchestrator OrchSpec DispatchSpec.

Context {W : Type}.
Variable C : Collaborators W.

Lemma fold_left_embed {A B X} (f : A -> X -> A) (g : B -> X -> B) (emb : B -> A) :
  (forall b x, f (emb b) x = emb (g b x)) ->
  forall l b, fold_left f l (emb b) = emb (fold_left g l b).
Proof.
  intros Hstep l. induction l as [|x l IH]; intros b; cbn; [reflexivity|].
  now rewrite Hstep, IH.
Qed.

Lemma embed_sendgrid_nil (m : Machine W) : embed_sendgrid m (world m, []) = m.
Proof. unfold embed_sendgrid. cbn. rewrite app_nil_r. now destruct m. Qed.

Lemma embed_smtp_nil (m : Machine W) : embed_smtp m (world m, []) = m.
Proof. unfold embed_smtp. cbn. rewrite app_nil_r. now destruct m. Qed.

Lemma sendgrid_send_embed (m : Machine W) (st : W * list SendGrid.SendCall)
    (c : SendGrid.SendCall) :
  sendgrid_send C (embed_sendgrid m st) c
  = (embed_sendgrid m (fst (SendGrid.logged (sendgrid_send_email C) st c)),
     snd (SendGrid.logged (sendgrid_send_email C) st c)).
Proof.
  unfold sendgrid_send, SendGrid.logged, embed_sendgrid. cbn [world send_log fst snd].
  destruct (sendgrid_send_email C (fst st) c) as [w r]. cbn [fst snd].
  now rewrite map_app, app_assoc.
Qed.

Lemma smtp_send_embed (m : Machine W) (st : W * list Smtp.SendCall)
    (c : Smtp.SendCall) :
  smtp_send C (embed_smtp m st) c
  = (embed_smtp m (fst (Smtp.logged (smtp_send_email C) st c)),
     snd (Smtp.logged (smtp_send_email C) st c)).
Proof.
  unfold smtp_send, Smtp.logged, embed_smtp. cbn [world send_log fst snd].
  destruct (smtp_send_email C (fst st) c) as [w r]. cbn [fst snd].
  now rewrite map_app, app_assoc.
Qed.

(** The SendGrid batch run by the orchestrator is the batch run on the
    world alone, with its calls added to the send log. *)
Lemma sendgrid_send_batch_run (sandbox : bool) (recipients : list Recipient)
    (content : Content) (variant cid : string) (m : Machine W) :
  let run := SendGrid.send_batch (SendGrid.logged (sendgrid_send_email C)) sandbox
               (world m, []) recipients content variant cid in
  sendgrid_send_batch C sandbox recipients content variant cid m
  = (embed_sendgrid m (fst run), Ok (snd run)).
Proof.
  intros run. unfold sendgrid_send_batch.
  assert (H : SendGrid.send_batch (sendgrid_send C) sandbox m recipients content
                variant cid = (embed_sendgrid m (fst run), snd run)).
  { subst run. unfold SendGrid.send_batch.
    destruct recipients as [|x rest].
    - cbn [fst snd]. now rewrite embed_sendgrid_nil.
    - cbv beta iota zeta.
      rewrite batch_subject_truthy, batch_body_truthy. cbn [negb orb].
      pose proof (fold_left_embed
                 (SendGrid.send_one (sendgrid_send C) (SendGrid.batch_subject content)
                    (SendGrid.batch_body content) variant cid)
                 (SendGrid.send_one (SendGrid.logged (sendgrid_send_email C))
                    (SendGrid.batch_subject content)
                    (SendGrid.batch_body content) variant cid)
                 (fun b => (embed_sendgrid m (fst b), snd b))) as Hsim.
      cbv beta in Hsim.
      specialize (Hsim ltac:(
        intros [st r] y; unfold SendGrid.send_one; cbn [fst snd];
        destruct (negb (str_truthy (PyDict.get_default y "email" "")));
        [reflexivity|];
        rewrite sendgrid_send_embed;
        destruct (SendGrid.logged (sendgrid_send_email C) st _) as [st' res];
        cbn [fst snd]; now destruct (SendGrid.success res))).
      specialize (Hsim (x :: rest)
                    ((world m, []), SendGrid.initial_result sandbox (x :: rest))).
      cbn [fst snd] in Hsim. rewrite embed_sendgrid_nil in Hsim. exact Hsim. }
  now rewrite H.
Qed.

Lemma smtp_send_batch_run (recipients : list Recipient) (content : Content)
    (m : Machine W) :
  let run := Smtp.send_batch (Smtp.logged (smtp_send_email C)) (world m, [])
               recipients content in
  smtp_send_batch C recipients content m = (embed_smtp m (fst run), Ok (snd run)).
Proof.
  intros run. unfold smtp_send_batch.
  assert (H : Smtp.send_batch (smtp_send C) m recipients content
              = (embed_smtp m (fst run), snd run)).
  { subst run. unfold Smtp.send_batch.
    pose proof (fold_left_embed
                  (Smtp.send_one (smtp_send C)
                     (PyDict.get_default content "subject" "No Subject")
                     (match PyDict.get content "full_content" with
                      | Some b => b
                      | None => PyDict.get_default content "body" ""
                      end))
                  (Smtp.send_one (Smtp.logged (smtp_send_email C))
                     (PyDict.get_default content "subject" "No Subject")
                     (match PyDict.get content "full_content" with
                      | Some b => b
                      | None => PyDict.get_default content "body" ""
                      end))
                  (fun b => (embed_smtp m (fst b), snd b))) as Hsim.
    cbv beta in Hsim.
    specialize (Hsim ltac:(
      intros [st r] y; unfold Smtp.send_one; cbn [fst snd];
      rewrite smtp_send_embed;
      destruct (Smtp.logged (smtp_send_email C) st _) as [st' res];
      cbn [fst snd]; now destruct res)).
    match goal with
    | |- fold_left _ _ (_, ?r0) = _ => specialize (Hsim recipients ((world m, []), r0))
    end.
    cbn [fst snd] in Hsim. rewrite embed_smtp_nil in Hsim. exact Hsim. }
  now rewrite H.
Qed.

(** The calls of an SMTP batch: one per recipient, in order. *)
Lemma smtp_batch_calls {S} (send_email : S -> Smtp.SendCall -> S * bool)
    (recipients : list Recipient) (content : Content) :
  forall (s : S) (log : list Smtp.SendCall),
    snd (fst (Smtp.send_batch (Smtp.logged send_email) (s, log) recipients content))
    = (log ++ map (smtp_call_of content) recipients)%list.
Proof.
  unfold Smtp.send_batch.
  generalize ({| Smtp.total := Z.of_nat (List.length recipients); Smtp.sent := 0;
                 Smtp.failed := 0; Smtp.errors := [] |}).
  induction recipients as [|x rest IH]; intros r0 s log; cbn [fold_left map].
  - cbn. now rewrite app_nil_r.
  - unfold Smtp.send_one at 2. unfold Smtp.logged at 2. cbn [fst snd].
    fold (smtp_call_of content x).
    destruct (send_email s (smtp_call_of content x)) as [s' ok].
    destruct ok; rewrite IH, <- app_assoc; reflexivity.
Qed.

End MachineBatches.

(** ** What happens around the batch *)

(** A view that the bookkeeping of a dispatch leaves alone is preserved by
    every step built from the monad's operations; the side conditions (the
    view ignores the world, the counters, the field written) are closed by
    computation. *)
Ltac frame_step :=
  lazymatch goal with
  | |- OrchSpec.preserves _ (Orchestrator.ret _) => apply preserves_ret
  | |- OrchSpec.preserves _ (Orchestrator.raise _) => apply preserves_raise
  | |- OrchSpec.preserves _ (Orchestrator.bind _ _) => apply preserves_bind; [|intro]
  | |- OrchSpec.preserves _ (Orchestrator.try_except _ _) =>
      apply preserves_try; [|intro]
  | |- OrchSpec.preserves _ (Orchestrator.read _) => apply preserves_read
  | |- OrchSpec.preserves _ (Orchestrator.read_results _) =>
      apply preserves_read_results
  | |- OrchSpec.preserves _ (Orchestrator.lift _) => apply preserves_lift
  | |- OrchSpec.preserves _ (Orchestrator.when _ _) => apply preserves_when
  | |- OrchSpec.preserves _ (Orchestrator.for_each _ _) =>
      apply preserves_for_each; intro
  | |- OrchSpec.preserves _ (Orchestrator.call _) =>
      apply preserves_call; intros ? ?; reflexivity
  | |- OrchSpec.preserves _ (Orchestrator.ask _) =>
      apply preserves_ask; intros ? ?; reflexivity
  | |- OrchSpec.preserves _ (Orchestrator.modify _) =>
      apply preserves_modify; intros ?; reflexivity
  | |- OrchSpec.preserves _ (Orchestrator.put_results _) =>
      apply preserves_put_results; intros ?; reflexivity
  | |- OrchSpec.preserves _ (match ?x with _ => _ end) => destruct x
  | |- OrchSpec.preserves _ _ =>
      progress unfold Orchestrator.record_event, Orchestrator.fetch_and_record,
        Orchestrator.process_variant, Orchestrator.process_results,
        Orchestrator.finish_if_all_sent
  end.

Ltac frame := repeat frame_step.

Section AroundTheBatch.

Import Orchestrator OrchSpec DispatchSpec.

Context {W : Type}.
Variable C : Collaborators W.
Variables use_sendgrid sandbox : bool.

Lemma record_event_keeps_log cid variant event count :
  preserves (@send_log W) (record_event C cid variant event count).
Proof. frame. Qed.

Lemma fetch_and_record_keeps_log cid variant ids group :
  preserves (@send_log W) (fetch_and_record C cid variant ids group).
Proof. frame. Qed.

Lemma finish_keeps_log ab_groups :
  preserves (@send_log W) (finish_if_all_sent C use_sendgrid ab_groups).
Proof. frame. Qed.

Lemma bind_read {A B} (f : CampaignState -> A) (k : A -> M W B) (m : Machine W) :
  bind (read f) k m = k (f (state m)) m.
Proof. reflexivity. Qed.

Lemma bind_modify {B} (f : CampaignState -> CampaignState) (k : unit -> M W B)
    (m : Machine W) :
  bind (modify f) k m = k tt (with_state (f (state m)) m).
Proof. reflexivity. Qed.

(** A batch followed by steps that leave the log alone. *)
Lemma appends_bind {A B} (attempts : list SendAttempt) (c : M W A) (k : A -> M W B) :
  appends attempts c -> (forall a, preserves (@send_log W) (k a)) ->
  appends attempts (bind c k).
Proof.
  intros Hc Hk m. unfold bind. specialize (Hc m).
  destruct (c m) as [m' [a|e]]; cbn [fst] in *.
  - now rewrite Hk.
  - exact Hc.
Qed.

Lemma sendgrid_batch_appends recipients content variant cid :
  appends (map ViaSendGrid (BatchSpec.attempts content variant cid recipients))
    (sendgrid_send_batch C sandbox recipients content variant cid).
Proof.
  intros m. rewrite sendgrid_send_batch_run. cbv zeta. cbn [fst].
  unfold embed_sendgrid. cbn [send_log].
  destruct (send_batch_spec (sendgrid_send_email C) sandbox (world m) []
              recipients content variant cid) as (r & Hrun & _).
  cbv zeta in Hrun. rewrite Hrun. reflexivity.
Qed.

Lemma smtp_batch_appends recipients content :
  appends (map ViaSmtp (map (smtp_call_of content) recipients))
    (smtp_send_batch C recipients content).
Proof.
  intros m. rewrite smtp_send_batch_run. cbv zeta. cbn [fst].
  unfold embed_smtp. cbn [send_log].
  now rewrite smtp_batch_calls.
Qed.

Lemma send_via_sendgrid_appends cid variant recipients content :
  appends (map ViaSendGrid (BatchSpec.attempts content variant cid recipients))
    (send_via_sendgrid C sandbox cid variant recipients content).
Proof.
  unfold send_via_sendgrid.
  apply appends_bind; [apply sendgrid_batch_appends|].
  intros r. frame.
Qed.

Lemma send_via_smtp_appends cid variant recipients content :
  appends (map ViaSmtp (map (smtp_call_of content) recipients))
    (send_via_smtp C cid variant recipients content).
Proof.
  unfold send_via_smtp.
  apply appends_bind; [apply smtp_batch_appends|].
  intros r. frame.
Qed.

(** [send_variant] sends whenever the variant has recipients and content:
    it never looks at the sent flag. *)
Lemma send_variant_log (variant : string) (m : Machine W) :
  send_log (fst (send_variant C use_sendgrid sandbox variant m))
  = (send_log m ++ dispatch_attempts use_sendgrid (state m) variant)%list.
Proof.
  unfold send_variant, try_except.
  match goal with
  | |- send_log (fst (match ?body m with _ => _ end)) = _ =>
      assert (Hbody : send_log (fst (body m))
                      = (send_log m
                         ++ dispatch_attempts use_sendgrid (state m) variant)%list);
      [| destruct (body m) as [m' [a|e]]; cbn [fst] in *; exact Hbody]
  end.
  unfold dispatch_attempts.
  rewrite !bind_read.
  destruct (PyDict.get (ab_test_groups (state m)) variant) as [recipients|];
    [|cbn; now rewrite app_nil_r].
  destruct (PyDict.get (email_variants (state m)) variant) as [content|];
    [|cbn; now rewrite app_nil_r].
  destruct recipients as [|r0 rest]; [cbn; now rewrite app_nil_r|].
  destruct content as [|c0 crest]; [cbn; now rewrite app_nil_r|].
  rewrite !bind_modify.
  match goal with
  | |- send_log (fst (bind ?c ?k ?mm)) = _ =>
      change (send_log m) with (send_log mm);
      refine (appends_bind _ c k _ _ mm)
  end.
  - destruct use_sendgrid;
      [apply send_via_sendgrid_appends | apply send_via_smtp_appends].
  - intros _. apply finish_keeps_log.
Qed.

End AroundTheBatch.

(** ** The sent flag *)

Section SentFlag.

Import Orchestrator OrchSpec DispatchSpec.

Context {W : Type}.
Variable C : Collaborators W.
Variables use_sendgrid sandbox : bool.

(** A computation that always returns, and one after which a property of
    the machine holds. *)
Let returns {A} (c : M W A) : Prop := forall m, exists a, snd (c m) = Ok a.
Let ensures {A} (Q : Machine W -> Prop) (c : M W A) : Prop :=
  forall m, Q (fst (c m)).

Lemma returns_bind {A B} (c : M W A) (k : A -> M W B) :
  returns c -> (forall a, returns (k a)) -> returns (bind c k).
Proof.
  intros Hc Hk m. unfold bind. destruct (Hc m) as [a Ha].
  destruct (c m) as [m' r]. cbn [snd] in Ha. subst r. apply Hk.
Qed.

Lemma returns_modify f : returns (modify f : M W unit).
Proof. intros m. now exists tt. Qed.

Lemma returns_when b (c : M W unit) : returns c -> returns (when b c).
Proof. intros Hc. destruct b; [exact Hc | intros m; now exists tt]. Qed.

Lemma returns_caught {A} (body : M W A) (a : A) :
  returns (try_except body (fun _ => ret a)).
Proof.
  intros m. unfold try_except. destruct (body m) as [m' [x|e]]; eexists; reflexivity.
Qed.

Lemma record_sent_returns cid variant count :
  returns (record_event C cid variant "sent" count).
Proof.
  intros m. unfold record_event, bind, read_results, put_results, lift.
  cbn [fst snd test_results].
  assert (Hev : is_counter "sent") by (now left).
  destruct (PyDict.mem (test_results m) cid).
  - cbn [ret fst snd].
    destruct (record_event_counter (test_results m) "" cid variant "sent" count Hev)
      as [Hok _].
    destruct (ABTesting.record_event (test_results m) "" cid variant "sent" count)
      as [tr' r]. cbn [snd] in Hok. subst r. now exists tt.
  - unfold ask, call. destruct (now_iso C (world m)) as [w now]. cbn [fst snd test_results].
    destruct (record_event_counter (test_results m) now cid variant "sent" count Hev)
      as [Hok _].
    destruct (ABTesting.record_event (test_results m) now cid variant "sent" count)
      as [tr' r]. cbn [snd] in Hok. subst r. now exists tt.
Qed.

Lemma ensures_bind {A B} (Q : Machine W -> Prop) (c : M W A) (k : A -> M W B) :
  returns c -> (forall a, ensures Q (k a)) -> ensures Q (bind c k).
Proof.
  intros Hc Hk m. unfold bind. destruct (Hc m) as [a Ha].
  destruct (c m) as [m' r]. cbn [snd] in Ha. subst r. apply Hk.
Qed.

Lemma ensures_then_preserves {A B P} (view : Machine W -> P) (Q : P -> Prop)
    (c : M W A) (k : A -> M W B) :
  ensures (fun m => Q (view m)) c -> (forall a, preserves view (k a)) ->
  ensures (fun m => Q (view m)) (bind c k).
Proof.
  intros Hc Hk m. unfold bind. specialize (Hc m).
  destruct (c m) as [m' [a|e]]; cbn [fst] in *; [now rewrite Hk | exact Hc].
Qed.

Lemma is_sent_mark_sent variant s : is_sent (mark_sent variant s) variant = true.
Proof.
  unfold mark_sent. destruct (is_sent s variant) eqn:E; [exact E|].
  unfold is_sent. cbn [variant_sent set_variant_sent].
  rewrite existsb_app. cbn. now rewrite String.eqb_refl, orb_true_r.
Qed.

Let flagged (variant : string) (sent : list string) : Prop :=
  existsb (String.eqb variant) sent = true.

Lemma send_branch_sets_flag cid variant recipients content :
  ensures (fun m => flagged variant (variant_sent (state m)))
    (if use_sendgrid
     then send_via_sendgrid C sandbox cid variant recipients content
     else send_via_smtp C cid variant recipients content).
Proof.
  assert (Hmark : ensures (fun m => flagged variant (variant_sent (state m)))
                    (modify (mark_sent variant) : M W unit)).
  { intros m. apply is_sent_mark_sent. }
  destruct use_sendgrid.
  - unfold send_via_sendgrid.
    apply ensures_bind.
    { intros m. rewrite sendgrid_send_batch_run. eexists; reflexivity. }
    intros r.
    do 2 (apply ensures_bind; [apply returns_modify | intros _]).
    apply ensures_bind; [apply returns_when, record_sent_returns | intros _].
    apply ensures_bind; [apply returns_when, returns_modify | intros _].
    apply ensures_bind.
    { destruct (map snd (SendGrid.message_ids r));
        [intros m; now exists tt | apply returns_caught]. }
    intros _. apply ensures_bind; [apply returns_modify | intros _]. exact Hmark.
  - unfold send_via_smtp.
    apply ensures_bind.
    { intros m. rewrite smtp_send_batch_run. eexists; reflexivity. }
    intros r.
    apply ensures_bind; [apply record_sent_returns | intros _].
    do 2 (apply ensures_bind; [apply returns_modify | intros _]). exact Hmark.
Qed.

Lemma finish_keeps_flags ab_groups :
  preserves (fun m : Machine W => variant_sent (state m))
    (finish_if_all_sent C use_sendgrid ab_groups).
Proof. frame. Qed.

(** A view that survives a whole [send_variant]: the groups, the variants
    and the campaign identifier. *)
Lemma send_variant_keeps_inputs variant :
  preserves (fun m : Machine W =>
               (ab_test_groups (state m), email_variants (state m),
                campaign_id (state m)))
    (send_variant C use_sendgrid sandbox variant).
Proof.
  assert (Hsg : forall r c v i,
             preserves (fun m : Machine W =>
                          (ab_test_groups (state m), email_variants (state m),
                           campaign_id (state m)))
               (sendgrid_send_batch C sandbox r c v i))
    by (intros r c v i m; now rewrite sendgrid_send_batch_run).
  assert (Hsm : forall r c,
             preserves (fun m : Machine W =>
                          (ab_test_groups (state m), email_variants (state m),
                           campaign_id (state m)))
               (smtp_send_batch C r c))
    by (intros r c m; now rewrite smtp_send_batch_run).
  unfold send_variant, send_via_sendgrid, send_via_smtp.
  repeat first
    [ apply Hsg | apply Hsm
    | match goal with
      | |- preserves _ (modify (mark_sent _)) =>
          apply preserves_modify; intros m0; unfold mark_sent;
          destruct (is_sent (state m0) _); reflexivity
      | |- preserves _ (modify (fun s => match ?f s with _ => _ end)) =>
          apply preserves_modify; intros m0; cbn [state with_state];
          destruct (f (state m0)); reflexivity
      end
    | frame_step ].
Qed.

(** Two guarded dispatches in a row make the attempts of one. *)
Lemma guarded_twice_sends_once (variant : string) (m : Machine W) :
  let once := fst (app_send_if_unsent C use_sendgrid sandbox variant m) in
  send_log (fst (app_send_if_unsent C use_sendgrid sandbox variant once))
  = send_log once.
Proof.
  intros once.
  assert (Hguard : forall x, is_sent (state x) variant = true ->
             app_send_if_unsent C use_sendgrid sandbox variant x = (x, Ok tt)).
  { intros x Hx. unfold app_send_if_unsent. rewrite bind_read. now rewrite Hx. }
  assert (Hopen : forall x, is_sent (state x) variant = false ->
             app_send_if_unsent C use_sendgrid sandbox variant x
             = send_variant C use_sendgrid sandbox variant x).
  { intros x Hx. unfold app_send_if_unsent. rewrite bind_read. now rewrite Hx. }
  destruct (is_sent (state m) variant) eqn:Hm.
  { subst once. rewrite (Hguard m Hm). cbn [fst]. now rewrite (Hguard m Hm). }
  destruct (is_sent (state once) variant) eqn:Honce.
  { now rewrite (Hguard once Honce). }
  rewrite (Hopen once Honce), send_variant_log.
  assert (Hnone : dispatch_attempts use_sendgrid (state once) variant = []);
    [|now rewrite Hnone, app_nil_r].
  (* the first dispatch did not set the flag: there was nothing to send *)
  subst once. rewrite (Hopen m Hm) in *.
  pose proof (send_variant_keeps_inputs variant m) as Hin.
  cbv beta in Hin.
  unfold dispatch_attempts at 1.
  injection Hin as Hg Hv Hc. rewrite Hg, Hv.
  destruct (PyDict.get (ab_test_groups (state m)) variant) as [recipients|] eqn:Eg;
    [|reflexivity].
  destruct (PyDict.get (email_variants (state m)) variant) as [content|] eqn:Ev;
    [|reflexivity].
  destruct recipients as [|r0 rest]; [reflexivity|].
  destruct content as [|c0 crest]; [reflexivity|].
  exfalso.
  assert (Hflag : is_sent (state (fst (send_variant C use_sendgrid sandbox variant m)))
                    variant = true); [|congruence].
  clear Honce Hg Hv Hc.
  unfold send_variant, try_except.
  match goal with
  | |- is_sent (state (fst (match ?body m with _ => _ end))) variant = true =>
      assert (Hbody : is_sent (state (fst (body m))) variant = true);
      [| destruct (body m) as [m' [a|e]]; cbn [fst] in *;
         [exact Hbody | unfold modify; cbn; exact Hbody] ]
  end.
  rewrite !bind_read, Eg, Ev, !bind_modify.
  match goal with
  | |- is_sent (state (fst (bind ?c ?k ?mm))) variant = true =>
      exact (ensures_then_preserves (fun x : Machine W => variant_sent (state x))
               (flagged variant) c k
               (send_branch_sets_flag _ variant _ _)
               (fun _ => finish_keeps_flags _) mm)
  end.
Qed.

End SentFlag.

(** C1 (as the code has it). The sent flag is checked by the callers of
    [send_variant], not by [send_variant]: the guarded dispatch of the
    application returns the machine unchanged, with no send attempt, when
    the flag of the variant is set, and is [send_variant] otherwise, so that
    two guarded dispatches in a row make the send attempts of one;
    [send_variant] itself makes the send attempts of the variant's group on
    every call, whether the flag is set or not. *)
Theorem dispatch_guard_is_in_the_caller {W} (C : Orchestrator.Collaborators W)
    (use_sendgrid sandbox : bool) (variant : string) (m : Orchestrator.Machine W) :
  (Orchestrator.is_sent (Orchestrator.state m) variant = true ->
   Orchestrator.app_send_if_unsent C use_sendgrid sandbox variant m = (m, Ok tt))
  /\ (Orchestrator.is_sent (Orchestrator.state m) variant = false ->
      Orchestrator.app_send_if_unsent C use_sendgrid sandbox variant m
      = Orchestrator.send_variant C use_sendgrid sandbox variant m)
  /\ Orchestrator.send_log
       (fst (Orchestrator.app_send_if_unsent C use_sendgrid sandbox variant
               (fst (Orchestrator.app_send_if_unsent C use_sendgrid sandbox
                       variant m))))
     = Orchestrator.send_log
         (fst (Orchestrator.app_send_if_unsent C use_sendgrid sandbox variant m))
  /\ Orchestrator.send_log
       (fst (Orchestrator.send_variant C use_sendgrid sandbox variant m))
     = (Orchestrator.send_log m
        ++ DispatchSpec.dispatch_attempts use_sendgrid (Orchestrator.state m)
             variant)%list.
Proof.
  split; [|split; [|split]].
  - intros Hsent. unfold Orchestrator.app_send_if_unsent, Orchestrator.bind,
      Orchestrator.read. cbn [fst snd]. now rewrite Hsent.
  - intros Hsent. unfold Orchestrator.app_send_if_unsent, Orchestrator.bind,
      Orchestrator.read. cbn [fst snd]. now rewrite Hsent.
  - apply guarded_twice_sends_once.
  - apply send_variant_log.
Qed.

Lemma dispatch_guard_is_in_the_caller_witness :
  Orchestrator.app_send_if_unsent (OrchSpec.demo false) true false "A"
    DispatchSpec.already_sent
  = (DispatchSpec.already_sent, Ok tt).
Proof.
  exact (proj1 (dispatch_guard_is_in_the_caller (OrchSpec.demo false) true false "A"
                  DispatchSpec.already_sent) eq_refl).
Defined.

(** C1, refuted as stated: with the sent flag of A already set,
    [send_variant] sends to both recipients again and changes the state. *)
Lemma send_variant_sends_again :
  Orchestrator.is_sent (Orchestrator.state DispatchSpec.already_sent) "A" = true
  /\ List.length
       (Orchestrator.send_log
          (fst (Orchestrator.send_variant (OrchSpec.demo false) true false "A"
                  DispatchSpec.already_sent))) = 2%nat
  /\ Orchestrator.send_log DispatchSpec.already_sent = []
  /\ fst (Orchestrator.send_variant (OrchSpec.demo false) true false "A"
            DispatchSpec.already_sent)
     <> DispatchSpec.already_sent.
Proof.
  split; [reflexivity|]. split; [vm_compute; reflexivity|]. split; [reflexivity|].
  intros H. apply (f_equal Orchestrator.send_log) in H. vm_compute in H.
  discriminate H.
Qed.


(** ** The check result is not read by the dispatch *)

Section Commutes.

Import Orchestrator OrchSpec DispatchSpec AdvisorySpec.

Context {W : Type}.

Lemma commutes_ret {A} (a : A) : commutes (ret a : M W A).
Proof. intros d m. reflexivity. Qed.

Lemma commutes_raise {A} (e : exn) : commutes (raise e : M W A).
Proof. intros d m. reflexivity. Qed.

Lemma commutes_bind {A B} (c : M W A) (k : A -> M W B) :
  commutes c -> (forall a, commutes (k a)) -> commutes (bind c k).
Proof.
  intros Hc Hk d m. unfold bind. rewrite Hc.
  destruct (c m) as [m' [a|e]]; cbn [fst snd]; [apply Hk | reflexivity].
Qed.

Lemma commutes_try {A} (body : M W A) (h : exn -> M W A) :
  commutes body -> (forall e, commutes (h e)) -> commutes (try_except body h).
Proof.
  intros Hb Hh d m. unfold try_except. rewrite Hb.
  destruct (body m) as [m' [a|e]]; cbn [fst snd]; [reflexivity | apply Hh].
Qed.

Lemma commutes_read {A} (f : CampaignState -> A) :
  (forall d s, f (set_deliverability_check d s) = f s) ->
  commutes (read f : M W A).
Proof. intros Hf d m. unfold read. cbn. now rewrite Hf. Qed.

Lemma commutes_read_results {A} (f : ABTesting.test_results -> A) :
  commutes (read_results f : M W A).
Proof. intros d m. reflexivity. Qed.

Lemma commutes_lift {A} (r : result A) : commutes (lift r : M W A).
Proof. intros d m. now destruct r. Qed.

Lemma commutes_when (b : bool) (c : M W unit) : commutes c -> commutes (when b c).
Proof. intros Hc. destruct b; [exact Hc | apply commutes_ret]. Qed.

Lemma commutes_for_each {A} (l : list A) (body : A -> M W unit) :
  (forall x, commutes (body x)) -> commutes (for_each l body).
Proof.
  intros Hb. induction l as [|x l IH]; cbn [for_each].
  - apply commutes_ret.
  - apply commutes_bind; [apply Hb | intros _; exact IH].
Qed.

Lemma commutes_call {A} (f : W -> W * result A) : commutes (call f).
Proof.
  intros d m. unfold call. cbn [world with_check with_state].
  now destruct (f (world m)) as [w r].
Qed.

Lemma commutes_ask {A} (f : W -> W * A) : commutes (ask f).
Proof. apply commutes_call. Qed.

Lemma commutes_modify (f : CampaignState -> CampaignState) :
  (forall d s, f (set_deliverability_check d s) = set_deliverability_check d (f s)) ->
  commutes (modify f : M W unit).
Proof.
  intros Hf d m. unfold modify, with_check, with_state. cbn. now rewrite Hf.
Qed.

Lemma commutes_put_results (tr : ABTesting.test_results) :
  commutes (put_results (W := W) tr).
Proof. intros d m. reflexivity. Qed.

Variable C : Collaborators W.

Lemma commutes_sendgrid_batch sandbox recipients content variant cid :
  commutes (sendgrid_send_batch C sandbox recipients content variant cid).
Proof. intros d m. now rewrite !sendgrid_send_batch_run. Qed.

Lemma commutes_smtp_batch recipients content :
  commutes (smtp_send_batch C recipients content).
Proof. intros d m. now rewrite !smtp_send_batch_run. Qed.

(** *** Independence *)

Lemma send_view_with_check (d : PyDict.t pyobj) (m : Machine W) :
  send_view (with_check d m) = send_view m.
Proof. unfold send_view. cbn. now destruct (state m). Qed.

Lemma independent_of_commutes {A} (c : M W A) : commutes c -> independent c.
Proof. intros Hc d m. rewrite Hc. cbn [fst]. apply send_view_with_check. Qed.

Lemma independent_of_preserves {A} (c : M W A) :
  preserves send_view c -> independent c.
Proof. intros Hc d m. now rewrite !Hc, send_view_with_check. Qed.

Lemma independent_bind {A B} (c : M W A) (k : A -> M W B) :
  commutes c -> (forall a, independent (k a)) -> independent (bind c k).
Proof.
  intros Hc Hk d m. unfold bind. rewrite Hc.
  destruct (c m) as [m' [a|e]]; cbn [fst snd];
    [apply Hk | apply send_view_with_check].
Qed.

Lemma independent_try {A} (body : M W A) (h : exn -> M W A) :
  independent body -> (forall e, preserves send_view (h e)) ->
  independent (try_except body h).
Proof.
  intros Hb Hh d m. unfold try_except. specialize (Hb d m).
  destruct (body (with_check d m)) as [m1 [a1|e1]];
    destruct (body m) as [m2 [a2|e2]]; cbn [fst] in *;
    rewrite ?Hh; exact Hb.
Qed.

Lemma independent_when (b : bool) (c : M W unit) :
  independent c -> independent (when b c).
Proof.
  intros Hc. destruct b; [exact Hc|].
  apply independent_of_commutes, commutes_ret.
Qed.

End Commutes.

(** The operations of a dispatch commute with a change of the check
    result; the side conditions are equations between record updates. *)
Ltac commute_side :=
  intros ? ?;
  first [ reflexivity
        | match goal with s : Orchestrator.CampaignState |- _ => destruct s end;
          unfold Orchestrator.mark_sent, Orchestrator.is_sent;
          cbn;
          repeat match goal with
                 | |- context [match ?x with _ => _ end] => destruct x
                 end;
          reflexivity ].

Ltac commute_step :=
  lazymatch goal with
  | |- AdvisorySpec.commutes (Orchestrator.ret _) => apply commutes_ret
  | |- AdvisorySpec.commutes (Orchestrator.raise _) => apply commutes_raise
  | |- AdvisorySpec.commutes (Orchestrator.bind _ _) => apply commutes_bind; [|intro]
  | |- AdvisorySpec.commutes (Orchestrator.try_except _ _) =>
      apply commutes_try; [|intro]
  | |- AdvisorySpec.commutes (Orchestrator.read _) =>
      apply commutes_read; commute_side
  | |- AdvisorySpec.commutes (Orchestrator.read_results _) =>
      apply commutes_read_results
  | |- AdvisorySpec.commutes (Orchestrator.lift _) => apply commutes_lift
  | |- AdvisorySpec.commutes (Orchestrator.when _ _) => apply commutes_when
  | |- AdvisorySpec.commutes (Orchestrator.for_each _ _) =>
      apply commutes_for_each; intro
  | |- AdvisorySpec.commutes (Orchestrator.call _) => apply commutes_call
  | |- AdvisorySpec.commutes (Orchestrator.ask _) => apply commutes_ask
  | |- AdvisorySpec.commutes (Orchestrator.modify _) =>
      apply commutes_modify; commute_side
  | |- AdvisorySpec.commutes (Orchestrator.put_results _) =>
      apply commutes_put_results
  | |- AdvisorySpec.commutes (Orchestrator.sendgrid_send_batch _ _ _ _ _ _) =>
      apply commutes_sendgrid_batch
  | |- AdvisorySpec.commutes (Orchestrator.smtp_send_batch _ _ _) =>
      apply commutes_smtp_batch
  | |- AdvisorySpec.commutes (match ?x with _ => _ end) => destruct x
  | |- AdvisorySpec.commutes _ =>
      progress unfold Orchestrator.record_event, Orchestrator.fetch_and_record,
        Orchestrator.process_variant, Orchestrator.send_via_sendgrid,
        Orchestrator.send_via_smtp
  end.

Ltac commute := repeat commute_step.

Section Advisory.

Import Orchestrator OrchSpec DispatchSpec AdvisorySpec.

Context {W : Type}.
Variable C : Collaborators W.
Variables use_sendgrid sandbox : bool.

Lemma send_branch_commutes cid variant recipients content :
  commutes (if use_sendgrid
            then send_via_sendgrid C sandbox cid variant recipients content
            else send_via_smtp C cid variant recipients content).
Proof. commute. Qed.

Lemma process_variant_commutes cid ab_groups ids variant :
  commutes (process_variant C use_sendgrid cid ab_groups ids variant).
Proof. commute. Qed.

(** Up to the report call [process_results] does not read the check
    result; from there on it only writes the report, the status and the
    error text. *)
Lemma process_results_independent : independent (process_results C use_sendgrid).
Proof.
  unfold process_results.
  apply independent_try; [|intros e; frame].
  do 9 (apply independent_bind; [commute | intro]).
  apply independent_of_preserves. frame.
Qed.

Lemma finish_independent ab_groups :
  independent (finish_if_all_sent C use_sendgrid ab_groups).
Proof.
  unfold finish_if_all_sent.
  apply independent_try; [|intros e; frame].
  apply independent_bind; [commute | intro].
  apply independent_when, process_results_independent.
Qed.

Lemma send_variant_independent variant :
  independent (send_variant C use_sendgrid sandbox variant).
Proof.
  unfold send_variant.
  apply independent_try; [|intros e; frame].
  do 3 (apply independent_bind; [commute | intro]).
  repeat match goal with
         | |- independent (match ?x with _ => _ end) => destruct x
         end;
    try (apply independent_of_commutes; commute; fail).
  do 2 (apply independent_bind; [commute | intro]).
  apply independent_bind; [apply send_branch_commutes | intro].
  apply finish_independent.
Qed.

End Advisory.

(** C9. The deliverability check result is advisory: for two campaign
    states that differ only in [deliverability_check], [send_variant] makes
    the same send attempts and leaves the same send results, message ids,
    sent flags and counters; only the report, the status and the error
    text, written by the report step, can differ. *)
Theorem deliverability_check_is_advisory {W} (C : Orchestrator.Collaborators W)
    (use_sendgrid sandbox : bool) (variant : string)
    (d : PyDict.t pyobj) (m : Orchestrator.Machine W) :
  let with_d := fst (Orchestrator.send_variant C use_sendgrid sandbox variant
                       (AdvisorySpec.with_check d m)) in
  let without := fst (Orchestrator.send_variant C use_sendgrid sandbox variant m) in
  AdvisorySpec.send_view with_d = AdvisorySpec.send_view without
  /\ Orchestrator.send_log with_d = Orchestrator.send_log without
  /\ Orchestrator.send_results (Orchestrator.state with_d)
     = Orchestrator.send_results (Orchestrator.state without)
  /\ Orchestrator.sendgrid_message_ids (Orchestrator.state with_d)
     = Orchestrator.sendgrid_message_ids (Orchestrator.state without)
  /\ Orchestrator.variant_sent (Orchestrator.state with_d)
     = Orchestrator.variant_sent (Orchestrator.state without)
  /\ Orchestrator.test_results with_d = Orchestrator.test_results without.
Proof.
  intros with_d without.
  pose proof (send_variant_independent C use_sendgrid sandbox variant d m) as H.
  fold with_d without in H.
  split; [exact H|].
  pose proof (f_equal (fun v => fst (fst v)) H) as Hlog.
  pose proof (f_equal (fun v => snd (fst v)) H) as Htr.
  pose proof (f_equal snd H) as Hst.
  cbn [AdvisorySpec.send_view fst snd] in Hlog, Htr, Hst.
  split; [exact Hlog|].
  split; [exact (f_equal Orchestrator.send_results Hst)|].
  split; [exact (f_equal Orchestrator.sendgrid_message_ids Hst)|].
  split; [exact (f_equal Orchestrator.variant_sent Hst) | exact Htr].
Qed.

(** With every variant failing the check, the dispatch of A still sends to
    both recipients. *)
Example failed_check_does_not_block :
  let m := fst (Orchestrator.send_variant (OrchSpec.demo false) true false "A"
                  (AdvisorySpec.with_check AdvisorySpec.all_failed DispatchSpec.ready)) in
  List.length (Orchestrator.send_log m) = 2%nat
  /\ Orchestrator.is_sent (Orchestrator.state m) "A" = true.
Proof. vm_compute. split; reflexivity. Qed.


(* ===================================================================== *)
(** * Further properties of the A/B testing agent *)
(* ===================================================================== *)

(** The two [if ... not in ...] blocks create entries with zero counters:
    no counter reads differently afterwards. *)
Lemma ensure_counter (tr : ABTesting.test_results) (now cid variant : string)
    (cid' variant' event' : string) :
  ABTesting.counter
    (ABTesting.ensure_variant (ABTesting.ensure_campaign tr now cid) cid variant)
    cid' variant' event'
  = ABTesting.counter tr cid' variant' event'.
Proof.
  assert (Hzero : forall e : string,
             (if String.eqb e "sent" then 0
              else if String.eqb e "opened" then 0
              else if String.eqb e "clicked" then 0
              else if String.eqb e "converted" then 0 else 0) = 0).
  { intros e. now repeat destruct (String.eqb e _). }
  assert (Hnew : forall (c : ABTesting.CampaignResults) t,
             PyDict.get t cid = Some c ->
             PyDict.mem (ABTesting.variants c) variant = false ->
             ABTesting.counter
               (PyDict.set t cid
                  {| ABTesting.variants :=
                       PyDict.set (ABTesting.variants c) variant ABTesting.new_variant;
                     ABTesting.start_time := ABTesting.start_time c |})
               cid' variant' event'
             = ABTesting.counter t cid' variant' event').
  { intros c t Hc Hv. unfold ABTesting.counter.
    destruct (String.eqb cid cid') eqn:E.
    - apply String.eqb_eq in E. subst cid'. rewrite get_set_same, Hc.
      cbn [ABTesting.variants].
      destruct (String.eqb variant variant') eqn:E'.
      + apply String.eqb_eq in E'. subst variant'.
        rewrite get_set_same, (mem_false_get _ _ Hv). cbn. apply Hzero.
      + apply String.eqb_neq in E'. now rewrite get_set_other.
    - apply String.eqb_neq in E. now rewrite get_set_other. }
  unfold ABTesting.ensure_campaign, ABTesting.ensure_variant.
  destruct (PyDict.mem tr cid) eqn:Hc.
  - destruct (mem_get _ _ Hc) as [c Hgc]. rewrite Hgc.
    destruct (PyDict.mem (ABTesting.variants c) variant) eqn:Hv; [reflexivity|].
    now apply Hnew.
  - rewrite get_set_same.
    change (PyDict.mem (ABTesting.variants (ABTesting.new_campaign now)) variant)
      with false. cbv iota.
    rewrite (Hnew (ABTesting.new_campaign now)); [| apply get_set_same | reflexivity].
    unfold ABTesting.counter.
    destruct (String.eqb cid cid') eqn:E.
    + apply String.eqb_eq in E. subst cid'.
      rewrite get_set_same, (mem_false_get _ _ Hc). reflexivity.
    + apply String.eqb_neq in E. now rewrite get_set_other.
Qed.

(** [data[event] += count] leaves the other counters alone. *)
Lemma add_event_other (d d' : ABTesting.VariantData) (event event' : string)
    (count : Z) :
  ABTesting.add_event d event count = Ok d' ->
  event' <> event ->
  counter_of d' event' = counter_of d event'.
Proof.
  unfold ABTesting.add_event. intros H Hne.
  repeat match type of H with
         | (if String.eqb event ?k then _ else _) = _ =>
             let E := fresh "E" in
             destruct (String.eqb event k) eqn:E;
             [apply String.eqb_eq in E; subst event | clear E]
         end;
    try discriminate; injection H as <-; unfold counter_of; cbn;
    repeat match goal with
           | |- context [String.eqb event' ?k] =>
               let E := fresh "E" in
               destruct (String.eqb event' k) eqn:E;
               [apply String.eqb_eq in E; subst event'; try congruence | clear E]
           end; reflexivity.
Qed.

(** What a call leaves behind: the entries as the two blocks made them,
    with the data of the variant replaced when the addition went through. *)
Lemma record_event_cases (tr : ABTesting.test_results)
    (now cid variant event : string) (count : Z) :
  let tr1 := ABTesting.ensure_variant (ABTesting.ensure_campaign tr now cid)
               cid variant in
  exists c d,
    PyDict.get tr1 cid = Some c
    /\ PyDict.get (ABTesting.variants c) variant = Some d
    /\ match ABTesting.add_event d event count with
       | Raise e => ABTesting.record_event tr now cid variant event count
                    = (tr1, Raise e)
       | Ok d' =>
           ABTesting.record_event tr now cid variant event count
           = (PyDict.set tr1 cid
                {| ABTesting.variants := PyDict.set (ABTesting.variants c) variant d';
                   ABTesting.start_time := ABTesting.start_time c |}, Ok tt)
       end.
Proof.
  intros tr1. destruct (ensure_lookup tr now cid variant) as (c & d & Hc & Hd & _).
  exists c, d. fold tr1 in Hc. split; [exact Hc|]. split; [exact Hd|].
  unfold ABTesting.record_event. fold tr1. rewrite Hc, Hd.
  now destruct (ABTesting.add_event d event count).
Qed.

(** The counters a call is not made for. *)
Lemma record_event_frame (tr : ABTesting.test_results)
    (now cid variant event : string) (count : Z)
    (cid' variant' event' : string) :
  (cid', variant', event') <> (cid, variant, event) ->
  ABTesting.counter (fst (ABTesting.record_event tr now cid variant event count))
    cid' variant' event'
  = ABTesting.counter tr cid' variant' event'.
Proof.
  intros Hne.
  rewrite <- (ensure_counter tr now cid variant cid' variant' event').
  destruct (record_event_cases tr now cid variant event count)
    as (c & d & Hc & Hd & Hrun).
  destruct (ABTesting.add_event d event count) as [d'|e] eqn:Hadd;
    rewrite Hrun; cbn [fst]; [|reflexivity].
  unfold ABTesting.counter.
  destruct (String.eqb cid cid') eqn:E.
  - apply String.eqb_eq in E. subst cid'. rewrite get_set_same, Hc.
    cbn [ABTesting.variants].
    destruct (String.eqb variant variant') eqn:E'.
    + apply String.eqb_eq in E'. subst variant'. rewrite get_set_same, Hd.
      apply (add_event_other d d' event event' count Hadd). congruence.
    + apply String.eqb_neq in E'. now rewrite get_set_other.
  - apply String.eqb_neq in E. now rewrite get_set_other.
Qed.

(** X1. [record_event] changes no counter but the one it is called for:
    the counters of every other campaign, of every other variant of the
    same campaign, and the other counters of the same variant read after
    the call as they did before it, also when the call raises. *)
Theorem record_event_changes_one_counter (tr : ABTesting.test_results)
    (now cid variant event : string) (count : Z)
    (cid' variant' event' : string) :
  (cid', variant', event') <> (cid, variant, event) ->
  ABTesting.counter (fst (ABTesting.record_event tr now cid variant event count))
    cid' variant' event'
  = ABTesting.counter tr cid' variant' event'.
Proof. exact (record_event_frame tr now cid variant event count cid' variant' event'). Qed.

Lemma record_event_changes_one_counter_witness :
  ABTesting.counter
    (fst (ABTesting.record_event demo_results "2024-01-02T00:00:00" "c1" "B"
            "opened" 7))
    "c1" "A" "opened"
  = ABTesting.counter demo_results "c1" "A" "opened".
Proof.
  apply (record_event_changes_one_counter demo_results "2024-01-02T00:00:00"
           "c1" "B" "opened" 7 "c1" "A" "opened").
  discriminate.
Defined.

(** X2. An event name that is no key of the variant's entry is dropped:
    the call returns normally, the entries of the campaign and of the
    variant exist afterwards, the data of a variant that existed is what it
    was, and every counter reads as before.  The orchestrator reports
    bounces under the name "bounced", which is such a name. *)
Theorem record_event_drops_unknown_events (tr : ABTesting.test_results)
    (now cid variant event : string) (count : Z) :
  ~ In event ["metrics"; "sent"; "opened"; "clicked"; "converted"] ->
  let tr' := fst (ABTesting.record_event tr now cid variant event count) in
  snd (ABTesting.record_event tr now cid variant event count) = Ok tt
  /\ (exists d, variant_data tr' cid variant = Some d
                /\ (variant_data tr cid variant = None -> d = ABTesting.new_variant)
                /\ (forall d0, variant_data tr cid variant = Some d0 -> d = d0))
  /\ (forall cid' variant' event',
        ABTesting.counter tr' cid' variant' event'
        = ABTesting.counter tr cid' variant' event')
  /\ ABTesting.calculate_metrics tr' cid <> Ok ABTesting.CampaignNotFound.
Proof.
  intros Hev tr'.
  assert (Hadd : forall d, ABTesting.add_event d event count = Ok d).
  { intros d. unfold ABTesting.add_event.
    repeat match goal with
           | |- (if String.eqb event ?k then _ else _) = _ =>
               let E := fresh "E" in
               destruct (String.eqb event k) eqn:E;
               [apply String.eqb_eq in E; subst event; exfalso; apply Hev; cbn; tauto
               | clear E]
           end. reflexivity. }
  destruct (record_event_cases tr now cid variant event count)
    as (c & d & Hc & Hd & Hrun).
  rewrite Hadd in Hrun. subst tr'. rewrite Hrun. cbn [fst snd].
  set (tr1 := ABTesting.ensure_variant (ABTesting.ensure_campaign tr now cid)
                cid variant) in *.
  split; [reflexivity|].
  assert (Hdata : variant_data
                    (PyDict.set tr1 cid
                       {| ABTesting.variants := PyDict.set (ABTesting.variants c) variant d;
                          ABTesting.start_time := ABTesting.start_time c |})
                    cid variant = Some d).
  { unfold variant_data. rewrite get_set_same. cbn [ABTesting.variants].
    apply get_set_same. }
  split.
  { exists d. split; [exact Hdata|].
    subst tr1. revert Hc Hd.
    unfold ABTesting.ensure_campaign, ABTesting.ensure_variant, variant_data.
    destruct (PyDict.mem tr cid) eqn:Hm.
    - destruct (mem_get _ _ Hm) as [c0 Hc0]. rewrite Hc0.
      destruct (PyDict.mem (ABTesting.variants c0) variant) eqn:Hv.
      + rewrite Hc0. intros [= <-] Hd. rewrite Hd. split; [discriminate|].
        now intros d0 [= <-].
      + rewrite get_set_same. intros [= <-]. cbn [ABTesting.variants].
        rewrite get_set_same. intros [= <-].
        rewrite (mem_false_get _ _ Hv). split; [reflexivity | discriminate].
    - rewrite get_set_same.
      change (PyDict.mem (ABTesting.variants (ABTesting.new_campaign now)) variant)
        with false. cbv iota.
      rewrite get_set_same. intros [= <-]. cbn [ABTesting.variants PyDict.get].
      rewrite String.eqb_refl. intros [= <-].
      rewrite (mem_false_get _ _ Hm). split; [reflexivity | discriminate]. }
  split.
  { intros cid' variant' event'.
    rewrite <- (ensure_counter tr now cid variant cid' variant' event'). fold tr1.
    unfold ABTesting.counter.
    destruct (String.eqb cid cid') eqn:E.
    - apply String.eqb_eq in E. subst cid'. rewrite get_set_same, Hc.
      cbn [ABTesting.variants].
      destruct (String.eqb variant variant') eqn:E'.
      + apply String.eqb_eq in E'. subst variant'. now rewrite get_set_same, Hd.
      + apply String.eqb_neq in E'. now rewrite get_set_other.
    - apply String.eqb_neq in E. now rewrite get_set_other. }
  unfold ABTesting.calculate_metrics. rewrite get_set_same.
  now destruct (ABTesting.variant_rows _ _).
Qed.

Lemma record_event_drops_unknown_events_witness :
  snd (ABTesting.record_event demo_results "2024-01-02T00:00:00" "c1" "A"
         "bounced" 4) = Ok tt
  /\ ABTesting.counter
       (fst (ABTesting.record_event demo_results "2024-01-02T00:00:00" "c1" "A"
               "bounced" 4)) "c1" "A" "bounced" = 0.
Proof.
  assert (H : ~ In "bounced" ["metrics"; "sent"; "opened"; "clicked"; "converted"]).
  { cbn. intros [H|[H|[H|[H|[H|[]]]]]]; discriminate H. }
  destruct (record_event_drops_unknown_events demo_results "2024-01-02T00:00:00"
              "c1" "A" "bounced" 4 H) as (Hok & _ & Hcnt & _).
  split; [exact Hok|].
  rewrite Hcnt. reflexivity.
Defined.


(** ** Tracked metrics *)

(** The rows depend on the keys and the counters only. *)
Lemma variant_rows_ext (vs vs' : PyDict.t ABTesting.VariantData) :
  Forall2 (fun a b => fst a = fst b
                      /\ ABTesting.variant_row (snd a) = ABTesting.variant_row (snd b))
    vs vs' ->
  forall acc, ABTesting.variant_rows vs acc = ABTesting.variant_rows vs' acc.
Proof.
  induction 1 as [|[k d] [k' d'] vs vs' [Hk Hrow] _ IH]; intros acc; [reflexivity|].
  cbn [fst snd] in Hk, Hrow. subst k'. cbn [ABTesting.variant_rows].
  rewrite Hrow. destruct (ABTesting.variant_row d'); [apply IH | reflexivity].
Qed.

Lemma set_Forall2 {V} (R : V -> V -> Prop) (vs : PyDict.t V) (k : string) (d d' : V) :
  (forall x, R x x) -> PyDict.get vs k = Some d -> R d d' ->
  Forall2 (fun a b => fst a = fst b /\ R (snd a) (snd b)) vs (PyDict.set vs k d').
Proof.
  intros Hrefl. induction vs as [|[k0 d0] vs IH]; cbn; [discriminate|].
  destruct (String.eqb k k0) eqn:E.
  - intros [= ->] HR. constructor; [now split|].
    clear IH. induction vs as [|x vs IHvs]; constructor; [now split | exact IHvs].
  - intros Hg HR. constructor; [now split | now apply IH].
Qed.

(** X3. [track_metric] stores the value under the metric name (reading it
    back gives the value last written), and nothing reads it: every counter
    and every other tracked value is as before, and for a variant that
    already has an entry the computed metrics and the winner of every
    campaign are the same as without the call. *)
Theorem track_metric_is_write_only (tr : ABTesting.test_results)
    (now cid variant metric : string) (value : pynum) :
  let tr' := ABTesting.track_metric tr now cid variant metric value in
  tracked tr' cid variant metric = Some value
  /\ (forall cid' variant' event',
        ABTesting.counter tr' cid' variant' event'
        = ABTesting.counter tr cid' variant' event')
  /\ (forall cid' variant' metric',
        (cid', variant', metric') <> (cid, variant, metric) ->
        tracked tr' cid' variant' metric' = tracked tr cid' variant' metric')
  /\ (variant_data tr cid variant <> None ->
      forall cid' primary_metric,
        ABTesting.calculate_metrics tr' cid' = ABTesting.calculate_metrics tr cid'
        /\ ABTesting.get_winner tr' cid' primary_metric
           = ABTesting.get_winner tr cid' primary_metric).
Proof.
  intros tr'.
  set (tr1 := ABTesting.ensure_variant (ABTesting.ensure_campaign tr now cid)
                cid variant).
  destruct (ensure_lookup tr now cid variant) as (c & d & Hc & Hd & Hcnt).
  fold tr1 in Hc.
  set (d' := {| ABTesting.metrics := PyDict.set (ABTesting.metrics d) metric value;
                ABTesting.sent := ABTesting.sent d;
                ABTesting.opened := ABTesting.opened d;
                ABTesting.clicked := ABTesting.clicked d;
                ABTesting.converted := ABTesting.converted d |}).
  assert (Htr' : tr' = PyDict.set tr1 cid
                         {| ABTesting.variants :=
                              PyDict.set (ABTesting.variants c) variant d';
                            ABTesting.start_time := ABTesting.start_time c |}).
  { subst tr'. unfold ABTesting.track_metric. fold tr1. now rewrite Hc, Hd. }
  (* the entries before the call, read through the two blocks *)
  assert (Hdata1 : forall cid' variant',
             (cid', variant') <> (cid, variant) ->
             variant_data tr' cid' variant' = variant_data tr1 cid' variant').
  { intros cid' variant' Hne. rewrite Htr'. unfold variant_data.
    destruct (String.eqb cid cid') eqn:E.
    - apply String.eqb_eq in E. subst cid'. rewrite get_set_same, Hc.
      cbn [ABTesting.variants]. rewrite get_set_other; [reflexivity | congruence].
    - apply String.eqb_neq in E. now rewrite get_set_other. }
  assert (Hdata : variant_data tr' cid variant = Some d').
  { rewrite Htr'. unfold variant_data. rewrite get_set_same. cbn [ABTesting.variants].
    apply get_set_same. }
  assert (Hens : forall cid' variant',
             (cid', variant') <> (cid, variant) ->
             variant_data tr1 cid' variant' = variant_data tr cid' variant').
  { intros cid' variant' Hne. subst tr1.
    unfold ABTesting.ensure_campaign, ABTesting.ensure_variant, variant_data.
    destruct (PyDict.mem tr cid) eqn:Hm.
    - destruct (mem_get _ _ Hm) as [c0 Hc0]. rewrite Hc0.
      destruct (PyDict.mem (ABTesting.variants c0) variant) eqn:Hv; [reflexivity|].
      destruct (String.eqb cid cid') eqn:E.
      + apply String.eqb_eq in E. subst cid'. rewrite get_set_same, Hc0.
        cbn [ABTesting.variants]. rewrite get_set_other; [reflexivity | congruence].
      + apply String.eqb_neq in E. now rewrite get_set_other.
    - rewrite get_set_same.
      change (PyDict.mem (ABTesting.variants (ABTesting.new_campaign now)) variant)
        with false. cbv iota.
      destruct (String.eqb cid cid') eqn:E.
      + apply String.eqb_eq in E. subst cid'. rewrite get_set_same.
        rewrite (mem_false_get _ _ Hm). cbn [ABTesting.variants].
        rewrite get_set_other; [reflexivity | congruence].
      + apply String.eqb_neq in E. now rewrite !get_set_other. }
  split.
  { unfold tracked. rewrite Hdata. cbn [ABTesting.metrics d']. apply get_set_same. }
  split.
  { intros cid' variant' event'.
    rewrite <- (ensure_counter tr now cid variant cid' variant' event'). fold tr1.
    rewrite Htr'. unfold ABTesting.counter.
    destruct (String.eqb cid cid') eqn:E.
    - apply String.eqb_eq in E. subst cid'. rewrite get_set_same, Hc.
      cbn [ABTesting.variants].
      destruct (String.eqb variant variant') eqn:E'.
      + apply String.eqb_eq in E'. subst variant'. now rewrite get_set_same, Hd.
      + apply String.eqb_neq in E'. now rewrite get_set_other.
    - apply String.eqb_neq in E. now rewrite get_set_other. }
  split.
  { intros cid' variant' metric' Hne. unfold tracked.
    destruct (String.eqb cid cid' && String.eqb variant variant')%bool eqn:E.
    - apply andb_prop in E as [E1 E2].
      apply String.eqb_eq in E1, E2. subst cid' variant'.
      rewrite Hdata. cbn [ABTesting.metrics d'].
      rewrite get_set_other by congruence.
      assert (Hold : variant_data tr1 cid variant = Some d).
      { unfold variant_data. now rewrite Hc. }
      revert Hold. subst tr1.
      unfold ABTesting.ensure_campaign, ABTesting.ensure_variant, variant_data.
      destruct (PyDict.mem tr cid) eqn:Hm.
      + destruct (mem_get _ _ Hm) as [c0 Hc0]. rewrite Hc0.
        destruct (PyDict.mem (ABTesting.variants c0) variant) eqn:Hv.
        * rewrite Hc0. now intros ->.
        * rewrite get_set_same. cbn [ABTesting.variants]. rewrite get_set_same.
          intros [= <-]. now rewrite (mem_false_get _ _ Hv).
      + rewrite get_set_same.
        change (PyDict.mem (ABTesting.variants (ABTesting.new_campaign now)) variant)
          with false. cbv iota.
        rewrite get_set_same. cbn [ABTesting.variants].
        rewrite get_set_same. intros [= <-].
        now rewrite (mem_false_get _ _ Hm).
    - assert (Hne' : (cid', variant') <> (cid, variant)).
      { intros [= -> ->]. now rewrite !String.eqb_refl in E. }
      now rewrite Hdata1, Hens. }
  intros Hexists cid' primary_metric.
  assert (Hsame : tr1 = tr).
  { subst tr1. revert Hexists.
    unfold ABTesting.ensure_campaign, ABTesting.ensure_variant, variant_data.
    destruct (PyDict.mem tr cid) eqn:Hm.
    - destruct (mem_get _ _ Hm) as [c0 Hc0]. rewrite Hc0.
      destruct (PyDict.mem (ABTesting.variants c0) variant) eqn:Hv; [reflexivity|].
      rewrite (mem_false_get _ _ Hv). congruence.
    - rewrite (mem_false_get _ _ Hm). congruence. }
  rewrite Hsame in Hc, Htr'.
  assert (Hcalc : ABTesting.calculate_metrics tr' cid'
                  = ABTesting.calculate_metrics tr cid').
  { rewrite Htr'. unfold ABTesting.calculate_metrics.
    destruct (String.eqb cid cid') eqn:E.
    - apply String.eqb_eq in E. subst cid'. rewrite get_set_same, Hc.
      cbn [ABTesting.variants].
      rewrite <- (variant_rows_ext (ABTesting.variants c)
                    (PyDict.set (ABTesting.variants c) variant d')); [reflexivity|].
      apply (set_Forall2
               (fun a b => ABTesting.variant_row a = ABTesting.variant_row b)
               (ABTesting.variants c) variant d d'); [reflexivity | exact Hd |].
      reflexivity.
    - apply String.eqb_neq in E. now rewrite get_set_other. }
  split; [exact Hcalc|].
  unfold ABTesting.get_winner. now rewrite Hcalc.
Qed.

(** A tracked open rate of 99.5 for B changes neither B's row nor the
    winner. *)
Example tracked_rate_is_ignored :
  let tr := ABTesting.track_metric tied_A_first "2024-01-02T00:00:00" "c1" "B"
              "open_rate" (PFloat 99.5%float) in
  tracked tr "c1" "B" "open_rate" = Some (PFloat 99.5%float)
  /\ ABTesting.get_winner tr "c1" "open_rate" = Ok (Some "A").
Proof. vm_compute. split; reflexivity. Qed.


(* ===================================================================== *)
(** * Further properties of the batch senders *)
(* ===================================================================== *)

(** ** The error entries and message ids of [SendGridSender.send_batch] *)

Section BatchEntries.

Context {S : Type}.
Variable send_email : S -> SendGrid.SendCall -> S * SendGrid.SendResult.
Variables subject body variant campaign_id : string.

Let call := BatchSpec.call_of subject body variant campaign_id.
Let step := SendGrid.send_one (SendGrid.logged send_email) subject body variant
              campaign_id.

Lemma send_loop_entries (recipients : list Recipient) :
  forall (s : S) (log : list SendGrid.SendCall) (r0 : SendGrid.BatchResult),
    let calls := map call (filter SendGrid.has_email recipients) in
    let rs := snd (BatchSpec.answers send_email s calls) in
    let r := snd (fold_left step recipients ((s, log), r0)) in
    SendGrid.errors r
    = (SendGrid.errors r0 ++ BatchErrors.expected call recipients rs)%list
    /\ SendGrid.message_ids r
       = (SendGrid.message_ids r0 ++ BatchErrors.accepted_ids calls rs)%list
    /\ SendGrid.failed r
       = SendGrid.failed r0
         + Z.of_nat (List.length (BatchErrors.expected call recipients rs))
    /\ SendGrid.sent r0
       + Z.of_nat (List.length (BatchErrors.accepted_ids calls rs))
       <= SendGrid.sent r.
Proof.
  induction recipients as [|x rest IH]; intros s log r0; cbn zeta.
  - cbn. rewrite !app_nil_r. repeat split; lia.
  - cbn [fold_left filter BatchErrors.expected].
    destruct (SendGrid.has_email x) eqn:Hx.
    + cbn [map BatchSpec.answers].
      destruct (send_email s (call x)) as [s1 res] eqn:Hsend.
      assert (Hstep : exists r1,
                 step ((s, log), r0) x = ((s1, (log ++ [call x])%list), r1)
                 /\ SendGrid.errors r1
                    = (SendGrid.errors r0
                       ++ (if SendGrid.success res then []
                           else [BatchErrors.refused (call x) res]))%list
                 /\ SendGrid.message_ids r1
                    = (SendGrid.message_ids r0
                       ++ BatchErrors.accepted_ids [call x] [res])%list
                 /\ SendGrid.failed r1
                    = SendGrid.failed r0 + (if SendGrid.success res then 0 else 1)
                 /\ SendGrid.sent r1
                    = SendGrid.sent r0 + (if SendGrid.success res then 1 else 0)).
      { unfold step, SendGrid.send_one.
        unfold SendGrid.has_email in Hx. rewrite Hx. cbn [negb].
        unfold SendGrid.logged. cbn [fst snd].
        change {| SendGrid.to_email := PyDict.get_default x "email" "";
                  SendGrid.to_name := PyDict.get_default x "name" "Customer";
                  SendGrid.subject := subject; SendGrid.body := body;
                  SendGrid.variant := variant; SendGrid.campaign_id := campaign_id |}
          with (call x).
        rewrite Hsend. cbn [BatchErrors.accepted_ids].
        destruct (SendGrid.success res) eqn:Hres; eexists; (split; [reflexivity|]);
          cbn [SendGrid.errors SendGrid.message_ids SendGrid.failed SendGrid.sent];
          rewrite ?app_nil_r.
        - split; [reflexivity|]. split; [|split; lia].
          unfold opt_truthy.
          destruct (SendGrid.message_id res) as [m|]; cbn [andb];
            [destruct (str_truthy m) | rewrite app_nil_r]; try reflexivity.
          now rewrite app_nil_r.
        - split; [reflexivity|]. split; [|split; lia].
          destruct (SendGrid.message_id res); cbn [andb]; now rewrite app_nil_r. }
      destruct Hstep as (r1 & Hstep & He1 & Hm1 & Hf1 & Hs1). rewrite Hstep.
      specialize (IH s1 (log ++ [call x])%list r1). cbn zeta in IH.
      destruct (BatchSpec.answers send_email s1
                  (map call (filter SendGrid.has_email rest))) as [s2 rs] eqn:Hans.
      cbn [fst snd] in *.
      destruct IH as (He & Hm & Hf & Hs).
      rewrite He, Hm, Hf, He1, Hm1, Hf1. rewrite <- !app_assoc.
      cbn [BatchErrors.accepted_ids] in *.
      destruct (SendGrid.success res) eqn:Hres; cbn [app andb List.length].
      * split; [reflexivity|]. split.
        { destruct (SendGrid.message_id res) as [m|]; [|reflexivity].
          now destruct (str_truthy m). }
        split; [lia|].
        destruct (SendGrid.message_id res) as [m|]; [|cbn in *; lia].
        destruct (str_truthy m); cbn [app List.length] in *; lia.
      * split; [reflexivity|]. split.
        { now destruct (SendGrid.message_id res). }
        split; [lia|].
        destruct (SendGrid.message_id res); cbn [app List.length] in *; lia.
    + assert (Hstep : exists r1,
                 step ((s, log), r0) x = ((s, log), r1)
                 /\ SendGrid.errors r1
                    = (SendGrid.errors r0 ++ [BatchErrors.no_address])%list
                 /\ SendGrid.message_ids r1 = SendGrid.message_ids r0
                 /\ SendGrid.failed r1 = SendGrid.failed r0 + 1
                 /\ SendGrid.sent r1 = SendGrid.sent r0).
      { unfold step, SendGrid.send_one.
        unfold SendGrid.has_email in Hx. rewrite Hx. cbn [negb].
        eexists. split; [reflexivity|]. cbn. repeat split. }
      destruct Hstep as (r1 & Hstep & He1 & Hm1 & Hf1 & Hs1). rewrite Hstep.
      specialize (IH s log r1). cbn zeta in IH.
      destruct IH as (He & Hm & Hf & Hs).
      rewrite He, Hm, Hf, He1, Hm1, Hf1. rewrite <- !app_assoc.
      cbn [app List.length]. repeat split; lia.
Qed.

Lemma expected_have_email (recipients : list Recipient) :
  forall rs, Forall (fun e => SendGrid.err_email e <> None)
               (BatchErrors.expected call recipients rs).
Proof.
  induction recipients as [|x rest IH]; intros rs; cbn; [constructor|].
  destruct (SendGrid.has_email x).
  - destruct rs as [|r rs]; [constructor|].
    destruct (SendGrid.success r); [apply IH|].
    constructor; [discriminate | apply IH].
  - constructor; [discriminate | apply IH].
Qed.

End BatchEntries.

(** X5. The [errors] list of a SendGrid batch has one entry per failure,
    in the order of the group: "N/A" with "No email address" for a
    recipient without an address, the address and the sender's message for
    a refused call; every entry carries an "email" key, so the entry for a
    missing subject or body is never produced.  [message_ids] has one
    entry per accepted call answered with a non-empty id, so never more
    than [sent]. *)
Theorem send_batch_error_entries {S}
    (send_email : S -> SendGrid.SendCall -> S * SendGrid.SendResult)
    (sandbox : bool) (s : S) (log : list SendGrid.SendCall)
    (recipients : list Recipient) (content : Content) (variant cid : string) :
  let run := SendGrid.send_batch (SendGrid.logged send_email) sandbox (s, log)
               recipients content variant cid in
  let result := snd run in
  let call := BatchSpec.call_of (SendGrid.batch_subject content)
                (SendGrid.batch_body content) variant cid in
  let calls := BatchSpec.attempts content variant cid recipients in
  let rs := snd (BatchSpec.answers send_email s calls) in
  SendGrid.errors result = BatchErrors.expected call recipients rs
  /\ Z.of_nat (List.length (SendGrid.errors result)) = SendGrid.failed result
  /\ Forall (fun e => SendGrid.err_email e <> None) (SendGrid.errors result)
  /\ SendGrid.message_ids result = BatchErrors.accepted_ids calls rs
  /\ Z.of_nat (List.length (SendGrid.message_ids result)) <= SendGrid.sent result.
Proof.
  intros run result call calls rs.
  assert (H : SendGrid.errors result = BatchErrors.expected call recipients rs
              /\ SendGrid.message_ids result = BatchErrors.accepted_ids calls rs
              /\ SendGrid.failed result
                 = Z.of_nat (List.length (BatchErrors.expected call recipients rs))
              /\ Z.of_nat (List.length (BatchErrors.accepted_ids calls rs))
                 <= SendGrid.sent result).
  { subst result run. unfold SendGrid.send_batch.
    destruct recipients as [|x rest].
    - cbn. repeat split; lia.
    - rewrite batch_subject_truthy, batch_body_truthy. cbv beta iota zeta. cbn [negb orb].
      pose proof (send_loop_entries send_email (SendGrid.batch_subject content)
                    (SendGrid.batch_body content) variant cid (x :: rest) s log
                    (SendGrid.initial_result sandbox (x :: rest))) as Hloop.
      cbn zeta in Hloop. cbn [SendGrid.initial_result SendGrid.errors
                              SendGrid.message_ids SendGrid.failed SendGrid.sent app]
        in Hloop.
      destruct Hloop as (He & Hm & Hf & Hs).
      split; [exact He|]. split; [exact Hm|]. split; [exact Hf | exact Hs]. }
  destruct H as (He & Hm & Hf & Hs).
  split; [exact He|]. split; [now rewrite He, Hf|].
  split; [rewrite He; apply expected_have_email|].
  split; [exact Hm | now rewrite Hm].
Qed.

(** A group of three: no address, a refused address, an accepted one. *)
Example send_batch_two_error_entries :
  let recipients := [[("name", "Bo")]; BatchSpec.recipient_with "r5@example.com";
                     BatchSpec.recipient_with "r1@example.com"] in
  let run := SendGrid.send_batch (SendGrid.logged (BatchSpec.rejects "r5@example.com"))
               false (0%nat, []) recipients BatchSpec.demo_content "A" "c1" in
  SendGrid.errors (snd run)
  = [{| SendGrid.err_email := Some "N/A"; SendGrid.err_error := "No email address" |};
     {| SendGrid.err_email := Some "r5@example.com";
        SendGrid.err_error := "SendGrid returned status 400" |}]
  /\ SendGrid.message_ids (snd run) = [("r1@example.com", "msg")].
Proof. vm_compute. split; reflexivity. Qed.

(** ** [EmailSender.send_batch] *)

Section SmtpLoop.

Context {S : Type}.
Variable send_email : S -> Smtp.SendCall -> S * bool.
Variable content : Content.

Let call := DispatchSpec.smtp_call_of content.
Let step := Smtp.send_one (Smtp.logged send_email)
              (PyDict.get_default content "subject" "No Subject")
              (match PyDict.get content "full_content" with
               | Some b => b
               | None => PyDict.get_default content "body" ""
               end).

Lemma smtp_loop_spec (recipients : list Recipient) :
  forall (s : S) (log : list Smtp.SendCall) (r0 : Smtp.BatchResult),
    let calls := map call recipients in
    let oks := snd (SmtpSpec.answers send_email s calls) in
    exists r,
      fold_left step recipients ((s, log), r0)
      = ((fst (SmtpSpec.answers send_email s calls), (log ++ calls)%list), r)
      /\ Smtp.total r = Smtp.total r0
      /\ Smtp.sent r = Smtp.sent r0 + SmtpSpec.accepted oks
      /\ Smtp.failed r
         = Smtp.failed r0 + Z.of_nat (List.length recipients) - SmtpSpec.accepted oks
      /\ Smtp.errors r = (Smtp.errors r0 ++ SmtpSpec.error_lines calls oks)%list
      /\ Smtp.failed r
         = Smtp.failed r0 + Z.of_nat (List.length (SmtpSpec.error_lines calls oks)).
Proof.
  induction recipients as [|x rest IH]; intros s log r0; cbn zeta.
  - cbn. exists r0. rewrite !app_nil_r. unfold SmtpSpec.accepted. cbn.
    repeat split; lia.
  - cbn [fold_left map SmtpSpec.answers].
    destruct (send_email s (call x)) as [s1 ok] eqn:Hsend.
    assert (Hstep : exists r1,
               step ((s, log), r0) x = ((s1, (log ++ [call x])%list), r1)
               /\ Smtp.total r1 = Smtp.total r0
               /\ Smtp.sent r1 = Smtp.sent r0 + (if ok then 1 else 0)
               /\ Smtp.failed r1 = Smtp.failed r0 + (if ok then 0 else 1)
               /\ Smtp.errors r1
                  = (Smtp.errors r0
                     ++ (if ok then []
                         else [String.append "Failed to send to "
                                 (Smtp.to_email (call x))]))%list).
    { unfold step, Smtp.send_one, Smtp.logged. cbn [fst snd].
      change {| Smtp.to_email := PyDict.get_default x "email" "";
                Smtp.to_name := PyDict.get_default x "name" "Customer";
                Smtp.subject := PyDict.get_default content "subject" "No Subject";
                Smtp.body := match PyDict.get content "full_content" with
                             | Some b => b
                             | None => PyDict.get_default content "body" ""
                             end |}
        with (call x).
      rewrite Hsend.
      destruct ok; eexists; (split; [reflexivity|]); cbn; rewrite ?app_nil_r;
        repeat split; lia. }
    destruct Hstep as (r1 & Hstep & Ht1 & Hs1 & Hf1 & He1). rewrite Hstep.
    destruct (IH s1 (log ++ [call x])%list r1) as (r & Hrun & Ht & Hs & Hf & He & Hfe).
    exists r. rewrite Hrun.
    destruct (SmtpSpec.answers send_email s1 (map call rest)) as [s2 oks] eqn:Hans.
    cbn [fst snd] in *. rewrite <- app_assoc. cbn [app].
    split; [reflexivity|]. split; [congruence|].
    unfold SmtpSpec.accepted in *. cbn [SmtpSpec.error_lines filter List.length].
    rewrite He, He1, <- app_assoc.
    destruct ok; cbn [app List.length]; repeat split; lia.
Qed.

End SmtpLoop.

(** X4. The SMTP batch calls [send_email] once for every recipient, in the
    order of the group, also for a recipient without an address (the call
    then goes to the empty address); [total] is the size of the group,
    [sent] the number of accepted calls, [sent + failed = total], and
    [errors] has one line per refused call. *)
Theorem smtp_send_batch_accounting {S}
    (send_email : S -> Smtp.SendCall -> S * bool)
    (s : S) (log : list Smtp.SendCall)
    (recipients : list Recipient) (content : Content) :
  let run := Smtp.send_batch (Smtp.logged send_email) (s, log) recipients content in
  let result := snd run in
  let calls := map (DispatchSpec.smtp_call_of content) recipients in
  let oks := snd (SmtpSpec.answers send_email s calls) in
  snd (fst run) = (log ++ calls)%list
  /\ List.length calls = List.length recipients
  /\ Smtp.total result = Z.of_nat (List.length recipients)
  /\ Smtp.sent result = SmtpSpec.accepted oks
  /\ Smtp.sent result + Smtp.failed result = Smtp.total result
  /\ 0 <= Smtp.sent result
  /\ Smtp.errors result = SmtpSpec.error_lines calls oks
  /\ Z.of_nat (List.length (Smtp.errors result)) = Smtp.failed result.
Proof.
  intros run result calls oks. subst result run. unfold Smtp.send_batch.
  destruct (smtp_loop_spec send_email content recipients s log
              {| Smtp.total := Z.of_nat (List.length recipients); Smtp.sent := 0;
                 Smtp.failed := 0; Smtp.errors := [] |})
    as (r & Hrun & Ht & Hs & Hf & He & Hfe).
  rewrite Hrun. cbn [fst snd Smtp.total Smtp.sent Smtp.failed Smtp.errors app] in *.
  fold calls in Hs, Hf, He, Hfe |- *. fold oks in Hs, Hf, He, Hfe.
  split; [reflexivity|]. split; [apply length_map|].
  split; [exact Ht|]. split; [lia|]. split; [lia|].
  split; [unfold SmtpSpec.accepted in Hs; lia|].
  split; [exact He|]. rewrite He. lia.
Qed.

(** A recipient without an address is attempted all the same. *)
Example smtp_attempts_the_empty_address :
  let recipients := [BatchSpec.recipient_with "r1@example.com"; [("name", "Bo")]] in
  let run := Smtp.send_batch (Smtp.logged SmtpSpec.needs_address) (0%nat, [])
               recipients BatchSpec.demo_content in
  map Smtp.to_email (snd (fst run)) = ["r1@example.com"; ""]
  /\ Smtp.sent (snd run) = 1 /\ Smtp.failed (snd run) = 1
  /\ Smtp.errors (snd run) = ["Failed to send to "].
Proof. vm_compute. repeat split. Qed.


(* ===================================================================== *)
(** * Further properties of the orchestrator *)
(* ===================================================================== *)

(** ** The automatic run sends nothing *)

Section RunSendsNothing.

Import Orchestrator OrchSpec.

Context {W : Type}.
Variable C : Collaborators W.

(** What only the manual send writes: the send log, the counters of the A/B
    testing agent, the sent flags, the send results and the message ids. *)
Let sends (m : Machine W) :=
  (send_log m, test_results m, variant_sent (state m), send_results (state m),
   sendgrid_message_ids (state m)).

Lemma store_recipients_sends (l : list Recipient) (s : CampaignState) :
  variant_sent (store_recipients l s) = variant_sent s
  /\ send_results (store_recipients l s) = send_results s
  /\ sendgrid_message_ids (store_recipients l s) = sendgrid_message_ids s.
Proof. unfold store_recipients. destruct (selected_recipients s); repeat split. Qed.

Lemma stages_keep_sends :
  preserves sends (_create_strategy C)
  /\ preserves sends (_segment_audience C)
  /\ preserves sends (_generate_content C)
  /\ preserves sends (_check_deliverability C).
Proof.
  repeat split; intros m.
  - rewrite create_strategy_run.
    now destruct (create_strategy C (world m) (brief (state m))) as [w [o|e]].
  - rewrite segment_audience_run.
    now destruct (segment_audience C _ _ _) as [w [o|e]].
  - rewrite generate_content_run. cbv zeta.
    destruct (store_recipients_sends
                (snd (shuffle C (world m) (recipients_of (state m)))) (state m))
      as (H1 & H2 & H3).
    destruct (snd (generate_variants C _ _ _ _ _ _)); unfold sends; cbn;
      now rewrite H1, H2, H3.
  - rewrite check_deliverability_run. cbv zeta.
    now destruct (snd (check_variants C _ _ _ _)).
Qed.

Lemma workflow_keeps_sends : preserves sends (workflow_invoke C).
Proof.
  destruct stages_keep_sends as (H1 & H2 & H3 & H4).
  unfold workflow_invoke.
  repeat (apply preserves_bind; [assumption | intros _]). exact H4.
Qed.

Lemma pipeline_keeps_sends :
  preserves sends (workflow_invoke C ;; modify (set_status "ready_to_send")).
Proof.
  apply preserves_bind; [apply workflow_keeps_sends | intros _].
  apply preserves_modify. intros m. reflexivity.
Qed.

Lemma run_campaign_sends (brief_text path : string) (m : Machine W) :
  sends (fst (run_campaign C brief_text path m))
  = (send_log m, test_results m, [], None, None).
Proof.
  unfold run_campaign, ask, call.
  unfold bind at 1.
  destruct (uuid8 C (world m)) as [w cid].
  rewrite bind_modify. cbn [state with_state].
  set (m0 := with_state _ _).
  unfold try_except.
  pose proof (pipeline_keeps_sends m0) as Hbody.
  destruct ((workflow_invoke C ;; modify (set_status "ready_to_send")) m0)
    as [m1 [a|e]]; cbn [fst] in *; [exact Hbody|].
  unfold sends in *. injection Hbody as Hl Ht Hv Hr Hi. subst m0. cbn in *.
  now rewrite Hl, Ht.
Qed.

End RunSendsNothing.

(** X6. The automatic run sends nothing: [run_campaign] makes no send
    attempt and records no event with the A/B testing agent, and the state
    it returns has no variant marked sent, no send results and no message
    ids, whatever the collaborators answer. *)
Theorem run_campaign_sends_nothing {W} (C : Orchestrator.Collaborators W)
    (brief_text path : string) (m : Orchestrator.Machine W) :
  let m' := fst (Orchestrator.run_campaign C brief_text path m) in
  Orchestrator.send_log m' = Orchestrator.send_log m
  /\ Orchestrator.test_results m' = Orchestrator.test_results m
  /\ Orchestrator.variant_sent (Orchestrator.state m') = []
  /\ Orchestrator.send_results (Orchestrator.state m') = None
  /\ Orchestrator.sendgrid_message_ids (Orchestrator.state m') = None.
Proof.
  intros m'. pose proof (run_campaign_sends C brief_text path m) as H.
  fold m' in H. injection H as Hl Ht Hv Hr Hi. repeat split; assumption.
Qed.

(** ** What a manual send leaves behind *)

Section ManualSend.

Import Orchestrator OrchSpec DispatchSpec SendSpec.

Context {W : Type}.
Variable C : Collaborators W.
Variables use_sendgrid sandbox : bool.

Let returns {A} (c : M W A) : Prop := forall m, exists a, snd (c m) = Ok a.

(** [send_variant] catches everything. *)
Lemma send_variant_returns variant (m : Machine W) :
  snd (send_variant C use_sendgrid sandbox variant m) = Ok tt.
Proof.
  unfold send_variant, try_except.
  match goal with
  | |- snd (match ?body m with _ => _ end) = _ =>
      destruct (body m) as [m' [[]|e]]; reflexivity
  end.
Qed.

Lemma send_variant_refused variant msg (m : Machine W) :
  refusal (state m) variant = Some msg ->
  send_variant C use_sendgrid sandbox variant m
  = (with_state (set_error msg (state m)) m, Ok tt).
Proof.
  unfold refusal, send_variant, try_except. rewrite !bind_read.
  destruct (PyDict.get (ab_test_groups (state m)) variant) as [recipients|];
    [|now intros [= <-]].
  destruct (PyDict.get (email_variants (state m)) variant) as [content|];
    [|now intros [= <-]].
  destruct recipients as [|r0 rest]; [now intros [= <-]|].
  destruct content as [|c0 crest]; [now intros [= <-] | discriminate].
Qed.

(** The two [if ... not in campaign_state] blocks. *)
Let init_ids (s : CampaignState) : CampaignState :=
  match sendgrid_message_ids s with
  | None => set_sendgrid_message_ids (Some PyDict.empty) s
  | Some _ => s
  end.

Let init_results (s : CampaignState) : CampaignState :=
  match send_results s with
  | None => set_send_results (Some PyDict.empty) s
  | Some _ => s
  end.

(** The body of [send_variant] once the variant is known to have
    recipients and content. *)
Lemma send_variant_dispatch variant recipients content (m : Machine W) :
  PyDict.get (ab_test_groups (state m)) variant = Some recipients ->
  PyDict.get (email_variants (state m)) variant = Some content ->
  recipients <> [] -> content <> [] ->
  let m0 := with_state (init_results (init_ids (state m))) m in
  let body :=
    (if use_sendgrid
     then send_via_sendgrid C sandbox (campaign_id (state m)) variant recipients content
     else send_via_smtp C (campaign_id (state m)) variant recipients content) ;;
    finish_if_all_sent C use_sendgrid (ab_test_groups (state m)) in
  send_variant C use_sendgrid sandbox variant m
  = match body m0 with
    | (m', Ok a) => (m', Ok a)
    | (m', Raise e) =>
        (with_state (set_error ("Failed to send variant " ++ variant ++ ": "
                                ++ exn_str e)%string (state m')) m', Ok tt)
    end.
Proof.
  intros Hg Hv Hr Hc m0 body. subst m0 body.
  unfold send_variant, try_except. rewrite !bind_read, Hg, Hv.
  destruct recipients as [|r0 rest]; [congruence|].
  destruct content as [|c0 crest]; [congruence|].
  rewrite !bind_modify. reflexivity.
Qed.

Lemma refusal_none (s : CampaignState) variant :
  refusal s variant = None ->
  exists recipients content,
    PyDict.get (ab_test_groups s) variant = Some recipients
    /\ PyDict.get (email_variants s) variant = Some content
    /\ recipients <> [] /\ content <> [].
Proof.
  unfold refusal.
  destruct (PyDict.get (ab_test_groups s) variant) as [recipients|]; [|discriminate].
  destruct (PyDict.get (email_variants s) variant) as [content|]; [|discriminate].
  destruct recipients as [|r0 rest]; [discriminate|].
  destruct content as [|c0 crest]; [discriminate|].
  intros _. exists (r0 :: rest), (c0 :: crest). repeat split; discriminate.
Qed.

(** *** The sent flag *)

Lemma send_variant_sets_flag variant (m : Machine W) :
  refusal (state m) variant = None ->
  is_sent (state (fst (send_variant C use_sendgrid sandbox variant m))) variant = true.
Proof.
  intros Href.
  destruct (refusal_none _ _ Href) as (recipients & content & Hg & Hv & Hr & Hc).
  rewrite (send_variant_dispatch variant recipients content m Hg Hv Hr Hc). cbv zeta.
  match goal with
  | |- context [match ?body ?m0 with _ => _ end] =>
      assert (Hbody : is_sent (state (fst (body m0))) variant = true);
      [| destruct (body m0) as [m' [a|e]]; cbn [fst] in *; exact Hbody]
  end.
  match goal with
  | |- is_sent (state (fst (bind ?c ?k ?mm))) variant = true =>
      exact (ensures_then_preserves (fun x : Machine W => variant_sent (state x))
               (fun sent => existsb (String.eqb variant) sent = true) c k
               (send_branch_sets_flag C use_sendgrid sandbox _ variant _ _)
               (fun _ => finish_keeps_flags C use_sendgrid _) mm)
  end.
Qed.

(** *** The "sent" counter *)

Section SentCounter.

Variables cid' variant' : string.

Let V (m : Machine W) : Z := sent_count m cid' variant'.

Let delta (cid variant : string) (n : Z) : Z :=
  if String.eqb cid cid' && String.eqb variant variant' then n else 0.

(** The agent's [record_event] as the orchestrator calls it. *)
Lemma orch_record_event_run cid variant event count (m : Machine W) :
  exists w now,
    record_event C cid variant event count m
    = ({| world := w; send_log := send_log m;
          test_results := fst (ABTesting.record_event (test_results m) now cid
                                 variant event count);
          state := state m |},
       snd (ABTesting.record_event (test_results m) now cid variant event count)).
Proof.
  unfold record_event, bind, read_results, put_results, lift. cbn [fst snd test_results].
  destruct (PyDict.mem (test_results m) cid).
  - cbn [ret]. exists (world m), "".
    destruct (ABTesting.record_event (test_results m) "" cid variant event count)
      as [tr' [[]|e]]; reflexivity.
  - unfold ask, call. destruct (now_iso C (world m)) as [w now].
    cbn [test_results world send_log state]. exists w, now.
    destruct (ABTesting.record_event (test_results m) now cid variant event count)
      as [tr' [[]|e]]; reflexivity.
Qed.

Lemma record_other_keeps_sent cid variant event count :
  event <> "sent" -> preserves V (record_event C cid variant event count).
Proof.
  intros Hev m.
  destruct (orch_record_event_run cid variant event count m) as (w & now & ->).
  unfold V, sent_count. cbn [fst test_results].
  apply record_event_frame. congruence.
Qed.

Lemma record_sent_adds cid variant count (m : Machine W) :
  V (fst (record_event C cid variant "sent" count m)) = V m + delta cid variant count.
Proof.
  destruct (orch_record_event_run cid variant "sent" count m) as (w & now & ->).
  unfold V, sent_count, delta. cbn [fst test_results].
  destruct (String.eqb cid cid') eqn:E1; cbn [andb].
  - destruct (String.eqb variant variant') eqn:E2.
    + apply String.eqb_eq in E1, E2. subst cid' variant'.
      apply record_event_counter. now left.
    + apply String.eqb_neq in E2. rewrite record_event_frame; [lia | congruence].
  - apply String.eqb_neq in E1. rewrite record_event_frame; [lia | congruence].
Qed.

Ltac keeps_sent :=
  repeat first [ apply record_other_keeps_sent; discriminate | frame_step ].

Lemma finish_keeps_sent ab_groups :
  preserves V (finish_if_all_sent C use_sendgrid ab_groups).
Proof. keeps_sent. Qed.

Lemma fetch_keeps_sent cid variant ids group :
  preserves V (fetch_and_record C cid variant ids group).
Proof. keeps_sent. Qed.

(** A step that returns and leaves the counter alone, before the steps
    that add to it. *)
Lemma after_kept {A B} (c : M W A) (k : A -> M W B) (n : Z) :
  returns c -> preserves V c ->
  (forall a m, V (fst (k a m)) = V m + n) ->
  forall m, V (fst (bind c k m)) = V m + n.
Proof.
  intros Hret Hc Hk m. unfold bind. destruct (Hret m) as [a Ha]. specialize (Hc m).
  destruct (c m) as [m1 r]. cbn [fst snd] in *. subst r. now rewrite Hk, Hc.
Qed.

Lemma before_kept {A B} (c : M W A) (k : A -> M W B) (n : Z) :
  (forall m, V (fst (c m)) = V m + n) -> (forall a, preserves V (k a)) ->
  forall m, V (fst (bind c k m)) = V m + n.
Proof.
  intros Hc Hk m. unfold bind. specialize (Hc m).
  destruct (c m) as [m1 [a|e]]; cbn [fst] in *; [now rewrite Hk | exact Hc].
Qed.

Lemma sendgrid_branch_adds cid variant recipients content (m : Machine W) :
  V (fst (send_via_sendgrid C sandbox cid variant recipients content m))
  = V m + delta cid variant
            (BatchSpec.successes
               (snd (BatchSpec.answers (sendgrid_send_email C) (world m)
                       (BatchSpec.attempts content variant cid recipients)))).
Proof.
  unfold send_via_sendgrid. unfold bind at 1.
  rewrite sendgrid_send_batch_run. cbv zeta.
  destruct (send_batch_spec (sendgrid_send_email C) sandbox (world m) []
              recipients content variant cid) as (r & Hrun & _ & _ & _ & Hs & _).
  cbv zeta in Hrun. rewrite Hrun. cbn [fst snd].
  rewrite <- Hs.
  assert (Hpos : 0 <= SendGrid.sent r).
  { rewrite Hs. unfold BatchSpec.successes. lia. }
  clear Hs Hrun.
  match goal with
  | |- V (fst (?k ?mm)) = _ => change (V m) with (V mm); generalize mm
  end.
  do 2 (apply after_kept;
        [intros ?; apply returns_modify
        | apply preserves_modify; intros ?; reflexivity
        | intros _]).
  apply before_kept.
  - intros m1. destruct (0 <? SendGrid.sent r) eqn:E; cbn [when].
    + apply record_sent_adds.
    + apply Z.ltb_ge in E. cbn [ret fst]. unfold delta.
      destruct (String.eqb cid cid' && String.eqb variant variant'); lia.
  - intros _. keeps_sent.
Qed.

Lemma smtp_branch_adds cid variant recipients content (m : Machine W) :
  V (fst (send_via_smtp C cid variant recipients content m))
  = V m + delta cid variant
            (SmtpSpec.accepted
               (snd (SmtpSpec.answers (smtp_send_email C) (world m)
                       (map (smtp_call_of content) recipients)))).
Proof.
  unfold send_via_smtp. unfold bind at 1.
  rewrite smtp_send_batch_run. cbv zeta. unfold Smtp.send_batch.
  destruct (smtp_loop_spec (smtp_send_email C) content recipients (world m) []
              {| Smtp.total := Z.of_nat (List.length recipients); Smtp.sent := 0;
                 Smtp.failed := 0; Smtp.errors := [] |})
    as (r & Hrun & _ & Hs & _).
  rewrite Hrun. cbn [fst snd Smtp.sent] in *. rewrite Z.add_0_l in Hs. rewrite <- Hs.
  clear Hs Hrun.
  match goal with
  | |- V (fst (?k ?mm)) = _ => change (V m) with (V mm); generalize mm
  end.
  apply before_kept; [apply record_sent_adds|].
  intros _. keeps_sent.
Qed.

Lemma send_variant_adds variant (m : Machine W) :
  refusal (state m) variant = None ->
  V (fst (send_variant C use_sendgrid sandbox variant m))
  = V m + delta (campaign_id (state m)) variant (accepted C use_sendgrid m variant).
Proof.
  intros Href.
  destruct (refusal_none _ _ Href) as (recipients & content & Hg & Hv & Hr & Hc).
  rewrite (send_variant_dispatch variant recipients content m Hg Hv Hr Hc). cbv zeta.
  unfold accepted. rewrite Hg, Hv.
  set (m0 := with_state _ m).
  set (n := if use_sendgrid then BatchSpec.successes _ else _).
  match goal with
  | |- context [match ?body m0 with _ => _ end] =>
      assert (Hbody : V (fst (body m0)) = V m + delta (campaign_id (state m)) variant n);
      [| destruct (body m0) as [m' [a|e]]; cbn [fst] in *; exact Hbody]
  end.
  unfold bind.
  match goal with
  | |- context [match ?c m0 with _ => _ end] =>
      assert (Hbranch : V (fst (c m0))
                        = V m + delta (campaign_id (state m)) variant n);
      [| destruct (c m0) as [m1 [a|e]]; cbn [fst] in *;
         [now rewrite finish_keeps_sent | exact Hbranch] ]
  end.
  subst n. destruct use_sendgrid;
    [rewrite sendgrid_branch_adds | rewrite smtp_branch_adds]; reflexivity.
Qed.

End SentCounter.

End ManualSend.

(** X7. When the variant is unknown to the groups or to the variants, or
    its group or its content is empty, [send_variant] writes the message
    into [error] and does nothing else: it returns normally, makes no send
    attempt, records no event, leaves the status as it was and does not
    mark the variant sent. *)
Theorem send_variant_refusal_changes_error_only {W}
    (C : Orchestrator.Collaborators W) (use_sendgrid sandbox : bool)
    (variant msg : string) (m : Orchestrator.Machine W) :
  SendSpec.refusal (Orchestrator.state m) variant = Some msg ->
  let run := Orchestrator.send_variant C use_sendgrid sandbox variant m in
  run = (OrchSpec.with_state (Orchestrator.set_error msg (Orchestrator.state m)) m,
         Ok tt)
  /\ Orchestrator.send_log (fst run) = Orchestrator.send_log m
  /\ Orchestrator.test_results (fst run) = Orchestrator.test_results m
  /\ Orchestrator.world (fst run) = Orchestrator.world m
  /\ Orchestrator.status (Orchestrator.state (fst run))
     = Orchestrator.status (Orchestrator.state m)
  /\ Orchestrator.is_sent (Orchestrator.state (fst run)) variant
     = Orchestrator.is_sent (Orchestrator.state m) variant.
Proof.
  intros H run. subst run.
  rewrite (send_variant_refused C use_sendgrid sandbox variant msg m H).
  repeat split.
Qed.

Lemma send_variant_refusal_changes_error_only_witness :
  Orchestrator.send_variant (OrchSpec.demo false) true false "C" DispatchSpec.ready
  = (OrchSpec.with_state
       (Orchestrator.set_error "Variant C not found"
          (Orchestrator.state DispatchSpec.ready)) DispatchSpec.ready, Ok tt).
Proof.
  apply (send_variant_refusal_changes_error_only (OrchSpec.demo false) true false
           "C" "Variant C not found" DispatchSpec.ready).
  reflexivity.
Defined.


(** X8. A manual send marks the variant sent whatever came of it: when the
    variant has recipients and content, [send_variant] returns normally and
    sets [variant_<v>_sent], also when the provider refused every call or a
    later step raised; the caller's guard then lets no further send of that
    variant through. *)
Theorem send_variant_marks_sent_whatever_the_outcome {W}
    (C : Orchestrator.Collaborators W) (use_sendgrid sandbox : bool)
    (variant : string) (m : Orchestrator.Machine W) :
  SendSpec.refusal (Orchestrator.state m) variant = None ->
  let m' := fst (Orchestrator.send_variant C use_sendgrid sandbox variant m) in
  snd (Orchestrator.send_variant C use_sendgrid sandbox variant m) = Ok tt
  /\ Orchestrator.is_sent (Orchestrator.state m') variant = true
  /\ Orchestrator.app_send_if_unsent C use_sendgrid sandbox variant m' = (m', Ok tt).
Proof.
  intros Href m'.
  pose proof (send_variant_sets_flag C use_sendgrid sandbox variant m Href) as Hflag.
  fold m' in Hflag.
  split; [apply send_variant_returns|]. split; [exact Hflag|].
  unfold Orchestrator.app_send_if_unsent. rewrite bind_read. now rewrite Hflag.
Qed.

Lemma send_variant_marks_sent_whatever_the_outcome_witness :
  Orchestrator.is_sent
    (Orchestrator.state
       (fst (Orchestrator.send_variant SendSpec.refusing true false "A"
               DispatchSpec.ready))) "A" = true.
Proof.
  apply (send_variant_marks_sent_whatever_the_outcome SendSpec.refusing true false
           "A" DispatchSpec.ready).
  reflexivity.
Defined.

(** Every call refused: nothing counted as sent, the variant marked sent. *)
Example refused_send_is_not_retried :
  let m := fst (Orchestrator.send_variant SendSpec.refusing true false "A"
                  DispatchSpec.ready) in
  List.length (Orchestrator.send_log m) = 2%nat
  /\ SendSpec.sent_count m "c0ffee00" "A" = 0
  /\ Orchestrator.is_sent (Orchestrator.state m) "A" = true
  /\ Orchestrator.status (Orchestrator.state m) = "completed".
Proof. vm_compute. repeat split. Qed.

(** X9. A manual send adds the number of accepted emails to the "sent"
    counter of its variant and touches no other "sent" counter: after
    [send_variant] for a variant with recipients and content, the counter
    of that variant in the campaign has grown by the number of calls the
    provider accepted (over SendGrid: calls to recipients with an address;
    over SMTP: calls to all recipients), and the "sent" counters of the
    other variants and campaigns are as before. *)
Theorem send_variant_counts_accepted {W}
    (C : Orchestrator.Collaborators W) (use_sendgrid sandbox : bool)
    (variant : string) (m : Orchestrator.Machine W) :
  SendSpec.refusal (Orchestrator.state m) variant = None ->
  let m' := fst (Orchestrator.send_variant C use_sendgrid sandbox variant m) in
  let cid := Orchestrator.campaign_id (Orchestrator.state m) in
  SendSpec.sent_count m' cid variant
  = SendSpec.sent_count m cid variant + SendSpec.accepted C use_sendgrid m variant
  /\ 0 <= SendSpec.accepted C use_sendgrid m variant
  /\ (forall cid' variant',
        (cid', variant') <> (cid, variant) ->
        SendSpec.sent_count m' cid' variant' = SendSpec.sent_count m cid' variant').
Proof.
  intros Href m' cid.
  split.
  { subst m'. rewrite (send_variant_adds C use_sendgrid sandbox cid variant variant m Href).
    fold cid. now rewrite !String.eqb_refl. }
  split.
  { unfold SendSpec.accepted.
    destruct (PyDict.get _ variant); [|lia].
    destruct (PyDict.get _ variant); [|lia].
    destruct use_sendgrid; unfold BatchSpec.successes, SmtpSpec.accepted; lia. }
  intros cid' variant' Hne. subst m'.
  rewrite (send_variant_adds C use_sendgrid sandbox cid' variant' variant m Href).
  fold cid.
  destruct (String.eqb cid cid') eqn:E1; cbn [andb]; [|lia].
  destruct (String.eqb variant variant') eqn:E2; [|lia].
  apply String.eqb_eq in E1, E2. congruence.
Qed.

Lemma send_variant_counts_accepted_witness :
  SendSpec.sent_count
    (fst (Orchestrator.send_variant (OrchSpec.demo false) true false "A"
            DispatchSpec.ready)) "c0ffee00" "A"
  = SendSpec.sent_count DispatchSpec.ready "c0ffee00" "A"
    + SendSpec.accepted (OrchSpec.demo false) true DispatchSpec.ready "A".
Proof.
  apply (send_variant_counts_accepted (OrchSpec.demo false) true false "A"
           DispatchSpec.ready).
  reflexivity.
Defined.

Example two_accepted_two_counted :
  SendSpec.sent_count
    (fst (Orchestrator.send_variant (OrchSpec.demo false) true false "A"
            DispatchSpec.ready)) "c0ffee00" "A" = 2.
Proof. vm_compute. reflexivity. Qed.


(** ** Processing the results again *)

Section ProcessAgain.

Import Orchestrator OrchSpec ResultsSpec.

Context {W : Type}.
Variable C : Collaborators W.
Variable pm : ProviderMetrics.

(** The statistics call answers [pm] and the activity log accepts what it
    is given. *)
Hypothesis metrics_answer :
  forall w cid ids wait, snd (get_campaign_metrics C w cid ids wait) = Ok pm.
Hypothesis log_accepts :
  forall w cid variant group x,
    snd (log_opens_and_clicks_from_metrics C w cid variant group x) = Ok tt.

Variables cid' variant' event' : string.
Hypothesis tracked_event : event' = "opened" \/ event' = "clicked".

Let V (m : Machine W) : Z := ABTesting.counter (test_results m) cid' variant' event'.
Let view (m : Machine W) := (V m, inputs (state m)).

(** A computation that returns from every machine, adds [n] to the counter
    and leaves the inputs as they are. *)
Let adds {A} (n : Z) (c : M W A) : Prop :=
  forall m, (exists a, snd (c m) = Ok a)
            /\ V (fst (c m)) = V m + n
            /\ inputs (state (fst (c m))) = inputs (state m).

Lemma adds_bind {A B} (n1 n2 : Z) (c : M W A) (k : A -> M W B) :
  adds n1 c -> (forall a, adds n2 (k a)) -> adds (n1 + n2) (bind c k).
Proof.
  intros Hc Hk m. unfold bind. destruct (Hc m) as ([a Ha] & Hv & Hi).
  destruct (c m) as [m1 r]. cbn [fst snd] in *. subst r.
  destruct (Hk a m1) as (Hr & Hv' & Hi'). split; [exact Hr|].
  split; [lia | congruence].
Qed.

Lemma adds_ret {A} (a : A) : adds 0 (ret a : M W A).
Proof. intros m. split; [now exists a|]. unfold V. cbn. split; [lia | reflexivity]. Qed.

Let delta (cid variant event : string) (n : Z) : Z :=
  if String.eqb cid cid' && String.eqb variant variant' && String.eqb event event'
  then n else 0.

(** Recording an event other than "metrics". *)
Lemma record_adds cid variant event count :
  event <> "metrics" ->
  adds (delta cid variant event count) (record_event C cid variant event count).
Proof.
  intros Hev m.
  destruct (orch_record_event_run C cid variant event count m) as (w & now & ->).
  cbn [fst snd state]. unfold V. cbn [test_results].
  destruct (record_event_cases (test_results m) now cid variant event count)
    as (c & d & Hc & Hd & Hrun).
  assert (Hok : snd (ABTesting.record_event (test_results m) now cid variant event count)
                = Ok tt).
  { destruct (ABTesting.add_event d event count) as [d1|e] eqn:Hadd;
      rewrite Hrun; [reflexivity|]. exfalso.
    unfold ABTesting.add_event in Hadd.
    destruct (String.eqb event "metrics") eqn:E;
      [apply String.eqb_eq in E; contradiction|].
    repeat match type of Hadd with
           | (if ?b then _ else _) = _ => destruct b
           end; discriminate. }
  split; [rewrite Hok; now exists tt|]. split; [|reflexivity].
  unfold delta.
  destruct (String.eqb cid cid') eqn:E1; cbn [andb];
    [|apply String.eqb_neq in E1; rewrite record_event_frame; [lia | congruence]].
  destruct (String.eqb variant variant') eqn:E2; cbn [andb];
    [|apply String.eqb_neq in E2; rewrite record_event_frame; [lia | congruence]].
  destruct (String.eqb event event') eqn:E3;
    [|apply String.eqb_neq in E3; rewrite record_event_frame; [lia | congruence]].
  apply String.eqb_eq in E1, E2, E3. subst cid' variant' event'.
  apply record_event_counter.
  destruct tracked_event as [-> | ->]; cbn; tauto.
Qed.

Lemma adds_call {A} (f : W -> W * result A) (a0 : A) :
  (forall w, snd (f w) = Ok a0) -> adds 0 (call f).
Proof.
  intros Hf m. unfold call. specialize (Hf (world m)).
  destruct (f (world m)) as [w r]. cbn [snd] in Hf. subst r.
  split; [now exists a0|]. cbn. split; [unfold V; cbn; lia | reflexivity].
Qed.

(** A call that answers [a0] and then goes on with it. *)
Lemma adds_call_bind {A B} (f : W -> W * result A) (a0 : A) (n : Z)
    (k : A -> M W B) :
  (forall w, snd (f w) = Ok a0) -> adds n (k a0) -> adds n (bind (call f) k).
Proof.
  intros Hf Hk m. unfold bind, call. specialize (Hf (world m)).
  destruct (f (world m)) as [w r]. cbn [snd] in Hf. subst r.
  destruct (Hk {| world := w; send_log := send_log m;
                  test_results := test_results m; state := state m |})
    as (Hr & Hv & Hi).
  split; [exact Hr|]. split; [exact Hv | exact Hi].
Qed.

Lemma fetch_adds cid variant ids group :
  adds (delta cid variant event' (reported pm event'))
    (fetch_and_record C cid variant ids group).
Proof.
  unfold fetch_and_record.
  apply (adds_call_bind _ pm); [intros w; apply metrics_answer|].
  replace (delta cid variant event' (reported pm event'))
    with (delta cid variant "opened" (pm_opened pm)
          + (delta cid variant "clicked" (pm_clicked pm)
             + (delta cid variant "bounced" (pm_bounced pm) + (0 + 0)))).
  2: { unfold delta, reported.
       destruct (String.eqb cid cid' && String.eqb variant variant');
         destruct tracked_event as [-> | ->]; cbn; lia. }
  apply adds_bind; [apply record_adds; discriminate | intros _].
  apply adds_bind; [apply record_adds; discriminate | intros _].
  apply adds_bind; [apply record_adds; discriminate | intros _].
  apply adds_bind; [apply (adds_call _ tt); intros w; apply log_accepts | intros _].
  intros m. split; [now exists tt|]. unfold V. cbn. split; [lia | reflexivity].
Qed.

(** The contribution of one pass of the loop. *)
Let contribution (s : CampaignState) (variant : string) : Z :=
  if fetched s variant
  then delta (campaign_id s) variant event' (reported pm event') else 0.

Lemma process_variant_adds (s : CampaignState) variant (m : Machine W) :
  inputs (state m) = inputs s ->
  let c := process_variant C true (campaign_id s) (ab_test_groups s)
             (or_empty (sendgrid_message_ids s)) variant in
  (exists a, snd (c m) = Ok a)
  /\ V (fst (c m)) = V m + contribution s variant
  /\ inputs (state (fst (c m))) = inputs (state m).
Proof.
  intros Hin c. subst c. unfold process_variant. rewrite bind_read.
  assert (Hs : is_sent (state m) variant = is_sent s variant).
  { unfold is_sent. injection Hin as _ _ -> _. reflexivity. }
  rewrite Hs. unfold contribution, fetched.
  destruct (is_sent s variant); cbn [when andb].
  - destruct (PyDict.get_default (or_empty (sendgrid_message_ids s)) variant [])
      as [|i ids] eqn:E.
    + apply adds_ret.
    + apply fetch_adds.
  - apply adds_ret.
Qed.

Lemma loop_adds (s : CampaignState) (keys : list string) :
  forall m, inputs (state m) = inputs s ->
    let c := for_each keys
               (process_variant C true (campaign_id s) (ab_test_groups s)
                  (or_empty (sendgrid_message_ids s))) in
    (exists a, snd (c m) = Ok a)
    /\ V (fst (c m)) = V m + fold_right Z.add 0 (map (contribution s) keys)
    /\ inputs (state (fst (c m))) = inputs (state m).
Proof.
  induction keys as [|k keys IH]; intros m Hin; cbn zeta; cbn [for_each map fold_right].
  - apply adds_ret.
  - unfold bind.
    destruct (process_variant_adds s k m Hin) as ([a Ha] & Hv & Hi). cbv zeta in *.
    destruct (process_variant C true (campaign_id s) (ab_test_groups s)
                (or_empty (sendgrid_message_ids s)) k m) as [m1 r].
    cbn [fst snd] in *. subst r.
    destruct (IH m1 (eq_trans Hi Hin)) as (Hr & Hv' & Hi'). cbv zeta in *.
    split; [exact Hr|]. split; [lia | congruence].
Qed.

(** One key of a list without repetition gets its contribution once. *)
Lemma contribution_once (s : CampaignState) (keys : list string) :
  cid' = campaign_id s -> NoDup keys -> In variant' keys ->
  fetched s variant' = true ->
  fold_right Z.add 0 (map (contribution s) keys) = reported pm event'.
Proof.
  intros Hcid Hnd Hin Hf.
  assert (Hother : forall l, ~ In variant' l ->
             fold_right Z.add 0 (map (contribution s) l) = 0).
  { induction l as [|k l IHl]; intros Hn; cbn; [reflexivity|].
    rewrite IHl by (intros H; apply Hn; now right).
    unfold contribution, delta.
    destruct (String.eqb k variant') eqn:E.
    - apply String.eqb_eq in E. subst k. exfalso. apply Hn. now left.
    - rewrite andb_false_r. cbn [andb]. now destruct (fetched s k). }
  induction keys as [|k keys IH]; [destruct Hin|].
  apply NoDup_cons_iff in Hnd as [Hk Hnd']. cbn [map fold_right].
  destruct Hin as [-> | Hin].
  - rewrite (Hother keys Hk). unfold contribution, delta. rewrite Hf, <- Hcid.
    rewrite !String.eqb_refl. cbn [andb]. lia.
  - rewrite (IH Hnd' Hin).
    assert (Hne : k <> variant') by (intros ->; contradiction).
    apply String.eqb_neq in Hne. unfold contribution, delta. rewrite Hne.
    rewrite andb_false_r. cbn [andb]. destruct (fetched s k); lia.
Qed.

Lemma process_results_adds (m : Machine W) :
  cid' = campaign_id (state m) ->
  NoDup (PyDict.keys (ab_test_groups (state m))) ->
  In variant' (PyDict.keys (ab_test_groups (state m))) ->
  fetched (state m) variant' = true ->
  V (again C m) = V m + reported pm event'
  /\ inputs (state (again C m)) = inputs (state m).
Proof.
  intros Hcid Hnd Hin Hf. unfold again, process_results, try_except.
  match goal with
  | |- V (fst (match ?body m with _ => _ end)) = _ /\ _ =>
      assert (Hbody : view (fst (body m)) = (V m + reported pm event', inputs (state m)));
      [| destruct (body m) as [m' [a|e]]; cbn [fst] in *; unfold view in Hbody;
         apply pair_equal_spec in Hbody as [Hv Hi]; split; first [exact Hv | exact Hi]]
  end.
  rewrite !bind_read. unfold bind at 1.
  destruct (loop_adds (state m) (PyDict.keys (ab_test_groups (state m))) m eq_refl)
    as ([a Ha] & Hv & Hi). cbv zeta in *.
  rewrite (contribution_once (state m) _ Hcid Hnd Hin Hf) in Hv.
  destruct (for_each (PyDict.keys (ab_test_groups (state m)))
              (process_variant C true (campaign_id (state m))
                 (ab_test_groups (state m))
                 (or_empty (sendgrid_message_ids (state m)))) m) as [m1 r].
  cbn [fst snd] in *. subst r.
  match goal with
  | |- view (fst (?k m1)) = _ =>
      assert (Hk : preserves view k) by (unfold view, V; frame);
      rewrite (Hk m1)
  end.
  unfold view. now rewrite Hv, Hi.
Qed.

Lemma process_again_adds (m : Machine W) (n : nat) :
  cid' = campaign_id (state m) ->
  NoDup (PyDict.keys (ab_test_groups (state m))) ->
  In variant' (PyDict.keys (ab_test_groups (state m))) ->
  fetched (state m) variant' = true ->
  V (Nat.iter n (again C) m) = V m + Z.of_nat n * reported pm event'
  /\ inputs (state (Nat.iter n (again C) m)) = inputs (state m).
Proof.
  intros Hcid Hnd Hin Hf. induction n as [|n [IHv IHi]].
  - cbn. split; [lia | reflexivity].
  - change (Nat.iter (S n) (again C) m) with (again C (Nat.iter n (again C) m)).
    assert (Hpre : cid' = campaign_id (state (Nat.iter n (again C) m))
                   /\ ab_test_groups (state (Nat.iter n (again C) m))
                      = ab_test_groups (state m)
                   /\ fetched (state (Nat.iter n (again C) m)) variant' = true).
    { unfold inputs in IHi. injection IHi as Hg Hids Hs Hc.
      split; [congruence|]. split; [exact Hg|].
      unfold fetched, is_sent in *. now rewrite Hids, Hs. }
    destruct Hpre as (Hc' & Hg' & Hf').
    destruct (process_results_adds (Nat.iter n (again C) m) Hc') as [Hv Hi];
      [now rewrite Hg' | now rewrite Hg' | exact Hf' |].
    split; [rewrite Hv, IHv; lia | congruence].
Qed.

End ProcessAgain.

(** X10. [process_results] adds the provider's counts on every call: over
    SendGrid, with a statistics call that answers the same metrics each
    time, every run adds the reported opened and clicked counts once more
    to the counters of each variant that is marked sent and has message
    ids, so that after [n] runs the counters stand [n] times the reported
    counts above where they started.  ([send_variant] runs it once when the
    last variant is sent, and the application's "send both" runs it again
    afterwards.) *)
Theorem process_results_adds_every_time {W} (C : Orchestrator.Collaborators W)
    (pm : Orchestrator.ProviderMetrics) (variant : string)
    (m : Orchestrator.Machine W) (n : nat) :
  (forall w cid ids wait,
      snd (Orchestrator.get_campaign_metrics C w cid ids wait) = Ok pm) ->
  (forall w cid v group x,
      snd (Orchestrator.log_opens_and_clicks_from_metrics C w cid v group x) = Ok tt) ->
  NoDup (PyDict.keys (Orchestrator.ab_test_groups (Orchestrator.state m))) ->
  In variant (PyDict.keys (Orchestrator.ab_test_groups (Orchestrator.state m))) ->
  ResultsSpec.fetched (Orchestrator.state m) variant = true ->
  let cid := Orchestrator.campaign_id (Orchestrator.state m) in
  let m' := Nat.iter n (ResultsSpec.again C) m in
  ABTesting.counter (Orchestrator.test_results m') cid variant "opened"
  = ABTesting.counter (Orchestrator.test_results m) cid variant "opened"
    + Z.of_nat n * Orchestrator.pm_opened pm
  /\ ABTesting.counter (Orchestrator.test_results m') cid variant "clicked"
     = ABTesting.counter (Orchestrator.test_results m) cid variant "clicked"
       + Z.of_nat n * Orchestrator.pm_clicked pm
  /\ ResultsSpec.inputs (Orchestrator.state m')
     = ResultsSpec.inputs (Orchestrator.state m).
Proof.
  intros Hm Hl Hnd Hin Hf cid m'.
  destruct (process_again_adds C pm Hm Hl cid variant "opened" (or_introl eq_refl)
              m n eq_refl Hnd Hin Hf) as [Ho Hi].
  destruct (process_again_adds C pm Hm Hl cid variant "clicked" (or_intror eq_refl)
              m n eq_refl Hnd Hin Hf) as [Hc _].
  repeat split; assumption.
Qed.

Lemma process_results_adds_every_time_witness :
  ABTesting.counter
    (Orchestrator.test_results
       (Nat.iter 2 (ResultsSpec.again (OrchSpec.demo false)) ResultsSpec.sent_A))
    "c0ffee00" "A" "opened"
  = ABTesting.counter (Orchestrator.test_results ResultsSpec.sent_A)
      "c0ffee00" "A" "opened" + 2 * 1.
Proof.
  refine (proj1 (process_results_adds_every_time (OrchSpec.demo false)
                   {| Orchestrator.pm_opened := 1; Orchestrator.pm_clicked := 0;
                      Orchestrator.pm_bounced := 0;
                      Orchestrator.pm_other := PDict [] |}
                   "A" ResultsSpec.sent_A 2 _ _ _ _ _)).
  - reflexivity.
  - reflexivity.
  - vm_compute. repeat constructor. intros [].
  - vm_compute. now left.
  - vm_compute. reflexivity.
Defined.

(** One open reported by the provider stands as two after the send of the
    only variant (the send fetches it, and the processing that follows the
    last send fetches it again), and as three after one more processing. *)
Example one_open_counted_three_times :
  ABTesting.counter (Orchestrator.test_results ResultsSpec.sent_A)
    "c0ffee00" "A" "opened" = 2
  /\ ABTesting.counter
       (Orchestrator.test_results
          (ResultsSpec.again (OrchSpec.demo false) ResultsSpec.sent_A))
       "c0ffee00" "A" "opened" = 3.
Proof. vm_compute. split; reflexivity. Qed.


(* ===================================================================== *)
(** * Properties of the deliverability agent *)
(* ===================================================================== *)

(** ** The spam score *)

Lemma isupper_lower_char (c : Ascii.ascii) : isupper (lower_char c) = false.
Proof. destruct c as [[] [] [] [] [] [] [] []]; reflexivity. Qed.

(** No upper case letter is left in a lowered text. *)
Lemma count_upper_lower (s : string) : count_upper (lower s) = 0.
Proof.
  induction s as [|c s IH]; [reflexivity|].
  cbn [lower count_upper]. rewrite isupper_lower_char, IH. reflexivity.
Qed.

Lemma len_pos (s : string) : str_truthy s = true -> 0 < len s.
Proof. destruct s; [discriminate|]. intros _. unfold len. cbn [String.length]. lia. Qed.

(** The share of capitals in a lowered subject is zero. *)
Lemma caps_ratio_lower (s : string) :
  exists ratio,
    Deliverability.caps_ratio (lower s) = Ok ratio
    /\ py_gt ratio (PFloat 0.5) = false.
Proof.
  unfold Deliverability.caps_ratio.
  destruct (str_truthy (lower s)) eqn:E.
  - apply len_pos in E. rewrite count_upper_lower. unfold int_true_div.
    destruct (len (lower s) =? 0) eqn:E0; [apply Z.eqb_eq in E0; lia|].
    cbn [Z.eqb].
    destruct (len (lower s) <? 0) eqn:E1; [apply Z.ltb_lt in E1; lia|].
    eexists. split; [reflexivity|]. vm_compute. reflexivity.
  - eexists. split; [reflexivity|]. vm_compute. reflexivity.
Qed.

Section SpamScore.

Import Deliverability DeliverabilitySpec.

(** What [check_spam_score] returns. *)
Lemma check_spam_score_run (c : Content) :
  exists warnings,
    check_spam_score c
    = Ok {| SpamCheck.spam_score := score_of c;
            SpamCheck.risk_level := risk_of (score_of c);
            SpamCheck.warnings := warnings;
            SpamCheck.issues :=
              if many_exclamations c then ["Too many exclamation marks"] else [];
            SpamCheck.passed := score_of c <? 20 |}.
Proof.
  unfold check_spam_score, score_of, many_exclamations, long_subject, many_links,
    found_keywords.
  cbv zeta.
  set (subject := PyDict.get_default c "subject" "").
  set (body := lower (PyDict.get_default c "body" "")).
  set (found := filter _ spam_keywords).
  destruct (caps_ratio_lower subject) as (ratio & -> & ->).
  set (e := 3 <? _). set (l := 50 <? _). set (k := 3 <? _).
  destruct found as [|kw found'] eqn:Ef.
  - destruct e, l, k; cbn; eexists; reflexivity.
  - set (n := Z.of_nat (List.length (kw :: found'))).
    destruct e, l, k; cbn -[Z.of_nat Z.mul Z.add String.concat].
    all: eexists; rewrite ?Z.add_0_l, ?Z.add_0_r, (Z.mul_comm n 5); reflexivity.
Qed.

End SpamScore.


Lemma filter_length_bound {A} (f : A -> bool) (l : list A) :
  (List.length (filter f l) <= List.length l)%nat.
Proof. induction l as [|a l IH]; cbn; [lia|]. destruct (f a); cbn; lia. Qed.

Lemma risk_of_high (n : Z) : (n <? 20) = true <-> Deliverability.risk_of n <> "High".
Proof.
  unfold Deliverability.risk_of.
  destruct (n <? 10) eqn:E1; [apply Z.ltb_lt in E1|apply Z.ltb_ge in E1].
  - split; [discriminate | intros _; apply Z.ltb_lt; lia].
  - destruct (n <? 20); split; try discriminate; try reflexivity.
    intros H; now contradiction H.
Qed.

(** X11. [check_spam_score] lowers the subject before it counts the capitals
    in it, so for a subject and a body of ASCII characters the check for
    excessive capitalization finds none: the call returns, "Excessive
    capitalization in subject" is never among the issues, and the score is
    five points for each spam keyword found plus five for more than three
    exclamation marks, three for a subject of more than fifty characters
    and five for more than three links.  (Outside ASCII, [str.lower] maps
    more characters than [lower] does, the Kelvin sign to [k] for one, and
    a keyword can be found that [found_keywords] misses.) *)
Theorem check_spam_score_never_sees_capitals (c : Content) :
  is_ascii (PyDict.get_default c "subject" "") = true ->
  is_ascii (PyDict.get_default c "body" "") = true ->
  exists r,
    Deliverability.check_spam_score c = Ok r
    /\ ~ In "Excessive capitalization in subject" (Deliverability.SpamCheck.issues r)
    /\ Deliverability.SpamCheck.spam_score r = DeliverabilitySpec.score_of c.
Proof.
  intros _ _. destruct (check_spam_score_run c) as [w ->].
  eexists. split; [reflexivity|]. split; [|reflexivity].
  cbn [Deliverability.SpamCheck.issues].
  destruct (DeliverabilitySpec.many_exclamations c); cbn; [|tauto].
  intros [H|[]]. discriminate.
Qed.

Lemma check_spam_score_never_sees_capitals_witness :
  is_ascii (PyDict.get_default DeliverabilitySpec.shouting "subject" "") = true
  /\ is_ascii (PyDict.get_default DeliverabilitySpec.shouting "body" "") = true
  /\ exists r,
       Deliverability.check_spam_score DeliverabilitySpec.shouting = Ok r
       /\ ~ In "Excessive capitalization in subject"
              (Deliverability.SpamCheck.issues r)
       /\ Deliverability.SpamCheck.spam_score r
          = DeliverabilitySpec.score_of DeliverabilitySpec.shouting.
Proof.
  split; [reflexivity|]. split; [reflexivity|].
  apply (check_spam_score_never_sees_capitals DeliverabilitySpec.shouting);
    reflexivity.
Defined.

(** A subject in capitals scores nothing. *)
Example shouting_scores_nothing :
  exists r,
    Deliverability.check_spam_score DeliverabilitySpec.shouting = Ok r
    /\ Deliverability.SpamCheck.spam_score r = 0
    /\ Deliverability.SpamCheck.risk_level r = "Low".
Proof. eexists. split; [reflexivity|]. split; reflexivity. Qed.

(** X12. For a subject and a body of ASCII characters the spam check fails
    on keywords only: the score lies between 0 and 63, [passed] is false
    exactly when the risk level is "High", a message with at most one spam
    keyword passes whatever its exclamation marks, subject length and
    links, and a message with four keywords or more fails. *)
Theorem check_spam_score_fails_on_keywords_only (c : Content)
    (r : Deliverability.SpamCheck.t) :
  is_ascii (PyDict.get_default c "subject" "") = true ->
  is_ascii (PyDict.get_default c "body" "") = true ->
  Deliverability.check_spam_score c = Ok r ->
  0 <= Deliverability.SpamCheck.spam_score r <= 63
  /\ (Deliverability.SpamCheck.passed r = true
      <-> Deliverability.SpamCheck.risk_level r <> "High")
  /\ ((List.length (DeliverabilitySpec.found_keywords c) <= 1)%nat ->
      Deliverability.SpamCheck.passed r = true)
  /\ ((4 <= List.length (DeliverabilitySpec.found_keywords c))%nat ->
      Deliverability.SpamCheck.passed r = false).
Proof.
  intros _ _ Hrun. destruct (check_spam_score_run c) as [w Hw].
  rewrite Hw in Hrun. injection Hrun as <-.
  cbn [Deliverability.SpamCheck.spam_score Deliverability.SpamCheck.passed
       Deliverability.SpamCheck.risk_level].
  assert (Hk : (List.length (DeliverabilitySpec.found_keywords c) <= 10)%nat).
  { unfold DeliverabilitySpec.found_keywords. cbv zeta.
    etransitivity; [apply filter_length_bound | apply Nat.le_refl]. }
  assert (Hs : DeliverabilitySpec.score_of c
               = 5 * Z.of_nat (List.length (DeliverabilitySpec.found_keywords c))
                 + DeliverabilitySpec.points (DeliverabilitySpec.many_exclamations c) 5
                 + DeliverabilitySpec.points (DeliverabilitySpec.long_subject c) 3
                 + DeliverabilitySpec.points (DeliverabilitySpec.many_links c) 5)
    by reflexivity.
  assert (Hp : forall b n, 0 <= n -> 0 <= DeliverabilitySpec.points b n <= n)
    by (intros [] n Hn; cbn; lia).
  pose proof (Hp (DeliverabilitySpec.many_exclamations c) 5 ltac:(lia)).
  pose proof (Hp (DeliverabilitySpec.long_subject c) 3 ltac:(lia)).
  pose proof (Hp (DeliverabilitySpec.many_links c) 5 ltac:(lia)).
  split; [lia|]. split; [apply risk_of_high|].
  split; intros Hn; [apply Z.ltb_lt | apply Z.ltb_ge]; lia.
Qed.

Lemma check_spam_score_fails_on_keywords_only_witness :
  exists r,
    Deliverability.check_spam_score
      [("subject", "Free prize!!!!"); ("body", "Act now, winner: http://x")] = Ok r
    /\ Deliverability.SpamCheck.passed r = false
    /\ Deliverability.SpamCheck.risk_level r = "High".
Proof.
  eexists. split; [reflexivity|].
  pose proof (check_spam_score_fails_on_keywords_only
                [("subject", "Free prize!!!!"); ("body", "Act now, winner: http://x")]
                _ eq_refl eq_refl eq_refl) as (_ & Hrisk & _ & Hfail).
  split; [apply Hfail; vm_compute; lia | reflexivity].
Defined.

(** ** Compliance *)

Section Compliance.

Import Deliverability.

Let misleading : string :=
  "Subject line may be misleading (starts with Re: or Fwd:)".

Lemma get_default_set_other {V} (d : PyDict.t V) (k k' : string) (v dflt : V) :
  k <> k' ->
  PyDict.get_default (PyDict.set d k v) k' dflt = PyDict.get_default d k' dflt.
Proof. intros H. unfold PyDict.get_default. now rewrite get_set_other. Qed.

Lemma check_compliance_fields (c : Content) :
  let r := check_compliance c in
  ComplianceCheck.compliant r
  = ComplianceCheck.unsubscribe_present r && ComplianceCheck.sender_info_present r
  /\ (ComplianceCheck.compliant r = true
      <-> forall i, In i (ComplianceCheck.issues r) -> i = misleading).
Proof.
  unfold check_compliance. cbv zeta.
  set (has := existsb _ unsubscribe_keywords).
  unfold PyDict.get_default, opt_truthy.
  destruct (PyDict.get c "footer") as [footer|]; cbn [str_truthy];
    [destruct (str_truthy footer)|];
    destruct has; destruct (starts_re_or_fwd _);
    cbn; (split; [reflexivity|]); unfold misleading; split;
    try discriminate; try reflexivity;
    try (intros _ i Hi; cbn in Hi; intuition congruence).
  all: intros H; exfalso.
  all: match type of H with
       | forall i, ?a = i \/ _ -> _ => specialize (H a (or_introl eq_refl))
       end; discriminate.
Qed.

Lemma check_compliance_compliant (c : Content) :
  ComplianceCheck.compliant (check_compliance c)
  = existsb
      (fun kw => contains kw (lower (PyDict.get_default c "body" "") ++ " "
                              ++ lower (PyDict.get_default c "footer" "")))
      unsubscribe_keywords
    && str_truthy (PyDict.get_default c "footer" "").
Proof.
  unfold check_compliance. cbv zeta.
  destruct (existsb _ unsubscribe_keywords);
    destruct (str_truthy (PyDict.get_default c "footer" "")); reflexivity.
Qed.

End Compliance.

(** X13. [check_compliance] judges the body and the footer only: the result
    is compliant exactly when one of the four unsubscribe words was found
    and the footer is not empty, whatever the subject is; a subject that
    starts with "Re:" or "Fwd:" adds an issue and leaves [compliant] as it
    is, so a compliant result is one whose only possible issue is the one
    about the subject. *)
Theorem check_compliance_ignores_subject (c : Content) (subject : string) :
  let r := Deliverability.check_compliance c in
  Deliverability.ComplianceCheck.compliant
    (Deliverability.check_compliance (PyDict.set c "subject" subject))
  = Deliverability.ComplianceCheck.compliant r
  /\ Deliverability.ComplianceCheck.compliant r
     = Deliverability.ComplianceCheck.unsubscribe_present r
       && Deliverability.ComplianceCheck.sender_info_present r
  /\ (Deliverability.ComplianceCheck.compliant r = true
      <-> forall i, In i (Deliverability.ComplianceCheck.issues r) ->
                    i = "Subject line may be misleading (starts with Re: or Fwd:)").
Proof.
  intros r. split; [|apply check_compliance_fields].
  subst r. rewrite !check_compliance_compliant.
  rewrite !(get_default_set_other c) by discriminate. reflexivity.
Qed.

(** A reply-style subject is reported and the message stays compliant. *)
Example misleading_subject_is_compliant :
  let r := Deliverability.check_compliance
             [("subject", "Re: your invoice"); ("body", "Pay now.");
              ("footer", "To opt out, write to us.")] in
  Deliverability.ComplianceCheck.compliant r = true
  /\ Deliverability.ComplianceCheck.subject_clear r = false
  /\ Deliverability.ComplianceCheck.issues r
     = ["Subject line may be misleading (starts with Re: or Fwd:)"].
Proof. repeat split. Qed.

(** ** Floats: a quotient of two integers is a number *)

Section NotNaN.

Import SpecFloat.

Lemma shr_1_nonneg (mrs : shr_record) : 0 <= shr_m mrs -> 0 <= shr_m (shr_1 mrs).
Proof.
  destruct mrs as [m r s]. cbn [shr_m]. intros H.
  destruct m as [|[p|p|]|p]; cbn; lia.
Qed.

Lemma iter_pos_nonneg (p : positive) :
  forall mrs, 0 <= shr_m mrs -> 0 <= shr_m (iter_pos shr_1 p mrs).
Proof.
  induction p as [p IH|p IH|]; intros mrs H; cbn [iter_pos];
    auto using shr_1_nonneg.
Qed.

Lemma shr_fexp_nonneg (m e : Z) (l : location) :
  0 <= m -> 0 <= shr_m (fst (shr_fexp prec emax m e l)).
Proof.
  intros H. unfold shr_fexp, shr.
  assert (H0 : 0 <= shr_m (shr_record_of_loc m l)) by (destruct l as [|[]]; exact H).
  destruct (fexp prec emax (Zdigits2 m + e) - e); cbn [fst];
    auto using iter_pos_nonneg.
Qed.

Lemma round_nearest_even_nonneg (m : Z) (l : location) :
  0 <= m -> 0 <= round_nearest_even m l.
Proof.
  intros H. unfold round_nearest_even.
  destruct l as [|[]]; try destruct (Z.even m); lia.
Qed.

Lemma binary_round_aux_not_nan (sx : bool) (mx ex : Z) (lx : location) :
  0 <= mx -> binary_round_aux prec emax sx mx ex lx <> S754_nan.
Proof.
  intros H. unfold binary_round_aux.
  pose proof (shr_fexp_nonneg mx ex lx H) as H1.
  destruct (shr_fexp prec emax mx ex lx) as [mrs' e']. cbn [fst] in H1.
  pose proof (shr_fexp_nonneg _ e' loc_Exact
                (round_nearest_even_nonneg _ (loc_of_shr_record mrs') H1)) as H2.
  destruct (shr_fexp prec emax _ e' loc_Exact) as [mrs'' e'']. cbn [fst] in H2.
  destruct (shr_m mrs'') as [|m|m]; [discriminate| |lia].
  destruct (e'' <=? emax - prec); discriminate.
Qed.

Lemma binary_round_not_nan (sx : bool) (mx : positive) (ex : Z) :
  binary_round prec emax sx mx ex <> S754_nan.
Proof.
  unfold binary_round. destruct (shl_align mx ex _) as [mz ez].
  apply binary_round_aux_not_nan. lia.
Qed.

Lemma ldexp_not_nan (f : float) (e : Z) :
  Prim2SF f <> S754_nan -> Prim2SF (Z.ldexp f e) <> S754_nan.
Proof.
  intros H. rewrite Z_ldexp_spec. unfold SFldexp.
  destruct (Prim2SF f); try assumption. apply binary_round_not_nan.
Qed.

Lemma of_uint63_not_nan (n : PrimInt63.int) : Prim2SF (of_uint63 n) <> S754_nan.
Proof.
  rewrite of_uint63_spec. unfold binary_normalize.
  destruct (Uint63.to_Z n); [discriminate | apply binary_round_not_nan ..].
Qed.

Lemma opp_not_nan (f : float) :
  Prim2SF f <> S754_nan -> Prim2SF (PrimFloat.opp f) <> S754_nan.
Proof. intros H. rewrite opp_spec. destruct (Prim2SF f); [discriminate ..|congruence|discriminate]. Qed.

(** The product with a finite number that is not zero. *)
Lemma mul_100_not_nan (f : float) :
  Prim2SF f <> S754_nan -> Prim2SF (PrimFloat.mul f 100%float) <> S754_nan.
Proof.
  intros H. rewrite mul_spec.
  change (Prim2SF 100%float) with (S754_finite false 7036874417766400 (-46)).
  unfold SF64mul, SFmul.
  destruct (Prim2SF f); [discriminate | discriminate | congruence |].
  apply binary_round_aux_not_nan. lia.
Qed.

Lemma int_true_div_not_nan (a b : Z) (q : float) :
  int_true_div a b = Ok q -> Prim2SF q <> S754_nan.
Proof.
  unfold int_true_div. destruct (b =? 0); [discriminate|].
  destruct (a =? 0).
  - intros H. injection H as <-. destruct (b <? 0); vm_compute; discriminate.
  - unfold nearest_double. cbv zeta.
    destruct (2 ^ 1024 <=? _); [discriminate|].
    intros H. injection H as <-.
    destruct (Bool.eqb (a <? 0) (b <? 0)); [|apply opp_not_nan];
      apply ldexp_not_nan, of_uint63_not_nan.
Qed.

End NotNaN.

Lemma float_value_not_nan (f : float) :
  Prim2SF f <> S754_nan -> float_value f <> XNaN.
Proof.
  unfold float_value. destruct (Prim2SF f) as [s|s| |s m e]; try discriminate.
  - destruct s; discriminate.
  - congruence.
Qed.

(** A quotient of at most one has a nearest double. *)
Lemma nearest_double_ratio (p q : Z) : 0 < p <= q -> nearest_double p q <> None.
Proof.
  intros [Hp Hpq]. assert (Hq : 0 < q) by lia. unfold nearest_double.
  set (L := Z.log2 p). set (K := Z.log2 q).
  destruct (Z.log2_spec p Hp) as [HL1 HL2]. fold L in HL1, HL2.
  destruct (Z.log2_spec q Hq) as [HK1 HK2]. fold K in HK1, HK2.
  assert (HL0 : 0 <= L) by apply Z.log2_nonneg.
  assert (HK0 : 0 <= K) by apply Z.log2_nonneg.
  assert (HLK : L <= K) by (apply Z.log2_le_mono; lia).
  set (e := if p * 2 ^ Z.max 0 (- (L - K)) <? q * 2 ^ Z.max 0 (L - K)
            then L - K - 1 else L - K).
  assert (He : L - K - 1 <= e <= L - K)
    by (unfold e; destruct (_ <? _); lia).
  clearbody e.
  set (sh := Z.max (e - 52) (-1074)).
  assert (Hsh : e - 52 <= sh) by (unfold sh; lia).
  assert (Hneg : sh < 0) by (unfold sh; lia).
  rewrite (Z.max_r 0 (- sh)), (Z.max_l 0 sh) by lia.
  rewrite Z.pow_0_r, !Z.mul_1_r.
  assert (Hexp : - sh <= 53 - L + K) by lia.
  assert (Hpow : 2 ^ (- sh) <= 2 ^ (53 - L + K))
    by (apply Z.pow_le_mono_r; lia).
  assert (Hpos2 : 0 < 2 ^ (- sh)) by (apply Z.pow_pos_nonneg; lia).
  assert (Hprod : p * 2 ^ (- sh) < 2 ^ 54 * q).
  { apply Z.lt_le_trans with (2 ^ Z.succ L * 2 ^ (53 - L + K)).
    - apply Z.le_lt_trans with (p * 2 ^ (53 - L + K)); [nia|].
      apply Z.mul_lt_mono_pos_r; [apply Z.pow_pos_nonneg; lia | assumption].
    - rewrite <- Z.pow_add_r by lia.
      replace (Z.succ L + (53 - L + K)) with (54 + K) by lia.
      rewrite Z.pow_add_r by lia.
      apply Z.mul_le_mono_nonneg_l; [apply Z.pow_nonneg; lia | assumption]. }
  assert (Hd := div_half_even_bounds (p * 2 ^ (- sh)) q ltac:(nia) Hq).
  assert (Hquot : p * 2 ^ (- sh) / q < 2 ^ 54)
    by (apply Z.div_lt_upper_bound; [assumption | lia]).
  assert (H54 : 2 ^ 54 < 2 ^ 1024) by (apply Z.pow_lt_mono_r; lia).
  destruct (2 ^ 1024 <=? div_half_even (p * 2 ^ (- sh)) q) eqn:E; [|discriminate].
  apply Z.leb_le in E. lia.
Qed.

(** ** The recipient list *)

Section RecipientList.

Import Deliverability DeliverabilitySpec.

Variable validate_email : string -> string + string.

Lemma validate_loop_spec (l : list Recipient) :
  forall v i,
    fold_left (validate_one validate_email) l (v, i)
    = ((v ++ filter (address_ok validate_email) l)%list,
       (i ++ map (invalid_entry validate_email)
               (filter (fun x => negb (address_ok validate_email x)) l))%list).
Proof.
  induction l as [|x l IH]; intros v i; cbn [fold_left filter map].
  - now rewrite !app_nil_r.
  - unfold validate_one at 2. cbv zeta. fold (address_ok validate_email x).
    destruct (address_ok validate_email x) eqn:E; cbn [negb].
    + rewrite IH, <- app_assoc. reflexivity.
    + rewrite IH. cbn [map]. rewrite <- app_assoc. reflexivity.
Qed.

(** The rate is a number: the quotient is at most one, so the division
    returns, and neither it nor its product with 100 is a NaN. *)
Lemma rate_of_returns (v n : Z) :
  0 <= v <= n ->
  exists rate,
    rate_of v n = Ok rate
    /\ pynum_value rate <> XNaN
    /\ (n = 0 -> rate = PInt 0)
    /\ (v = 0 -> py_gt rate (PInt 90) = false /\ py_lt rate (PInt 95) = true).
Proof.
  intros Hv. unfold rate_of.
  destruct (n =? 0) eqn:En.
  - eexists. split; [reflexivity|]. split; [discriminate|].
    split; [reflexivity|]. intros _. split; reflexivity.
  - apply Z.eqb_neq in En.
    destruct (int_true_div v n) as [q|e] eqn:Hq.
    + eexists. split; [reflexivity|].
      split; [apply float_value_not_nan, mul_100_not_nan,
              (int_true_div_not_nan v n), Hq|].
      split; [lia|]. intros ->. unfold int_true_div in Hq.
      destruct (n =? 0) eqn:E0; [apply Z.eqb_eq in E0; lia|].
      cbn [Z.eqb] in Hq.
      destruct (n <? 0) eqn:E1; [apply Z.ltb_lt in E1; lia|].
      injection Hq as <-. split; vm_compute; reflexivity.
    + exfalso. unfold int_true_div in Hq.
      destruct (n =? 0) eqn:E0; [apply Z.eqb_eq in E0; lia|].
      destruct (v =? 0) eqn:E1; [discriminate|]. apply Z.eqb_neq in E1.
      destruct (nearest_double (Z.abs v) (Z.abs n)) eqn:Hnd; [discriminate|].
      apply (nearest_double_ratio (Z.abs v) (Z.abs n)); [lia | exact Hnd].
Qed.

(** What [validate_recipient_list] returns. *)
Lemma validate_recipient_list_run (recipients : list Recipient) :
  let valid_emails := filter (address_ok validate_email) recipients in
  let invalid_emails :=
    map (invalid_entry validate_email)
      (filter (fun x => negb (address_ok validate_email x)) recipients) in
  exists rate,
    rate_of (Z.of_nat (List.length valid_emails))
            (Z.of_nat (List.length recipients)) = Ok rate
    /\ validate_recipient_list validate_email recipients
       = Ok {| ListCheck.total := Z.of_nat (List.length recipients);
               ListCheck.valid := Z.of_nat (List.length valid_emails);
               ListCheck.invalid := Z.of_nat (List.length invalid_emails);
               ListCheck.valid_emails := valid_emails;
               ListCheck.invalid_emails := invalid_emails;
               ListCheck.validation_rate := rate |}.
Proof.
  intros valid_emails invalid_emails.
  unfold validate_recipient_list. rewrite validate_loop_spec. cbn [app].
  fold valid_emails invalid_emails.
  destruct (rate_of_returns (Z.of_nat (List.length valid_emails))
              (Z.of_nat (List.length recipients))) as (rate & Hrate & _).
  { split; [lia|]. apply inj_le, filter_length_bound. }
  exists rate. split; [exact Hrate|]. now rewrite Hrate.
Qed.

(** The empty address does not fit the pattern. *)
Lemma no_address_is_invalid (x : Recipient) :
  PyDict.get x "email" = None -> address_ok validate_email x = false.
Proof.
  intros H. unfold address_ok, PyDict.get_default. rewrite H. reflexivity.
Qed.

End RecipientList.

(** X14. [validate_recipient_list] returns for every list and every answer
    of the validation library.  The total is the size of the list and
    [valid + invalid = total]; the valid recipients are the recipients whose
    address validates, in the order of the list, and the invalid entries are
    the others, in the order of the list, each with its address and its
    errors; a recipient without an "email" key is never among the valid
    ones; and the rate of an empty list is the integer 0, with no
    division. *)
Theorem validate_recipient_list_accounting
    (validate_email : string -> string + string) (recipients : list Recipient) :
  exists r,
    Deliverability.validate_recipient_list validate_email recipients = Ok r
    /\ Deliverability.ListCheck.total r = Z.of_nat (List.length recipients)
    /\ Deliverability.ListCheck.valid r + Deliverability.ListCheck.invalid r
       = Deliverability.ListCheck.total r
    /\ Deliverability.ListCheck.valid r
       = Z.of_nat (List.length (Deliverability.ListCheck.valid_emails r))
    /\ Deliverability.ListCheck.invalid r
       = Z.of_nat (List.length (Deliverability.ListCheck.invalid_emails r))
    /\ Deliverability.ListCheck.valid_emails r
       = filter (DeliverabilitySpec.address_ok validate_email) recipients
    /\ Deliverability.ListCheck.invalid_emails r
       = map (DeliverabilitySpec.invalid_entry validate_email)
           (filter (fun x => negb (DeliverabilitySpec.address_ok validate_email x))
              recipients)
    /\ (forall x, PyDict.get x "email" = None ->
                  ~ In x (Deliverability.ListCheck.valid_emails r))
    /\ (recipients = [] ->
        Deliverability.ListCheck.validation_rate r = PInt 0).
Proof.
  destruct (validate_recipient_list_run validate_email recipients)
    as (rate & Hrate & Hrun).
  eexists. split; [exact Hrun|].
  cbn [Deliverability.ListCheck.total Deliverability.ListCheck.valid
       Deliverability.ListCheck.invalid Deliverability.ListCheck.valid_emails
       Deliverability.ListCheck.invalid_emails
       Deliverability.ListCheck.validation_rate].
  split; [reflexivity|].
  split; [rewrite length_map, <- Nat2Z.inj_add, filter_split_length; reflexivity|].
  split; [reflexivity|]. split; [reflexivity|].
  split; [reflexivity|]. split; [reflexivity|]. split.
  - intros x Hx Hin. apply filter_In in Hin as [_ Hok].
    rewrite (no_address_is_invalid validate_email x Hx) in Hok. discriminate.
  - intros ->. cbn in Hrate. now injection Hrate as <-.
Qed.

(** Two of three addresses validate; the one without an address is listed
    under the empty address. *)
Example two_of_three_validate :
  exists r,
    Deliverability.validate_recipient_list DeliverabilitySpec.accept_all
      [[("email", "ann@example.com")]; [("name", "Bob")];
       [("email", "cy@example.org")]] = Ok r
    /\ Deliverability.ListCheck.valid r = 2
    /\ Deliverability.ListCheck.invalid_emails r
       = [{| Deliverability.InvalidEmail.email := "";
             Deliverability.InvalidEmail.errors := ["Invalid email format"] |}].
Proof. eexists. split; [vm_compute; reflexivity|]. split; reflexivity. Qed.

(** ** The full check *)

Section FullCheck.

Import Deliverability DeliverabilitySpec.

Variable validate_email : string -> string + string.

Let ready : string := "Email is ready to send!".
Let review : string := "Review and clean invalid email addresses".

Lemma recommendations_ready (s : SpamCheck.t) (c : ComplianceCheck.t)
    (v : ListCheck.t) :
  In ready (_generate_recommendations s c v) ->
  _generate_recommendations s c v = [ready]
  /\ SpamCheck.passed s = true
  /\ SpamCheck.spam_score s <= 10
  /\ ComplianceCheck.compliant c = true
  /\ py_lt (ListCheck.validation_rate v) (PInt 95) = false.
Proof.
  unfold _generate_recommendations, ready. cbv zeta.
  destruct (SpamCheck.passed s);
    destruct (10 <? SpamCheck.spam_score s) eqn:E;
    destruct (ComplianceCheck.compliant c);
    destruct (py_lt (ListCheck.validation_rate v) (PInt 95));
    cbn; intros H;
    try (exfalso; repeat destruct H as [H|H]; solve [discriminate | exact H]).
  apply Z.ltb_ge in E. repeat split. exact E.
Qed.

Lemma recommendations_review (s : SpamCheck.t) (c : ComplianceCheck.t)
    (v : ListCheck.t) :
  py_lt (ListCheck.validation_rate v) (PInt 95) = true ->
  In review (_generate_recommendations s c v)
  /\ ~ In ready (_generate_recommendations s c v).
Proof.
  intros Hv. split.
  - unfold _generate_recommendations, review. cbv zeta. rewrite Hv.
    destruct (negb (SpamCheck.passed s));
      destruct (10 <? SpamCheck.spam_score s);
      destruct (negb (ComplianceCheck.compliant c)); cbn; tauto.
  - intros H. apply recommendations_ready in H as (_ & _ & _ & _ & H).
    congruence.
Qed.

(** A rate that is a number and not below 95 is above 90. *)
Lemma not_below_95_above_90 (rate : pynum) :
  pynum_value rate <> XNaN ->
  py_lt rate (PInt 95) = false -> py_gt rate (PInt 90) = true.
Proof.
  unfold py_lt, py_gt. cbn [pynum_value].
  destruct (pynum_value rate) as [| |q|]; cbn [xlt];
    [congruence | discriminate | | reflexivity].
  intros _. unfold qlt. cbn [Qnum Qden]. rewrite !Z.ltb_ge.
  intros H. apply Z.ltb_lt. pose proof (Pos2Z.is_pos (Qden q)). lia.
Qed.

(** What [full_check] returns. *)
Lemma full_check_run (c : Content) (recipients : list Recipient) :
  exists s v,
    check_spam_score c = Ok s
    /\ validate_recipient_list validate_email recipients = Ok v
    /\ rate_of (Z.of_nat (List.length
                            (filter (address_ok validate_email) recipients)))
               (Z.of_nat (List.length recipients))
       = Ok (ListCheck.validation_rate v)
    /\ full_check validate_email c recipients
       = Ok {| FullCheck.passed :=
                 SpamCheck.passed s
                 && ComplianceCheck.compliant (check_compliance c)
                 && py_gt (ListCheck.validation_rate v) (PInt 90);
               FullCheck.spam_check := s;
               FullCheck.compliance_check := check_compliance c;
               FullCheck.validation_check := v;
               FullCheck.recommendations :=
                 _generate_recommendations s (check_compliance c) v |}.
Proof.
  destruct (check_spam_score_run c) as [w Hs].
  destruct (validate_recipient_list_run validate_email recipients)
    as (rate & Hrate & Hv).
  eexists. eexists. split; [exact Hs|]. split; [exact Hv|].
  split; [exact Hrate|]. unfold full_check. now rewrite Hs, Hv.
Qed.

Lemma rate_bounds (recipients : list Recipient) :
  (0 <= Z.of_nat (List.length (filter (address_ok validate_email) recipients))
   <= Z.of_nat (List.length recipients)).
Proof. split; [lia|]. apply inj_le, filter_length_bound. Qed.

Lemma full_check_without_valid (c : Content) (recipients : list Recipient) :
  (forall x, In x recipients -> address_ok validate_email x = false) ->
  exists r,
    full_check validate_email c recipients = Ok r
    /\ FullCheck.passed r = false
    /\ In review (FullCheck.recommendations r)
    /\ ~ In ready (FullCheck.recommendations r).
Proof.
  intros Hnone.
  assert (Hf : filter (address_ok validate_email) recipients = []).
  { induction recipients as [|x l IH]; [reflexivity|]. cbn [filter].
    rewrite (Hnone x (or_introl eq_refl)). apply IH.
    intros y Hy. apply Hnone. now right. }
  destruct (full_check_run c recipients) as (s & v & Hs & Hv & Hrate & Hrun).
  destruct (rate_of_returns 0 (Z.of_nat (List.length recipients)) ltac:(lia))
    as (rate & Hrate' & _ & _ & Hzero).
  rewrite Hf in Hrate. cbn [List.length Z.of_nat] in Hrate.
  rewrite Hrate' in Hrate. injection Hrate as Hrate.
  destruct (Hzero eq_refl) as [Hgt Hlt]. rewrite Hrate in Hgt, Hlt.
  eexists. split; [exact Hrun|]. cbn [FullCheck.passed FullCheck.recommendations].
  split; [rewrite Hgt; apply andb_false_r|].
  apply recommendations_review, Hlt.
Qed.

Lemma full_check_ready (c : Content) (recipients : list Recipient)
    (r : FullCheck.t) :
  full_check validate_email c recipients = Ok r ->
  In ready (FullCheck.recommendations r) ->
  FullCheck.passed r = true
  /\ FullCheck.recommendations r = [ready]
  /\ SpamCheck.spam_score (FullCheck.spam_check r) <= 10
  /\ exists x, In x recipients /\ address_ok validate_email x = true.
Proof.
  intros Hr Hin.
  destruct (full_check_run c recipients) as (s & v & Hs & Hv & Hrate & Hrun).
  rewrite Hrun in Hr. injection Hr as <-.
  cbn [FullCheck.passed FullCheck.recommendations FullCheck.spam_check] in *.
  apply recommendations_ready in Hin as (Hrec & Hp & Hscore & Hc & Hlt).
  destruct (rate_of_returns _ _ (rate_bounds recipients))
    as (rate & Hrate' & Hnum & _ & Hzero).
  rewrite Hrate' in Hrate. injection Hrate as Hrate. rewrite Hrate in *.
  split; [rewrite Hp, Hc; cbn [andb]; now apply not_below_95_above_90|].
  split; [exact Hrec|]. split; [exact Hscore|].
  destruct (filter (address_ok validate_email) recipients) as [|x l] eqn:Hf.
  - destruct (Hzero eq_refl) as [_ Hlt']. congruence.
  - exists x. apply filter_In. rewrite Hf. now left.
Qed.

End FullCheck.

(** X15. Without a recipient whose address validates the full check never
    passes, whatever the message is: [full_check] returns, [passed] is
    false, the recommendations contain "Review and clean invalid email
    addresses" and not "Email is ready to send!".  The empty list is one
    such case, and it is what [_check_deliverability] passes for a variant
    that has no group. *)
Theorem full_check_needs_a_valid_recipient
    (validate_email : string -> string + string) (c : Content)
    (recipients : list Recipient) :
  (forall x, In x recipients ->
             DeliverabilitySpec.address_ok validate_email x = false) ->
  exists r,
    Deliverability.full_check validate_email c recipients = Ok r
    /\ Deliverability.FullCheck.passed r = false
    /\ In "Review and clean invalid email addresses"
         (Deliverability.FullCheck.recommendations r)
    /\ ~ In "Email is ready to send!" (Deliverability.FullCheck.recommendations r).
Proof. exact (full_check_without_valid validate_email c recipients). Qed.

Lemma full_check_needs_a_valid_recipient_witness :
  exists r,
    Deliverability.full_check DeliverabilitySpec.accept_all
      DeliverabilitySpec.shouting [[("name", "Bob")]] = Ok r
    /\ Deliverability.FullCheck.passed r = false
    /\ In "Review and clean invalid email addresses"
         (Deliverability.FullCheck.recommendations r)
    /\ ~ In "Email is ready to send!" (Deliverability.FullCheck.recommendations r).
Proof.
  apply (full_check_needs_a_valid_recipient DeliverabilitySpec.accept_all
           DeliverabilitySpec.shouting [[("name", "Bob")]]).
  intros x [<-|[]]. reflexivity.
Defined.

(** X16. "Email is ready to send!" is recommended only for a check that
    passed: when the recommendations of [full_check] contain it, it is the
    only recommendation, [passed] is true, the spam score is at most 10 and
    some recipient has an address that validates.  The validation rate is
    never a NaN, so a rate that is not below 95 is above 90. *)
Theorem ready_to_send_only_when_passed
    (validate_email : string -> string + string) (c : Content)
    (recipients : list Recipient) (r : Deliverability.FullCheck.t) :
  Deliverability.full_check validate_email c recipients = Ok r ->
  In "Email is ready to send!" (Deliverability.FullCheck.recommendations r) ->
  Deliverability.FullCheck.passed r = true
  /\ Deliverability.FullCheck.recommendations r = ["Email is ready to send!"]
  /\ Deliverability.SpamCheck.spam_score (Deliverability.FullCheck.spam_check r)
     <= 10
  /\ exists x, In x recipients
               /\ DeliverabilitySpec.address_ok validate_email x = true.
Proof. exact (full_check_ready validate_email c recipients r). Qed.

Lemma ready_to_send_only_when_passed_witness :
  exists r,
    Deliverability.full_check DeliverabilitySpec.accept_all
      DeliverabilitySpec.shouting [[("email", "ann@example.com")]] = Ok r
    /\ Deliverability.FullCheck.passed r = true
    /\ Deliverability.FullCheck.recommendations r = ["Email is ready to send!"].
Proof.
  eexists. split; [vm_compute; reflexivity|].
  destruct (ready_to_send_only_when_passed DeliverabilitySpec.accept_all
              DeliverabilitySpec.shouting [[("email", "ann@example.com")]] _
              eq_refl (or_introl eq_refl)) as (Hp & Hr & _).
  split; [exact Hp | exact Hr].
Defined.

(** The converse fails: a check that passed may still carry advice. *)
Example passed_with_advice :
  exists r,
    Deliverability.full_check DeliverabilitySpec.accept_all
      DeliverabilitySpec.promotional [[("email", "ann@example.com")]] = Ok r
    /\ Deliverability.FullCheck.passed r = true
    /\ Deliverability.FullCheck.recommendations r
       = ["Consider simplifying subject line and reducing promotional language"].
Proof. eexists. split; [vm_compute; reflexivity|]. split; reflexivity. Qed.


(* ===================================================================== *)
(** * Properties of the reporting agent *)
(* ===================================================================== *)


(** ** The checks in the report *)

Section ReportChecks.

Import Reporting.

Variable str_num : pynum -> string.
Variable format_1f : pynum -> string.

Lemma recommendations_without_key (ab : ABTesting.Metrics)
    (d : PyDict.t (PyDict.t pyobj)) :
  PyDict.mem d "recommendations" = false ->
  _generate_recommendations ab d = _generate_recommendations ab [].
Proof.
  intros H. unfold _generate_recommendations. cbv zeta.
  rewrite (mem_false_get _ _ H). cbn [dict_truthy].
  destruct (dict_truthy d); [now rewrite app_nil_r | reflexivity].
Qed.

Lemma insights_without_key (ab : ABTesting.Metrics)
    (d : PyDict.t (PyDict.t pyobj)) :
  PyDict.mem d "spam_check" = false ->
  d <> [] ->
  _generate_insights str_num format_1f ab d
  = match _generate_insights str_num format_1f ab [] with
    | Ok base =>
        Ok (base ++ ["Email content passed spam filters with low risk score"])%list
    | Raise e => Raise e
    end.
Proof.
  intros H Hd. unfold _generate_insights. cbv zeta.
  unfold PyDict.get_default at 2. rewrite (mem_false_get _ _ H).
  cbn [dict_truthy PyDict.get_default PyDict.get as_number].
  destruct d as [|x d]; [congruence|]. cbn [dict_truthy].
  destruct (if negb (has_error ab) then _ else _); reflexivity.
Qed.

End ReportChecks.

(** X17. The report never reads the deliverability checks it is given.
    The checks are keyed by variant, so they have no key "spam_check" and
    no key "recommendations"; for such a dictionary, when it is not empty,
    the insights are those of the performance followed by "Email content
    passed spam filters with low risk score", whatever the spam scores in
    the checks are, and the recommendations are the same as without any
    check. *)
Theorem report_never_reads_the_checks (str_num format_1f : pynum -> string)
    (ab : ABTesting.Metrics) (d : PyDict.t (PyDict.t pyobj)) :
  PyDict.mem d "spam_check" = false ->
  PyDict.mem d "recommendations" = false ->
  d <> [] ->
  Reporting._generate_insights str_num format_1f ab d
  = match Reporting._generate_insights str_num format_1f ab [] with
    | Ok base =>
        Ok (base ++ ["Email content passed spam filters with low risk score"])%list
    | Raise e => Raise e
    end
  /\ Reporting._generate_recommendations ab d
     = Reporting._generate_recommendations ab [].
Proof.
  intros Hs Hr Hd. split.
  - now apply insights_without_key.
  - now apply recommendations_without_key.
Qed.

Lemma report_never_reads_the_checks_witness :
  Reporting._generate_insights (fun _ => "0.0") (fun _ => "0.0")
    ABTesting.CampaignNotFound ReportingSpec.failed_checks
  = Ok ["Email content passed spam filters with low risk score"]
  /\ Reporting._generate_recommendations ABTesting.CampaignNotFound
       ReportingSpec.failed_checks
     = ["Campaign is performing well. Continue monitoring and optimize based on results."].
Proof.
  exact (report_never_reads_the_checks (fun _ => "0.0") (fun _ => "0.0")
           ABTesting.CampaignNotFound ReportingSpec.failed_checks
           eq_refl eq_refl ltac:(discriminate)).
Defined.

(** ** A winner nobody opened *)

Section NoEngagement.

Import Reporting ReportingSpec.

Variable str_num : pynum -> string.
Variable format_1f : pynum -> string.

Lemma percent_rate_zero (den : Z) :
  exists v, percent_rate 0 den = Ok v /\ is_zero v.
Proof.
  unfold percent_rate. destruct (0 <? den) eqn:E.
  - apply Z.ltb_lt in E. unfold int_true_div.
    destruct (den =? 0) eqn:E0; [apply Z.eqb_eq in E0; lia|].
    cbn [Z.eqb]. destruct (den <? 0) eqn:E1; [apply Z.ltb_lt in E1; lia|].
    eexists. split; [vm_compute; reflexivity | now right].
  - eexists. split; [reflexivity | now left].
Qed.

Lemma is_zero_not_positive (v : pynum) : is_zero v -> py_gt v (PInt 0) = false.
Proof. intros [-> | ->]; vm_compute; reflexivity. Qed.

Lemma is_zero_not_above (v w : pynum) : is_zero v -> is_zero w -> py_gt v w = false.
Proof. intros [-> | ->] [-> | ->]; vm_compute; reflexivity. Qed.

Lemma is_zero_above_minus_one (v : pynum) : is_zero v -> py_gt v (PInt (-1)) = true.
Proof. intros [-> | ->]; vm_compute; reflexivity. Qed.

Lemma is_zero_add (v w : pynum) :
  is_zero v -> is_zero w -> exists s, py_add v w = Ok s /\ is_zero s.
Proof.
  intros [-> | ->] [-> | ->]; eexists; (split; [vm_compute; reflexivity|]);
    (now left) || (now right).
Qed.

Lemma no_engagement_rows (vs : PyDict.t ABTesting.VariantData)
    (rows : PyDict.t ABTesting.Row) :
  rows_of vs rows ->
  Forall (fun kv => no_engagement (snd kv)) vs ->
  Forall zero_row rows.
Proof.
  induction 1 as [|[k d] [k' r] vs rows [_ Hr] _ IH]; intros Hz;
    [constructor|].
  inversion Hz as [|? ? (Ho & Hc & _) Hz']; subst.
  constructor; [|now apply IH].
  cbn [snd] in *. destruct Hr as (_ & _ & _ & _ & Hor & Hcr & _).
  rewrite Ho in Hor. rewrite Hc in Hcr.
  destruct (percent_rate_zero (ABTesting.sent d)) as (v & Hv & Hz0).
  split; cbn [snd]; [rewrite Hv in Hor | rewrite Hv in Hcr];
    match goal with H : Ok _ = Ok _ |- _ => injection H as <- end; exact Hz0.
Qed.

Lemma winner_loop_zero (rows : PyDict.t ABTesting.Row) :
  Forall zero_row rows ->
  forall acc, is_zero (snd acc) ->
    ABTesting.winner_loop "open_rate" rows acc = acc.
Proof.
  unfold ABTesting.winner_loop.
  induction 1 as [|[k r] rows [Ho _] _ IH]; intros acc Hacc; [reflexivity|].
  cbn [fold_left]. unfold ABTesting.winner_step at 2.
  cbn [snd fst] in *.
  change (ABTesting.row_get r "open_rate") with (ABTesting.open_rate r).
  rewrite (is_zero_not_above _ _ Ho Hacc). now apply IH.
Qed.

Lemma best_step_zero (rows : PyDict.t ABTesting.Row) :
  Forall zero_row rows ->
  forall acc, is_zero (snd acc) -> fold_left best_step rows acc = acc.
Proof.
  induction 1 as [|[k r] rows [Ho _] _ IH]; intros acc Hacc; [reflexivity|].
  cbn [fold_left]. unfold best_step at 2. cbn [snd] in *.
  rewrite (is_zero_not_above _ _ Ho Hacc). now apply IH.
Qed.

Lemma score_loop_zero (rows : PyDict.t ABTesting.Row) :
  Forall zero_row rows ->
  forall acc, is_zero (snd acc) -> score_loop rows acc = Ok acc.
Proof.
  induction 1 as [|[k r] rows [Ho Hc] _ IH]; intros acc Hacc; [reflexivity|].
  cbn [score_loop]. cbn [snd] in *.
  destruct (is_zero_add _ _ Ho Hc) as (s & -> & Hs).
  rewrite (is_zero_not_above _ _ Hs Hacc). now apply IH.
Qed.

Lemma open_rate_of_zero (rows : PyDict.t ABTesting.Row) (k : string) :
  Forall zero_row rows -> is_zero (open_rate_of rows k).
Proof.
  intros H. unfold open_rate_of.
  induction H as [|[k' r] rows [Ho _] _ IH]; cbn [PyDict.get]; [now left|].
  destruct (String.eqb k k'); [exact Ho | exact IH].
Qed.

Lemma no_engagement_run (tr : ABTesting.test_results) (cid : string)
    (c : ABTesting.CampaignResults) (v0 : string) (d0 : ABTesting.VariantData)
    (rest : PyDict.t ABTesting.VariantData) :
  PyDict.get tr cid = Some c ->
  ABTesting.variants c = (v0, d0) :: rest ->
  NoDup (PyDict.keys (ABTesting.variants c)) ->
  ~ In "error" (PyDict.keys (ABTesting.variants c)) ->
  Forall (fun kv => no_engagement (snd kv)) (ABTesting.variants c) ->
  exists rows,
    ABTesting.calculate_metrics tr cid = Ok (ABTesting.Rows rows)
    /\ ABTesting.get_winner tr cid "open_rate" = Ok (Some v0)
    /\ _suggest_next_steps (ABTesting.Rows rows)
       = Ok ["Monitor deliverability and engagement metrics";
             "Gather feedback and iterate on messaging"]
    /\ _generate_insights str_num format_1f (ABTesting.Rows rows) [] = Ok [].
Proof.
  intros Hc Hvs Hnd Herr Hz.
  assert (Hb : Forall (fun kv => counters_bounded (snd kv)) (ABTesting.variants c)).
  { eapply Forall_impl; [|exact Hz]. intros kv (Ho & Hk & Hv).
    unfold counters_bounded. rewrite Ho, Hk, Hv. repeat split; reflexivity. }
  destruct (variant_rows_returns _ Hb PyDict.empty) as [rows Hrows].
  assert (Hcalc : ABTesting.calculate_metrics tr cid = Ok (ABTesting.Rows rows)).
  { unfold ABTesting.calculate_metrics. now rewrite Hc, Hrows. }
  pose proof (calculate_metrics_rows tr cid c rows Hc Hnd Hcalc) as Hof.
  pose proof (no_engagement_rows _ _ Hof Hz) as Hzero.
  pose proof (rows_of_keys _ _ Hof) as Hkeys.
  assert (Hmem : PyDict.mem rows "error" = false).
  { unfold PyDict.mem. rewrite get_none_not_key; [reflexivity|].
    now rewrite Hkeys. }
  destruct rows as [|[k0 r0] rows']; [rewrite Hvs in Hkeys; discriminate|].
  assert (Hk0 : k0 = v0) by (rewrite Hvs in Hkeys; now injection Hkeys).
  subst k0. inversion Hzero as [|? ? [Ho0 Hc0] Hzero']; subst. cbn [snd] in *.
  exists ((v0, r0) :: rows'). split; [exact Hcalc|]. split; [|split].
  - unfold ABTesting.get_winner. rewrite Hcalc, Hmem.
    unfold ABTesting.winner_loop. cbn [fold_left].
    unfold ABTesting.winner_step at 2. cbn [snd fst].
    change (ABTesting.row_get r0 "open_rate") with (ABTesting.open_rate r0).
    rewrite (is_zero_above_minus_one _ Ho0).
    fold (ABTesting.winner_loop "open_rate" rows' (Some v0, ABTesting.open_rate r0)).
    now rewrite (winner_loop_zero rows' Hzero').
  - unfold _suggest_next_steps. cbv zeta. cbn [has_error items]. rewrite Hmem.
    cbn [negb andb List.length]. rewrite Nat2Z.inj_succ.
    destruct (0 <? Z.succ (Z.of_nat (List.length rows'))) eqn:E;
      [|apply Z.ltb_ge in E; lia].
    rewrite (score_loop_zero _ Hzero (None, PInt 0)) by (now left). reflexivity.
  - unfold _generate_insights. cbv zeta. cbn [has_error items]. rewrite Hmem.
    cbn [negb dict_truthy]. unfold performance_insights.
    rewrite (best_step_zero _ Hzero (None, PInt 0)) by (now left).
    cbn [opt_truthy]. cbn [PyDict.keys map fst].
    destruct rows' as [|[k1 r1] rows'']; cbn [map fst]; [reflexivity|].
    rewrite (is_zero_not_above _ _ (open_rate_of_zero _ v0 Hzero)
               (open_rate_of_zero _ k1 Hzero)). reflexivity.
Qed.

End NoEngagement.

(** X18. When nobody opened, clicked or converted, the A/B testing agent
    and the report disagree about the winner.  For a campaign whose
    variants all have zero opens, clicks and conversions,
    [calculate_metrics] returns the rows, [get_winner] names the first
    variant (its rate of zero beats the starting score of -1), while the
    report, which starts from a best score of 0, names no variant:
    [_suggest_next_steps] gives the two general steps only and the
    performance insights are empty. *)
Theorem winner_nobody_opened (str_num format_1f : pynum -> string)
    (tr : ABTesting.test_results) (cid : string)
    (c : ABTesting.CampaignResults) (v0 : string) (d0 : ABTesting.VariantData)
    (rest : PyDict.t ABTesting.VariantData) :
  PyDict.get tr cid = Some c ->
  ABTesting.variants c = (v0, d0) :: rest ->
  NoDup (PyDict.keys (ABTesting.variants c)) ->
  ~ In "error" (PyDict.keys (ABTesting.variants c)) ->
  Forall (fun kv => ReportingSpec.no_engagement (snd kv)) (ABTesting.variants c) ->
  exists rows,
    ABTesting.calculate_metrics tr cid = Ok (ABTesting.Rows rows)
    /\ ABTesting.get_winner tr cid "open_rate" = Ok (Some v0)
    /\ Reporting._suggest_next_steps (ABTesting.Rows rows)
       = Ok ["Monitor deliverability and engagement metrics";
             "Gather feedback and iterate on messaging"]
    /\ Reporting._generate_insights str_num format_1f (ABTesting.Rows rows) []
       = Ok [].
Proof. exact (no_engagement_run str_num format_1f tr cid c v0 d0 rest). Qed.

Lemma winner_nobody_opened_witness :
  exists rows,
    ABTesting.calculate_metrics ReportingSpec.nothing_opened "c1"
    = Ok (ABTesting.Rows rows)
    /\ ABTesting.get_winner ReportingSpec.nothing_opened "c1" "open_rate"
       = Ok (Some "A")
    /\ Reporting._suggest_next_steps (ABTesting.Rows rows)
       = Ok ["Monitor deliverability and engagement metrics";
             "Gather feedback and iterate on messaging"]
    /\ Reporting._generate_insights (fun _ => "0.0") (fun _ => "0.0")
         (ABTesting.Rows rows) []
       = Ok [].
Proof.
  refine (winner_nobody_opened (fun _ => "0.0") (fun _ => "0.0")
            ReportingSpec.nothing_opened "c1" _ "A" _ _ eq_refl eq_refl _ _ _).
  - cbn. repeat constructor; cbn; intuition discriminate.
  - cbn. intuition discriminate.
  - repeat constructor.
Defined.

(** ** The summary of a stored report *)

Section SummaryOfReport.

Import Reporting ReportingSpec.



Variable str_num : pynum -> string.
Variable format_1f : pynum -> string.



End SummaryOfReport.




(* ===================================================================== *)
(** * Properties of the provider statistics and the activity log *)
(* ===================================================================== *)


(** ** The statistics of the account *)

Section AccountStatistics.

Import Tracker TrackerSpec.

Lemma add_periods (stats : list StatPeriod.t) :
  forall m,
    let m' := fold_left add_period stats m in
    Metrics.campaign_id m' = Metrics.campaign_id m
    /\ Metrics.total_sent m' = Metrics.total_sent m
    /\ Metrics.delivered m' = Metrics.delivered m + total StatPeriod.delivered stats
    /\ Metrics.opened m' = Metrics.opened m + total StatPeriod.opens stats
    /\ Metrics.clicked m' = Metrics.clicked m + total StatPeriod.clicks stats
    /\ Metrics.bounced m' = Metrics.bounced m + total StatPeriod.bounces stats
    /\ Metrics.open_rate m' = Metrics.open_rate m
    /\ Metrics.click_rate m' = Metrics.click_rate m
    /\ Metrics.bounce_rate m' = Metrics.bounce_rate m.
Proof.
  induction stats as [|p stats IH]; intros m; cbn [fold_left total fold_right].
  - repeat split; lia.
  - destruct (IH (add_period m p)) as (H1 & H2 & H3 & H4 & H5 & H6 & H7 & H8 & H9).
    cbv zeta in *. rewrite H1, H2, H3, H4, H5, H6, H7, H8, H9.
    unfold add_period. cbn.
    fold (total StatPeriod.delivered stats) (total StatPeriod.opens stats)
         (total StatPeriod.clicks stats) (total StatPeriod.bounces stats).
    repeat split; lia.
Qed.

Lemma ensure_delivered_keeps (m : Metrics.t) :
  let m' := ensure_delivered m in
  Metrics.total_sent m' = Metrics.total_sent m
  /\ Metrics.opened m' = Metrics.opened m
  /\ Metrics.clicked m' = Metrics.clicked m
  /\ Metrics.bounced m' = Metrics.bounced m
  /\ Metrics.open_rate m' = Metrics.open_rate m
  /\ Metrics.click_rate m' = Metrics.click_rate m
  /\ Metrics.bounce_rate m' = Metrics.bounce_rate m
  /\ Metrics.delivered m'
     = if (Metrics.delivered m =? 0) && (0 <? Metrics.total_sent m)
       then Metrics.total_sent m - Metrics.bounced m
       else Metrics.delivered m.
Proof.
  unfold ensure_delivered.
  destruct ((Metrics.delivered m =? 0) && (0 <? Metrics.total_sent m));
    repeat split.
Qed.

(** The quotient of two integers, the first below [2^1023] in magnitude. *)
Lemma int_true_div_returns (a b : Z) :
  b <> 0 -> Z.abs a < 2 ^ 1023 -> exists q, int_true_div a b = Ok q.
Proof.
  intros Hb Ha. unfold int_true_div.
  destruct (b =? 0) eqn:E; [apply Z.eqb_eq in E; contradiction|].
  destruct (a =? 0) eqn:E0; [eexists; reflexivity|]. apply Z.eqb_neq in E0.
  destruct (nearest_double (Z.abs a) (Z.abs b)) eqn:Hnd; [eexists; reflexivity|].
  exfalso. apply (nearest_double_some (Z.abs a) (Z.abs b)); [lia | lia | exact Hnd].
Qed.

Lemma rate_returns (count total_sent : Z) :
  0 < total_sent -> Z.abs count < 2 ^ 1023 -> exists r, rate count total_sent = Ok r.
Proof.
  intros Ht Hc. unfold rate.
  destruct (int_true_div_returns count total_sent ltac:(lia) Hc) as [q ->].
  eexists; reflexivity.
Qed.

Lemma get_campaign_metrics_run (cid : string) (ids : list string)
    (stats : list StatPeriod.t) :
  Z.abs (total StatPeriod.opens stats) < 2 ^ 1023 ->
  Z.abs (total StatPeriod.clicks stats) < 2 ^ 1023 ->
  Z.abs (total StatPeriod.bounces stats) < 2 ^ 1023 ->
  exists m,
    get_campaign_metrics cid ids stats = Ok m
    /\ Metrics.total_sent m = Z.of_nat (List.length ids)
    /\ Metrics.opened m = total StatPeriod.opens stats
    /\ Metrics.clicked m = total StatPeriod.clicks stats
    /\ Metrics.bounced m = total StatPeriod.bounces stats
    /\ Metrics.delivered m
       = (if (total StatPeriod.delivered stats =? 0)
             && (0 <? Z.of_nat (List.length ids))
          then Z.of_nat (List.length ids) - total StatPeriod.bounces stats
          else total StatPeriod.delivered stats)
    /\ (ids = [] ->
        Metrics.open_rate m = 0%float
        /\ Metrics.click_rate m = 0%float
        /\ Metrics.bounce_rate m = 0%float)
    /\ (ids <> [] ->
        rate (total StatPeriod.opens stats) (Z.of_nat (List.length ids))
        = Ok (Metrics.open_rate m)
        /\ rate (total StatPeriod.clicks stats) (Z.of_nat (List.length ids))
           = Ok (Metrics.click_rate m)
        /\ rate (total StatPeriod.bounces stats) (Z.of_nat (List.length ids))
           = Ok (Metrics.bounce_rate m)).
Proof.
  intros Ho Hc Hb. unfold get_campaign_metrics. cbv zeta.
  destruct (add_periods stats (initial cid ids))
    as (_ & H2 & H3 & H4 & H5 & H6 & H7 & H8 & H9).
  cbv zeta in *. set (m1 := fold_left add_period stats (initial cid ids)) in *.
  cbn [initial Metrics.total_sent Metrics.delivered Metrics.opened Metrics.clicked
       Metrics.bounced Metrics.open_rate Metrics.click_rate Metrics.bounce_rate]
    in H2, H3, H4, H5, H6, H7, H8, H9.
  rewrite Z.add_0_l in H3, H4, H5, H6.
  destruct (ensure_delivered_keeps m1) as (E1 & E2 & E3 & E4 & E5 & E6 & E7 & E8).
  cbv zeta in *. set (m2 := ensure_delivered m1) in *.
  rewrite H2 in E1. rewrite H4 in E2. rewrite H5 in E3. rewrite H6 in E4.
  rewrite H7 in E5. rewrite H8 in E6. rewrite H9 in E7.
  rewrite H3, H2, H6 in E8.
  unfold with_rates. rewrite E1, E2, E3, E4.
  destruct (0 <? Z.of_nat (List.length ids)) eqn:E.
  - apply Z.ltb_lt in E.
    destruct (rate_returns _ _ E Ho) as [o Hro].
    destruct (rate_returns _ _ E Hc) as [c Hrc].
    destruct (rate_returns _ _ E Hb) as [b Hrb].
    rewrite Hro, Hrc, Hrb. eexists. split; [reflexivity|].
    cbn [Metrics.total_sent Metrics.opened Metrics.clicked Metrics.bounced
         Metrics.delivered Metrics.open_rate Metrics.click_rate Metrics.bounce_rate].
    do 4 (split; [reflexivity|]). split; [exact E8|].
    split; [intros ->; cbn in E; lia|]. intros _. repeat split.
  - apply Z.ltb_ge in E. exists m2. split; [reflexivity|].
    split; [exact E1|]. split; [exact E2|]. split; [exact E3|].
    split; [exact E4|]. split; [exact E8|].
    split; [intros _; repeat split; assumption|].
    intros Hne. destruct ids; [contradiction | cbn in E; lia].
Qed.

End AccountStatistics.

(** X20. [get_campaign_metrics] reports the statistics of the account, not
    of the messages.  Given the list of daily statistics, and for totals
    below [2^1023], it returns: [total_sent] is the number of message ids;
    [opened], [clicked] and [bounced] are the sums over the list, the same
    for any other campaign and any other message ids read against the same
    statistics; [delivered] is the sum of the days, or, when that is 0 and
    there are message ids, the number of ids minus the bounces; without
    message ids the three rates stay 0.0 and nothing is divided, otherwise
    they are the counts over the number of ids, times 100. *)
Theorem get_campaign_metrics_counts_the_account (cid cid' : string)
    (ids ids' : list string) (stats : list Tracker.StatPeriod.t) :
  Z.abs (TrackerSpec.total Tracker.StatPeriod.opens stats) < 2 ^ 1023 ->
  Z.abs (TrackerSpec.total Tracker.StatPeriod.clicks stats) < 2 ^ 1023 ->
  Z.abs (TrackerSpec.total Tracker.StatPeriod.bounces stats) < 2 ^ 1023 ->
  exists m m',
    Tracker.get_campaign_metrics cid ids stats = Ok m
    /\ Tracker.get_campaign_metrics cid' ids' stats = Ok m'
    /\ Tracker.Metrics.total_sent m = Z.of_nat (List.length ids)
    /\ Tracker.Metrics.opened m = TrackerSpec.total Tracker.StatPeriod.opens stats
    /\ Tracker.Metrics.clicked m = TrackerSpec.total Tracker.StatPeriod.clicks stats
    /\ Tracker.Metrics.bounced m = TrackerSpec.total Tracker.StatPeriod.bounces stats
    /\ Tracker.Metrics.opened m' = Tracker.Metrics.opened m
    /\ Tracker.Metrics.clicked m' = Tracker.Metrics.clicked m
    /\ Tracker.Metrics.bounced m' = Tracker.Metrics.bounced m
    /\ Tracker.Metrics.delivered m
       = (if (TrackerSpec.total Tracker.StatPeriod.delivered stats =? 0)
             && (0 <? Z.of_nat (List.length ids))
          then Z.of_nat (List.length ids)
               - TrackerSpec.total Tracker.StatPeriod.bounces stats
          else TrackerSpec.total Tracker.StatPeriod.delivered stats)
    /\ (ids = [] ->
        Tracker.Metrics.open_rate m = 0%float
        /\ Tracker.Metrics.click_rate m = 0%float
        /\ Tracker.Metrics.bounce_rate m = 0%float)
    /\ (ids <> [] ->
        Tracker.rate (TrackerSpec.total Tracker.StatPeriod.opens stats)
          (Z.of_nat (List.length ids)) = Ok (Tracker.Metrics.open_rate m)
        /\ Tracker.rate (TrackerSpec.total Tracker.StatPeriod.clicks stats)
             (Z.of_nat (List.length ids)) = Ok (Tracker.Metrics.click_rate m)
        /\ Tracker.rate (TrackerSpec.total Tracker.StatPeriod.bounces stats)
             (Z.of_nat (List.length ids)) = Ok (Tracker.Metrics.bounce_rate m)).
Proof.
  intros Ho Hc Hb.
  destruct (get_campaign_metrics_run cid ids stats Ho Hc Hb)
    as (m & Hm & H1 & H2 & H3 & H4 & H5 & H6 & H7).
  destruct (get_campaign_metrics_run cid' ids' stats Ho Hc Hb)
    as (m' & Hm' & _ & H2' & H3' & H4' & _).
  exists m, m'. repeat (split; [assumption || congruence|]). exact H7.
Qed.

Lemma get_campaign_metrics_counts_the_account_witness :
  exists m m',
    Tracker.get_campaign_metrics "c1" ["m1"; "m2"] TrackerSpec.busy_day = Ok m
    /\ Tracker.get_campaign_metrics "c2" ["m3"] TrackerSpec.busy_day = Ok m'
    /\ Tracker.Metrics.opened m = 40 /\ Tracker.Metrics.opened m' = 40
    /\ Tracker.Metrics.delivered m = -1
    /\ Tracker.Metrics.open_rate m = 2000%float.
Proof.
  destruct (get_campaign_metrics_counts_the_account "c1" "c2" ["m1"; "m2"] ["m3"]
              TrackerSpec.busy_day eq_refl eq_refl eq_refl)
    as (m & m' & Hm & Hm' & _ & Ho & _ & _ & Ho' & _ & _ & Hd & _ & Hr).
  exists m, m'. split; [exact Hm|]. split; [exact Hm'|].
  split; [exact Ho|]. split; [now rewrite Ho'|]. split; [exact Hd|].
  destruct (Hr ltac:(discriminate)) as (Hopen & _).
  vm_compute in Hopen. now injection Hopen.
Defined.

(** ** The activity log *)

Section ActivityLog.

Import ActivityTracker ActivitySpec.

Variable G : Type.
Variable sample : G -> list Recipient -> Z -> G * list Recipient.

(** A sample is drawn from its population. *)
Hypothesis sample_of_population :
  forall g population k x, In x (snd (sample g population k)) -> In x population.

Lemma py_in_incl (x : Recipient) (l l' : list Recipient) :
  (forall y, In y l -> In y l') -> py_in x l = true -> py_in x l' = true.
Proof.
  intros Hincl. unfold py_in. rewrite !existsb_exists.
  intros (y & Hy & Heq). exists y. split; [now apply Hincl | exact Heq].
Qed.

Lemma log_recipient_app (cid variant : string) (o c : list Recipient)
    (acc : list Activity.t) (x : Recipient) :
  log_recipient cid variant o c acc x
  = (acc ++ log_recipient cid variant o c [] x)%list.
Proof.
  unfold log_recipient. cbv zeta.
  destruct (py_in x o); destruct (py_in x c); cbn [app];
    rewrite <- ?app_assoc, ?app_nil_r; reflexivity.
Qed.

Lemma log_fold (cid variant : string) (o c : list Recipient)
    (recipients : list Recipient) :
  forall acc,
    fold_left (log_recipient cid variant o c) recipients acc
    = (acc ++ flat_map (log_recipient cid variant o c []) recipients)%list.
Proof.
  induction recipients as [|x l IH]; intros acc; cbn [fold_left flat_map].
  - now rewrite app_nil_r.
  - rewrite IH, log_recipient_app, <- app_assoc. reflexivity.
Qed.

Lemma log_of_flat_map (cid variant : string) (o c : list Recipient)
    (recipients : list Recipient) :
  (forall y, In y c -> In y o) ->
  log_of cid variant recipients
    (flat_map (log_recipient cid variant o c []) recipients).
Proof.
  intros Hincl. induction recipients as [|x l IH]; cbn [flat_map]; [constructor|].
  constructor; [|exact IH].
  unfold log_recipient. cbv zeta.
  destruct (py_in x c) eqn:Ec.
  - rewrite (py_in_incl x c o Hincl Ec). cbn [app]. constructor.
  - destruct (py_in x o); cbn [app]; constructor.
Qed.

Lemma random_sample_cases (g : G) (population : list Recipient) (k : Z) :
  k <= Z.of_nat (List.length population) ->
  (k < 0 /\ random_sample sample g population k = (g, None))
  \/ (0 <= k
      /\ random_sample sample g population k
         = (fst (sample g population k), Some (snd (sample g population k)))).
Proof.
  intros Hk. unfold random_sample.
  destruct (k <? 0) eqn:E; [apply Z.ltb_lt in E | apply Z.ltb_ge in E]; cbn [orb].
  - left. now split.
  - right. split; [exact E|].
    destruct (Z.of_nat (List.length population) <? k) eqn:E'; [apply Z.ltb_lt in E'; lia|].
    now destruct (sample g population k).
Qed.

Lemma log_outcome (g : G) (cid variant : string) (recipients : list Recipient)
    (opened_count clicked_count : Z) :
  match snd (log_opens_and_clicks_from_metrics sample g cid variant recipients
               opened_count clicked_count) with
  | NothingLogged => recipients = []
  | ValueError _ => recipients <> [] /\ (opened_count < 0 \/ clicked_count < 0)
  | Logged activities =>
      recipients <> [] /\ 0 <= opened_count /\ 0 <= clicked_count
      /\ log_of cid variant recipients activities
  end.
Proof.
  unfold log_opens_and_clicks_from_metrics. cbv zeta.
  destruct (Z.of_nat (List.length recipients) =? 0) eqn:E0.
  - cbn [snd]. apply Z.eqb_eq in E0. now destruct recipients.
  - apply Z.eqb_neq in E0.
    assert (Hne : recipients <> []) by (intros ->; now apply E0).
    destruct (random_sample_cases g recipients
                (Z.min opened_count (Z.of_nat (List.length recipients)))
                ltac:(lia)) as [[Hk ->] | [Hk ->]].
    + cbn [snd]. split; [exact Hne | left; lia].
    + set (s1 := sample g recipients _).
      destruct (random_sample_cases (fst s1) (snd s1)
                  (Z.min clicked_count (Z.of_nat (List.length (snd s1))))
                  ltac:(lia)) as [[Hk2 ->] | [Hk2 ->]].
      * cbn [snd]. split; [exact Hne | right; lia].
      * cbn [snd]. split; [exact Hne|]. split; [lia|]. split; [lia|].
        rewrite log_fold. cbn [app]. apply log_of_flat_map.
        intros y. apply sample_of_population.
Qed.

End ActivityLog.

Lemma firstn_incl {A} (n : nat) (l : list A) (x : A) : In x (firstn n l) -> In x l.
Proof.
  revert l. induction n as [|n IH]; intros [|a l]; cbn; try tauto.
  intros [H | H]; [now left | right; now apply IH].
Qed.

(** X21. [log_opens_and_clicks_from_metrics] logs no click without an open.
    With a sample drawn from its population: for an empty recipient list
    nothing is logged; for a negative count of opens or of clicks the call
    raises [ValueError] before anything is logged; otherwise the logged
    activities follow the recipient list in its order, each recipient
    contributing nothing, an "open", or an "open" directly followed by a
    "click", all under the recipient's address, the campaign and the
    variant. *)
Theorem clicks_are_logged_after_opens (G : Type)
    (sample : G -> list Recipient -> Z -> G * list Recipient)
    (g : G) (cid variant : string) (recipients : list Recipient)
    (opened_count clicked_count : Z) :
  (forall g population k x,
      In x (snd (sample g population k)) -> In x population) ->
  match snd (ActivityTracker.log_opens_and_clicks_from_metrics sample g cid variant
               recipients opened_count clicked_count) with
  | ActivityTracker.NothingLogged => recipients = []
  | ActivityTracker.ValueError _ =>
      recipients <> [] /\ (opened_count < 0 \/ clicked_count < 0)
  | ActivityTracker.Logged activities =>
      recipients <> [] /\ 0 <= opened_count /\ 0 <= clicked_count
      /\ ActivitySpec.log_of cid variant recipients activities
  end.
Proof.
  intros Hsample.
  exact (log_outcome G sample Hsample g cid variant recipients
           opened_count clicked_count).
Qed.

Lemma clicks_are_logged_after_opens_witness :
  exists activities,
    snd (ActivityTracker.log_opens_and_clicks_from_metrics ActivitySpec.first_k
           0%nat "c1" "A" ActivitySpec.three_recipients 2 1)
    = ActivityTracker.Logged activities
    /\ ActivitySpec.log_of "c1" "A" ActivitySpec.three_recipients activities
    /\ List.length activities = 3%nat.
Proof.
  eexists. split; [reflexivity|].
  pose proof (clicks_are_logged_after_opens nat ActivitySpec.first_k 0%nat "c1" "A"
                ActivitySpec.three_recipients 2 1
                (fun g population k x H => firstn_incl _ population x H)) as H.
  split; [exact (proj2 (proj2 (proj2 H))) | reflexivity].
Defined.

(** A negative count raises before anything is logged. *)
Example negative_count_raises :
  snd (ActivityTracker.log_opens_and_clicks_from_metrics ActivitySpec.first_k
         0%nat "c1" "A" ActivitySpec.three_recipients 2 (-1))
  = ActivityTracker.ValueError "Sample larger than population or is negative".
Proof. reflexivity. Qed.


(* ===================================================================== *)
(** * Properties of the report text, the primary segment and the address
      pattern *)
(* ===================================================================== *)


(** ** Escaping the text of the report *)

Section EscapeHtml.

Import Ascii ReportBuilder ReportBuilderSpec.

Lemma prefix_char (k c : ascii) (s : string) :
  String.prefix (String k EmptyString) (String c s) = Ascii.eqb c k.
Proof.
  cbn [String.prefix]. destruct (ascii_dec k c) as [->|Hn].
  - rewrite Ascii.eqb_refl. now destruct s.
  - symmetry. apply Ascii.eqb_neq. congruence.
Qed.

(** Replacing a character is done character by character. *)
Lemma replace_char (k : ascii) (new s : string) :
  py_replace s (String k EmptyString) new
  = map_chars (fun c => if Ascii.eqb c k then new else String c EmptyString) s.
Proof.
  unfold py_replace. cbn [String.eqb].
  induction s as [|c s IH]; [reflexivity|].
  cbn [replace_from map_chars]. rewrite prefix_char.
  cbn [String.length Nat.sub]. rewrite IH.
  destruct (Ascii.eqb c k); reflexivity.
Qed.

Lemma string_app_assoc (a b c : string) : ((a ++ b) ++ c = a ++ (b ++ c))%string.
Proof. induction a as [|x a IH]; cbn; [reflexivity | now rewrite IH]. Qed.

Lemma map_chars_app (f : ascii -> string) (a b : string) :
  map_chars f (a ++ b) = (map_chars f a ++ map_chars f b)%string.
Proof.
  induction a as [|c a IH]; cbn [append map_chars]; [reflexivity|].
  now rewrite IH, string_app_assoc.
Qed.

Lemma map_chars_twice (f g : ascii -> string) (s : string) :
  map_chars g (map_chars f s) = map_chars (fun c => map_chars g (f c)) s.
Proof.
  induction s as [|c s IH]; cbn [map_chars]; [reflexivity|].
  now rewrite map_chars_app, IH.
Qed.

Lemma map_chars_ext (f g : ascii -> string) (s : string) :
  (forall c, f c = g c) -> map_chars f s = map_chars g s.
Proof.
  intros H. induction s as [|c s IH]; cbn [map_chars]; [reflexivity|].
  now rewrite H, IH.
Qed.

Lemma str_or_some (s : string) : str_or (Some s) "" = s.
Proof. destruct s; reflexivity. Qed.

Lemma escape_html_chars (text : string) :
  _escape_html (Some text) = map_chars escape_char text.
Proof.
  unfold _escape_html, escape_map. cbn [fold_left fst snd].
  rewrite str_or_some, !replace_char, !map_chars_twice.
  apply map_chars_ext. intros c.
  destruct c as [[] [] [] [] [] [] [] []]; reflexivity.
Qed.

Lemma to_paragraph_chars (text : string) :
  _to_paragraph_text (Some text) = map_chars paragraph_char text.
Proof.
  unfold _to_paragraph_text, newline.
  rewrite !str_or_some, escape_html_chars, replace_char, map_chars_twice.
  apply map_chars_ext. intros c.
  destruct c as [[] [] [] [] [] [] [] []]; reflexivity.
Qed.

Lemma contains_char_app (k : ascii) (a b : string) :
  contains (String k EmptyString) (a ++ b)
  = contains (String k EmptyString) a || contains (String k EmptyString) b.
Proof.
  induction a as [|c a IH].
  - cbn [append]. destruct b; reflexivity.
  - cbn [append]. cbn [contains]. rewrite !prefix_char, IH.
    now rewrite orb_assoc.
Qed.

Lemma escaped_has_no (k : ascii) (s : string) :
  (forall c, contains (String k EmptyString) (escape_char c) = false) ->
  contains (String k EmptyString) (map_chars escape_char s) = false.
Proof.
  intros H. induction s as [|c s IH]; [reflexivity|].
  cbn [map_chars]. now rewrite contains_char_app, H, IH.
Qed.

Lemma escape_char_inj (c c' : ascii) (r r' : string) :
  (escape_char c ++ r = escape_char c' ++ r')%string -> c = c' /\ r = r'.
Proof.
  unfold escape_char.
  repeat match goal with
         | |- context [Ascii.eqb ?a ?b] => destruct (Ascii.eqb_spec a b); subst
         end;
    cbn; intros H; injection H; intros; subst; try congruence; split; congruence.
Qed.

Lemma escape_injective (s : string) :
  forall s', map_chars escape_char s = map_chars escape_char s' -> s = s'.
Proof.
  induction s as [|c s IH]; intros [|c' s'] H; cbn [map_chars] in H.
  - reflexivity.
  - exfalso. unfold escape_char in H.
    repeat match type of H with
           | context [Ascii.eqb ?a ?b] => destruct (Ascii.eqb a b)
           end; discriminate.
  - exfalso. unfold escape_char in H.
    repeat match type of H with
           | context [Ascii.eqb ?a ?b] => destruct (Ascii.eqb a b)
           end; discriminate.
  - apply escape_char_inj in H as [-> H]. f_equal. now apply IH.
Qed.

End EscapeHtml.

(** X22. [_escape_html] escapes the text character by character and loses
    nothing: every "&", "<" and ">" of the text becomes its entity and
    every other character stays, the ampersand being replaced first so that
    no entity is escaped twice; the result holds no "<" and no ">"; two
    different texts give two different results; [None] gives the empty
    text.  [_to_paragraph_text] does the same and writes every newline as
    "<br/>". *)
Theorem escape_html_is_lossless (text : string) :
  ReportBuilder._escape_html (Some text)
  = map_chars ReportBuilderSpec.escape_char text
  /\ contains "<" (ReportBuilder._escape_html (Some text)) = false
  /\ contains ">" (ReportBuilder._escape_html (Some text)) = false
  /\ (forall text',
        ReportBuilder._escape_html (Some text)
        = ReportBuilder._escape_html (Some text') ->
        text = text')
  /\ ReportBuilder._escape_html None = ""
  /\ ReportBuilder._to_paragraph_text (Some text)
     = map_chars ReportBuilderSpec.paragraph_char text.
Proof.
  split; [apply escape_html_chars|].
  split; [rewrite escape_html_chars; apply escaped_has_no; intros c;
          destruct c as [[] [] [] [] [] [] [] []]; reflexivity|].
  split; [rewrite escape_html_chars; apply escaped_has_no; intros c;
          destruct c as [[] [] [] [] [] [] [] []]; reflexivity|].
  split; [intros text'; rewrite !escape_html_chars; apply escape_injective|].
  split; [reflexivity | apply to_paragraph_chars].
Qed.

(** An entity in the text is escaped once more, and told apart from the
    character it stands for. *)
Example entity_and_character :
  ReportBuilder._escape_html (Some "a<b &lt; c") = "a&lt;b &amp;lt; c".
Proof. reflexivity. Qed.

(** ** The primary segment *)

Section PrimarySegment.

Import Segmentation.

Lemma slice_50 {A} (l : list A) : py_slice l 0 (Some 50) = firstn 50 l.
Proof.
  unfold py_slice, norm_index. cbn [Z.ltb Z.compare].
  rewrite (Z.min_l 0) by lia. cbn [Z.to_nat skipn]. rewrite Z.sub_0_r.
  destruct (Z.le_gt_cases 50 (Z.of_nat (List.length l))) as [H | H].
  - rewrite (Z.min_l 50) by lia. reflexivity.
  - rewrite (Z.min_r 50) by lia. rewrite Nat2Z.id.
    rewrite firstn_all. symmetry. apply firstn_all2. lia.
Qed.

Lemma get_in_values {V} (d : PyDict.t V) (k : string) (v : V) :
  PyDict.get d k = Some v -> In v (PyDict.values d).
Proof.
  unfold PyDict.values. induction d as [|[k' v'] d IH]; cbn; [discriminate|].
  destruct (String.eqb k k'); [intros H; injection H as ->; now left|].
  intros H. right. now apply IH.
Qed.

Lemma first_non_empty_in (groups : list (PyDict.t (list Recipient)))
    (segment : list Recipient) :
  first_non_empty groups = Some segment ->
  exists group, In group groups /\ In segment (PyDict.values group).
Proof.
  induction groups as [|g groups IH]; cbn [first_non_empty]; [discriminate|].
  destruct (find is_non_empty (PyDict.values g)) as [seg|] eqn:E.
  - intros H. injection H as <-. apply find_some in E as [Hin _].
    exists g. split; [now left | exact Hin].
  - intros H. destruct (IH H) as (g' & Hg & Hs). exists g'. split; [now right | exact Hs].
Qed.

Lemma first_non_empty_none (groups : list (PyDict.t (list Recipient))) :
  first_non_empty groups = None ->
  forall group segment,
    In group groups -> In segment (PyDict.values group) -> segment = [].
Proof.
  induction groups as [|g groups IH]; cbn [first_non_empty]; [intros _ ? ? []|].
  destruct (find is_non_empty (PyDict.values g)) as [seg|] eqn:E; [discriminate|].
  intros H group segment [<- | Hin] Hs.
  - pose proof (find_none _ _ E segment Hs) as Hn. now destruct segment.
  - now apply (IH H group segment).
Qed.

End PrimarySegment.

(** X23. [_select_primary_segment] selects at most fifty recipients and
    never looks at the strategy.  The result is the first fifty of the
    high-engagement segment when that segment is not empty, whatever the
    other segments are; every recipient selected comes from one of the
    segments or from the data frame; and nobody is selected exactly when
    the high-engagement segment is empty or missing, every segment is empty
    and the frame has no record. *)
Theorem select_primary_segment_caps_at_50 (frame : option (list Recipient))
    (segments : Segmentation.SegmentGroups) (strategy : pyobj) :
  let selected := Segmentation._select_primary_segment frame segments strategy in
  (List.length selected <= 50)%nat
  /\ (forall strategy',
        Segmentation._select_primary_segment frame segments strategy' = selected)
  /\ (forall by_engagement high,
        PyDict.get segments "by_engagement" = Some by_engagement ->
        PyDict.get by_engagement "high" = Some high ->
        high <> [] ->
        selected = firstn 50 high)
  /\ (forall x, In x selected ->
        (exists group segment,
            In group (PyDict.values segments)
            /\ In segment (PyDict.values group) /\ In x segment)
        \/ (exists records, frame = Some records /\ In x records))
  /\ (selected = [] ->
      (forall group segment,
          In group (PyDict.values segments) ->
          In segment (PyDict.values group) -> segment = [])
      /\ (frame = None \/ frame = Some [])).
Proof.
  intros selected. subst selected. unfold Segmentation._select_primary_segment.
  cbv zeta.
  set (high := match PyDict.get segments "by_engagement" with
               | Some by_engagement => PyDict.get by_engagement "high"
               | None => None
               end).
  assert (Hhigh : forall h, high = Some h ->
            exists group, In group (PyDict.values segments)
                          /\ In h (PyDict.values group)).
  { intros h Hh. subst high.
    destruct (PyDict.get segments "by_engagement") as [g|] eqn:Hg; [|discriminate].
    exists g. split; [now apply (get_in_values segments "by_engagement")|].
    now apply (get_in_values g "high"). }
  split; [|split; [reflexivity|split; [|split]]].
  - destruct high as [[|x l]|]; rewrite ?slice_50;
      try (rewrite length_firstn; lia);
      (destruct (Segmentation.first_non_empty (PyDict.values segments));
       [rewrite slice_50, length_firstn; lia|];
       destruct frame; [rewrite length_firstn; lia | cbn; lia]).
  - intros g h Hg Hh Hne. subst high. rewrite Hg, Hh.
    destruct h as [|x l]; [contradiction|]. apply slice_50.
  - intros x.
    assert (Hrest :
      In x match Segmentation.first_non_empty (PyDict.values segments) with
           | Some segment => py_slice segment 0 (Some 50)
           | None => match frame with
                     | Some records => firstn 50 records
                     | None => []
                     end
           end ->
      (exists group segment,
          In group (PyDict.values segments)
          /\ In segment (PyDict.values group) /\ In x segment)
      \/ (exists records, frame = Some records /\ In x records)).
    { destruct (Segmentation.first_non_empty (PyDict.values segments))
        as [seg|] eqn:E.
      - rewrite slice_50. intros Hin. left.
        destruct (first_non_empty_in _ _ E) as (g & Hg & Hs).
        exists g, seg. repeat split; try assumption.
        now apply (firstn_incl 50 seg).
      - destruct frame as [records|]; [|intros []].
        intros Hin. right. exists records. split; [reflexivity|].
        now apply (firstn_incl 50 records). }
    destruct high as [[|y l]|] eqn:Eh; try exact Hrest.
    rewrite slice_50. intros Hin. left.
    destruct (Hhigh _ eq_refl) as (g & Hg & Hs).
    exists g, (y :: l). repeat split; try assumption.
    now apply (firstn_incl 50 (y :: l)).
  - assert (Hrest :
      match Segmentation.first_non_empty (PyDict.values segments) with
      | Some segment => py_slice segment 0 (Some 50)
      | None => match frame with
                | Some records => firstn 50 records
                | None => []
                end
      end = [] ->
      (forall group segment,
          In group (PyDict.values segments) ->
          In segment (PyDict.values group) -> segment = [])
      /\ (frame = None \/ frame = Some [])).
    { destruct (Segmentation.first_non_empty (PyDict.values segments))
        as [seg|] eqn:E.
      - rewrite slice_50. intros Hnil. exfalso.
        unfold Segmentation.first_non_empty in E.
        assert (Hne : Segmentation.is_non_empty seg = true).
        { clear - E. induction (PyDict.values segments) as [|g gs IH];
            [discriminate|].
          destruct (find Segmentation.is_non_empty (PyDict.values g)) as [s0|] eqn:F.
          - injection E as <-. now apply find_some in F.
          - now apply IH. }
        destruct seg; [discriminate | discriminate].
      - intros Hnil. split; [now apply first_non_empty_none|].
        destruct frame as [[|r records]|]; [now right | discriminate | now left]. }
    destruct high as [[|y l]|]; try exact Hrest.
    rewrite slice_50. discriminate.
Qed.

(** ** The address pattern *)

Section AddressPattern.

Import Ascii Regex RegexSpec.

Lemma nullable_matches (r : Regex.t) : nullable r = true -> matches r EmptyString.
Proof.
  induction r as [| | p | a IHa b IHb | a IHa b IHb | a IHa]; cbn [nullable];
    intros H; try discriminate.
  - constructor.
  - apply andb_prop in H as [Ha Hb].
    change EmptyString with (EmptyString ++ EmptyString)%string.
    constructor; auto.
  - apply orb_prop in H as [H | H]; [apply m_alt_l | apply m_alt_r]; auto.
  - constructor.
Qed.

Lemma matches_cat_cons (a b : Regex.t) (c : ascii) (s : string) :
  (forall s1, matches (deriv c a) s1 -> matches a (String c s1)) ->
  matches (Cat (deriv c a) b) s -> matches (Cat a b) (String c s).
Proof.
  intros IH H. inversion H as [| | a' b' s1 s2 Ha Hb | | | |]; subst.
  change (String c (s1 ++ s2)) with (String c s1 ++ s2)%string.
  constructor; auto.
Qed.

(** A string covered by what is left after [c] is, with [c] in front,
    covered by the pattern. *)
Lemma deriv_matches (r : Regex.t) :
  forall c s, matches (deriv c r) s -> matches r (String c s).
Proof.
  induction r as [| | p | a IHa b IHb | a IHa b IHb | a IHa]; intros c s H;
    cbn [deriv] in H.
  - inversion H.
  - inversion H.
  - destruct (p c) eqn:E; inversion H; subst. now constructor.
  - destruct (nullable a) eqn:En.
    + inversion H as [| | | a' b' s' H1 | a' b' s' H1 | |]; subst.
      * apply matches_cat_cons; [apply IHa | exact H1].
      * change (String c s) with (EmptyString ++ String c s)%string.
        constructor; [now apply nullable_matches | now apply IHb].
    + apply matches_cat_cons; [apply IHa | exact H].
  - inversion H; subst; [apply m_alt_l | apply m_alt_r]; auto.
  - inversion H as [| | a' b' s1 s2 Ha Hb | | | |]; subst.
    change (String c (s1 ++ s2)) with (String c s1 ++ s2)%string.
    apply m_star_cons; auto.
Qed.

Lemma full_matches (s : string) : forall r, full r s = true -> matches r s.
Proof.
  induction s as [|c s IH]; intros r H; cbn [full] in H.
  - now apply nullable_matches.
  - apply deriv_matches, IH, H.
Qed.

Lemma sym_char (p : ascii -> bool) (s : string) :
  matches (Sym p) s -> exists c, s = String c EmptyString /\ p c = true.
Proof. intros H. inversion H; subst. eauto. Qed.

Lemma star_sym_chars (p : ascii -> bool) (s : string) :
  matches (Star (Sym p)) s -> all_chars p s = true.
Proof.
  intros H. remember (Star (Sym p)) as r eqn:Er.
  induction H as [| | | | | a | a s1 s2 H1 _ H2 IH2]; try discriminate.
  - reflexivity.
  - injection Er as ->. apply sym_char in H1 as (c & -> & Hc).
    cbn [append all_chars]. rewrite Hc. now apply IH2.
Qed.

Lemma plus_sym_chars (p : ascii -> bool) (s : string) :
  matches (plus (Sym p)) s -> s <> EmptyString /\ all_chars p s = true.
Proof.
  unfold plus. intros H. inversion H as [| | a b s1 s2 H1 H2 | | | |]; subst.
  apply sym_char in H1 as (c & -> & Hc). apply star_sym_chars in H2.
  cbn [append all_chars]. rewrite Hc, H2. split; [discriminate | reflexivity].
Qed.

Lemma two_or_more_chars (p : ascii -> bool) (s : string) :
  matches (two_or_more (Sym p)) s ->
  (2 <= String.length s)%nat /\ all_chars p s = true.
Proof.
  unfold two_or_more. intros H.
  inversion H as [| | a b s1 s2 H1 H2 | | | |]; subst.
  inversion H2 as [| | a b s3 s4 H3 H4 | | | |]; subst.
  apply sym_char in H1 as (c & -> & Hc). apply sym_char in H3 as (c' & -> & Hc').
  apply star_sym_chars in H4.
  cbn [append all_chars String.length]. rewrite Hc, Hc', H4. split; [lia | reflexivity].
Qed.

Lemma pattern_shape (s : string) :
  matches Deliverability.email_pattern s -> address_shape s.
Proof.
  unfold Deliverability.email_pattern. intros H.
  inversion H as [| | a b l s1 Hl H1 | | | |]; subst.
  inversion H1 as [| | a b at_sign s2 Hat H2 | | | |]; subst.
  inversion H2 as [| | a b d s3 Hd H3 | | | |]; subst.
  inversion H3 as [| | a b dot t Hdot Ht | | | |]; subst.
  apply plus_sym_chars in Hl as [Hl1 Hl2].
  apply plus_sym_chars in Hd as [Hd1 Hd2].
  apply two_or_more_chars in Ht as [Ht1 Ht2].
  apply sym_char in Hat as (c & -> & Hc). apply Ascii.eqb_eq in Hc. subst c.
  apply sym_char in Hdot as (c & -> & Hc). apply Ascii.eqb_eq in Hc. subst c.
  exists l, d, t. repeat split; assumption.
Qed.

Lemma before_final_newline_app (s : string) :
  forall s', before_final_newline s = Some s' -> s = (s' ++ final_newline)%string.
Proof.
  induction s as [|c s IH]; intros s' H; [discriminate|].
  cbn [before_final_newline] in H. destruct s as [|c2 r].
  - destruct (Ascii.eqb_spec c "010"); [|discriminate].
    injection H as <-. subst c. reflexivity.
  - destruct (before_final_newline (String c2 r)) as [s''|]; [|discriminate].
    injection H as <-. cbn [append]. f_equal. now apply IH.
Qed.

Lemma py_match_shape (s : string) :
  py_match Deliverability.email_pattern s = true ->
  address_shape s
  \/ exists e, s = (e ++ final_newline)%string /\ address_shape e.
Proof.
  unfold py_match. intros H. apply orb_prop in H as [H | H].
  - left. apply pattern_shape, full_matches, H.
  - destruct (before_final_newline s) as [e|] eqn:E; [|discriminate].
    right. exists e. split; [now apply before_final_newline_app|].
    apply pattern_shape, full_matches, H.
Qed.

End AddressPattern.

(** X24. An address is reported valid only if it has the shape the pattern
    asks for, whatever the validation library answers:
    [validate_email_address] sets [valid] only for an address of the form
    local@domain.tld (a local part of letters, digits and [._%+-], a domain
    of letters, digits, dots and hyphens, a last label of two letters or
    more), or for such an address followed by one newline, which the [$]
    of the pattern lets through; the library accepted it, the normalized
    address is the library's and there is no error. *)
Theorem valid_address_has_the_shape (validate_email : string -> string + string)
    (email : string) :
  Deliverability.AddressCheck.valid
    (Deliverability.validate_email_address validate_email email) = true ->
  (RegexSpec.address_shape email
   \/ exists e, email = (e ++ RegexSpec.final_newline)%string
                /\ RegexSpec.address_shape e)
  /\ (exists normalized,
        validate_email email = inl normalized
        /\ Deliverability.AddressCheck.normalized
             (Deliverability.validate_email_address validate_email email)
           = Some normalized)
  /\ Deliverability.AddressCheck.errors
       (Deliverability.validate_email_address validate_email email) = [].
Proof.
  unfold Deliverability.validate_email_address.
  destruct (Regex.py_match Deliverability.email_pattern email) eqn:E;
    cbn [negb]; [|discriminate].
  destruct (validate_email email) as [n|msg]; [|discriminate].
  intros _. split; [now apply py_match_shape|].
  split; [exists n; split; reflexivity | reflexivity].
Qed.

Lemma valid_address_has_the_shape_witness :
  (RegexSpec.address_shape "ann@example.com"
   \/ exists e, "ann@example.com" = (e ++ RegexSpec.final_newline)%string
                /\ RegexSpec.address_shape e)
  /\ (exists normalized,
        DeliverabilitySpec.accept_all "ann@example.com" = inl normalized
        /\ Deliverability.AddressCheck.normalized
             (Deliverability.validate_email_address DeliverabilitySpec.accept_all
                "ann@example.com")
           = Some normalized)
  /\ Deliverability.AddressCheck.errors
       (Deliverability.validate_email_address DeliverabilitySpec.accept_all
          "ann@example.com") = [].
Proof.
  exact (valid_address_has_the_shape DeliverabilitySpec.accept_all
           "ann@example.com" eq_refl).
Defined.

(** The format check lets an address through that ends with a newline, and
    stops one whose last label has a digit. *)
Example newline_passes_the_format_check :
  Regex.py_match Deliverability.email_pattern
    ("ann@example.com" ++ RegexSpec.final_newline) = true
  /\ Regex.py_match Deliverability.email_pattern "ann@example.c0m" = false.
Proof. split; reflexivity. Qed.
